(** * azurerm_managed_disk: the resource definition and its CRUD callbacks

    A shallow embedding of
    [internal/services/compute/managed_disk_resource.go]: the schema of
    the resource, and the Create, Read, Update and Delete callbacks as
    programs in a state-and-error monad over the remote API.

    Conventions.
    - A Go pointer [*T] is [option T]; dereferencing [None] is a
      run-time panic, which the monad records as [Panic].
    - Go [int] and [int64] values are [Z].  The resource only copies and
      compares them, so no wrap-around arises.
    - [d.Get(k).(T)] on a key whose schema type is [T] is the projection
      [k] of the typed record [Config]; the plugin SDK guarantees the
      assertion.
    - Everything imported from outside the file (SDK clients, locks,
      helpers of the package declared in other files) is a member of the
      record [Deps]; calls that reach the outside world are logged in a
      trace of [Event]s.
    - [log.Printf] and the context/timeout plumbing are left out. *)

From Stdlib Require Import ZArith String Ascii List.
From stdpp Require Import base decidable option list strings gmap.

Local Open Scope string_scope.
Local Open Scope Z_scope.
Local Open Scope list_scope.

(** [s ▹ f ▹ g]: [s], then [f], then [g]. *)
Notation "s ▹ f" := (f s) (at level 45, left associativity, only parsing).

(** ** Errors and results *)

(** An [error] built by [fmt.Errorf]: the format and its string arguments;
    [Wrapf] when an argument is another error, which is kept apart. *)
Inductive error : Type :=
| Errorf (format : string) (args : list string)
| Wrapf (format : string) (args : list string) (cause : error).

(** The three ways a callback can end. *)
Inductive Result (A : Type) : Type :=
| Ok (a : A)
| Err (e : error)
| Panic (what : string).
Arguments Ok {A} a.
Arguments Err {A} e.
Arguments Panic {A} what.

Definition is_Ok {A} (r : Result A) : bool :=
  match r with Ok _ => true | _ => false end.
Definition is_Err {A} (r : Result A) : bool :=
  match r with Err _ => true | _ => false end.
Definition is_Panic {A} (r : Result A) : bool :=
  match r with Panic _ => true | _ => false end.

(** ** Strings *)

Definition ascii_lower (c : ascii) : ascii :=
  let n := N_of_ascii c in
  if ((65 <=? n) && (n <=? 90))%N then ascii_of_N (n + 32) else c.

(** [strings.EqualFold], on ASCII input. *)
Fixpoint EqualFold (s t : string) : bool :=
  match s, t with
  | EmptyString, EmptyString => true
  | String a s', String b t' =>
      Ascii.eqb (ascii_lower a) (ascii_lower b) && EqualFold s' t'
  | _, _ => false
  end.

(** Go's zero values, as [d.GetOk] and [pointer.From] use them. *)
Class Zero (A : Type) := zero : A.
Global Instance Zero_string : Zero string := "".
Global Instance Zero_Z : Zero Z := 0.
Global Instance Zero_bool : Zero bool := false.
Global Instance Zero_list {A} : Zero (list A) := [].
Global Instance Zero_gmap {A} : Zero (gmap string A) := (∅ : gmap string A).

(** [pointer.From]. *)
Definition pointer_From {A} `{Zero A} (p : option A) : A :=
  match p with Some v => v | None => zero end.

(** ** Resource identifiers (package [commonids], [virtualmachines]) *)

Record ManagedDiskId := {
  SubscriptionId : string;
  ResourceGroupName : string;
  DiskName : string
}.

Definition NewManagedDiskID (subscriptionId resourceGroupName diskName : string)
  : ManagedDiskId :=
  {| SubscriptionId := subscriptionId;
     ResourceGroupName := resourceGroupName;
     DiskName := diskName |}.

Record VirtualMachineId := {
  vm_SubscriptionId : string;
  vm_ResourceGroupName : string;
  VirtualMachineName : string
}.

(** ** The SDK's model types (package [disks])

    Only the members the resource reads or writes are kept.  Enumerated
    string types ([DiskStorageAccountTypes], [DiskCreateOption], ...) are
    [string], as in Go. *)

Definition DiskStorageAccountTypesPremiumLRS := "Premium_LRS".
Definition DiskStorageAccountTypesPremiumVTwoLRS := "PremiumV2_LRS".
Definition DiskStorageAccountTypesPremiumZRS := "Premium_ZRS".
Definition DiskStorageAccountTypesStandardLRS := "Standard_LRS".
Definition DiskStorageAccountTypesStandardSSDLRS := "StandardSSD_LRS".
Definition DiskStorageAccountTypesStandardSSDZRS := "StandardSSD_ZRS".
Definition DiskStorageAccountTypesUltraSSDLRS := "UltraSSD_LRS".

Definition PossibleValuesForDiskStorageAccountTypes : list string :=
  [ DiskStorageAccountTypesPremiumLRS;
    DiskStorageAccountTypesPremiumVTwoLRS;
    DiskStorageAccountTypesPremiumZRS;
    DiskStorageAccountTypesStandardLRS;
    DiskStorageAccountTypesStandardSSDLRS;
    DiskStorageAccountTypesStandardSSDZRS;
    DiskStorageAccountTypesUltraSSDLRS ].

Definition DiskCreateOptionCopy := "Copy".
Definition DiskCreateOptionEmpty := "Empty".
Definition DiskCreateOptionFromImage := "FromImage".
Definition DiskCreateOptionImport := "Import".
Definition DiskCreateOptionImportSecure := "ImportSecure".
Definition DiskCreateOptionRestore := "Restore".
Definition DiskCreateOptionUpload := "Upload".

Definition OperatingSystemTypesLinux := "Linux".
Definition OperatingSystemTypesWindows := "Windows".

Definition EncryptionTypeEncryptionAtRestWithPlatformKey :=
  "EncryptionAtRestWithPlatformKey".

Definition NetworkAccessPolicyAllowAll := "AllowAll".
Definition NetworkAccessPolicyAllowPrivate := "AllowPrivate".
Definition NetworkAccessPolicyDenyAll := "DenyAll".

Definition PublicNetworkAccessEnabled := "Enabled".
Definition PublicNetworkAccessDisabled := "Disabled".

Definition DiskSecurityTypesTrustedLaunch := "TrustedLaunch".
Definition DiskSecurityTypesConfidentialVMVMGuestStateOnlyEncryptedWithPlatformKey :=
  "ConfidentialVM_VMGuestStateOnlyEncryptedWithPlatformKey".
Definition DiskSecurityTypesConfidentialVMDiskEncryptedWithPlatformKey :=
  "ConfidentialVM_DiskEncryptedWithPlatformKey".
Definition DiskSecurityTypesConfidentialVMDiskEncryptedWithCustomerKey :=
  "ConfidentialVM_DiskEncryptedWithCustomerKey".

Definition HyperVGenerationVOne := "V1".
Definition HyperVGenerationVTwo := "V2".

(** One [encryption_settings] block as the plugin SDK hands it over
    ([interface{}]): its attribute paths and their values.  The block's
    schema, [encryptionSettingsSchema], is declared in another file. *)
Definition RawBlock := list (string * string).

Module edgezones.
Record Model := { Name : string }.
End edgezones.

Module DiskSku.
Record t := mk { Name : option string }.
End DiskSku.

Module Encryption.
Record t := mk { DiskEncryptionSetId : option string; Type_ : option string }.
End Encryption.

Module EncryptionSettingsCollection.
Record t := mk { Enabled : bool; EncryptionSettings : list RawBlock }.
End EncryptionSettingsCollection.

Module ImageDiskReference.
Record t := mk { Id : option string }.
End ImageDiskReference.

Module DiskSecurityProfile.
Record t := mk {
  SecureVMDiskEncryptionSetId : option string;
  SecurityType : option string
}.
Definition set_SecureVMDiskEncryptionSetId (v : option string) (x : t) : t :=
  mk v (SecurityType x).
End DiskSecurityProfile.

(** disks.CreationData: how the disk is to be created and from what. *)
Module CreationData.
Record t := mk {
  CreateOption : string;
  GalleryImageReference : option ImageDiskReference.t;
  ImageReference : option ImageDiskReference.t;
  LogicalSectorSize : option Z;
  PerformancePlus : option bool;
  SourceResourceId : option string;
  SourceUri : option string;
  StorageAccountId : option string;
  UploadSizeBytes : option Z
}.
Definition set_GalleryImageReference (v : option ImageDiskReference.t) (x : t) : t :=
  mk (CreateOption x) v (ImageReference x) (LogicalSectorSize x) (PerformancePlus x) (SourceResourceId x) (SourceUri x) (StorageAccountId x) (UploadSizeBytes x).
Definition set_ImageReference (v : option ImageDiskReference.t) (x : t) : t :=
  mk (CreateOption x) (GalleryImageReference x) v (LogicalSectorSize x) (PerformancePlus x) (SourceResourceId x) (SourceUri x) (StorageAccountId x) (UploadSizeBytes x).
Definition set_LogicalSectorSize (v : option Z) (x : t) : t :=
  mk (CreateOption x) (GalleryImageReference x) (ImageReference x) v (PerformancePlus x) (SourceResourceId x) (SourceUri x) (StorageAccountId x) (UploadSizeBytes x).
Definition set_SourceResourceId (v : option string) (x : t) : t :=
  mk (CreateOption x) (GalleryImageReference x) (ImageReference x) (LogicalSectorSize x) (PerformancePlus x) v (SourceUri x) (StorageAccountId x) (UploadSizeBytes x).
Definition set_SourceUri (v : option string) (x : t) : t :=
  mk (CreateOption x) (GalleryImageReference x) (ImageReference x) (LogicalSectorSize x) (PerformancePlus x) (SourceResourceId x) v (StorageAccountId x) (UploadSizeBytes x).
Definition set_StorageAccountId (v : option string) (x : t) : t :=
  mk (CreateOption x) (GalleryImageReference x) (ImageReference x) (LogicalSectorSize x) (PerformancePlus x) (SourceResourceId x) (SourceUri x) v (UploadSizeBytes x).
Definition set_UploadSizeBytes (v : option Z) (x : t) : t :=
  mk (CreateOption x) (GalleryImageReference x) (ImageReference x) (LogicalSectorSize x) (PerformancePlus x) (SourceResourceId x) (SourceUri x) (StorageAccountId x) v.
End CreationData.

(** disks.DiskProperties: the properties of a disk, as sent on create and returned by Get. *)
Module DiskProperties.
Record t := mk {
  BurstingEnabled : option bool;
  CreationData : CreationData.t;
  DiskAccessId : option string;
  DiskIOPSReadOnly : option Z;
  DiskIOPSReadWrite : option Z;
  DiskMBpsReadOnly : option Z;
  DiskMBpsReadWrite : option Z;
  DiskSizeGB : option Z;
  Encryption : option Encryption.t;
  EncryptionSettingsCollection : option EncryptionSettingsCollection.t;
  HyperVGeneration : option string;
  MaxShares : option Z;
  NetworkAccessPolicy : option string;
  OptimizedForFrequentAttach : option bool;
  OsType : option string;
  PublicNetworkAccess : option string;
  SecurityProfile : option DiskSecurityProfile.t;
  Tier : option string
}.
Definition set_BurstingEnabled (v : option bool) (x : t) : t :=
  mk v (CreationData x) (DiskAccessId x) (DiskIOPSReadOnly x) (DiskIOPSReadWrite x) (DiskMBpsReadOnly x) (DiskMBpsReadWrite x) (DiskSizeGB x) (Encryption x) (EncryptionSettingsCollection x) (HyperVGeneration x) (MaxShares x) (NetworkAccessPolicy x) (OptimizedForFrequentAttach x) (OsType x) (PublicNetworkAccess x) (SecurityProfile x) (Tier x).
Definition set_CreationData (v : CreationData.t) (x : t) : t :=
  mk (BurstingEnabled x) v (DiskAccessId x) (DiskIOPSReadOnly x) (DiskIOPSReadWrite x) (DiskMBpsReadOnly x) (DiskMBpsReadWrite x) (DiskSizeGB x) (Encryption x) (EncryptionSettingsCollection x) (HyperVGeneration x) (MaxShares x) (NetworkAccessPolicy x) (OptimizedForFrequentAttach x) (OsType x) (PublicNetworkAccess x) (SecurityProfile x) (Tier x).
Definition set_DiskAccessId (v : option string) (x : t) : t :=
  mk (BurstingEnabled x) (CreationData x) v (DiskIOPSReadOnly x) (DiskIOPSReadWrite x) (DiskMBpsReadOnly x) (DiskMBpsReadWrite x) (DiskSizeGB x) (Encryption x) (EncryptionSettingsCollection x) (HyperVGeneration x) (MaxShares x) (NetworkAccessPolicy x) (OptimizedForFrequentAttach x) (OsType x) (PublicNetworkAccess x) (SecurityProfile x) (Tier x).
Definition set_DiskIOPSReadOnly (v : option Z) (x : t) : t :=
  mk (BurstingEnabled x) (CreationData x) (DiskAccessId x) v (DiskIOPSReadWrite x) (DiskMBpsReadOnly x) (DiskMBpsReadWrite x) (DiskSizeGB x) (Encryption x) (EncryptionSettingsCollection x) (HyperVGeneration x) (MaxShares x) (NetworkAccessPolicy x) (OptimizedForFrequentAttach x) (OsType x) (PublicNetworkAccess x) (SecurityProfile x) (Tier x).
Definition set_DiskIOPSReadWrite (v : option Z) (x : t) : t :=
  mk (BurstingEnabled x) (CreationData x) (DiskAccessId x) (DiskIOPSReadOnly x) v (DiskMBpsReadOnly x) (DiskMBpsReadWrite x) (DiskSizeGB x) (Encryption x) (EncryptionSettingsCollection x) (HyperVGeneration x) (MaxShares x) (NetworkAccessPolicy x) (OptimizedForFrequentAttach x) (OsType x) (PublicNetworkAccess x) (SecurityProfile x) (Tier x).
Definition set_DiskMBpsReadOnly (v : option Z) (x : t) : t :=
  mk (BurstingEnabled x) (CreationData x) (DiskAccessId x) (DiskIOPSReadOnly x) (DiskIOPSReadWrite x) v (DiskMBpsReadWrite x) (DiskSizeGB x) (Encryption x) (EncryptionSettingsCollection x) (HyperVGeneration x) (MaxShares x) (NetworkAccessPolicy x) (OptimizedForFrequentAttach x) (OsType x) (PublicNetworkAccess x) (SecurityProfile x) (Tier x).
Definition set_DiskMBpsReadWrite (v : option Z) (x : t) : t :=
  mk (BurstingEnabled x) (CreationData x) (DiskAccessId x) (DiskIOPSReadOnly x) (DiskIOPSReadWrite x) (DiskMBpsReadOnly x) v (DiskSizeGB x) (Encryption x) (EncryptionSettingsCollection x) (HyperVGeneration x) (MaxShares x) (NetworkAccessPolicy x) (OptimizedForFrequentAttach x) (OsType x) (PublicNetworkAccess x) (SecurityProfile x) (Tier x).
Definition set_DiskSizeGB (v : option Z) (x : t) : t :=
  mk (BurstingEnabled x) (CreationData x) (DiskAccessId x) (DiskIOPSReadOnly x) (DiskIOPSReadWrite x) (DiskMBpsReadOnly x) (DiskMBpsReadWrite x) v (Encryption x) (EncryptionSettingsCollection x) (HyperVGeneration x) (MaxShares x) (NetworkAccessPolicy x) (OptimizedForFrequentAttach x) (OsType x) (PublicNetworkAccess x) (SecurityProfile x) (Tier x).
Definition set_Encryption (v : option Encryption.t) (x : t) : t :=
  mk (BurstingEnabled x) (CreationData x) (DiskAccessId x) (DiskIOPSReadOnly x) (DiskIOPSReadWrite x) (DiskMBpsReadOnly x) (DiskMBpsReadWrite x) (DiskSizeGB x) v (EncryptionSettingsCollection x) (HyperVGeneration x) (MaxShares x) (NetworkAccessPolicy x) (OptimizedForFrequentAttach x) (OsType x) (PublicNetworkAccess x) (SecurityProfile x) (Tier x).
Definition set_EncryptionSettingsCollection (v : option EncryptionSettingsCollection.t) (x : t) : t :=
  mk (BurstingEnabled x) (CreationData x) (DiskAccessId x) (DiskIOPSReadOnly x) (DiskIOPSReadWrite x) (DiskMBpsReadOnly x) (DiskMBpsReadWrite x) (DiskSizeGB x) (Encryption x) v (HyperVGeneration x) (MaxShares x) (NetworkAccessPolicy x) (OptimizedForFrequentAttach x) (OsType x) (PublicNetworkAccess x) (SecurityProfile x) (Tier x).
Definition set_HyperVGeneration (v : option string) (x : t) : t :=
  mk (BurstingEnabled x) (CreationData x) (DiskAccessId x) (DiskIOPSReadOnly x) (DiskIOPSReadWrite x) (DiskMBpsReadOnly x) (DiskMBpsReadWrite x) (DiskSizeGB x) (Encryption x) (EncryptionSettingsCollection x) v (MaxShares x) (NetworkAccessPolicy x) (OptimizedForFrequentAttach x) (OsType x) (PublicNetworkAccess x) (SecurityProfile x) (Tier x).
Definition set_MaxShares (v : option Z) (x : t) : t :=
  mk (BurstingEnabled x) (CreationData x) (DiskAccessId x) (DiskIOPSReadOnly x) (DiskIOPSReadWrite x) (DiskMBpsReadOnly x) (DiskMBpsReadWrite x) (DiskSizeGB x) (Encryption x) (EncryptionSettingsCollection x) (HyperVGeneration x) v (NetworkAccessPolicy x) (OptimizedForFrequentAttach x) (OsType x) (PublicNetworkAccess x) (SecurityProfile x) (Tier x).
Definition set_NetworkAccessPolicy (v : option string) (x : t) : t :=
  mk (BurstingEnabled x) (CreationData x) (DiskAccessId x) (DiskIOPSReadOnly x) (DiskIOPSReadWrite x) (DiskMBpsReadOnly x) (DiskMBpsReadWrite x) (DiskSizeGB x) (Encryption x) (EncryptionSettingsCollection x) (HyperVGeneration x) (MaxShares x) v (OptimizedForFrequentAttach x) (OsType x) (PublicNetworkAccess x) (SecurityProfile x) (Tier x).
Definition set_PublicNetworkAccess (v : option string) (x : t) : t :=
  mk (BurstingEnabled x) (CreationData x) (DiskAccessId x) (DiskIOPSReadOnly x) (DiskIOPSReadWrite x) (DiskMBpsReadOnly x) (DiskMBpsReadWrite x) (DiskSizeGB x) (Encryption x) (EncryptionSettingsCollection x) (HyperVGeneration x) (MaxShares x) (NetworkAccessPolicy x) (OptimizedForFrequentAttach x) (OsType x) v (SecurityProfile x) (Tier x).
Definition set_SecurityProfile (v : option DiskSecurityProfile.t) (x : t) : t :=
  mk (BurstingEnabled x) (CreationData x) (DiskAccessId x) (DiskIOPSReadOnly x) (DiskIOPSReadWrite x) (DiskMBpsReadOnly x) (DiskMBpsReadWrite x) (DiskSizeGB x) (Encryption x) (EncryptionSettingsCollection x) (HyperVGeneration x) (MaxShares x) (NetworkAccessPolicy x) (OptimizedForFrequentAttach x) (OsType x) (PublicNetworkAccess x) v (Tier x).
Definition set_Tier (v : option string) (x : t) : t :=
  mk (BurstingEnabled x) (CreationData x) (DiskAccessId x) (DiskIOPSReadOnly x) (DiskIOPSReadWrite x) (DiskMBpsReadOnly x) (DiskMBpsReadWrite x) (DiskSizeGB x) (Encryption x) (EncryptionSettingsCollection x) (HyperVGeneration x) (MaxShares x) (NetworkAccessPolicy x) (OptimizedForFrequentAttach x) (OsType x) (PublicNetworkAccess x) (SecurityProfile x) v.
End DiskProperties.

(** disks.Disk: the disk resource. *)
Module Disk.
Record t := mk {
  ExtendedLocation : option edgezones.Model;
  Location : string;
  ManagedBy : option string;
  Name : option string;
  Properties : option DiskProperties.t;
  Sku : option DiskSku.t;
  Tags : option (gmap string string);
  Zones : option (list string)
}.
Definition set_Zones (v : option (list string)) (x : t) : t :=
  mk (ExtendedLocation x) (Location x) (ManagedBy x) (Name x) (Properties x) (Sku x) (Tags x) v.
End Disk.

(** disks.DiskUpdateProperties: the members of the PATCH body this resource assigns.
    A [None] member is a nil pointer: it is left out of the request. *)
Module DiskUpdateProperties.
Record t := mk {
  BurstingEnabled : option bool;
  DiskAccessId : option string;
  DiskIOPSReadOnly : option Z;
  DiskIOPSReadWrite : option Z;
  DiskMBpsReadOnly : option Z;
  DiskMBpsReadWrite : option Z;
  DiskSizeGB : option Z;
  Encryption : option Encryption.t;
  EncryptionSettingsCollection : option EncryptionSettingsCollection.t;
  MaxShares : option Z;
  NetworkAccessPolicy : option string;
  OptimizedForFrequentAttach : option bool;
  OsType : option string;
  PublicNetworkAccess : option string;
  Tier : option string
}.
Definition set_BurstingEnabled (v : option bool) (x : t) : t :=
  mk v (DiskAccessId x) (DiskIOPSReadOnly x) (DiskIOPSReadWrite x) (DiskMBpsReadOnly x) (DiskMBpsReadWrite x) (DiskSizeGB x) (Encryption x) (EncryptionSettingsCollection x) (MaxShares x) (NetworkAccessPolicy x) (OptimizedForFrequentAttach x) (OsType x) (PublicNetworkAccess x) (Tier x).
Definition set_DiskAccessId (v : option string) (x : t) : t :=
  mk (BurstingEnabled x) v (DiskIOPSReadOnly x) (DiskIOPSReadWrite x) (DiskMBpsReadOnly x) (DiskMBpsReadWrite x) (DiskSizeGB x) (Encryption x) (EncryptionSettingsCollection x) (MaxShares x) (NetworkAccessPolicy x) (OptimizedForFrequentAttach x) (OsType x) (PublicNetworkAccess x) (Tier x).
Definition set_DiskIOPSReadOnly (v : option Z) (x : t) : t :=
  mk (BurstingEnabled x) (DiskAccessId x) v (DiskIOPSReadWrite x) (DiskMBpsReadOnly x) (DiskMBpsReadWrite x) (DiskSizeGB x) (Encryption x) (EncryptionSettingsCollection x) (MaxShares x) (NetworkAccessPolicy x) (OptimizedForFrequentAttach x) (OsType x) (PublicNetworkAccess x) (Tier x).
Definition set_DiskIOPSReadWrite (v : option Z) (x : t) : t :=
  mk (BurstingEnabled x) (DiskAccessId x) (DiskIOPSReadOnly x) v (DiskMBpsReadOnly x) (DiskMBpsReadWrite x) (DiskSizeGB x) (Encryption x) (EncryptionSettingsCollection x) (MaxShares x) (NetworkAccessPolicy x) (OptimizedForFrequentAttach x) (OsType x) (PublicNetworkAccess x) (Tier x).
Definition set_DiskMBpsReadOnly (v : option Z) (x : t) : t :=
  mk (BurstingEnabled x) (DiskAccessId x) (DiskIOPSReadOnly x) (DiskIOPSReadWrite x) v (DiskMBpsReadWrite x) (DiskSizeGB x) (Encryption x) (EncryptionSettingsCollection x) (MaxShares x) (NetworkAccessPolicy x) (OptimizedForFrequentAttach x) (OsType x) (PublicNetworkAccess x) (Tier x).
Definition set_DiskMBpsReadWrite (v : option Z) (x : t) : t :=
  mk (BurstingEnabled x) (DiskAccessId x) (DiskIOPSReadOnly x) (DiskIOPSReadWrite x) (DiskMBpsReadOnly x) v (DiskSizeGB x) (Encryption x) (EncryptionSettingsCollection x) (MaxShares x) (NetworkAccessPolicy x) (OptimizedForFrequentAttach x) (OsType x) (PublicNetworkAccess x) (Tier x).
Definition set_DiskSizeGB (v : option Z) (x : t) : t :=
  mk (BurstingEnabled x) (DiskAccessId x) (DiskIOPSReadOnly x) (DiskIOPSReadWrite x) (DiskMBpsReadOnly x) (DiskMBpsReadWrite x) v (Encryption x) (EncryptionSettingsCollection x) (MaxShares x) (NetworkAccessPolicy x) (OptimizedForFrequentAttach x) (OsType x) (PublicNetworkAccess x) (Tier x).
Definition set_Encryption (v : option Encryption.t) (x : t) : t :=
  mk (BurstingEnabled x) (DiskAccessId x) (DiskIOPSReadOnly x) (DiskIOPSReadWrite x) (DiskMBpsReadOnly x) (DiskMBpsReadWrite x) (DiskSizeGB x) v (EncryptionSettingsCollection x) (MaxShares x) (NetworkAccessPolicy x) (OptimizedForFrequentAttach x) (OsType x) (PublicNetworkAccess x) (Tier x).
Definition set_EncryptionSettingsCollection (v : option EncryptionSettingsCollection.t) (x : t) : t :=
  mk (BurstingEnabled x) (DiskAccessId x) (DiskIOPSReadOnly x) (DiskIOPSReadWrite x) (DiskMBpsReadOnly x) (DiskMBpsReadWrite x) (DiskSizeGB x) (Encryption x) v (MaxShares x) (NetworkAccessPolicy x) (OptimizedForFrequentAttach x) (OsType x) (PublicNetworkAccess x) (Tier x).
Definition set_MaxShares (v : option Z) (x : t) : t :=
  mk (BurstingEnabled x) (DiskAccessId x) (DiskIOPSReadOnly x) (DiskIOPSReadWrite x) (DiskMBpsReadOnly x) (DiskMBpsReadWrite x) (DiskSizeGB x) (Encryption x) (EncryptionSettingsCollection x) v (NetworkAccessPolicy x) (OptimizedForFrequentAttach x) (OsType x) (PublicNetworkAccess x) (Tier x).
Definition set_NetworkAccessPolicy (v : option string) (x : t) : t :=
  mk (BurstingEnabled x) (DiskAccessId x) (DiskIOPSReadOnly x) (DiskIOPSReadWrite x) (DiskMBpsReadOnly x) (DiskMBpsReadWrite x) (DiskSizeGB x) (Encryption x) (EncryptionSettingsCollection x) (MaxShares x) v (OptimizedForFrequentAttach x) (OsType x) (PublicNetworkAccess x) (Tier x).
Definition set_OptimizedForFrequentAttach (v : option bool) (x : t) : t :=
  mk (BurstingEnabled x) (DiskAccessId x) (DiskIOPSReadOnly x) (DiskIOPSReadWrite x) (DiskMBpsReadOnly x) (DiskMBpsReadWrite x) (DiskSizeGB x) (Encryption x) (EncryptionSettingsCollection x) (MaxShares x) (NetworkAccessPolicy x) v (OsType x) (PublicNetworkAccess x) (Tier x).
Definition set_OsType (v : option string) (x : t) : t :=
  mk (BurstingEnabled x) (DiskAccessId x) (DiskIOPSReadOnly x) (DiskIOPSReadWrite x) (DiskMBpsReadOnly x) (DiskMBpsReadWrite x) (DiskSizeGB x) (Encryption x) (EncryptionSettingsCollection x) (MaxShares x) (NetworkAccessPolicy x) (OptimizedForFrequentAttach x) v (PublicNetworkAccess x) (Tier x).
Definition set_PublicNetworkAccess (v : option string) (x : t) : t :=
  mk (BurstingEnabled x) (DiskAccessId x) (DiskIOPSReadOnly x) (DiskIOPSReadWrite x) (DiskMBpsReadOnly x) (DiskMBpsReadWrite x) (DiskSizeGB x) (Encryption x) (EncryptionSettingsCollection x) (MaxShares x) (NetworkAccessPolicy x) (OptimizedForFrequentAttach x) (OsType x) v (Tier x).
Definition set_Tier (v : option string) (x : t) : t :=
  mk (BurstingEnabled x) (DiskAccessId x) (DiskIOPSReadOnly x) (DiskIOPSReadWrite x) (DiskMBpsReadOnly x) (DiskMBpsReadWrite x) (DiskSizeGB x) (Encryption x) (EncryptionSettingsCollection x) (MaxShares x) (NetworkAccessPolicy x) (OptimizedForFrequentAttach x) (OsType x) (PublicNetworkAccess x) v.
End DiskUpdateProperties.

(** disks.DiskUpdate.  [Properties] is a pointer in Go; the resource allocates it
    when it declares the payload (line 633) and never reassigns it, so it is
    kept here as the struct it points to. *)
Module DiskUpdate.
Record t := mk {
  Properties : DiskUpdateProperties.t;
  Sku : option DiskSku.t;
  Tags : option (gmap string string)
}.
Definition set_Properties (v : DiskUpdateProperties.t) (x : t) : t :=
  mk v (Sku x) (Tags x).
Definition set_Sku (v : option DiskSku.t) (x : t) : t :=
  mk (Properties x) v (Tags x).
Definition set_Tags (v : option (gmap string string)) (x : t) : t :=
  mk (Properties x) (Sku x) v.
End DiskUpdate.

(** [disks.GetOperationResponse], with the status code of its
    [HttpResponse]. *)
Record GetOperationResponse := {
  HttpResponse : option Z;
  Model : option Disk.t
}.

(** [response.WasNotFound]. *)
Definition WasNotFound (resp : option Z) : bool :=
  match resp with
  | Some code => bool_decide (code = 404)
  | None => false
  end.

(** [tags.Expand]. *)
Definition tags_Expand (t : gmap string string) : option (gmap string string) :=
  Some t.

(** ** The resource data [d]

    One member per key of the schema, with the Go type the callbacks
    assert for it. *)
Record Config := {
  name : string;
  location : string;
  resource_group_name : string;
  storage_account_type : string;
  create_option : string;
  edge_zone : string;
  logical_sector_size : Z;
  optimized_frequent_attach_enabled : bool;
  performance_plus_enabled : bool;
  source_uri : string;
  source_resource_id : string;
  storage_account_id : string;
  image_reference_id : string;
  gallery_image_reference_id : string;
  os_type : string;
  disk_size_gb : Z;
  upload_size_bytes : Z;
  disk_iops_read_write : Z;
  disk_mbps_read_write : Z;
  disk_iops_read_only : Z;
  disk_mbps_read_only : Z;
  disk_encryption_set_id : string;
  encryption_settings : list RawBlock;
  network_access_policy : string;
  disk_access_id : string;
  public_network_access_enabled : bool;
  tier : string;
  max_shares : Z;
  trusted_launch_enabled : bool;
  secure_vm_disk_encryption_set_id : string;
  security_type : string;
  hyper_v_generation : string;
  on_demand_bursting_enabled : bool;
  zone : string;
  tags : gmap string string
}.

(** [d.Set(key, v)] on the planned values, one function per key. *)
Definition with_name (v : string) (c : Config) : Config :=
  {| name := v; location := location c;
     resource_group_name := resource_group_name c;
     storage_account_type := storage_account_type c;
     create_option := create_option c; edge_zone := edge_zone c;
     logical_sector_size := logical_sector_size c;
     optimized_frequent_attach_enabled := optimized_frequent_attach_enabled c;
     performance_plus_enabled := performance_plus_enabled c;
     source_uri := source_uri c; source_resource_id := source_resource_id c;
     storage_account_id := storage_account_id c;
     image_reference_id := image_reference_id c;
     gallery_image_reference_id := gallery_image_reference_id c;
     os_type := os_type c; disk_size_gb := disk_size_gb c;
     upload_size_bytes := upload_size_bytes c;
     disk_iops_read_write := disk_iops_read_write c;
     disk_mbps_read_write := disk_mbps_read_write c;
     disk_iops_read_only := disk_iops_read_only c;
     disk_mbps_read_only := disk_mbps_read_only c;
     disk_encryption_set_id := disk_encryption_set_id c;
     encryption_settings := encryption_settings c;
     network_access_policy := network_access_policy c;
     disk_access_id := disk_access_id c;
     public_network_access_enabled := public_network_access_enabled c;
     tier := tier c; max_shares := max_shares c;
     trusted_launch_enabled := trusted_launch_enabled c;
     secure_vm_disk_encryption_set_id := secure_vm_disk_encryption_set_id c;
     security_type := security_type c;
     hyper_v_generation := hyper_v_generation c;
     on_demand_bursting_enabled := on_demand_bursting_enabled c;
     zone := zone c; tags := tags c |}.
Definition with_location (v : string) (c : Config) : Config :=
  {| name := name c; location := v;
     resource_group_name := resource_group_name c;
     storage_account_type := storage_account_type c;
     create_option := create_option c; edge_zone := edge_zone c;
     logical_sector_size := logical_sector_size c;
     optimized_frequent_attach_enabled := optimized_frequent_attach_enabled c;
     performance_plus_enabled := performance_plus_enabled c;
     source_uri := source_uri c; source_resource_id := source_resource_id c;
     storage_account_id := storage_account_id c;
     image_reference_id := image_reference_id c;
     gallery_image_reference_id := gallery_image_reference_id c;
     os_type := os_type c; disk_size_gb := disk_size_gb c;
     upload_size_bytes := upload_size_bytes c;
     disk_iops_read_write := disk_iops_read_write c;
     disk_mbps_read_write := disk_mbps_read_write c;
     disk_iops_read_only := disk_iops_read_only c;
     disk_mbps_read_only := disk_mbps_read_only c;
     disk_encryption_set_id := disk_encryption_set_id c;
     encryption_settings := encryption_settings c;
     network_access_policy := network_access_policy c;
     disk_access_id := disk_access_id c;
     public_network_access_enabled := public_network_access_enabled c;
     tier := tier c; max_shares := max_shares c;
     trusted_launch_enabled := trusted_launch_enabled c;
     secure_vm_disk_encryption_set_id := secure_vm_disk_encryption_set_id c;
     security_type := security_type c;
     hyper_v_generation := hyper_v_generation c;
     on_demand_bursting_enabled := on_demand_bursting_enabled c;
     zone := zone c; tags := tags c |}.
Definition with_resource_group_name (v : string) (c : Config) : Config :=
  {| name := name c; location := location c; resource_group_name := v;
     storage_account_type := storage_account_type c;
     create_option := create_option c; edge_zone := edge_zone c;
     logical_sector_size := logical_sector_size c;
     optimized_frequent_attach_enabled := optimized_frequent_attach_enabled c;
     performance_plus_enabled := performance_plus_enabled c;
     source_uri := source_uri c; source_resource_id := source_resource_id c;
     storage_account_id := storage_account_id c;
     image_reference_id := image_reference_id c;
     gallery_image_reference_id := gallery_image_reference_id c;
     os_type := os_type c; disk_size_gb := disk_size_gb c;
     upload_size_bytes := upload_size_bytes c;
     disk_iops_read_write := disk_iops_read_write c;
     disk_mbps_read_write := disk_mbps_read_write c;
     disk_iops_read_only := disk_iops_read_only c;
     disk_mbps_read_only := disk_mbps_read_only c;
     disk_encryption_set_id := disk_encryption_set_id c;
     encryption_settings := encryption_settings c;
     network_access_policy := network_access_policy c;
     disk_access_id := disk_access_id c;
     public_network_access_enabled := public_network_access_enabled c;
     tier := tier c; max_shares := max_shares c;
     trusted_launch_enabled := trusted_launch_enabled c;
     secure_vm_disk_encryption_set_id := secure_vm_disk_encryption_set_id c;
     security_type := security_type c;
     hyper_v_generation := hyper_v_generation c;
     on_demand_bursting_enabled := on_demand_bursting_enabled c;
     zone := zone c; tags := tags c |}.
Definition with_storage_account_type (v : string) (c : Config) : Config :=
  {| name := name c; location := location c;
     resource_group_name := resource_group_name c; storage_account_type := v;
     create_option := create_option c; edge_zone := edge_zone c;
     logical_sector_size := logical_sector_size c;
     optimized_frequent_attach_enabled := optimized_frequent_attach_enabled c;
     performance_plus_enabled := performance_plus_enabled c;
     source_uri := source_uri c; source_resource_id := source_resource_id c;
     storage_account_id := storage_account_id c;
     image_reference_id := image_reference_id c;
     gallery_image_reference_id := gallery_image_reference_id c;
     os_type := os_type c; disk_size_gb := disk_size_gb c;
     upload_size_bytes := upload_size_bytes c;
     disk_iops_read_write := disk_iops_read_write c;
     disk_mbps_read_write := disk_mbps_read_write c;
     disk_iops_read_only := disk_iops_read_only c;
     disk_mbps_read_only := disk_mbps_read_only c;
     disk_encryption_set_id := disk_encryption_set_id c;
     encryption_settings := encryption_settings c;
     network_access_policy := network_access_policy c;
     disk_access_id := disk_access_id c;
     public_network_access_enabled := public_network_access_enabled c;
     tier := tier c; max_shares := max_shares c;
     trusted_launch_enabled := trusted_launch_enabled c;
     secure_vm_disk_encryption_set_id := secure_vm_disk_encryption_set_id c;
     security_type := security_type c;
     hyper_v_generation := hyper_v_generation c;
     on_demand_bursting_enabled := on_demand_bursting_enabled c;
     zone := zone c; tags := tags c |}.
Definition with_create_option (v : string) (c : Config) : Config :=
  {| name := name c; location := location c;
     resource_group_name := resource_group_name c;
     storage_account_type := storage_account_type c; create_option := v;
     edge_zone := edge_zone c; logical_sector_size := logical_sector_size c;
     optimized_frequent_attach_enabled := optimized_frequent_attach_enabled c;
     performance_plus_enabled := performance_plus_enabled c;
     source_uri := source_uri c; source_resource_id := source_resource_id c;
     storage_account_id := storage_account_id c;
     image_reference_id := image_reference_id c;
     gallery_image_reference_id := gallery_image_reference_id c;
     os_type := os_type c; disk_size_gb := disk_size_gb c;
     upload_size_bytes := upload_size_bytes c;
     disk_iops_read_write := disk_iops_read_write c;
     disk_mbps_read_write := disk_mbps_read_write c;
     disk_iops_read_only := disk_iops_read_only c;
     disk_mbps_read_only := disk_mbps_read_only c;
     disk_encryption_set_id := disk_encryption_set_id c;
     encryption_settings := encryption_settings c;
     network_access_policy := network_access_policy c;
     disk_access_id := disk_access_id c;
     public_network_access_enabled := public_network_access_enabled c;
     tier := tier c; max_shares := max_shares c;
     trusted_launch_enabled := trusted_launch_enabled c;
     secure_vm_disk_encryption_set_id := secure_vm_disk_encryption_set_id c;
     security_type := security_type c;
     hyper_v_generation := hyper_v_generation c;
     on_demand_bursting_enabled := on_demand_bursting_enabled c;
     zone := zone c; tags := tags c |}.
Definition with_edge_zone (v : string) (c : Config) : Config :=
  {| name := name c; location := location c;
     resource_group_name := resource_group_name c;
     storage_account_type := storage_account_type c;
     create_option := create_option c; edge_zone := v;
     logical_sector_size := logical_sector_size c;
     optimized_frequent_attach_enabled := optimized_frequent_attach_enabled c;
     performance_plus_enabled := performance_plus_enabled c;
     source_uri := source_uri c; source_resource_id := source_resource_id c;
     storage_account_id := storage_account_id c;
     image_reference_id := image_reference_id c;
     gallery_image_reference_id := gallery_image_reference_id c;
     os_type := os_type c; disk_size_gb := disk_size_gb c;
     upload_size_bytes := upload_size_bytes c;
     disk_iops_read_write := disk_iops_read_write c;
     disk_mbps_read_write := disk_mbps_read_write c;
     disk_iops_read_only := disk_iops_read_only c;
     disk_mbps_read_only := disk_mbps_read_only c;
     disk_encryption_set_id := disk_encryption_set_id c;
     encryption_settings := encryption_settings c;
     network_access_policy := network_access_policy c;
     disk_access_id := disk_access_id c;
     public_network_access_enabled := public_network_access_enabled c;
     tier := tier c; max_shares := max_shares c;
     trusted_launch_enabled := trusted_launch_enabled c;
     secure_vm_disk_encryption_set_id := secure_vm_disk_encryption_set_id c;
     security_type := security_type c;
     hyper_v_generation := hyper_v_generation c;
     on_demand_bursting_enabled := on_demand_bursting_enabled c;
     zone := zone c; tags := tags c |}.
Definition with_logical_sector_size (v : Z) (c : Config) : Config :=
  {| name := name c; location := location c;
     resource_group_name := resource_group_name c;
     storage_account_type := storage_account_type c;
     create_option := create_option c; edge_zone := edge_zone c;
     logical_sector_size := v;
     optimized_frequent_attach_enabled := optimized_frequent_attach_enabled c;
     performance_plus_enabled := performance_plus_enabled c;
     source_uri := source_uri c; source_resource_id := source_resource_id c;
     storage_account_id := storage_account_id c;
     image_reference_id := image_reference_id c;
     gallery_image_reference_id := gallery_image_reference_id c;
     os_type := os_type c; disk_size_gb := disk_size_gb c;
     upload_size_bytes := upload_size_bytes c;
     disk_iops_read_write := disk_iops_read_write c;
     disk_mbps_read_write := disk_mbps_read_write c;
     disk_iops_read_only := disk_iops_read_only c;
     disk_mbps_read_only := disk_mbps_read_only c;
     disk_encryption_set_id := disk_encryption_set_id c;
     encryption_settings := encryption_settings c;
     network_access_policy := network_access_policy c;
     disk_access_id := disk_access_id c;
     public_network_access_enabled := public_network_access_enabled c;
     tier := tier c; max_shares := max_shares c;
     trusted_launch_enabled := trusted_launch_enabled c;
     secure_vm_disk_encryption_set_id := secure_vm_disk_encryption_set_id c;
     security_type := security_type c;
     hyper_v_generation := hyper_v_generation c;
     on_demand_bursting_enabled := on_demand_bursting_enabled c;
     zone := zone c; tags := tags c |}.
Definition with_optimized_frequent_attach_enabled (v : bool) (c : Config) : Config :=
  {| name := name c; location := location c;
     resource_group_name := resource_group_name c;
     storage_account_type := storage_account_type c;
     create_option := create_option c; edge_zone := edge_zone c;
     logical_sector_size := logical_sector_size c;
     optimized_frequent_attach_enabled := v;
     performance_plus_enabled := performance_plus_enabled c;
     source_uri := source_uri c; source_resource_id := source_resource_id c;
     storage_account_id := storage_account_id c;
     image_reference_id := image_reference_id c;
     gallery_image_reference_id := gallery_image_reference_id c;
     os_type := os_type c; disk_size_gb := disk_size_gb c;
     upload_size_bytes := upload_size_bytes c;
     disk_iops_read_write := disk_iops_read_write c;
     disk_mbps_read_write := disk_mbps_read_write c;
     disk_iops_read_only := disk_iops_read_only c;
     disk_mbps_read_only := disk_mbps_read_only c;
     disk_encryption_set_id := disk_encryption_set_id c;
     encryption_settings := encryption_settings c;
     network_access_policy := network_access_policy c;
     disk_access_id := disk_access_id c;
     public_network_access_enabled := public_network_access_enabled c;
     tier := tier c; max_shares := max_shares c;
     trusted_launch_enabled := trusted_launch_enabled c;
     secure_vm_disk_encryption_set_id := secure_vm_disk_encryption_set_id c;
     security_type := security_type c;
     hyper_v_generation := hyper_v_generation c;
     on_demand_bursting_enabled := on_demand_bursting_enabled c;
     zone := zone c; tags := tags c |}.
Definition with_performance_plus_enabled (v : bool) (c : Config) : Config :=
  {| name := name c; location := location c;
     resource_group_name := resource_group_name c;
     storage_account_type := storage_account_type c;
     create_option := create_option c; edge_zone := edge_zone c;
     logical_sector_size := logical_sector_size c;
     optimized_frequent_attach_enabled := optimized_frequent_attach_enabled c;
     performance_plus_enabled := v; source_uri := source_uri c;
     source_resource_id := source_resource_id c;
     storage_account_id := storage_account_id c;
     image_reference_id := image_reference_id c;
     gallery_image_reference_id := gallery_image_reference_id c;
     os_type := os_type c; disk_size_gb := disk_size_gb c;
     upload_size_bytes := upload_size_bytes c;
     disk_iops_read_write := disk_iops_read_write c;
     disk_mbps_read_write := disk_mbps_read_write c;
     disk_iops_read_only := disk_iops_read_only c;
     disk_mbps_read_only := disk_mbps_read_only c;
     disk_encryption_set_id := disk_encryption_set_id c;
     encryption_settings := encryption_settings c;
     network_access_policy := network_access_policy c;
     disk_access_id := disk_access_id c;
     public_network_access_enabled := public_network_access_enabled c;
     tier := tier c; max_shares := max_shares c;
     trusted_launch_enabled := trusted_launch_enabled c;
     secure_vm_disk_encryption_set_id := secure_vm_disk_encryption_set_id c;
     security_type := security_type c;
     hyper_v_generation := hyper_v_generation c;
     on_demand_bursting_enabled := on_demand_bursting_enabled c;
     zone := zone c; tags := tags c |}.
Definition with_source_uri (v : string) (c : Config) : Config :=
  {| name := name c; location := location c;
     resource_group_name := resource_group_name c;
     storage_account_type := storage_account_type c;
     create_option := create_option c; edge_zone := edge_zone c;
     logical_sector_size := logical_sector_size c;
     optimized_frequent_attach_enabled := optimized_frequent_attach_enabled c;
     performance_plus_enabled := performance_plus_enabled c; source_uri := v;
     source_resource_id := source_resource_id c;
     storage_account_id := storage_account_id c;
     image_reference_id := image_reference_id c;
     gallery_image_reference_id := gallery_image_reference_id c;
     os_type := os_type c; disk_size_gb := disk_size_gb c;
     upload_size_bytes := upload_size_bytes c;
     disk_iops_read_write := disk_iops_read_write c;
     disk_mbps_read_write := disk_mbps_read_write c;
     disk_iops_read_only := disk_iops_read_only c;
     disk_mbps_read_only := disk_mbps_read_only c;
     disk_encryption_set_id := disk_encryption_set_id c;
     encryption_settings := encryption_settings c;
     network_access_policy := network_access_policy c;
     disk_access_id := disk_access_id c;
     public_network_access_enabled := public_network_access_enabled c;
     tier := tier c; max_shares := max_shares c;
     trusted_launch_enabled := trusted_launch_enabled c;
     secure_vm_disk_encryption_set_id := secure_vm_disk_encryption_set_id c;
     security_type := security_type c;
     hyper_v_generation := hyper_v_generation c;
     on_demand_bursting_enabled := on_demand_bursting_enabled c;
     zone := zone c; tags := tags c |}.
Definition with_source_resource_id (v : string) (c : Config) : Config :=
  {| name := name c; location := location c;
     resource_group_name := resource_group_name c;
     storage_account_type := storage_account_type c;
     create_option := create_option c; edge_zone := edge_zone c;
     logical_sector_size := logical_sector_size c;
     optimized_frequent_attach_enabled := optimized_frequent_attach_enabled c;
     performance_plus_enabled := performance_plus_enabled c;
     source_uri := source_uri c; source_resource_id := v;
     storage_account_id := storage_account_id c;
     image_reference_id := image_reference_id c;
     gallery_image_reference_id := gallery_image_reference_id c;
     os_type := os_type c; disk_size_gb := disk_size_gb c;
     upload_size_bytes := upload_size_bytes c;
     disk_iops_read_write := disk_iops_read_write c;
     disk_mbps_read_write := disk_mbps_read_write c;
     disk_iops_read_only := disk_iops_read_only c;
     disk_mbps_read_only := disk_mbps_read_only c;
     disk_encryption_set_id := disk_encryption_set_id c;
     encryption_settings := encryption_settings c;
     network_access_policy := network_access_policy c;
     disk_access_id := disk_access_id c;
     public_network_access_enabled := public_network_access_enabled c;
     tier := tier c; max_shares := max_shares c;
     trusted_launch_enabled := trusted_launch_enabled c;
     secure_vm_disk_encryption_set_id := secure_vm_disk_encryption_set_id c;
     security_type := security_type c;
     hyper_v_generation := hyper_v_generation c;
     on_demand_bursting_enabled := on_demand_bursting_enabled c;
     zone := zone c; tags := tags c |}.
Definition with_storage_account_id (v : string) (c : Config) : Config :=
  {| name := name c; location := location c;
     resource_group_name := resource_group_name c;
     storage_account_type := storage_account_type c;
     create_option := create_option c; edge_zone := edge_zone c;
     logical_sector_size := logical_sector_size c;
     optimized_frequent_attach_enabled := optimized_frequent_attach_enabled c;
     performance_plus_enabled := performance_plus_enabled c;
     source_uri := source_uri c; source_resource_id := source_resource_id c;
     storage_account_id := v; image_reference_id := image_reference_id c;
     gallery_image_reference_id := gallery_image_reference_id c;
     os_type := os_type c; disk_size_gb := disk_size_gb c;
     upload_size_bytes := upload_size_bytes c;
     disk_iops_read_write := disk_iops_read_write c;
     disk_mbps_read_write := disk_mbps_read_write c;
     disk_iops_read_only := disk_iops_read_only c;
     disk_mbps_read_only := disk_mbps_read_only c;
     disk_encryption_set_id := disk_encryption_set_id c;
     encryption_settings := encryption_settings c;
     network_access_policy := network_access_policy c;
     disk_access_id := disk_access_id c;
     public_network_access_enabled := public_network_access_enabled c;
     tier := tier c; max_shares := max_shares c;
     trusted_launch_enabled := trusted_launch_enabled c;
     secure_vm_disk_encryption_set_id := secure_vm_disk_encryption_set_id c;
     security_type := security_type c;
     hyper_v_generation := hyper_v_generation c;
     on_demand_bursting_enabled := on_demand_bursting_enabled c;
     zone := zone c; tags := tags c |}.
Definition with_image_reference_id (v : string) (c : Config) : Config :=
  {| name := name c; location := location c;
     resource_group_name := resource_group_name c;
     storage_account_type := storage_account_type c;
     create_option := create_option c; edge_zone := edge_zone c;
     logical_sector_size := logical_sector_size c;
     optimized_frequent_attach_enabled := optimized_frequent_attach_enabled c;
     performance_plus_enabled := performance_plus_enabled c;
     source_uri := source_uri c; source_resource_id := source_resource_id c;
     storage_account_id := storage_account_id c; image_reference_id := v;
     gallery_image_reference_id := gallery_image_reference_id c;
     os_type := os_type c; disk_size_gb := disk_size_gb c;
     upload_size_bytes := upload_size_bytes c;
     disk_iops_read_write := disk_iops_read_write c;
     disk_mbps_read_write := disk_mbps_read_write c;
     disk_iops_read_only := disk_iops_read_only c;
     disk_mbps_read_only := disk_mbps_read_only c;
     disk_encryption_set_id := disk_encryption_set_id c;
     encryption_settings := encryption_settings c;
     network_access_policy := network_access_policy c;
     disk_access_id := disk_access_id c;
     public_network_access_enabled := public_network_access_enabled c;
     tier := tier c; max_shares := max_shares c;
     trusted_launch_enabled := trusted_launch_enabled c;
     secure_vm_disk_encryption_set_id := secure_vm_disk_encryption_set_id c;
     security_type := security_type c;
     hyper_v_generation := hyper_v_generation c;
     on_demand_bursting_enabled := on_demand_bursting_enabled c;
     zone := zone c; tags := tags c |}.
Definition with_gallery_image_reference_id (v : string) (c : Config) : Config :=
  {| name := name c; location := location c;
     resource_group_name := resource_group_name c;
     storage_account_type := storage_account_type c;
     create_option := create_option c; edge_zone := edge_zone c;
     logical_sector_size := logical_sector_size c;
     optimized_frequent_attach_enabled := optimized_frequent_attach_enabled c;
     performance_plus_enabled := performance_plus_enabled c;
     source_uri := source_uri c; source_resource_id := source_resource_id c;
     storage_account_id := storage_account_id c;
     image_reference_id := image_reference_id c;
     gallery_image_reference_id := v; os_type := os_type c;
     disk_size_gb := disk_size_gb c;
     upload_size_bytes := upload_size_bytes c;
     disk_iops_read_write := disk_iops_read_write c;
     disk_mbps_read_write := disk_mbps_read_write c;
     disk_iops_read_only := disk_iops_read_only c;
     disk_mbps_read_only := disk_mbps_read_only c;
     disk_encryption_set_id := disk_encryption_set_id c;
     encryption_settings := encryption_settings c;
     network_access_policy := network_access_policy c;
     disk_access_id := disk_access_id c;
     public_network_access_enabled := public_network_access_enabled c;
     tier := tier c; max_shares := max_shares c;
     trusted_launch_enabled := trusted_launch_enabled c;
     secure_vm_disk_encryption_set_id := secure_vm_disk_encryption_set_id c;
     security_type := security_type c;
     hyper_v_generation := hyper_v_generation c;
     on_demand_bursting_enabled := on_demand_bursting_enabled c;
     zone := zone c; tags := tags c |}.
Definition with_os_type (v : string) (c : Config) : Config :=
  {| name := name c; location := location c;
     resource_group_name := resource_group_name c;
     storage_account_type := storage_account_type c;
     create_option := create_option c; edge_zone := edge_zone c;
     logical_sector_size := logical_sector_size c;
     optimized_frequent_attach_enabled := optimized_frequent_attach_enabled c;
     performance_plus_enabled := performance_plus_enabled c;
     source_uri := source_uri c; source_resource_id := source_resource_id c;
     storage_account_id := storage_account_id c;
     image_reference_id := image_reference_id c;
     gallery_image_reference_id := gallery_image_reference_id c;
     os_type := v; disk_size_gb := disk_size_gb c;
     upload_size_bytes := upload_size_bytes c;
     disk_iops_read_write := disk_iops_read_write c;
     disk_mbps_read_write := disk_mbps_read_write c;
     disk_iops_read_only := disk_iops_read_only c;
     disk_mbps_read_only := disk_mbps_read_only c;
     disk_encryption_set_id := disk_encryption_set_id c;
     encryption_settings := encryption_settings c;
     network_access_policy := network_access_policy c;
     disk_access_id := disk_access_id c;
     public_network_access_enabled := public_network_access_enabled c;
     tier := tier c; max_shares := max_shares c;
     trusted_launch_enabled := trusted_launch_enabled c;
     secure_vm_disk_encryption_set_id := secure_vm_disk_encryption_set_id c;
     security_type := security_type c;
     hyper_v_generation := hyper_v_generation c;
     on_demand_bursting_enabled := on_demand_bursting_enabled c;
     zone := zone c; tags := tags c |}.
Definition with_disk_size_gb (v : Z) (c : Config) : Config :=
  {| name := name c; location := location c;
     resource_group_name := resource_group_name c;
     storage_account_type := storage_account_type c;
     create_option := create_option c; edge_zone := edge_zone c;
     logical_sector_size := logical_sector_size c;
     optimized_frequent_attach_enabled := optimized_frequent_attach_enabled c;
     performance_plus_enabled := performance_plus_enabled c;
     source_uri := source_uri c; source_resource_id := source_resource_id c;
     storage_account_id := storage_account_id c;
     image_reference_id := image_reference_id c;
     gallery_image_reference_id := gallery_image_reference_id c;
     os_type := os_type c; disk_size_gb := v;
     upload_size_bytes := upload_size_bytes c;
     disk_iops_read_write := disk_iops_read_write c;
     disk_mbps_read_write := disk_mbps_read_write c;
     disk_iops_read_only := disk_iops_read_only c;
     disk_mbps_read_only := disk_mbps_read_only c;
     disk_encryption_set_id := disk_encryption_set_id c;
     encryption_settings := encryption_settings c;
     network_access_policy := network_access_policy c;
     disk_access_id := disk_access_id c;
     public_network_access_enabled := public_network_access_enabled c;
     tier := tier c; max_shares := max_shares c;
     trusted_launch_enabled := trusted_launch_enabled c;
     secure_vm_disk_encryption_set_id := secure_vm_disk_encryption_set_id c;
     security_type := security_type c;
     hyper_v_generation := hyper_v_generation c;
     on_demand_bursting_enabled := on_demand_bursting_enabled c;
     zone := zone c; tags := tags c |}.
Definition with_upload_size_bytes (v : Z) (c : Config) : Config :=
  {| name := name c; location := location c;
     resource_group_name := resource_group_name c;
     storage_account_type := storage_account_type c;
     create_option := create_option c; edge_zone := edge_zone c;
     logical_sector_size := logical_sector_size c;
     optimized_frequent_attach_enabled := optimized_frequent_attach_enabled c;
     performance_plus_enabled := performance_plus_enabled c;
     source_uri := source_uri c; source_resource_id := source_resource_id c;
     storage_account_id := storage_account_id c;
     image_reference_id := image_reference_id c;
     gallery_image_reference_id := gallery_image_reference_id c;
     os_type := os_type c; disk_size_gb := disk_size_gb c;
     upload_size_bytes := v; disk_iops_read_write := disk_iops_read_write c;
     disk_mbps_read_write := disk_mbps_read_write c;
     disk_iops_read_only := disk_iops_read_only c;
     disk_mbps_read_only := disk_mbps_read_only c;
     disk_encryption_set_id := disk_encryption_set_id c;
     encryption_settings := encryption_settings c;
     network_access_policy := network_access_policy c;
     disk_access_id := disk_access_id c;
     public_network_access_enabled := public_network_access_enabled c;
     tier := tier c; max_shares := max_shares c;
     trusted_launch_enabled := trusted_launch_enabled c;
     secure_vm_disk_encryption_set_id := secure_vm_disk_encryption_set_id c;
     security_type := security_type c;
     hyper_v_generation := hyper_v_generation c;
     on_demand_bursting_enabled := on_demand_bursting_enabled c;
     zone := zone c; tags := tags c |}.
Definition with_disk_iops_read_write (v : Z) (c : Config) : Config :=
  {| name := name c; location := location c;
     resource_group_name := resource_group_name c;
     storage_account_type := storage_account_type c;
     create_option := create_option c; edge_zone := edge_zone c;
     logical_sector_size := logical_sector_size c;
     optimized_frequent_attach_enabled := optimized_frequent_attach_enabled c;
     performance_plus_enabled := performance_plus_enabled c;
     source_uri := source_uri c; source_resource_id := source_resource_id c;
     storage_account_id := storage_account_id c;
     image_reference_id := image_reference_id c;
     gallery_image_reference_id := gallery_image_reference_id c;
     os_type := os_type c; disk_size_gb := disk_size_gb c;
     upload_size_bytes := upload_size_bytes c; disk_iops_read_write := v;
     disk_mbps_read_write := disk_mbps_read_write c;
     disk_iops_read_only := disk_iops_read_only c;
     disk_mbps_read_only := disk_mbps_read_only c;
     disk_encryption_set_id := disk_encryption_set_id c;
     encryption_settings := encryption_settings c;
     network_access_policy := network_access_policy c;
     disk_access_id := disk_access_id c;
     public_network_access_enabled := public_network_access_enabled c;
     tier := tier c; max_shares := max_shares c;
     trusted_launch_enabled := trusted_launch_enabled c;
     secure_vm_disk_encryption_set_id := secure_vm_disk_encryption_set_id c;
     security_type := security_type c;
     hyper_v_generation := hyper_v_generation c;
     on_demand_bursting_enabled := on_demand_bursting_enabled c;
     zone := zone c; tags := tags c |}.
Definition with_disk_mbps_read_write (v : Z) (c : Config) : Config :=
  {| name := name c; location := location c;
     resource_group_name := resource_group_name c;
     storage_account_type := storage_account_type c;
     create_option := create_option c; edge_zone := edge_zone c;
     logical_sector_size := logical_sector_size c;
     optimized_frequent_attach_enabled := optimized_frequent_attach_enabled c;
     performance_plus_enabled := performance_plus_enabled c;
     source_uri := source_uri c; source_resource_id := source_resource_id c;
     storage_account_id := storage_account_id c;
     image_reference_id := image_reference_id c;
     gallery_image_reference_id := gallery_image_reference_id c;
     os_type := os_type c; disk_size_gb := disk_size_gb c;
     upload_size_bytes := upload_size_bytes c;
     disk_iops_read_write := disk_iops_read_write c;
     disk_mbps_read_write := v; disk_iops_read_only := disk_iops_read_only c;
     disk_mbps_read_only := disk_mbps_read_only c;
     disk_encryption_set_id := disk_encryption_set_id c;
     encryption_settings := encryption_settings c;
     network_access_policy := network_access_policy c;
     disk_access_id := disk_access_id c;
     public_network_access_enabled := public_network_access_enabled c;
     tier := tier c; max_shares := max_shares c;
     trusted_launch_enabled := trusted_launch_enabled c;
     secure_vm_disk_encryption_set_id := secure_vm_disk_encryption_set_id c;
     security_type := security_type c;
     hyper_v_generation := hyper_v_generation c;
     on_demand_bursting_enabled := on_demand_bursting_enabled c;
     zone := zone c; tags := tags c |}.
Definition with_disk_iops_read_only (v : Z) (c : Config) : Config :=
  {| name := name c; location := location c;
     resource_group_name := resource_group_name c;
     storage_account_type := storage_account_type c;
     create_option := create_option c; edge_zone := edge_zone c;
     logical_sector_size := logical_sector_size c;
     optimized_frequent_attach_enabled := optimized_frequent_attach_enabled c;
     performance_plus_enabled := performance_plus_enabled c;
     source_uri := source_uri c; source_resource_id := source_resource_id c;
     storage_account_id := storage_account_id c;
     image_reference_id := image_reference_id c;
     gallery_image_reference_id := gallery_image_reference_id c;
     os_type := os_type c; disk_size_gb := disk_size_gb c;
     upload_size_bytes := upload_size_bytes c;
     disk_iops_read_write := disk_iops_read_write c;
     disk_mbps_read_write := disk_mbps_read_write c;
     disk_iops_read_only := v; disk_mbps_read_only := disk_mbps_read_only c;
     disk_encryption_set_id := disk_encryption_set_id c;
     encryption_settings := encryption_settings c;
     network_access_policy := network_access_policy c;
     disk_access_id := disk_access_id c;
     public_network_access_enabled := public_network_access_enabled c;
     tier := tier c; max_shares := max_shares c;
     trusted_launch_enabled := trusted_launch_enabled c;
     secure_vm_disk_encryption_set_id := secure_vm_disk_encryption_set_id c;
     security_type := security_type c;
     hyper_v_generation := hyper_v_generation c;
     on_demand_bursting_enabled := on_demand_bursting_enabled c;
     zone := zone c; tags := tags c |}.
Definition with_disk_mbps_read_only (v : Z) (c : Config) : Config :=
  {| name := name c; location := location c;
     resource_group_name := resource_group_name c;
     storage_account_type := storage_account_type c;
     create_option := create_option c; edge_zone := edge_zone c;
     logical_sector_size := logical_sector_size c;
     optimized_frequent_attach_enabled := optimized_frequent_attach_enabled c;
     performance_plus_enabled := performance_plus_enabled c;
     source_uri := source_uri c; source_resource_id := source_resource_id c;
     storage_account_id := storage_account_id c;
     image_reference_id := image_reference_id c;
     gallery_image_reference_id := gallery_image_reference_id c;
     os_type := os_type c; disk_size_gb := disk_size_gb c;
     upload_size_bytes := upload_size_bytes c;
     disk_iops_read_write := disk_iops_read_write c;
     disk_mbps_read_write := disk_mbps_read_write c;
     disk_iops_read_only := disk_iops_read_only c; disk_mbps_read_only := v;
     disk_encryption_set_id := disk_encryption_set_id c;
     encryption_settings := encryption_settings c;
     network_access_policy := network_access_policy c;
     disk_access_id := disk_access_id c;
     public_network_access_enabled := public_network_access_enabled c;
     tier := tier c; max_shares := max_shares c;
     trusted_launch_enabled := trusted_launch_enabled c;
     secure_vm_disk_encryption_set_id := secure_vm_disk_encryption_set_id c;
     security_type := security_type c;
     hyper_v_generation := hyper_v_generation c;
     on_demand_bursting_enabled := on_demand_bursting_enabled c;
     zone := zone c; tags := tags c |}.
Definition with_disk_encryption_set_id (v : string) (c : Config) : Config :=
  {| name := name c; location := location c;
     resource_group_name := resource_group_name c;
     storage_account_type := storage_account_type c;
     create_option := create_option c; edge_zone := edge_zone c;
     logical_sector_size := logical_sector_size c;
     optimized_frequent_attach_enabled := optimized_frequent_attach_enabled c;
     performance_plus_enabled := performance_plus_enabled c;
     source_uri := source_uri c; source_resource_id := source_resource_id c;
     storage_account_id := storage_account_id c;
     image_reference_id := image_reference_id c;
     gallery_image_reference_id := gallery_image_reference_id c;
     os_type := os_type c; disk_size_gb := disk_size_gb c;
     upload_size_bytes := upload_size_bytes c;
     disk_iops_read_write := disk_iops_read_write c;
     disk_mbps_read_write := disk_mbps_read_write c;
     disk_iops_read_only := disk_iops_read_only c;
     disk_mbps_read_only := disk_mbps_read_only c;
     disk_encryption_set_id := v;
     encryption_settings := encryption_settings c;
     network_access_policy := network_access_policy c;
     disk_access_id := disk_access_id c;
     public_network_access_enabled := public_network_access_enabled c;
     tier := tier c; max_shares := max_shares c;
     trusted_launch_enabled := trusted_launch_enabled c;
     secure_vm_disk_encryption_set_id := secure_vm_disk_encryption_set_id c;
     security_type := security_type c;
     hyper_v_generation := hyper_v_generation c;
     on_demand_bursting_enabled := on_demand_bursting_enabled c;
     zone := zone c; tags := tags c |}.
Definition with_encryption_settings (v : list RawBlock) (c : Config) : Config :=
  {| name := name c; location := location c;
     resource_group_name := resource_group_name c;
     storage_account_type := storage_account_type c;
     create_option := create_option c; edge_zone := edge_zone c;
     logical_sector_size := logical_sector_size c;
     optimized_frequent_attach_enabled := optimized_frequent_attach_enabled c;
     performance_plus_enabled := performance_plus_enabled c;
     source_uri := source_uri c; source_resource_id := source_resource_id c;
     storage_account_id := storage_account_id c;
     image_reference_id := image_reference_id c;
     gallery_image_reference_id := gallery_image_reference_id c;
     os_type := os_type c; disk_size_gb := disk_size_gb c;
     upload_size_bytes := upload_size_bytes c;
     disk_iops_read_write := disk_iops_read_write c;
     disk_mbps_read_write := disk_mbps_read_write c;
     disk_iops_read_only := disk_iops_read_only c;
     disk_mbps_read_only := disk_mbps_read_only c;
     disk_encryption_set_id := disk_encryption_set_id c;
     encryption_settings := v;
     network_access_policy := network_access_policy c;
     disk_access_id := disk_access_id c;
     public_network_access_enabled := public_network_access_enabled c;
     tier := tier c; max_shares := max_shares c;
     trusted_launch_enabled := trusted_launch_enabled c;
     secure_vm_disk_encryption_set_id := secure_vm_disk_encryption_set_id c;
     security_type := security_type c;
     hyper_v_generation := hyper_v_generation c;
     on_demand_bursting_enabled := on_demand_bursting_enabled c;
     zone := zone c; tags := tags c |}.
Definition with_network_access_policy (v : string) (c : Config) : Config :=
  {| name := name c; location := location c;
     resource_group_name := resource_group_name c;
     storage_account_type := storage_account_type c;
     create_option := create_option c; edge_zone := edge_zone c;
     logical_sector_size := logical_sector_size c;
     optimized_frequent_attach_enabled := optimized_frequent_attach_enabled c;
     performance_plus_enabled := performance_plus_enabled c;
     source_uri := source_uri c; source_resource_id := source_resource_id c;
     storage_account_id := storage_account_id c;
     image_reference_id := image_reference_id c;
     gallery_image_reference_id := gallery_image_reference_id c;
     os_type := os_type c; disk_size_gb := disk_size_gb c;
     upload_size_bytes := upload_size_bytes c;
     disk_iops_read_write := disk_iops_read_write c;
     disk_mbps_read_write := disk_mbps_read_write c;
     disk_iops_read_only := disk_iops_read_only c;
     disk_mbps_read_only := disk_mbps_read_only c;
     disk_encryption_set_id := disk_encryption_set_id c;
     encryption_settings := encryption_settings c;
     network_access_policy := v; disk_access_id := disk_access_id c;
     public_network_access_enabled := public_network_access_enabled c;
     tier := tier c; max_shares := max_shares c;
     trusted_launch_enabled := trusted_launch_enabled c;
     secure_vm_disk_encryption_set_id := secure_vm_disk_encryption_set_id c;
     security_type := security_type c;
     hyper_v_generation := hyper_v_generation c;
     on_demand_bursting_enabled := on_demand_bursting_enabled c;
     zone := zone c; tags := tags c |}.
Definition with_disk_access_id (v : string) (c : Config) : Config :=
  {| name := name c; location := location c;
     resource_group_name := resource_group_name c;
     storage_account_type := storage_account_type c;
     create_option := create_option c; edge_zone := edge_zone c;
     logical_sector_size := logical_sector_size c;
     optimized_frequent_attach_enabled := optimized_frequent_attach_enabled c;
     performance_plus_enabled := performance_plus_enabled c;
     source_uri := source_uri c; source_resource_id := source_resource_id c;
     storage_account_id := storage_account_id c;
     image_reference_id := image_reference_id c;
     gallery_image_reference_id := gallery_image_reference_id c;
     os_type := os_type c; disk_size_gb := disk_size_gb c;
     upload_size_bytes := upload_size_bytes c;
     disk_iops_read_write := disk_iops_read_write c;
     disk_mbps_read_write := disk_mbps_read_write c;
     disk_iops_read_only := disk_iops_read_only c;
     disk_mbps_read_only := disk_mbps_read_only c;
     disk_encryption_set_id := disk_encryption_set_id c;
     encryption_settings := encryption_settings c;
     network_access_policy := network_access_policy c; disk_access_id := v;
     public_network_access_enabled := public_network_access_enabled c;
     tier := tier c; max_shares := max_shares c;
     trusted_launch_enabled := trusted_launch_enabled c;
     secure_vm_disk_encryption_set_id := secure_vm_disk_encryption_set_id c;
     security_type := security_type c;
     hyper_v_generation := hyper_v_generation c;
     on_demand_bursting_enabled := on_demand_bursting_enabled c;
     zone := zone c; tags := tags c |}.
Definition with_public_network_access_enabled (v : bool) (c : Config) : Config :=
  {| name := name c; location := location c;
     resource_group_name := resource_group_name c;
     storage_account_type := storage_account_type c;
     create_option := create_option c; edge_zone := edge_zone c;
     logical_sector_size := logical_sector_size c;
     optimized_frequent_attach_enabled := optimized_frequent_attach_enabled c;
     performance_plus_enabled := performance_plus_enabled c;
     source_uri := source_uri c; source_resource_id := source_resource_id c;
     storage_account_id := storage_account_id c;
     image_reference_id := image_reference_id c;
     gallery_image_reference_id := gallery_image_reference_id c;
     os_type := os_type c; disk_size_gb := disk_size_gb c;
     upload_size_bytes := upload_size_bytes c;
     disk_iops_read_write := disk_iops_read_write c;
     disk_mbps_read_write := disk_mbps_read_write c;
     disk_iops_read_only := disk_iops_read_only c;
     disk_mbps_read_only := disk_mbps_read_only c;
     disk_encryption_set_id := disk_encryption_set_id c;
     encryption_settings := encryption_settings c;
     network_access_policy := network_access_policy c;
     disk_access_id := disk_access_id c; public_network_access_enabled := v;
     tier := tier c; max_shares := max_shares c;
     trusted_launch_enabled := trusted_launch_enabled c;
     secure_vm_disk_encryption_set_id := secure_vm_disk_encryption_set_id c;
     security_type := security_type c;
     hyper_v_generation := hyper_v_generation c;
     on_demand_bursting_enabled := on_demand_bursting_enabled c;
     zone := zone c; tags := tags c |}.
Definition with_tier (v : string) (c : Config) : Config :=
  {| name := name c; location := location c;
     resource_group_name := resource_group_name c;
     storage_account_type := storage_account_type c;
     create_option := create_option c; edge_zone := edge_zone c;
     logical_sector_size := logical_sector_size c;
     optimized_frequent_attach_enabled := optimized_frequent_attach_enabled c;
     performance_plus_enabled := performance_plus_enabled c;
     source_uri := source_uri c; source_resource_id := source_resource_id c;
     storage_account_id := storage_account_id c;
     image_reference_id := image_reference_id c;
     gallery_image_reference_id := gallery_image_reference_id c;
     os_type := os_type c; disk_size_gb := disk_size_gb c;
     upload_size_bytes := upload_size_bytes c;
     disk_iops_read_write := disk_iops_read_write c;
     disk_mbps_read_write := disk_mbps_read_write c;
     disk_iops_read_only := disk_iops_read_only c;
     disk_mbps_read_only := disk_mbps_read_only c;
     disk_encryption_set_id := disk_encryption_set_id c;
     encryption_settings := encryption_settings c;
     network_access_policy := network_access_policy c;
     disk_access_id := disk_access_id c;
     public_network_access_enabled := public_network_access_enabled c;
     tier := v; max_shares := max_shares c;
     trusted_launch_enabled := trusted_launch_enabled c;
     secure_vm_disk_encryption_set_id := secure_vm_disk_encryption_set_id c;
     security_type := security_type c;
     hyper_v_generation := hyper_v_generation c;
     on_demand_bursting_enabled := on_demand_bursting_enabled c;
     zone := zone c; tags := tags c |}.
Definition with_max_shares (v : Z) (c : Config) : Config :=
  {| name := name c; location := location c;
     resource_group_name := resource_group_name c;
     storage_account_type := storage_account_type c;
     create_option := create_option c; edge_zone := edge_zone c;
     logical_sector_size := logical_sector_size c;
     optimized_frequent_attach_enabled := optimized_frequent_attach_enabled c;
     performance_plus_enabled := performance_plus_enabled c;
     source_uri := source_uri c; source_resource_id := source_resource_id c;
     storage_account_id := storage_account_id c;
     image_reference_id := image_reference_id c;
     gallery_image_reference_id := gallery_image_reference_id c;
     os_type := os_type c; disk_size_gb := disk_size_gb c;
     upload_size_bytes := upload_size_bytes c;
     disk_iops_read_write := disk_iops_read_write c;
     disk_mbps_read_write := disk_mbps_read_write c;
     disk_iops_read_only := disk_iops_read_only c;
     disk_mbps_read_only := disk_mbps_read_only c;
     disk_encryption_set_id := disk_encryption_set_id c;
     encryption_settings := encryption_settings c;
     network_access_policy := network_access_policy c;
     disk_access_id := disk_access_id c;
     public_network_access_enabled := public_network_access_enabled c;
     tier := tier c; max_shares := v;
     trusted_launch_enabled := trusted_launch_enabled c;
     secure_vm_disk_encryption_set_id := secure_vm_disk_encryption_set_id c;
     security_type := security_type c;
     hyper_v_generation := hyper_v_generation c;
     on_demand_bursting_enabled := on_demand_bursting_enabled c;
     zone := zone c; tags := tags c |}.
Definition with_trusted_launch_enabled (v : bool) (c : Config) : Config :=
  {| name := name c; location := location c;
     resource_group_name := resource_group_name c;
     storage_account_type := storage_account_type c;
     create_option := create_option c; edge_zone := edge_zone c;
     logical_sector_size := logical_sector_size c;
     optimized_frequent_attach_enabled := optimized_frequent_attach_enabled c;
     performance_plus_enabled := performance_plus_enabled c;
     source_uri := source_uri c; source_resource_id := source_resource_id c;
     storage_account_id := storage_account_id c;
     image_reference_id := image_reference_id c;
     gallery_image_reference_id := gallery_image_reference_id c;
     os_type := os_type c; disk_size_gb := disk_size_gb c;
     upload_size_bytes := upload_size_bytes c;
     disk_iops_read_write := disk_iops_read_write c;
     disk_mbps_read_write := disk_mbps_read_write c;
     disk_iops_read_only := disk_iops_read_only c;
     disk_mbps_read_only := disk_mbps_read_only c;
     disk_encryption_set_id := disk_encryption_set_id c;
     encryption_settings := encryption_settings c;
     network_access_policy := network_access_policy c;
     disk_access_id := disk_access_id c;
     public_network_access_enabled := public_network_access_enabled c;
     tier := tier c; max_shares := max_shares c; trusted_launch_enabled := v;
     secure_vm_disk_encryption_set_id := secure_vm_disk_encryption_set_id c;
     security_type := security_type c;
     hyper_v_generation := hyper_v_generation c;
     on_demand_bursting_enabled := on_demand_bursting_enabled c;
     zone := zone c; tags := tags c |}.
Definition with_secure_vm_disk_encryption_set_id (v : string) (c : Config) : Config :=
  {| name := name c; location := location c;
     resource_group_name := resource_group_name c;
     storage_account_type := storage_account_type c;
     create_option := create_option c; edge_zone := edge_zone c;
     logical_sector_size := logical_sector_size c;
     optimized_frequent_attach_enabled := optimized_frequent_attach_enabled c;
     performance_plus_enabled := performance_plus_enabled c;
     source_uri := source_uri c; source_resource_id := source_resource_id c;
     storage_account_id := storage_account_id c;
     image_reference_id := image_reference_id c;
     gallery_image_reference_id := gallery_image_reference_id c;
     os_type := os_type c; disk_size_gb := disk_size_gb c;
     upload_size_bytes := upload_size_bytes c;
     disk_iops_read_write := disk_iops_read_write c;
     disk_mbps_read_write := disk_mbps_read_write c;
     disk_iops_read_only := disk_iops_read_only c;
     disk_mbps_read_only := disk_mbps_read_only c;
     disk_encryption_set_id := disk_encryption_set_id c;
     encryption_settings := encryption_settings c;
     network_access_policy := network_access_policy c;
     disk_access_id := disk_access_id c;
     public_network_access_enabled := public_network_access_enabled c;
     tier := tier c; max_shares := max_shares c;
     trusted_launch_enabled := trusted_launch_enabled c;
     secure_vm_disk_encryption_set_id := v; security_type := security_type c;
     hyper_v_generation := hyper_v_generation c;
     on_demand_bursting_enabled := on_demand_bursting_enabled c;
     zone := zone c; tags := tags c |}.
Definition with_security_type (v : string) (c : Config) : Config :=
  {| name := name c; location := location c;
     resource_group_name := resource_group_name c;
     storage_account_type := storage_account_type c;
     create_option := create_option c; edge_zone := edge_zone c;
     logical_sector_size := logical_sector_size c;
     optimized_frequent_attach_enabled := optimized_frequent_attach_enabled c;
     performance_plus_enabled := performance_plus_enabled c;
     source_uri := source_uri c; source_resource_id := source_resource_id c;
     storage_account_id := storage_account_id c;
     image_reference_id := image_reference_id c;
     gallery_image_reference_id := gallery_image_reference_id c;
     os_type := os_type c; disk_size_gb := disk_size_gb c;
     upload_size_bytes := upload_size_bytes c;
     disk_iops_read_write := disk_iops_read_write c;
     disk_mbps_read_write := disk_mbps_read_write c;
     disk_iops_read_only := disk_iops_read_only c;
     disk_mbps_read_only := disk_mbps_read_only c;
     disk_encryption_set_id := disk_encryption_set_id c;
     encryption_settings := encryption_settings c;
     network_access_policy := network_access_policy c;
     disk_access_id := disk_access_id c;
     public_network_access_enabled := public_network_access_enabled c;
     tier := tier c; max_shares := max_shares c;
     trusted_launch_enabled := trusted_launch_enabled c;
     secure_vm_disk_encryption_set_id := secure_vm_disk_encryption_set_id c;
     security_type := v; hyper_v_generation := hyper_v_generation c;
     on_demand_bursting_enabled := on_demand_bursting_enabled c;
     zone := zone c; tags := tags c |}.
Definition with_hyper_v_generation (v : string) (c : Config) : Config :=
  {| name := name c; location := location c;
     resource_group_name := resource_group_name c;
     storage_account_type := storage_account_type c;
     create_option := create_option c; edge_zone := edge_zone c;
     logical_sector_size := logical_sector_size c;
     optimized_frequent_attach_enabled := optimized_frequent_attach_enabled c;
     performance_plus_enabled := performance_plus_enabled c;
     source_uri := source_uri c; source_resource_id := source_resource_id c;
     storage_account_id := storage_account_id c;
     image_reference_id := image_reference_id c;
     gallery_image_reference_id := gallery_image_reference_id c;
     os_type := os_type c; disk_size_gb := disk_size_gb c;
     upload_size_bytes := upload_size_bytes c;
     disk_iops_read_write := disk_iops_read_write c;
     disk_mbps_read_write := disk_mbps_read_write c;
     disk_iops_read_only := disk_iops_read_only c;
     disk_mbps_read_only := disk_mbps_read_only c;
     disk_encryption_set_id := disk_encryption_set_id c;
     encryption_settings := encryption_settings c;
     network_access_policy := network_access_policy c;
     disk_access_id := disk_access_id c;
     public_network_access_enabled := public_network_access_enabled c;
     tier := tier c; max_shares := max_shares c;
     trusted_launch_enabled := trusted_launch_enabled c;
     secure_vm_disk_encryption_set_id := secure_vm_disk_encryption_set_id c;
     security_type := security_type c; hyper_v_generation := v;
     on_demand_bursting_enabled := on_demand_bursting_enabled c;
     zone := zone c; tags := tags c |}.
Definition with_on_demand_bursting_enabled (v : bool) (c : Config) : Config :=
  {| name := name c; location := location c;
     resource_group_name := resource_group_name c;
     storage_account_type := storage_account_type c;
     create_option := create_option c; edge_zone := edge_zone c;
     logical_sector_size := logical_sector_size c;
     optimized_frequent_attach_enabled := optimized_frequent_attach_enabled c;
     performance_plus_enabled := performance_plus_enabled c;
     source_uri := source_uri c; source_resource_id := source_resource_id c;
     storage_account_id := storage_account_id c;
     image_reference_id := image_reference_id c;
     gallery_image_reference_id := gallery_image_reference_id c;
     os_type := os_type c; disk_size_gb := disk_size_gb c;
     upload_size_bytes := upload_size_bytes c;
     disk_iops_read_write := disk_iops_read_write c;
     disk_mbps_read_write := disk_mbps_read_write c;
     disk_iops_read_only := disk_iops_read_only c;
     disk_mbps_read_only := disk_mbps_read_only c;
     disk_encryption_set_id := disk_encryption_set_id c;
     encryption_settings := encryption_settings c;
     network_access_policy := network_access_policy c;
     disk_access_id := disk_access_id c;
     public_network_access_enabled := public_network_access_enabled c;
     tier := tier c; max_shares := max_shares c;
     trusted_launch_enabled := trusted_launch_enabled c;
     secure_vm_disk_encryption_set_id := secure_vm_disk_encryption_set_id c;
     security_type := security_type c;
     hyper_v_generation := hyper_v_generation c;
     on_demand_bursting_enabled := v; zone := zone c; tags := tags c |}.
Definition with_zone (v : string) (c : Config) : Config :=
  {| name := name c; location := location c;
     resource_group_name := resource_group_name c;
     storage_account_type := storage_account_type c;
     create_option := create_option c; edge_zone := edge_zone c;
     logical_sector_size := logical_sector_size c;
     optimized_frequent_attach_enabled := optimized_frequent_attach_enabled c;
     performance_plus_enabled := performance_plus_enabled c;
     source_uri := source_uri c; source_resource_id := source_resource_id c;
     storage_account_id := storage_account_id c;
     image_reference_id := image_reference_id c;
     gallery_image_reference_id := gallery_image_reference_id c;
     os_type := os_type c; disk_size_gb := disk_size_gb c;
     upload_size_bytes := upload_size_bytes c;
     disk_iops_read_write := disk_iops_read_write c;
     disk_mbps_read_write := disk_mbps_read_write c;
     disk_iops_read_only := disk_iops_read_only c;
     disk_mbps_read_only := disk_mbps_read_only c;
     disk_encryption_set_id := disk_encryption_set_id c;
     encryption_settings := encryption_settings c;
     network_access_policy := network_access_policy c;
     disk_access_id := disk_access_id c;
     public_network_access_enabled := public_network_access_enabled c;
     tier := tier c; max_shares := max_shares c;
     trusted_launch_enabled := trusted_launch_enabled c;
     secure_vm_disk_encryption_set_id := secure_vm_disk_encryption_set_id c;
     security_type := security_type c;
     hyper_v_generation := hyper_v_generation c;
     on_demand_bursting_enabled := on_demand_bursting_enabled c; zone := v;
     tags := tags c |}.
Definition with_tags (v : gmap string string) (c : Config) : Config :=
  {| name := name c; location := location c;
     resource_group_name := resource_group_name c;
     storage_account_type := storage_account_type c;
     create_option := create_option c; edge_zone := edge_zone c;
     logical_sector_size := logical_sector_size c;
     optimized_frequent_attach_enabled := optimized_frequent_attach_enabled c;
     performance_plus_enabled := performance_plus_enabled c;
     source_uri := source_uri c; source_resource_id := source_resource_id c;
     storage_account_id := storage_account_id c;
     image_reference_id := image_reference_id c;
     gallery_image_reference_id := gallery_image_reference_id c;
     os_type := os_type c; disk_size_gb := disk_size_gb c;
     upload_size_bytes := upload_size_bytes c;
     disk_iops_read_write := disk_iops_read_write c;
     disk_mbps_read_write := disk_mbps_read_write c;
     disk_iops_read_only := disk_iops_read_only c;
     disk_mbps_read_only := disk_mbps_read_only c;
     disk_encryption_set_id := disk_encryption_set_id c;
     encryption_settings := encryption_settings c;
     network_access_policy := network_access_policy c;
     disk_access_id := disk_access_id c;
     public_network_access_enabled := public_network_access_enabled c;
     tier := tier c; max_shares := max_shares c;
     trusted_launch_enabled := trusted_launch_enabled c;
     secure_vm_disk_encryption_set_id := secure_vm_disk_encryption_set_id c;
     security_type := security_type c;
     hyper_v_generation := hyper_v_generation c;
     on_demand_bursting_enabled := on_demand_bursting_enabled c;
     zone := zone c; tags := v |}.


(** [pluginsdk.ResourceData]: the resource ID, whether the resource is being
    created, the prior state and the planned values.  [d.Set] writes the
    planned values. *)
Record ResourceData := {
  rd_Id : string;
  rd_IsNewResource : bool;
  rd_state : Config;
  rd_config : Config
}.

Definition Get {A} (d : ResourceData) (key : Config → A) : A :=
  key (rd_config d).

Definition GetChange {A} (d : ResourceData) (key : Config → A) : A * A :=
  (key (rd_state d), key (rd_config d)).

Definition HasChange {A} `{EqDecision A} (d : ResourceData) (key : Config → A)
  : bool :=
  bool_decide (key (rd_state d) ≠ key (rd_config d)).

Definition GetOk {A} `{EqDecision A} `{Zero A} (d : ResourceData)
    (key : Config → A) : A * bool :=
  (key (rd_config d), bool_decide (key (rd_config d) ≠ zero)).

Definition SetId (v : string) (d : ResourceData) : ResourceData :=
  {| rd_Id := v; rd_IsNewResource := rd_IsNewResource d;
     rd_state := rd_state d; rd_config := rd_config d |}.

Definition SetConfig (c : Config) (d : ResourceData) : ResourceData :=
  {| rd_Id := rd_Id d; rd_IsNewResource := rd_IsNewResource d;
     rd_state := rd_state d; rd_config := c |}.

(** ** Calls that leave the provider *)

Inductive Event : Type :=
| CallGet (id : ManagedDiskId)
| CallCreateOrUpdateThenPoll (id : ManagedDiskId) (payload : Disk.t)
| CallUpdateThenPoll (id : ManagedDiskId) (payload : DiskUpdate.t)
| CallDeleteThenPoll (id : ManagedDiskId)
| CallRetrieveDiskEncryptionSetEncryptionType (diskEncryptionSetId : string)
| CallDetermineIfVirtualMachineSupportsNoDowntimeResize (disk : option Disk.t)
| CallUpdateWithVmShutDown (id : ManagedDiskId) (vm : VirtualMachineId)
    (payload : DiskUpdate.t) (shouldDetach : bool)
| LockByName (name resourceType : string)
| UnlockByName (name resourceType : string).

(** A request that changes the remote disk. *)
Definition is_write (e : Event) : bool :=
  match e with
  | CallCreateOrUpdateThenPoll _ _ | CallUpdateThenPoll _ _
  | CallDeleteThenPoll _ | CallUpdateWithVmShutDown _ _ _ _ => true
  | _ => false
  end.

(** A call that only reads remote state. *)
Definition is_read (e : Event) : bool :=
  match e with
  | CallGet _ | CallRetrieveDiskEncryptionSetEncryptionType _
  | CallDetermineIfVirtualMachineSupportsNoDowntimeResize _ => true
  | _ => false
  end.

(** The PATCH bodies a trace hands to the API, directly or through the
    shut-down helper. *)
Definition update_payload (e : Event) : option DiskUpdate.t :=
  match e with
  | CallUpdateThenPoll _ p | CallUpdateWithVmShutDown _ _ p _ => Some p
  | _ => None
  end.

(** The PUT bodies a trace hands to the API. *)
Definition create_payload (e : Event) : option Disk.t :=
  match e with
  | CallCreateOrUpdateThenPoll _ p => Some p
  | _ => None
  end.

(** ** What the file imports

    [W] is the state of everything outside the provider process: the
    remote API, the lock table. *)
Record Deps (W : Type) := {
  (* the provider's clients.Client, reached through meta *)
  Account_SubscriptionId : string;
  Features_ManagedDisk_ExpandWithoutDowntime : bool;
  (* its Compute.DisksClient *)
  DisksClient_Get :
    ManagedDiskId → W → GetOperationResponse * option error * W;
  DisksClient_CreateOrUpdateThenPoll :
    ManagedDiskId → Disk.t → W → option error * W;
  DisksClient_UpdateThenPoll :
    ManagedDiskId → DiskUpdate.t → W → option error * W;
  DisksClient_DeleteThenPoll : ManagedDiskId → W → option error * W;
  (* package compute, other files *)
  retrieveDiskEncryptionSetEncryptionType :
    string → W → option string * option error * W;
  determineIfDataDiskRequiresDetaching : option Disk.t → Z → Z → bool;
  determineIfDataDiskSupportsNoDowntimeResize : option Disk.t → bool → bool;
  (* returns a pointer to bool and an error; line 732 dereferences the
     pointer unguarded when the error is nil, so a nil error comes with a
     value *)
  determineIfVirtualMachineSupportsNoDowntimeResize :
    option Disk.t → W → (bool + error) * W;
  resourceManagedDiskUpdateWithVmShutDown :
    ManagedDiskId → VirtualMachineId → DiskUpdate.t → bool → W →
    option error * W;
  expandManagedDiskEncryptionSettings :
    list RawBlock → option EncryptionSettingsCollection.t;
  flattenManagedDiskEncryptionSettings :
    option EncryptionSettingsCollection.t → list RawBlock;
  expandManagedDiskEdgeZone : string → option edgezones.Model;
  flattenManagedDiskEdgeZone : option edgezones.Model → string;
  VirtualMachineResourceName : string;
  (* package locks *)
  locks_ByName : string → string → W → W;
  locks_UnlockByName : string → string → W → W;
  (* packages azure, location, commonids, virtualmachines, tf, tags,
     pluginsdk *)
  NormalizeLocation : string → string;
  NormalizeNilable : option string → string;
  ManagedDiskId_ID : ManagedDiskId → string;
  ParseManagedDiskID : string → ManagedDiskId + error;
  ParseVirtualMachineID : string → VirtualMachineId + error;
  ImportAsExistsError : string → string → error;
  tags_FlattenAndSet :
    ResourceData → option (gmap string string) → ResourceData + error;
  SetResourceIdentityData : ResourceData → ManagedDiskId → option error
}.
Arguments Account_SubscriptionId {W} _.
Arguments Features_ManagedDisk_ExpandWithoutDowntime {W} _.
Arguments DisksClient_Get {W} _ _ _.
Arguments DisksClient_CreateOrUpdateThenPoll {W} _ _ _ _.
Arguments DisksClient_UpdateThenPoll {W} _ _ _ _.
Arguments DisksClient_DeleteThenPoll {W} _ _ _.
Arguments retrieveDiskEncryptionSetEncryptionType {W} _ _ _.
Arguments determineIfDataDiskRequiresDetaching {W} _ _ _ _.
Arguments determineIfDataDiskSupportsNoDowntimeResize {W} _ _ _.
Arguments determineIfVirtualMachineSupportsNoDowntimeResize {W} _ _ _.
Arguments resourceManagedDiskUpdateWithVmShutDown {W} _ _ _ _ _ _.
Arguments expandManagedDiskEncryptionSettings {W} _ _.
Arguments flattenManagedDiskEncryptionSettings {W} _ _.
Arguments expandManagedDiskEdgeZone {W} _ _.
Arguments flattenManagedDiskEdgeZone {W} _ _.
Arguments VirtualMachineResourceName {W} _.
Arguments locks_ByName {W} _ _ _ _.
Arguments locks_UnlockByName {W} _ _ _ _.
Arguments NormalizeLocation {W} _ _.
Arguments NormalizeNilable {W} _ _.
Arguments ManagedDiskId_ID {W} _ _.
Arguments ParseManagedDiskID {W} _ _.
Arguments ParseVirtualMachineID {W} _ _.
Arguments ImportAsExistsError {W} _ _ _.
Arguments tags_FlattenAndSet {W} _ _ _.
Arguments SetResourceIdentityData {W} _ _ _.

(** ** The monad of the callbacks *)

(** What a callback can change: the outside world, the log of the calls
    made so far (oldest first), the resource data, and the calls the
    running function has deferred (latest first). *)
Record St (W : Type) := mkSt {
  world : W;
  trace : list Event;
  rd : ResourceData;
  deferred : list (Event * (W → W))
}.
Arguments mkSt {W} _ _ _ _.
Arguments world {W} _.
Arguments trace {W} _.
Arguments rd {W} _.
Arguments deferred {W} _.

Definition M (W A : Type) : Type := St W → Result A * St W.

Global Instance M_ret {W} : MRet (M W) := λ A a s, (Ok a, s).

Global Instance M_bind {W} : MBind (M W) := λ A B f m s,
  match m s with
  | (Ok a, s') => f a s'
  | (Err e, s') => (Err e, s')
  | (Panic p, s') => (Panic p, s')
  end.

(** [return err]. *)
Definition fail {W A} (e : error) : M W A := λ s, (Err e, s).

(** A nil-pointer dereference. *)
Definition panic {W A} (what : string) : M W A := λ s, (Panic what, s).

(** [*p]. *)
Definition deref {W A} (what : string) (p : option A) : M W A :=
  match p with
  | Some v => mret v
  | None => panic what
  end.

(** A call to the outside: it is logged, and the world moves on. *)
Definition call {W A} (e : Event) (f : W → A * W) : M W A := λ s,
  let '(a, w) := f (world s) in
  (Ok a, mkSt w (trace s ++ [e]) (rd s) (deferred s)).

(** [defer f()]. *)
Definition defer {W} (e : Event) (f : W → W) : M W unit := λ s,
  (Ok tt, mkSt (world s) (trace s) (rd s) ((e, f) :: deferred s)).

Definition run_deferred {W} (fs : list (Event * (W → W))) (s : St W) : St W :=
  fold_left (λ s ef, mkSt (ef.2 (world s)) (trace s ++ [ef.1]) (rd s) (deferred s))
    fs s.

(** A Go function body: the calls it defers run when it is left, however
    it is left, the latest first. *)
Definition func {W A} (body : M W A) : M W A := λ s,
  let '(r, s') := body (mkSt (world s) (trace s) (rd s) []) in
  (r, run_deferred (deferred s')
        (mkSt (world s') (trace s') (rd s') (deferred s))).

Definition get_d {W} : M W ResourceData := λ s, (Ok (rd s), s).

Definition modify_d {W} (f : ResourceData → ResourceData) : M W unit := λ s,
  (Ok tt, mkSt (world s) (trace s) (f (rd s)) (deferred s)).

(** A step of a callback that neither calls out nor touches [d]. *)
Definition pure {W A} (r : Result A) : M W A := λ s, (r, s).

(** A flat sequence of steps over the local variables [L] of a callback. *)
Fixpoint run_steps {W L} (steps : list (L → M W L)) (l : L) : M W L :=
  match steps with
  | [] => mret l
  | f :: rest => l' ← f l; run_steps rest l'
  end.

Global Instance Result_ret : MRet Result := λ A a, Ok a.
Global Instance Result_bind : MBind Result := λ A B f r,
  match r with
  | Ok a => f a
  | Err e => Err e
  | Panic p => Panic p
  end.

(** * The callbacks *)

Section Callbacks.
Context {W : Type} (meta : Deps W).

Definition client_Get (id : ManagedDiskId)
  : M W (GetOperationResponse * option error) :=
  call (CallGet id) (DisksClient_Get meta id).

Definition client_CreateOrUpdateThenPoll (id : ManagedDiskId) (disk : Disk.t)
  : M W (option error) :=
  call (CallCreateOrUpdateThenPoll id disk)
       (DisksClient_CreateOrUpdateThenPoll meta id disk).

Definition client_UpdateThenPoll (id : ManagedDiskId) (upd : DiskUpdate.t)
  : M W (option error) :=
  call (CallUpdateThenPoll id upd) (DisksClient_UpdateThenPoll meta id upd).

Definition client_DeleteThenPoll (id : ManagedDiskId) : M W (option error) :=
  call (CallDeleteThenPoll id) (DisksClient_DeleteThenPoll meta id).

Definition locks_lock (n r : string) : M W unit :=
  call (LockByName n r) (λ w, (tt, locks_ByName meta n r w)).

Definition locks_defer_unlock (n r : string) : M W unit :=
  defer (UnlockByName n r) (locks_UnlockByName meta n r).

Definition parseManagedDiskID (s : string) : M W ManagedDiskId :=
  match ParseManagedDiskID meta s with
  | inl id => mret id
  | inr err => fail err
  end.

(** ** Read (lines 838-955) *)

(** Lines 876-947: the [d.Set] calls for [model.Properties].  A panic ends
    the process, so the calls made before it are not kept.  [d.Set] itself
    does not fail on a value of the key's type, so the error test of line
    920 is left out. *)
Definition flattenDiskProperties (props : DiskProperties.t) (c : Config)
  : Result Config :=
  let creationData := DiskProperties.CreationData props in
  let c := c ▹ with_create_option (CreationData.CreateOption creationData) in
  let c :=
    match CreationData.LogicalSectorSize creationData with
    | Some v => c ▹ with_logical_sector_size v
    | None => c
    end in
  let '(galleryImageReferenceId, imageReferenceId) :=
    match CreationData.GalleryImageReference creationData with
    | Some {| ImageDiskReference.Id := Some v |} => (v, "")
    | _ =>
        match CreationData.ImageReference creationData with
        | Some {| ImageDiskReference.Id := Some v |} => ("", v)
        | _ => ("", "")
        end
    end in
  let c := c
    ▹ with_gallery_image_reference_id galleryImageReferenceId
    ▹ with_image_reference_id imageReferenceId
    ▹ with_performance_plus_enabled
        (pointer_From (CreationData.PerformancePlus creationData))
    ▹ with_source_resource_id
        (pointer_From (CreationData.SourceResourceId creationData))
    ▹ with_source_uri (pointer_From (CreationData.SourceUri creationData))
    ▹ with_storage_account_id
        (pointer_From (CreationData.StorageAccountId creationData))
    ▹ with_upload_size_bytes
        (pointer_From (CreationData.UploadSizeBytes creationData))
    ▹ with_disk_size_gb (pointer_From (DiskProperties.DiskSizeGB props))
    ▹ with_disk_iops_read_write
        (pointer_From (DiskProperties.DiskIOPSReadWrite props))
    ▹ with_disk_mbps_read_write
        (pointer_From (DiskProperties.DiskMBpsReadWrite props))
    ▹ with_disk_iops_read_only
        (pointer_From (DiskProperties.DiskIOPSReadOnly props))
    ▹ with_disk_mbps_read_only
        (pointer_From (DiskProperties.DiskMBpsReadOnly props))
    ▹ with_optimized_frequent_attach_enabled
        (pointer_From (DiskProperties.OptimizedForFrequentAttach props))
    ▹ with_os_type (pointer_From (DiskProperties.OsType props))
    ▹ with_tier (pointer_From (DiskProperties.Tier props))
    ▹ with_max_shares (pointer_From (DiskProperties.MaxShares props))
    ▹ with_hyper_v_generation
        (pointer_From (DiskProperties.HyperVGeneration props))
    ▹ with_network_access_policy
        (pointer_From (DiskProperties.NetworkAccessPolicy props))
    ▹ with_disk_access_id (pointer_From (DiskProperties.DiskAccessId props)) in
  publicNetworkAccess ←
    match DiskProperties.PublicNetworkAccess props with
    | Some v => Ok v
    | None => Panic "props.PublicNetworkAccess"
    end;
  let c := c ▹ with_public_network_access_enabled
                 (bool_decide (publicNetworkAccess = PublicNetworkAccessEnabled)) in
  let diskEncryptionSetId :=
    match DiskProperties.Encryption props with
    | Some {| Encryption.DiskEncryptionSetId := Some v |} => v
    | _ => ""
    end in
  let c := c
    ▹ with_disk_encryption_set_id diskEncryptionSetId
    ▹ with_encryption_settings
        (flattenManagedDiskEncryptionSettings meta
           (DiskProperties.EncryptionSettingsCollection props)) in
  '(trustedLaunchEnabled, securityType, secureVMDiskEncryptionSetId) ←
    match DiskProperties.SecurityProfile props with
    | Some securityProfile =>
        match DiskSecurityProfile.SecurityType securityProfile with
        | None => Panic "securityProfile.SecurityType"
        | Some t =>
            let secureId :=
              pointer_From
                (DiskSecurityProfile.SecureVMDiskEncryptionSetId securityProfile) in
            if bool_decide (t = DiskSecurityTypesTrustedLaunch)
            then Ok (true, "", secureId)
            else Ok (false, t, secureId)
        end
    | None => Ok (false, "", "")
    end;
  let onDemandBurstingEnabled :=
    match DiskProperties.BurstingEnabled props with
    | Some b => b
    | None => false
    end in
  Ok (c ▹ with_trusted_launch_enabled trustedLaunchEnabled
        ▹ with_security_type securityType
        ▹ with_secure_vm_disk_encryption_set_id secureVMDiskEncryptionSetId
        ▹ with_on_demand_bursting_enabled onDemandBurstingEnabled).

(** Lines 862-874: the [d.Set] calls for the top of the model. *)
Definition flattenDisk (model : Disk.t) (c : Config) : Result Config :=
  let c := c
    ▹ with_location (NormalizeNilable meta (Some (Disk.Location model)))
    ▹ with_edge_zone
        (flattenManagedDiskEdgeZone meta (Disk.ExtendedLocation model)) in
  let zone' :=
    match Disk.Zones model with
    | Some (z :: _) => z
    | _ => ""
    end in
  let c := c ▹ with_zone zone' in
  match Disk.Sku model with
  | Some sku =>
      match DiskSku.Name sku with
      | Some n => Ok (c ▹ with_storage_account_type n)
      | None => Panic "sku.Name"
      end
  | None => Ok c
  end.

(** Lines 858-859. *)
Definition setNames (id : ManagedDiskId) (c : Config) : Config :=
  c ▹ with_name (DiskName id)
    ▹ with_resource_group_name (ResourceGroupName id).

Definition resourceManagedDiskRead : M W unit := func (
  d ← get_d;
  id ← parseManagedDiskID (rd_Id d);
  '(resp, err) ← client_Get id;
  match err with
  | Some err =>
      if WasNotFound (HttpResponse resp)
      then modify_d (SetId "")
      else fail (Wrapf
        "making Read request on Azure Managed Disk %s (resource group %s): %s"
        [DiskName id; ResourceGroupName id] err)
  | None =>
      modify_d (λ d, SetConfig (setNames id (rd_config d)) d);;
      match Model resp with
      | Some model =>
          d ← get_d;
          c ← pure (flattenDisk model (rd_config d));
          c ← match Disk.Properties model with
              | Some props => pure (flattenDiskProperties props c)
              | None => mret c
              end;
          modify_d (SetConfig c);;
          d ← get_d;
          match tags_FlattenAndSet meta d (Disk.Tags model) with
          | inl d' => modify_d (λ _, d')
          | inr err => fail err
          end
      | None => mret tt
      end;;
      d ← get_d;
      match SetResourceIdentityData meta d id with
      | Some err => fail err
      | None => mret tt
      end
  end).

(** ** Update (lines 601-836) *)

(** The local variables of [resourceManagedDiskUpdate] that the field
    rules assign. *)
Record UpdateLocals := {
  diskUpdate : DiskUpdate.t;
  shouldShutDown : bool;
  shouldDetach : bool
}.

Definition set_diskUpdate (v : DiskUpdate.t) (l : UpdateLocals) : UpdateLocals :=
  {| diskUpdate := v; shouldShutDown := shouldShutDown l;
     shouldDetach := shouldDetach l |}.
Definition set_shouldShutDown (v : bool) (l : UpdateLocals) : UpdateLocals :=
  {| diskUpdate := diskUpdate l; shouldShutDown := v;
     shouldDetach := shouldDetach l |}.
Definition set_shouldDetach (v : bool) (l : UpdateLocals) : UpdateLocals :=
  {| diskUpdate := diskUpdate l; shouldShutDown := shouldShutDown l;
     shouldDetach := v |}.

(** [diskUpdate.Properties.X = v]. *)
Definition set_Properties
    (f : DiskUpdateProperties.t → DiskUpdateProperties.t) (l : UpdateLocals)
  : UpdateLocals :=
  set_diskUpdate
    (DiskUpdate.set_Properties (f (DiskUpdate.Properties (diskUpdate l)))
       (diskUpdate l)) l.

Definition Properties_of (l : UpdateLocals) : DiskUpdateProperties.t :=
  DiskUpdate.Properties (diskUpdate l).

(** Lines 633-635 and 616-617. *)
Definition update_locals_init : UpdateLocals :=
  {| diskUpdate :=
       DiskUpdate.mk
         (DiskUpdateProperties.mk None None None None None None None None None
            None None None None None None)
         None None;
     shouldShutDown := false;
     shouldDetach := false |}.

(** Lines 639-644 and 666-671: the loop over the possible SKU names. *)
Definition skuNameOf (storageAccountType : string) : string :=
  fold_left
    (λ skuName v, if EqualFold storageAccountType v then v else skuName)
    PossibleValuesForDiskStorageAccountTypes "".

Section UpdateRules.
Variable d : ResourceData.
Variable disk : GetOperationResponse.

(** Lines 637-648. *)
Definition update_max_shares (l : UpdateLocals) : M W UpdateLocals :=
  if HasChange d max_shares then
    let l := set_Properties
               (DiskUpdateProperties.set_MaxShares (Some (Get d max_shares))) l in
    let skuName := skuNameOf (Get d storage_account_type) in
    mret (set_diskUpdate
            (DiskUpdate.set_Sku (Some (DiskSku.mk (Some skuName))) (diskUpdate l))
            l)
  else mret l.

(** Lines 650-657. *)
Definition update_tier (l : UpdateLocals) : M W UpdateLocals :=
  if HasChange d tier then
    if bool_decide (Get d storage_account_type ≠ DiskStorageAccountTypesPremiumZRS)
       && bool_decide (Get d storage_account_type ≠ DiskStorageAccountTypesPremiumLRS)
    then fail (Errorf
      "`tier` can only be specified when `storage_account_type` is set to `Premium_LRS` or `Premium_ZRS`"
      [])
    else
      let l := set_shouldShutDown true l in
      mret (set_Properties (DiskUpdateProperties.set_Tier (Some (Get d tier))) l)
  else mret l.

(** Lines 659-662. *)
Definition update_tags (l : UpdateLocals) : M W UpdateLocals :=
  if HasChange d tags then
    mret (set_diskUpdate
            (DiskUpdate.set_Tags (tags_Expand (Get d tags)) (diskUpdate l)) l)
  else mret l.

(** Lines 664-675. *)
Definition update_storage_account_type (l : UpdateLocals) : M W UpdateLocals :=
  if HasChange d storage_account_type then
    let l := set_shouldShutDown true l in
    let skuName := skuNameOf (Get d storage_account_type) in
    mret (set_diskUpdate
            (DiskUpdate.set_Sku (Some (DiskSku.mk (Some skuName))) (diskUpdate l))
            l)
  else mret l.

(** Lines 677-709. *)
Definition update_disk_performance (l : UpdateLocals) : M W UpdateLocals :=
  if EqualFold (Get d storage_account_type) DiskStorageAccountTypesUltraSSDLRS
     || bool_decide (Get d storage_account_type = DiskStorageAccountTypesPremiumVTwoLRS)
  then
    let l :=
      if HasChange d disk_iops_read_write
      then set_Properties
             (DiskUpdateProperties.set_DiskIOPSReadWrite
                (Some (Get d disk_iops_read_write))) l
      else l in
    let l :=
      if HasChange d disk_mbps_read_write
      then set_Properties
             (DiskUpdateProperties.set_DiskMBpsReadWrite
                (Some (Get d disk_mbps_read_write))) l
      else l in
    l ← (if HasChange d disk_iops_read_only then
           if bool_decide (Get d max_shares = 0)
           then fail (Errorf
             "[ERROR] disk_iops_read_only is only available for UltraSSD disks with shared disk enabled"
             [])
           else mret (set_Properties
                        (DiskUpdateProperties.set_DiskIOPSReadOnly
                           (Some (Get d disk_iops_read_only))) l)
         else mret l);
    if HasChange d disk_mbps_read_only then
      if bool_decide (Get d max_shares = 0)
      then fail (Errorf
        "[ERROR] disk_mbps_read_only is only available for UltraSSD disks with shared disk enabled"
        [])
      else mret (set_Properties
                   (DiskUpdateProperties.set_DiskMBpsReadOnly
                      (Some (Get d disk_mbps_read_only))) l)
    else mret l
  else if HasChange d disk_iops_read_write || HasChange d disk_mbps_read_write
          || HasChange d disk_iops_read_only || HasChange d disk_mbps_read_only
  then fail (Errorf
    "[ERROR] disk_iops_read_write, disk_mbps_read_write, disk_iops_read_only and disk_mbps_read_only are only available for UltraSSD disks and PremiumV2 disks"
    [])
  else mret l.

(** Lines 711-713. *)
Definition update_optimized_frequent_attach_enabled (l : UpdateLocals)
  : M W UpdateLocals :=
  if HasChange d optimized_frequent_attach_enabled then
    mret (set_Properties
            (DiskUpdateProperties.set_OptimizedForFrequentAttach
               (Some (Get d optimized_frequent_attach_enabled))) l)
  else mret l.

(** Lines 715-718. *)
Definition update_os_type (l : UpdateLocals) : M W UpdateLocals :=
  if HasChange d os_type then
    mret (set_Properties
            (DiskUpdateProperties.set_OsType (Some (Get d os_type))) l)
  else mret l.

(** Lines 720-742. *)
Definition update_disk_size_gb (l : UpdateLocals) : M W UpdateLocals :=
  if HasChange d disk_size_gb then
    let '(oldSize, newSize) := GetChange d disk_size_gb in
    if bool_decide (newSize > oldSize) then
      '(canBeResizedWithoutDowntime, l) ←
        (if Features_ManagedDisk_ExpandWithoutDowntime meta then
           let l :=
             set_shouldDetach
               (determineIfDataDiskRequiresDetaching meta (Model disk)
                  oldSize newSize) l in
           let diskSupportsNoDowntimeResize :=
             determineIfDataDiskSupportsNoDowntimeResize meta (Model disk)
               (shouldDetach l) in
           r ← call
                 (CallDetermineIfVirtualMachineSupportsNoDowntimeResize
                    (Model disk))
                 (determineIfVirtualMachineSupportsNoDowntimeResize meta
                    (Model disk));
           match r with
           | inr err => fail (Wrapf
               "determining if the Virtual Machine the Disk is attached to supports no-downtime-resize: %+v"
               [] err)
           | inl vmSupportsNoDowntimeResize =>
               mret (vmSupportsNoDowntimeResize && diskSupportsNoDowntimeResize,
                     l)
           end
         else mret (false, l));
      let l :=
        if negb canBeResizedWithoutDowntime
        then set_shouldShutDown true l
        else l in
      mret (set_Properties
              (DiskUpdateProperties.set_DiskSizeGB (Some newSize)) l)
    else fail (Errorf
      "- New size must be greater than original size. Shrinking disks is not supported on Azure"
      [])
  else mret l.

(** Lines 744-746. *)
Definition update_encryption_settings (l : UpdateLocals) : M W UpdateLocals :=
  if HasChange d encryption_settings then
    mret (set_Properties
            (DiskUpdateProperties.set_EncryptionSettingsCollection
               (expandManagedDiskEncryptionSettings meta
                  (Get d encryption_settings))) l)
  else mret l.

(** Lines 748-763. *)
Definition update_disk_encryption_set_id (l : UpdateLocals)
  : M W UpdateLocals :=
  if HasChange d disk_encryption_set_id then
    let l := set_shouldShutDown true l in
    let diskEncryptionSetId := Get d disk_encryption_set_id in
    if bool_decide (diskEncryptionSetId ≠ "") then
      '(encryptionType, err) ←
        call (CallRetrieveDiskEncryptionSetEncryptionType diskEncryptionSetId)
             (retrieveDiskEncryptionSetEncryptionType meta diskEncryptionSetId);
      match err with
      | Some err => fail err
      | None =>
          mret (set_Properties
                  (DiskUpdateProperties.set_Encryption
                     (Some (Encryption.mk (Some diskEncryptionSetId)
                              encryptionType))) l)
      end
    else fail (Errorf
      "once a customer-managed key is used, you can’t change the selection back to a platform-managed key"
      [])
  else mret l.

(** Lines 765-767. *)
Definition update_network_access_policy (l : UpdateLocals)
  : M W UpdateLocals :=
  if HasChange d network_access_policy then
    mret (set_Properties
            (DiskUpdateProperties.set_NetworkAccessPolicy
               (Some (Get d network_access_policy))) l)
  else mret l.

(** Lines 769-778.  Both guards of the [switch] dereference
    [diskUpdate.Properties.NetworkAccessPolicy]; the first one is always
    evaluated. *)
Definition update_disk_access_id (l : UpdateLocals) : M W UpdateLocals :=
  let diskAccessID := Get d disk_access_id in
  if HasChange d disk_access_id then
    policy ← deref "diskUpdate.Properties.NetworkAccessPolicy"
                (DiskUpdateProperties.NetworkAccessPolicy (Properties_of l));
    if bool_decide (policy = NetworkAccessPolicyAllowPrivate) then
      mret (set_Properties
              (DiskUpdateProperties.set_DiskAccessId (Some diskAccessID)) l)
    else if bool_decide (diskAccessID ≠ "")
            && bool_decide (policy ≠ NetworkAccessPolicyAllowPrivate) then
      fail (Errorf
        "[ERROR] disk_access_id is only available when network_access_policy is set to AllowPrivate"
        [])
    else
      mret (set_Properties (DiskUpdateProperties.set_DiskAccessId None) l)
  else mret l.

(** Lines 780-788. *)
Definition update_public_network_access_enabled (l : UpdateLocals)
  : M W UpdateLocals :=
  if HasChange d public_network_access_enabled then
    if Get d public_network_access_enabled then
      mret (set_Properties
              (DiskUpdateProperties.set_PublicNetworkAccess
                 (Some PublicNetworkAccessEnabled)) l)
    else
      mret (set_Properties
              (DiskUpdateProperties.set_PublicNetworkAccess
                 (Some PublicNetworkAccessDisabled)) l)
  else mret l.

(** Lines 790-801. *)
Definition update_on_demand_bursting_check (l : UpdateLocals)
  : M W UpdateLocals :=
  if Get d on_demand_bursting_enabled then
    if bool_decide (Get d storage_account_type = DiskStorageAccountTypesPremiumLRS)
       || bool_decide (Get d storage_account_type = DiskStorageAccountTypesPremiumZRS)
    then
      if bool_decide (Get d disk_size_gb ≠ 0)
         && bool_decide (Get d disk_size_gb ≤ 512)
      then fail (Errorf
        "`on_demand_bursting_enabled` can only be set to true when `disk_size_gb` is larger than 512GB"
        [])
      else mret l
    else fail (Errorf
      "`on_demand_bursting_enabled` can only be set to true when `storage_account_type` is set to `Premium_LRS` or `Premium_ZRS`"
      [])
  else mret l.

(** Lines 803-806. *)
Definition update_on_demand_bursting_enabled (l : UpdateLocals)
  : M W UpdateLocals :=
  if HasChange d on_demand_bursting_enabled then
    let l := set_shouldShutDown true l in
    mret (set_Properties
            (DiskUpdateProperties.set_BurstingEnabled
               (Some (Get d on_demand_bursting_enabled))) l)
  else mret l.

(** Lines 637-806, in order. *)
Definition update_rules : list (UpdateLocals → M W UpdateLocals) :=
  [ update_max_shares;
    update_tier;
    update_tags;
    update_storage_account_type;
    update_disk_performance;
    update_optimized_frequent_attach_enabled;
    update_os_type;
    update_disk_size_gb;
    update_encryption_settings;
    update_disk_encryption_set_id;
    update_network_access_policy;
    update_disk_access_id;
    update_public_network_access_enabled;
    update_on_demand_bursting_check;
    update_on_demand_bursting_enabled ].

End UpdateRules.

(** Lines 808-811. *)
Definition update_attached (disk : GetOperationResponse) (l : UpdateLocals)
  : M W UpdateLocals :=
  if shouldShutDown l then
    model ← deref "disk.Model" (Model disk);
    if bool_decide (Disk.ManagedBy model = None)
    then mret (set_shouldShutDown false l)
    else mret l
  else mret l.

(** Lines 813-833. *)
Definition update_apply (d : ResourceData) (id : ManagedDiskId)
    (disk : GetOperationResponse) (l : UpdateLocals) : M W unit :=
  if shouldShutDown l then
    model ← deref "disk.Model" (Model disk);
    managedBy ← deref "disk.Model.ManagedBy" (Disk.ManagedBy model);
    match ParseVirtualMachineID meta managedBy with
    | inr err =>
        fail (Wrapf "parsing VMID %q for disk attachment: %+v" [managedBy] err)
    | inl virtualMachineId =>
        locks_lock (VirtualMachineName virtualMachineId)
                   (VirtualMachineResourceName meta);;
        locks_defer_unlock (VirtualMachineName virtualMachineId)
                           (VirtualMachineResourceName meta);;
        err ← call
                (CallUpdateWithVmShutDown id virtualMachineId (diskUpdate l)
                   (shouldDetach l))
                (resourceManagedDiskUpdateWithVmShutDown meta id
                   virtualMachineId (diskUpdate l) (shouldDetach l));
        match err with
        | Some err => fail err
        | None => mret tt
        end
    end
  else
    err ← client_UpdateThenPoll id (diskUpdate l);
    match err with
    | Some err =>
        fail (Wrapf "expanding managed disk %q (Resource Group %q): %+v"
                [Get d name; Get d resource_group_name] err)
    | None => mret tt
    end.

(** Lines 610-806: everything up to the point where the payload is
    complete. *)
Definition update_prepare (d : ResourceData)
  : M W (ManagedDiskId * GetOperationResponse * UpdateLocals) :=
  id ← parseManagedDiskID (rd_Id d);
  '(disk, err) ← client_Get id;
  match err with
  | Some err =>
      if WasNotFound (HttpResponse disk)
      then fail (Errorf "managed disk %q (Resource Group %q) was not found"
                   [Get d name; Get d resource_group_name])
      else fail (Wrapf
        "making Read request on Azure Managed Disk %q (Resource Group %q): %+v"
        [Get d name; Get d resource_group_name] err)
  | None => mret tt
  end;;
  l ← run_steps (update_rules d disk) update_locals_init;
  mret (id, disk, l).

Definition resourceManagedDiskUpdate : M W unit := func (
  d ← get_d;
  '(id, disk, l) ← update_prepare d;
  l ← update_attached disk l;
  update_apply d id disk l;;
  resourceManagedDiskRead).

(** ** Create (lines 319-599) *)

(** [props.CreationData.X = v]. *)
Definition set_CreationData (f : CreationData.t → CreationData.t)
    (props : DiskProperties.t) : DiskProperties.t :=
  DiskProperties.set_CreationData (f (DiskProperties.CreationData props)) props.

(** The [switch createOption] of lines 505-511 and 521-527. *)
Definition createOptionTakesSecurityProfile (createOption : string) : bool :=
  bool_decide (createOption = DiskCreateOptionFromImage)
  || bool_decide (createOption = DiskCreateOptionImport)
  || bool_decide (createOption = DiskCreateOptionImportSecure).

Section CreateRules.
Variable d : ResourceData.

(** Lines 354-364. *)
Definition create_props_init : DiskProperties.t :=
  {| DiskProperties.BurstingEnabled := None;
     DiskProperties.CreationData :=
       {| CreationData.CreateOption := Get d create_option;
          CreationData.GalleryImageReference := None;
          CreationData.ImageReference := None;
          CreationData.LogicalSectorSize := None;
          CreationData.PerformancePlus := Some (Get d performance_plus_enabled);
          CreationData.SourceResourceId := None;
          CreationData.SourceUri := None;
          CreationData.StorageAccountId := None;
          CreationData.UploadSizeBytes := None |};
     DiskProperties.DiskAccessId := None;
     DiskProperties.DiskIOPSReadOnly := None;
     DiskProperties.DiskIOPSReadWrite := None;
     DiskProperties.DiskMBpsReadOnly := None;
     DiskProperties.DiskMBpsReadWrite := None;
     DiskProperties.DiskSizeGB := None;
     DiskProperties.Encryption :=
       Some (Encryption.mk None
               (Some EncryptionTypeEncryptionAtRestWithPlatformKey));
     DiskProperties.EncryptionSettingsCollection := None;
     DiskProperties.HyperVGeneration := None;
     DiskProperties.MaxShares := None;
     DiskProperties.NetworkAccessPolicy := None;
     DiskProperties.OptimizedForFrequentAttach :=
       Some (Get d optimized_frequent_attach_enabled);
     DiskProperties.OsType := Some (Get d os_type);
     DiskProperties.PublicNetworkAccess := None;
     DiskProperties.SecurityProfile := None;
     DiskProperties.Tier := None |}.

(** Lines 366-369. *)
Definition create_disk_size_gb (props : DiskProperties.t)
  : M W DiskProperties.t :=
  if bool_decide (Get d disk_size_gb ≠ 0)
  then mret (DiskProperties.set_DiskSizeGB (Some (Get d disk_size_gb)) props)
  else mret props.

(** Lines 371-373. *)
Definition create_max_shares (props : DiskProperties.t)
  : M W DiskProperties.t :=
  if bool_decide (Get d max_shares ≠ 0)
  then mret (DiskProperties.set_MaxShares (Some (Get d max_shares)) props)
  else mret props.

(** Lines 375-409. *)
Definition create_disk_performance (props : DiskProperties.t)
  : M W DiskProperties.t :=
  if bool_decide (Get d storage_account_type = DiskStorageAccountTypesUltraSSDLRS)
     || bool_decide (Get d storage_account_type = DiskStorageAccountTypesPremiumVTwoLRS)
  then
    let props :=
      if HasChange d disk_iops_read_write
      then DiskProperties.set_DiskIOPSReadWrite
             (Some (Get d disk_iops_read_write)) props
      else props in
    let props :=
      if HasChange d disk_mbps_read_write
      then DiskProperties.set_DiskMBpsReadWrite
             (Some (Get d disk_mbps_read_write)) props
      else props in
    props ← (let '(v, ok) := GetOk d disk_iops_read_only in
             if ok then
               if bool_decide (Get d max_shares = 0)
               then fail (Errorf
                 "[ERROR] disk_iops_read_only is only available for UltraSSD disks and PremiumV2 disks with shared disk enabled"
                 [])
               else mret (DiskProperties.set_DiskIOPSReadOnly (Some v) props)
             else mret props);
    props ← (let '(v, ok) := GetOk d disk_mbps_read_only in
             if ok then
               if bool_decide (Get d max_shares = 0)
               then fail (Errorf
                 "[ERROR] disk_mbps_read_only is only available for UltraSSD disks and PremiumV2 disks with shared disk enabled"
                 [])
               else mret (DiskProperties.set_DiskMBpsReadOnly (Some v) props)
             else mret props);
    let '(v, ok) := GetOk d logical_sector_size in
    if ok
    then mret (set_CreationData (CreationData.set_LogicalSectorSize (Some v)) props)
    else mret props
  else if HasChange d disk_iops_read_write || HasChange d disk_mbps_read_write
          || HasChange d disk_iops_read_only || HasChange d disk_mbps_read_only
          || HasChange d logical_sector_size
  then fail (Errorf
    "[ERROR] disk_iops_read_write, disk_mbps_read_write, disk_iops_read_only, disk_mbps_read_only and logical_sector_size are only available for UltraSSD disks and PremiumV2 disks"
    [])
  else mret props.

(** Lines 411-424. *)
Definition create_import (props : DiskProperties.t) : M W DiskProperties.t :=
  if bool_decide (Get d create_option = DiskCreateOptionImport)
     || bool_decide (Get d create_option = DiskCreateOptionImportSecure)
  then
    let sourceUri := Get d source_uri in
    if bool_decide (sourceUri = "") then fail (Errorf
      "`source_uri` must be specified when `create_option` is set to `Import` or `ImportSecure`"
      [])
    else
      let storageAccountId := Get d storage_account_id in
      if bool_decide (storageAccountId = "") then fail (Errorf
        "`storage_account_id` must be specified when `create_option` is set to `Import` or `ImportSecure`"
        [])
      else
        let props :=
          set_CreationData
            (CreationData.set_StorageAccountId (Some storageAccountId)) props in
        mret (set_CreationData (CreationData.set_SourceUri (Some sourceUri)) props)
  else mret props.

(** Lines 425-432. *)
Definition create_copy (props : DiskProperties.t) : M W DiskProperties.t :=
  if bool_decide (Get d create_option = DiskCreateOptionCopy)
     || bool_decide (Get d create_option = DiskCreateOptionRestore)
  then
    let sourceResourceId := Get d source_resource_id in
    if bool_decide (sourceResourceId = "") then fail (Errorf
      "`source_resource_id` must be specified when `create_option` is set to `Copy` or `Restore`"
      [])
    else
      mret (set_CreationData
              (CreationData.set_SourceResourceId (Some sourceResourceId)) props)
  else mret props.

(** Lines 433-445. *)
Definition create_from_image (props : DiskProperties.t)
  : M W DiskProperties.t :=
  if bool_decide (Get d create_option = DiskCreateOptionFromImage) then
    if bool_decide (Get d image_reference_id ≠ "") then
      mret (set_CreationData
              (CreationData.set_ImageReference
                 (Some (ImageDiskReference.mk (Some (Get d image_reference_id)))))
              props)
    else if bool_decide (Get d gallery_image_reference_id ≠ "") then
      mret (set_CreationData
              (CreationData.set_GalleryImageReference
                 (Some (ImageDiskReference.mk
                          (Some (Get d gallery_image_reference_id)))))
              props)
    else fail (Errorf
      "`image_reference_id` or `gallery_image_reference_id` must be specified when `create_option` is set to `FromImage`"
      [])
  else mret props.

(** Lines 447-453. *)
Definition create_upload (props : DiskProperties.t) : M W DiskProperties.t :=
  if bool_decide (Get d create_option = DiskCreateOptionUpload) then
    if bool_decide (Get d upload_size_bytes ≠ 0) then
      mret (set_CreationData
              (CreationData.set_UploadSizeBytes (Some (Get d upload_size_bytes)))
              props)
    else fail (Errorf
      "`upload_size_bytes` must be specified when `create_option` is set to `Upload`"
      [])
  else mret props.

(** Lines 455-457. *)
Definition create_encryption_settings (props : DiskProperties.t)
  : M W DiskProperties.t :=
  let '(v, ok) := GetOk d encryption_settings in
  if ok
  then mret (DiskProperties.set_EncryptionSettingsCollection
               (expandManagedDiskEncryptionSettings meta v) props)
  else mret props.

(** Lines 459-469. *)
Definition create_disk_encryption_set_id (props : DiskProperties.t)
  : M W DiskProperties.t :=
  let diskEncryptionSetId := Get d disk_encryption_set_id in
  if bool_decide (diskEncryptionSetId ≠ "") then
    '(encryptionType, err) ←
      call (CallRetrieveDiskEncryptionSetEncryptionType diskEncryptionSetId)
           (retrieveDiskEncryptionSetEncryptionType meta diskEncryptionSetId);
    match err with
    | Some err => fail err
    | None =>
        mret (DiskProperties.set_Encryption
                (Some (Encryption.mk (Some diskEncryptionSetId) encryptionType))
                props)
    end
  else mret props.

(** Lines 471-482.  The policy pointer is assigned on line 471, just
    before the [switch] dereferences it. *)
Definition create_network_access (props : DiskProperties.t)
  : M W DiskProperties.t :=
  let props :=
    DiskProperties.set_NetworkAccessPolicy
      (Some (Get d network_access_policy)) props in
  let diskAccessID := Get d disk_access_id in
  if HasChange d disk_access_id then
    policy ← deref "props.NetworkAccessPolicy"
                (DiskProperties.NetworkAccessPolicy props);
    if bool_decide (policy = NetworkAccessPolicyAllowPrivate) then
      mret (DiskProperties.set_DiskAccessId (Some diskAccessID) props)
    else if bool_decide (diskAccessID ≠ "")
            && bool_decide (policy ≠ NetworkAccessPolicyAllowPrivate) then
      fail (Errorf
        "[ERROR] disk_access_id is only available when network_access_policy is set to AllowPrivate"
        [])
    else mret (DiskProperties.set_DiskAccessId None props)
  else mret props.

(** Lines 484-490. *)
Definition create_public_network_access (props : DiskProperties.t)
  : M W DiskProperties.t :=
  if Get d public_network_access_enabled
  then mret (DiskProperties.set_PublicNetworkAccess
               (Some PublicNetworkAccessEnabled) props)
  else mret (DiskProperties.set_PublicNetworkAccess
               (Some PublicNetworkAccessDisabled) props).

(** Lines 492-497. *)
Definition create_tier (props : DiskProperties.t) : M W DiskProperties.t :=
  let tier' := Get d tier in
  if bool_decide (tier' ≠ "") then
    if bool_decide (Get d storage_account_type ≠ DiskStorageAccountTypesPremiumZRS)
       && bool_decide (Get d storage_account_type ≠ DiskStorageAccountTypesPremiumLRS)
    then fail (Errorf
      "`tier` can only be specified when `storage_account_type` is set to `Premium_LRS` or `Premium_ZRS`"
      [])
    else mret (DiskProperties.set_Tier (Some tier') props)
  else mret props.

(** Lines 499-512. *)
Definition create_trusted_launch (props : DiskProperties.t)
  : M W DiskProperties.t :=
  if Get d trusted_launch_enabled then
    let props :=
      DiskProperties.set_SecurityProfile
        (Some (DiskSecurityProfile.mk None (Some DiskSecurityTypesTrustedLaunch)))
        props in
    if createOptionTakesSecurityProfile (Get d create_option)
    then mret props
    else fail (Errorf
      "trusted_launch_enabled cannot be set to true with create_option %q. Supported Create Options when Trusted Launch is enabled are `FromImage`, `Import`, `ImportSecure`"
      [Get d create_option])
  else mret props.

(** Lines 514-537. *)
Definition create_security_type (props : DiskProperties.t)
  : M W DiskProperties.t :=
  let securityType := Get d security_type in
  let secureVMDiskEncryptionId := Get d secure_vm_disk_encryption_set_id in
  if bool_decide (securityType ≠ "") then
    if Get d trusted_launch_enabled then fail (Errorf
      "`security_type` cannot be specified when `trusted_launch_enabled` is set to `true`"
      [])
    else if negb (createOptionTakesSecurityProfile (Get d create_option))
    then fail (Errorf
      "`security_type` can only be specified when `create_option` is set to `FromImage`, `Import` or `ImportSecure`"
      [])
    else if bool_decide
              (DiskSecurityTypesConfidentialVMDiskEncryptedWithCustomerKey
               = securityType)
            && bool_decide (secureVMDiskEncryptionId = "")
    then fail (Errorf
      "`secure_vm_disk_encryption_set_id` must be specified when `security_type` is set to `ConfidentialVM_DiskEncryptedWithCustomerKey`"
      [])
    else
      mret (DiskProperties.set_SecurityProfile
              (Some (DiskSecurityProfile.mk None (Some securityType))) props)
  else mret props.

(** Lines 539-544. *)
Definition create_secure_vm_disk_encryption_set_id (props : DiskProperties.t)
  : M W DiskProperties.t :=
  let securityType := Get d security_type in
  let secureVMDiskEncryptionId := Get d secure_vm_disk_encryption_set_id in
  if bool_decide (secureVMDiskEncryptionId ≠ "") then
    if bool_decide
         (DiskSecurityTypesConfidentialVMDiskEncryptedWithCustomerKey
          ≠ securityType)
    then fail (Errorf
      "`secure_vm_disk_encryption_set_id` can only be specified when `security_type` is set to `ConfidentialVM_DiskEncryptedWithCustomerKey`"
      [])
    else
      securityProfile ← deref "props.SecurityProfile"
                           (DiskProperties.SecurityProfile props);
      mret (DiskProperties.set_SecurityProfile
              (Some (DiskSecurityProfile.set_SecureVMDiskEncryptionSetId
                       (Some secureVMDiskEncryptionId) securityProfile))
              props)
  else mret props.

(** Lines 546-559. *)
Definition create_on_demand_bursting_enabled (props : DiskProperties.t)
  : M W DiskProperties.t :=
  if Get d on_demand_bursting_enabled then
    if bool_decide (Get d storage_account_type = DiskStorageAccountTypesPremiumLRS)
       || bool_decide (Get d storage_account_type = DiskStorageAccountTypesPremiumZRS)
    then
      if bool_decide (Get d disk_size_gb ≠ 0)
         && bool_decide (Get d disk_size_gb ≤ 512)
      then fail (Errorf
        "`on_demand_bursting_enabled` can only be set to true when `disk_size_gb` is larger than 512GB"
        [])
      else mret (DiskProperties.set_BurstingEnabled (Some true) props)
    else fail (Errorf
      "`on_demand_bursting_enabled` can only be set to true when `storage_account_type` is set to `Premium_LRS` or `Premium_ZRS`"
      [])
  else mret props.

(** Lines 561-564. *)
Definition create_hyper_v_generation (props : DiskProperties.t)
  : M W DiskProperties.t :=
  let '(v, ok) := GetOk d hyper_v_generation in
  if ok
  then mret (DiskProperties.set_HyperVGeneration (Some v) props)
  else mret props.

(** Lines 366-564, in order. *)
Definition create_rules : list (DiskProperties.t → M W DiskProperties.t) :=
  [ create_disk_size_gb;
    create_max_shares;
    create_disk_performance;
    create_import;
    create_copy;
    create_from_image;
    create_upload;
    create_encryption_settings;
    create_disk_encryption_set_id;
    create_network_access;
    create_public_network_access;
    create_tier;
    create_trusted_launch;
    create_security_type;
    create_secure_vm_disk_encryption_set_id;
    create_on_demand_bursting_enabled;
    create_hyper_v_generation ].

(** Lines 566-581. *)
Definition create_disk (props : DiskProperties.t) : Disk.t :=
  let createDisk :=
    {| Disk.ExtendedLocation := expandManagedDiskEdgeZone meta (Get d edge_zone);
       Disk.Location := NormalizeLocation meta (Get d location);
       Disk.ManagedBy := None;
       Disk.Name := Some (Get d name);
       Disk.Properties := Some props;
       Disk.Sku := Some (DiskSku.mk (Some (Get d storage_account_type)));
       Disk.Tags := tags_Expand (Get d tags);
       Disk.Zones := None |} in
  let '(zone', ok) := GetOk d zone in
  if ok then Disk.set_Zones (Some [zone']) createDisk else createDisk.

(** Lines 331-342. *)
Definition create_check_existing (id : ManagedDiskId) : M W unit :=
  if rd_IsNewResource d then
    '(existing, err) ← client_Get id;
    match err with
    | Some err =>
        if negb (WasNotFound (HttpResponse existing))
        then fail (Wrapf
          "checking for presence of existing Managed Disk %q (Resource Group %q): %s"
          [Get d name; Get d resource_group_name] err)
        else mret tt
    | None => mret tt
    end;;
    if negb (WasNotFound (HttpResponse existing))
    then fail (ImportAsExistsError meta "azurerm_managed_disk"
                 (ManagedDiskId_ID meta id))
    else mret tt
  else mret tt.

(** Lines 320-581: everything up to the point where the payload is
    complete. *)
Definition create_prepare : M W (ManagedDiskId * Disk.t) :=
  let id := NewManagedDiskID (Account_SubscriptionId meta)
              (Get d resource_group_name) (Get d name) in
  create_check_existing id;;
  props ← run_steps create_rules create_props_init;
  mret (id, create_disk props).

(** Lines 583-596. *)
Definition create_submit (id : ManagedDiskId) (createDisk : Disk.t)
  : M W unit :=
  err ← client_CreateOrUpdateThenPoll id createDisk;
  match err with
  | Some err => fail (Wrapf
      "creating/updating Managed Disk %q (Resource Group %q): %+v"
      [Get d name; Get d resource_group_name] err)
  | None => mret tt
  end;;
  '(read, err) ← client_Get id;
  match err with
  | Some err => fail (Wrapf
      "retrieving Managed Disk %q (Resource Group %q): %+v"
      [Get d name; Get d resource_group_name] err)
  | None => mret tt
  end;;
  match Model read with
  | None => fail (Errorf
      "reading Managed Disk %s (Resource Group %q): ID was nil"
      [Get d name; Get d resource_group_name])
  | Some _ => mret tt
  end;;
  modify_d (SetId (ManagedDiskId_ID meta id)).

End CreateRules.

Definition resourceManagedDiskCreate : M W unit := func (
  d ← get_d;
  '(id, createDisk) ← create_prepare d;
  create_submit d id createDisk;;
  resourceManagedDiskRead).

(** ** Delete (lines 957-973) *)

Definition resourceManagedDiskDelete : M W unit := func (
  d ← get_d;
  id ← parseManagedDiskID (rd_Id d);
  err ← client_DeleteThenPoll id;
  match err with
  | Some err => fail (Wrapf
      "deleting Managed Disk %q (Resource Group %q): %+v"
      [DiskName id; ResourceGroupName id] err)
  | None => mret tt
  end).

End Callbacks.

(** * The resource definition (lines 37-317) *)

(** ** The plugin SDK's schema types, as far as the file sets them *)

Inductive ValueType := TypeString | TypeInt | TypeBool | TypeList | TypeMap.

Inductive SchemaValidateFunc :=
| StringInSlice (valid : list string) (ignoreCase : bool)
| IntInSlice (valid : list Z)
| IntAtLeast (min : Z)
| IntBetween (min max : Z)
| ValidateStorageAccountID
| SharedImageVersionID
| ManagedDiskSizeGB
| DiskEncryptionSetID
| ValidateDiskAccessID.

Inductive SchemaDiffSuppressFunc := CaseDifference.

Inductive SchemaDefault := DefaultBool (b : bool) | DefaultString (s : string).

Record Schema := {
  Type_ : ValueType;
  Required : bool;
  Optional : bool;
  Computed : bool;
  ForceNew : bool;
  Default : option SchemaDefault;
  ValidateFunc : option SchemaValidateFunc;
  DiffSuppressFunc : option SchemaDiffSuppressFunc;
  ConflictsWith : list string
}.

(** A schema literal lists only the members it sets; the others keep their
    zero value. *)
Definition schema (ty : ValueType) : Schema :=
  {| Type_ := ty; Required := false; Optional := false; Computed := false;
     ForceNew := false; Default := None; ValidateFunc := None;
     DiffSuppressFunc := None; ConflictsWith := [] |}.
Definition required (s : Schema) : Schema :=
  {| Type_ := Type_ s; Required := true; Optional := Optional s;
     Computed := Computed s; ForceNew := ForceNew s; Default := Default s;
     ValidateFunc := ValidateFunc s; DiffSuppressFunc := DiffSuppressFunc s;
     ConflictsWith := ConflictsWith s |}.
Definition optional (s : Schema) : Schema :=
  {| Type_ := Type_ s; Required := Required s; Optional := true;
     Computed := Computed s; ForceNew := ForceNew s; Default := Default s;
     ValidateFunc := ValidateFunc s; DiffSuppressFunc := DiffSuppressFunc s;
     ConflictsWith := ConflictsWith s |}.
Definition computed (s : Schema) : Schema :=
  {| Type_ := Type_ s; Required := Required s; Optional := Optional s;
     Computed := true; ForceNew := ForceNew s; Default := Default s;
     ValidateFunc := ValidateFunc s; DiffSuppressFunc := DiffSuppressFunc s;
     ConflictsWith := ConflictsWith s |}.
Definition forceNew (s : Schema) : Schema :=
  {| Type_ := Type_ s; Required := Required s; Optional := Optional s;
     Computed := Computed s; ForceNew := true; Default := Default s;
     ValidateFunc := ValidateFunc s; DiffSuppressFunc := DiffSuppressFunc s;
     ConflictsWith := ConflictsWith s |}.
Definition default (v : SchemaDefault) (s : Schema) : Schema :=
  {| Type_ := Type_ s; Required := Required s; Optional := Optional s;
     Computed := Computed s; ForceNew := ForceNew s; Default := Some v;
     ValidateFunc := ValidateFunc s; DiffSuppressFunc := DiffSuppressFunc s;
     ConflictsWith := ConflictsWith s |}.
Definition validateFunc (v : SchemaValidateFunc) (s : Schema) : Schema :=
  {| Type_ := Type_ s; Required := Required s; Optional := Optional s;
     Computed := Computed s; ForceNew := ForceNew s; Default := Default s;
     ValidateFunc := Some v; DiffSuppressFunc := DiffSuppressFunc s;
     ConflictsWith := ConflictsWith s |}.
Definition diffSuppressFunc (v : SchemaDiffSuppressFunc) (s : Schema) : Schema :=
  {| Type_ := Type_ s; Required := Required s; Optional := Optional s;
     Computed := Computed s; ForceNew := ForceNew s; Default := Default s;
     ValidateFunc := ValidateFunc s; DiffSuppressFunc := Some v;
     ConflictsWith := ConflictsWith s |}.
Definition conflictsWith (v : list string) (s : Schema) : Schema :=
  {| Type_ := Type_ s; Required := Required s; Optional := Optional s;
     Computed := Computed s; ForceNew := ForceNew s; Default := Default s;
     ValidateFunc := ValidateFunc s; DiffSuppressFunc := DiffSuppressFunc s;
     ConflictsWith := v |}.

(** Schemas the file takes ready-made from [commonschema] and from another
    file of the package. *)
Inductive ImportedSchema :=
| commonschema_Location
| commonschema_ResourceGroupName
| commonschema_EdgeZoneOptionalForceNew
| commonschema_ZoneSingleOptionalForceNew
| commonschema_Tags
| encryptionSettingsSchema.

Inductive SchemaEntry :=
| Inline (s : Schema)
| Imported (f : ImportedSchema).

Definition entry_schema (lib : ImportedSchema → Schema) (e : SchemaEntry)
  : Schema :=
  match e with
  | Inline s => s
  | Imported f => lib f
  end.

(** Lines 62-308. *)
Definition resourceManagedDisk_Schema : list (string * SchemaEntry) :=
  [ ("name", Inline (schema TypeString ▹ required ▹ forceNew));
    ("location", Imported commonschema_Location);
    ("resource_group_name", Imported commonschema_ResourceGroupName);
    ("storage_account_type",
      Inline (schema TypeString ▹ required
        ▹ validateFunc (StringInSlice
            [ DiskStorageAccountTypesStandardLRS;
              DiskStorageAccountTypesStandardSSDZRS;
              DiskStorageAccountTypesPremiumLRS;
              DiskStorageAccountTypesPremiumVTwoLRS;
              DiskStorageAccountTypesPremiumZRS;
              DiskStorageAccountTypesStandardSSDLRS;
              DiskStorageAccountTypesUltraSSDLRS ] false)
        ▹ diffSuppressFunc CaseDifference));
    ("create_option",
      Inline (schema TypeString ▹ required ▹ forceNew
        ▹ validateFunc (StringInSlice
            [ DiskCreateOptionCopy;
              DiskCreateOptionEmpty;
              DiskCreateOptionFromImage;
              DiskCreateOptionImport;
              DiskCreateOptionImportSecure;
              DiskCreateOptionRestore;
              DiskCreateOptionUpload ] false)));
    ("edge_zone", Imported commonschema_EdgeZoneOptionalForceNew);
    ("logical_sector_size",
      Inline (schema TypeInt ▹ optional ▹ forceNew
        ▹ validateFunc (IntInSlice [512; 4096]) ▹ computed));
    ("optimized_frequent_attach_enabled",
      Inline (schema TypeBool ▹ optional ▹ default (DefaultBool false)));
    ("performance_plus_enabled",
      Inline (schema TypeBool ▹ optional ▹ forceNew
        ▹ default (DefaultBool false)));
    ("source_uri",
      Inline (schema TypeString ▹ optional ▹ computed ▹ forceNew));
    ("source_resource_id",
      Inline (schema TypeString ▹ optional ▹ forceNew));
    ("storage_account_id",
      Inline (schema TypeString ▹ optional ▹ forceNew
        ▹ validateFunc ValidateStorageAccountID));
    ("image_reference_id",
      Inline (schema TypeString ▹ optional ▹ forceNew
        ▹ conflictsWith ["gallery_image_reference_id"]));
    ("gallery_image_reference_id",
      Inline (schema TypeString ▹ optional ▹ forceNew
        ▹ validateFunc SharedImageVersionID
        ▹ conflictsWith ["image_reference_id"]));
    ("os_type",
      Inline (schema TypeString ▹ optional
        ▹ validateFunc (StringInSlice
            [OperatingSystemTypesWindows; OperatingSystemTypesLinux] false)));
    ("disk_size_gb",
      Inline (schema TypeInt ▹ optional ▹ computed
        ▹ validateFunc ManagedDiskSizeGB));
    ("upload_size_bytes",
      Inline (schema TypeInt ▹ optional ▹ forceNew
        ▹ validateFunc (IntAtLeast 1)));
    ("disk_iops_read_write",
      Inline (schema TypeInt ▹ optional ▹ computed
        ▹ validateFunc (IntAtLeast 1)));
    ("disk_mbps_read_write",
      Inline (schema TypeInt ▹ optional ▹ computed
        ▹ validateFunc (IntAtLeast 1)));
    ("disk_iops_read_only",
      Inline (schema TypeInt ▹ optional ▹ computed
        ▹ validateFunc (IntAtLeast 1)));
    ("disk_mbps_read_only",
      Inline (schema TypeInt ▹ optional ▹ computed
        ▹ validateFunc (IntAtLeast 1)));
    ("disk_encryption_set_id",
      Inline (schema TypeString ▹ optional
        ▹ diffSuppressFunc CaseDifference
        ▹ validateFunc DiskEncryptionSetID
        ▹ conflictsWith ["secure_vm_disk_encryption_set_id"]));
    ("encryption_settings", Imported encryptionSettingsSchema);
    ("network_access_policy",
      Inline (schema TypeString ▹ optional
        ▹ default (DefaultString NetworkAccessPolicyAllowAll)
        ▹ validateFunc (StringInSlice
            [ NetworkAccessPolicyAllowAll;
              NetworkAccessPolicyAllowPrivate;
              NetworkAccessPolicyDenyAll ] false)));
    ("disk_access_id",
      Inline (schema TypeString ▹ optional
        ▹ diffSuppressFunc CaseDifference
        ▹ validateFunc ValidateDiskAccessID));
    ("public_network_access_enabled",
      Inline (schema TypeBool ▹ optional ▹ default (DefaultBool true)));
    ("tier", Inline (schema TypeString ▹ optional ▹ computed));
    ("max_shares",
      Inline (schema TypeInt ▹ optional ▹ computed
        ▹ validateFunc (IntBetween 2 10)));
    ("trusted_launch_enabled",
      Inline (schema TypeBool ▹ optional ▹ forceNew));
    ("secure_vm_disk_encryption_set_id",
      Inline (schema TypeString ▹ optional ▹ forceNew
        ▹ validateFunc DiskEncryptionSetID
        ▹ conflictsWith ["disk_encryption_set_id"]));
    ("security_type",
      Inline (schema TypeString ▹ optional ▹ forceNew
        ▹ validateFunc (StringInSlice
            [ DiskSecurityTypesConfidentialVMVMGuestStateOnlyEncryptedWithPlatformKey;
              DiskSecurityTypesConfidentialVMDiskEncryptedWithPlatformKey;
              DiskSecurityTypesConfidentialVMDiskEncryptedWithCustomerKey ]
            false)));
    ("hyper_v_generation",
      Inline (schema TypeString ▹ optional ▹ forceNew
        ▹ validateFunc (StringInSlice
            [HyperVGenerationVOne; HyperVGenerationVTwo] false)));
    ("on_demand_bursting_enabled", Inline (schema TypeBool ▹ optional));
    ("zone", Imported commonschema_ZoneSingleOptionalForceNew);
    ("tags", Imported commonschema_Tags) ].

(** ** The resource *)

(** The resource ID types of [commonids] the file hands to the SDK. *)
Inductive ResourceIdType := ManagedDiskId_type.

(** [pluginsdk.ImporterValidatingIdentity(id)]. *)
Inductive ResourceImporter := ImporterValidatingIdentity (id : ResourceIdType).

(** [pluginsdk.GenerateIdentitySchema(id)]. *)
Inductive IdentitySchemaFunc := GenerateIdentitySchema (id : ResourceIdType).

Record ResourceIdentity := { SchemaFunc : IdentitySchemaFunc }.

(** The state migrations of package [migration]. *)
Inductive StateUpgrade := ManagedDiskV0ToV1.

(** Timeouts, in minutes. *)
Record ResourceTimeout := {
  timeout_Create : Z;
  timeout_Read : Z;
  timeout_Update : Z;
  timeout_Delete : Z
}.

(** [pluginsdk.ForceNewIfChange(key, f)]; the only key the file uses it on
    is a list of blocks. *)
Inductive CustomizeDiffFunc :=
| ForceNewIfChange (key : string) (f : list RawBlock → list RawBlock → bool).

(** [pluginsdk.Resource].  [StateUpgraders] holds the map given to
    [pluginsdk.StateUpgrades]: the schema version a state is at, and the
    migration that lifts it to the next. *)
Record Resource (W : Type) := {
  Create : option (Deps W → M W unit);
  Read : option (Deps W → M W unit);
  Update : option (Deps W → M W unit);
  Delete : option (Deps W → M W unit);
  SchemaVersion : Z;
  StateUpgraders : gmap Z StateUpgrade;
  Importer : option ResourceImporter;
  Identity : option ResourceIdentity;
  Timeouts : option ResourceTimeout;
  Schema_ : list (string * SchemaEntry);
  CustomizeDiff : list CustomizeDiffFunc
}.
Arguments Create {W} _.
Arguments Read {W} _.
Arguments Update {W} _.
Arguments Delete {W} _.
Arguments SchemaVersion {W} _.
Arguments StateUpgraders {W} _.
Arguments Importer {W} _.
Arguments Identity {W} _.
Arguments Timeouts {W} _.
Arguments Schema_ {W} _.
Arguments CustomizeDiff {W} _.

(** Lines 37-317. *)
Definition resourceManagedDisk (W : Type) : Resource W :=
  {| Create := Some resourceManagedDiskCreate;
     Read := Some resourceManagedDiskRead;
     Update := Some resourceManagedDiskUpdate;
     Delete := Some resourceManagedDiskDelete;
     SchemaVersion := 1;
     StateUpgraders := {[ 0 := ManagedDiskV0ToV1 ]};
     Importer := Some (ImporterValidatingIdentity ManagedDiskId_type);
     Identity :=
       Some {| SchemaFunc := GenerateIdentitySchema ManagedDiskId_type |};
     Timeouts :=
       Some {| timeout_Create := 30; timeout_Read := 5;
               timeout_Update := 30; timeout_Delete := 30 |};
     Schema_ := resourceManagedDisk_Schema;
     CustomizeDiff :=
       [ ForceNewIfChange "encryption_settings"
           (λ old new,
              bool_decide (0 < length old)%nat
              && bool_decide (length new = 0%nat)) ] |}.

(** ** Planning: in-place update or replacement *)

(** [d.HasChange(key)], by the name of the key. *)
Definition HasChangeKey (d : ResourceData) (key : string) : bool :=
  match key with
  | "name" => HasChange d name
  | "location" => HasChange d location
  | "resource_group_name" => HasChange d resource_group_name
  | "storage_account_type" => HasChange d storage_account_type
  | "create_option" => HasChange d create_option
  | "edge_zone" => HasChange d edge_zone
  | "logical_sector_size" => HasChange d logical_sector_size
  | "optimized_frequent_attach_enabled" =>
      HasChange d optimized_frequent_attach_enabled
  | "performance_plus_enabled" => HasChange d performance_plus_enabled
  | "source_uri" => HasChange d source_uri
  | "source_resource_id" => HasChange d source_resource_id
  | "storage_account_id" => HasChange d storage_account_id
  | "image_reference_id" => HasChange d image_reference_id
  | "gallery_image_reference_id" => HasChange d gallery_image_reference_id
  | "os_type" => HasChange d os_type
  | "disk_size_gb" => HasChange d disk_size_gb
  | "upload_size_bytes" => HasChange d upload_size_bytes
  | "disk_iops_read_write" => HasChange d disk_iops_read_write
  | "disk_mbps_read_write" => HasChange d disk_mbps_read_write
  | "disk_iops_read_only" => HasChange d disk_iops_read_only
  | "disk_mbps_read_only" => HasChange d disk_mbps_read_only
  | "disk_encryption_set_id" => HasChange d disk_encryption_set_id
  | "encryption_settings" => HasChange d encryption_settings
  | "network_access_policy" => HasChange d network_access_policy
  | "disk_access_id" => HasChange d disk_access_id
  | "public_network_access_enabled" =>
      HasChange d public_network_access_enabled
  | "tier" => HasChange d tier
  | "max_shares" => HasChange d max_shares
  | "trusted_launch_enabled" => HasChange d trusted_launch_enabled
  | "secure_vm_disk_encryption_set_id" =>
      HasChange d secure_vm_disk_encryption_set_id
  | "security_type" => HasChange d security_type
  | "hyper_v_generation" => HasChange d hyper_v_generation
  | "on_demand_bursting_enabled" => HasChange d on_demand_bursting_enabled
  | "zone" => HasChange d zone
  | "tags" => HasChange d tags
  | _ => false
  end.

(** Modelled from the spec: [pluginsdk.ForceNewIfChange] is not part of
    the file.  By its name and the comment of line 310, it asks for a
    replacement when its key has changed and its predicate holds of the
    old and the new value. *)
Definition customizeDiffForcesNew (d : ResourceData) (f : CustomizeDiffFunc)
  : bool :=
  match f with
  | ForceNewIfChange key f =>
      HasChangeKey d key
      && bool_decide (key = "encryption_settings")
      && f (encryption_settings (rd_state d)) (encryption_settings (rd_config d))
  end.

(** Modelled from the spec: the planner of the plugin SDK is not part of
    the file.  The glossary has it that [ForceNew] is the "schema
    attribute indicating a change requires resource replacement rather
    than in-place update". *)
Definition RequiresNew {W} (lib : ImportedSchema → Schema) (r : Resource W)
    (d : ResourceData) : bool :=
  existsb (λ '(key, e), ForceNew (entry_schema lib e) && HasChangeKey d key)
    (Schema_ r)
  || existsb (customizeDiffForcesNew d) (CustomizeDiff r).

(** The schema of a key. *)
Definition schema_of (lib : ImportedSchema → Schema)
    (sch : list (string * SchemaEntry)) (key : string) : option Schema :=
  (λ ke, entry_schema lib ke.2) <$> List.find (λ ke, String.eqb ke.1 key) sch.

(** The keys the file marks [ForceNew], directly or through
    [commonschema]. *)
Definition force_new_keys : list string :=
  [ "name"; "create_option"; "edge_zone"; "logical_sector_size";
    "performance_plus_enabled"; "source_uri"; "source_resource_id";
    "storage_account_id"; "image_reference_id"; "gallery_image_reference_id";
    "upload_size_bytes"; "trusted_launch_enabled";
    "secure_vm_disk_encryption_set_id"; "security_type";
    "hyper_v_generation"; "zone" ].

(** [c], with every key of [force_new_keys] at its zero value. *)
Definition erase_force_new (c : Config) : Config :=
  c ▹ with_name "" ▹ with_create_option "" ▹ with_edge_zone ""
    ▹ with_logical_sector_size 0 ▹ with_performance_plus_enabled false
    ▹ with_source_uri "" ▹ with_source_resource_id ""
    ▹ with_storage_account_id "" ▹ with_image_reference_id ""
    ▹ with_gallery_image_reference_id "" ▹ with_upload_size_bytes 0
    ▹ with_trusted_launch_enabled false
    ▹ with_secure_vm_disk_encryption_set_id "" ▹ with_security_type ""
    ▹ with_hyper_v_generation "" ▹ with_zone "".

(** Two plans for the same resource that differ at most in the keys of
    [force_new_keys]. *)
Definition same_updatable (d d' : ResourceData) : Prop :=
  rd_Id d = rd_Id d'
  ∧ erase_force_new (rd_state d) = erase_force_new (rd_state d')
  ∧ erase_force_new (rd_config d) = erase_force_new (rd_config d').

Arguments update_rules : simpl never.
Arguments create_rules : simpl never.

(** * Properties of callbacks *)


(** A callback as the plugin SDK runs it: on a fresh log, with nothing
    deferred. *)
Definition run {W A} (m : M W A) (w : W) (d : ResourceData)
  : Result A * St W :=
  m (mkSt w [] d []).

(** [m] only appends events that satisfy [P], and only defers calls
    whose event satisfies [D]. *)
Definition emits {W} (P D : Event → Prop) {A} (m : M W A) : Prop :=
  ∀ s, ∃ evs dfs,
    trace (m s).2 = trace s ++ evs ∧ Forall P evs
    ∧ deferred (m s).2 = dfs ++ deferred s ∧ Forall D dfs.*1.

(** No event: what a computation that defers nothing defers. *)
Definition no_event (e : Event) : Prop := False.

Definition never_panics {W A} (m : M W A) : Prop :=
  ∀ s, is_Panic (m s).1 = false.

Definition always_errs {W A} (m : M W A) : Prop :=
  ∀ s, is_Err (m s).1 = true.

(** Partial correctness: when [m] returns a value, the value satisfies
    [Q]. *)
Definition post {W A} (m : M W A) (Q : A → Prop) : Prop :=
  ∀ s a s', m s = (Ok a, s') → Q a.

(** Two states that an observer outside the provider cannot tell apart:
    the same world, the same calls made and deferred, the same resource
    ID. *)
Definition same_outside {W} (s s' : St W) : Prop :=
  world s = world s' ∧ trace s = trace s' ∧ deferred s = deferred s'
  ∧ rd_Id (rd s) = rd_Id (rd s').

(** The same outcome, up to the text of an error or a panic. *)
Definition same_result {A} (r r' : Result A) : Prop :=
  match r, r' with
  | Ok a, Ok a' => a = a'
  | Err _, Err _ => True
  | Panic _, Panic _ => True
  | _, _ => False
  end.

(** [m] and [m'] behave alike towards the outside. *)
Definition sim {W A} (m m' : M W A) : Prop :=
  ∀ s s', same_outside s s' →
    same_result (m s).1 (m' s').1 ∧ same_outside (m s).2 (m' s').2.

(** [m] and [m'] make and defer the same calls. *)
Definition sim_calls {W A} (m m' : M W A) : Prop :=
  ∀ s s', same_outside s s' →
    trace (m s).2 = trace (m' s').2 ∧ deferred (m s).2 = deferred (m' s').2.

(** [m] leaves the resource data as it is. *)
Definition keeps_d {W A} (m : M W A) : Prop :=
  ∀ s, rd (m s).2 = rd s.

Definition reads_only (e : Event) : Prop := is_read e = true.

(** Whatever PATCH body [e] carries, it is [p0]. *)
Definition carries (p0 : DiskUpdate.t) (e : Event) : Prop :=
  ∀ p, update_payload e = Some p → p = p0.

(** Whatever PUT body [e] carries, it is [p0]. *)
Definition carries_disk (p0 : Disk.t) (e : Event) : Prop :=
  ∀ p, create_payload e = Some p → p = p0.

Definition no_write (e : Event) : Prop := is_write e = false.

(** The members of a PATCH body that are set only when their key has
    changed; [Sku] is also set when [max_shares] has. *)
Definition only_changed (d : ResourceData) (p : DiskUpdate.t) : Prop :=
  let props := DiskUpdate.Properties p in
  (HasChange d tags = false → DiskUpdate.Tags p = None)
  ∧ (HasChange d max_shares = false →
     DiskUpdateProperties.MaxShares props = None)
  ∧ (HasChange d tier = false → DiskUpdateProperties.Tier props = None)
  ∧ (HasChange d max_shares = false →
     HasChange d storage_account_type = false → DiskUpdate.Sku p = None)
  ∧ (HasChange d os_type = false → DiskUpdateProperties.OsType props = None)
  ∧ (HasChange d optimized_frequent_attach_enabled = false →
     DiskUpdateProperties.OptimizedForFrequentAttach props = None)
  ∧ (HasChange d encryption_settings = false →
     DiskUpdateProperties.EncryptionSettingsCollection props = None)
  ∧ (HasChange d network_access_policy = false →
     DiskUpdateProperties.NetworkAccessPolicy props = None)
  ∧ (HasChange d public_network_access_enabled = false →
     DiskUpdateProperties.PublicNetworkAccess props = None)
  ∧ (HasChange d on_demand_bursting_enabled = false →
     DiskUpdateProperties.BurstingEnabled props = None)
  ∧ (HasChange d disk_iops_read_write = false →
     DiskUpdateProperties.DiskIOPSReadWrite props = None)
  ∧ (HasChange d disk_mbps_read_write = false →
     DiskUpdateProperties.DiskMBpsReadWrite props = None)
  ∧ (HasChange d disk_iops_read_only = false →
     DiskUpdateProperties.DiskIOPSReadOnly props = None)
  ∧ (HasChange d disk_mbps_read_only = false →
     DiskUpdateProperties.DiskMBpsReadOnly props = None)
  ∧ (HasChange d disk_size_gb = false →
     DiskUpdateProperties.DiskSizeGB props = None)
  ∧ (HasChange d disk_encryption_set_id = false →
     DiskUpdateProperties.Encryption props = None)
  ∧ (HasChange d disk_access_id = false →
     DiskUpdateProperties.DiskAccessId props = None).

(** The changes that ask for the virtual machine to be shut down. *)
Definition shutdown_change (d : ResourceData) : Prop :=
  HasChange d tier = true
  ∨ HasChange d storage_account_type = true
  ∨ HasChange d disk_size_gb = true
  ∨ HasChange d disk_encryption_set_id = true
  ∨ HasChange d on_demand_bursting_enabled = true.

(** [canBeResizedWithoutDowntime] of lines 722-733, for a plan that makes
    the disk larger: what the three helpers say, when the provider is set
    to expand disks without downtime.  [w] is the world in which the
    helper for the virtual machine is called. *)
Definition canBeResizedWithoutDowntime {W} (meta : Deps W) (d : ResourceData)
    (disk : GetOperationResponse) (w : W) : bool :=
  let '(oldSize, newSize) := GetChange d disk_size_gb in
  let shouldDetach :=
    determineIfDataDiskRequiresDetaching meta (Model disk) oldSize newSize in
  let diskSupportsNoDowntimeResize :=
    determineIfDataDiskSupportsNoDowntimeResize meta (Model disk)
      shouldDetach in
  Features_ManagedDisk_ExpandWithoutDowntime meta
  && match (determineIfVirtualMachineSupportsNoDowntimeResize meta
              (Model disk) w).1 with
     | inl vmSupportsNoDowntimeResize =>
         vmSupportsNoDowntimeResize && diskSupportsNoDowntimeResize
     | inr _ => false
     end.

(** [e] is not a PATCH sent straight to the disks API. *)
Definition not_direct (e : Event) : Prop :=
  match e with
  | CallUpdateThenPoll _ _ => False
  | _ => True
  end.

(** The callback returned an error and has not asked the API to change
    anything. *)
Definition fails_before_writing {W A} (x : Result A * St W) : Prop :=
  is_Err x.1 = true ∧ Forall no_write (trace x.2).

(** * A provider to run the callbacks on

    A stand-in for the outside world, to evaluate the callbacks on concrete
    resource data: one remote disk, one table of held locks.  The remote
    API accepts every request. *)
Module Fake.

Record World := {
  remote : option Disk.t;
  held : list string
}.

Definition get (id : ManagedDiskId) (w : World)
  : GetOperationResponse * option error * World :=
  match remote w with
  | Some disk => ({| HttpResponse := Some 200; Model := Some disk |}, None, w)
  | None =>
      ({| HttpResponse := Some 404; Model := None |},
       Some (Errorf "ResourceNotFound" []), w)
  end.

Definition put (id : ManagedDiskId) (disk : Disk.t) (w : World)
  : option error * World :=
  (None, {| remote := Some disk; held := held w |}).

Definition parseId (s : string) : ManagedDiskId + error :=
  if bool_decide (s = "") then inr (Errorf "parsing %q as a Managed Disk ID" [s])
  else inl (NewManagedDiskID "sub" "rg" s).

Definition parseVm (s : string) : VirtualMachineId + error :=
  if bool_decide (s = "") then inr (Errorf "parsing %q as a Virtual Machine ID" [s])
  else inl {| vm_SubscriptionId := "sub"; vm_ResourceGroupName := "rg";
              VirtualMachineName := s |}.

Definition meta : Deps World :=
  {| Account_SubscriptionId := "sub";
     Features_ManagedDisk_ExpandWithoutDowntime := false;
     DisksClient_Get := get;
     DisksClient_CreateOrUpdateThenPoll := put;
     DisksClient_UpdateThenPoll := λ _ _ w, (None, w);
     DisksClient_DeleteThenPoll :=
       λ _ w, (None, {| remote := None; held := held w |});
     retrieveDiskEncryptionSetEncryptionType :=
       λ _ w, (Some "EncryptionAtRestWithCustomerKey", None, w);
     determineIfDataDiskRequiresDetaching := λ _ _ _, false;
     determineIfDataDiskSupportsNoDowntimeResize := λ _ _, false;
     determineIfVirtualMachineSupportsNoDowntimeResize :=
       λ _ w, (inl false, w);
     resourceManagedDiskUpdateWithVmShutDown := λ _ _ _ _ w, (None, w);
     expandManagedDiskEncryptionSettings :=
       λ v, Some (EncryptionSettingsCollection.mk true v);
     flattenManagedDiskEncryptionSettings :=
       λ v, match v with
            | Some c => EncryptionSettingsCollection.EncryptionSettings c
            | None => []
            end;
     expandManagedDiskEdgeZone :=
       λ v, if bool_decide (v = "") then None
            else Some {| edgezones.Name := v |};
     flattenManagedDiskEdgeZone :=
       λ v, match v with Some z => edgezones.Name z | None => "" end;
     VirtualMachineResourceName := "azurerm_virtual_machine";
     locks_ByName :=
       λ n _ w, {| remote := remote w; held := n :: held w |};
     locks_UnlockByName :=
       λ n _ w, {| remote := remote w;
                   held := filter (λ m, m ≠ n) (held w) |};
     NormalizeLocation := λ v, v;
     NormalizeNilable := λ v, pointer_From v;
     ManagedDiskId_ID := DiskName;
     ParseManagedDiskID := parseId;
     ParseVirtualMachineID := parseVm;
     ImportAsExistsError :=
       λ r id, Errorf "a resource with the ID %q already exists" [id; r];
     tags_FlattenAndSet := λ d _, inl d;
     SetResourceIdentityData := λ _ _, None |}.

(** The prior state of a resource that does not exist yet: every key at
    its zero value. *)
Definition blank : Config :=
  {| name := "";
     location := "";
     resource_group_name := "";
     storage_account_type := "";
     create_option := "";
     edge_zone := "";
     logical_sector_size := 0;
     optimized_frequent_attach_enabled := false;
     performance_plus_enabled := false;
     source_uri := "";
     source_resource_id := "";
     storage_account_id := "";
     image_reference_id := "";
     gallery_image_reference_id := "";
     os_type := "";
     disk_size_gb := 0;
     upload_size_bytes := 0;
     disk_iops_read_write := 0;
     disk_mbps_read_write := 0;
     disk_iops_read_only := 0;
     disk_mbps_read_only := 0;
     disk_encryption_set_id := "";
     encryption_settings := [];
     network_access_policy := "";
     disk_access_id := "";
     public_network_access_enabled := false;
     tier := "";
     max_shares := 0;
     trusted_launch_enabled := false;
     secure_vm_disk_encryption_set_id := "";
     security_type := "";
     hyper_v_generation := "";
     on_demand_bursting_enabled := false;
     zone := "";
     tags := ∅ |}.

(** An empty 1 TiB Premium_LRS disk. *)
Definition premium : Config :=
  {| name := "disk1";
     location := "westeurope";
     resource_group_name := "rg";
     storage_account_type := "Premium_LRS";
     create_option := "Empty";
     edge_zone := "";
     logical_sector_size := 0;
     optimized_frequent_attach_enabled := false;
     performance_plus_enabled := false;
     source_uri := "";
     source_resource_id := "";
     storage_account_id := "";
     image_reference_id := "";
     gallery_image_reference_id := "";
     os_type := "";
     disk_size_gb := 1024;
     upload_size_bytes := 0;
     disk_iops_read_write := 0;
     disk_mbps_read_write := 0;
     disk_iops_read_only := 0;
     disk_mbps_read_only := 0;
     disk_encryption_set_id := "";
     encryption_settings := [];
     network_access_policy := "AllowAll";
     disk_access_id := "";
     public_network_access_enabled := true;
     tier := "";
     max_shares := 0;
     trusted_launch_enabled := false;
     secure_vm_disk_encryption_set_id := "";
     security_type := "";
     hyper_v_generation := "";
     on_demand_bursting_enabled := false;
     zone := "";
     tags := ∅ |}.

(** An empty 1 TiB UltraSSD_LRS disk. *)
Definition ultra : Config :=
  premium ▹ with_storage_account_type "UltraSSD_LRS".

(** The resource data of a plan that creates a disk. *)
Definition creating (c : Config) : ResourceData :=
  {| rd_Id := ""; rd_IsNewResource := true; rd_state := blank;
     rd_config := c |}.

(** The resource data of a plan that changes the disk [disk1] in place. *)
Definition updating (old new : Config) : ResourceData :=
  {| rd_Id := "disk1"; rd_IsNewResource := false; rd_state := old;
     rd_config := new |}.

(** The remote disk as Create leaves it, detached or attached to a
    virtual machine. *)
Definition remote_disk (managedBy : option string) : Disk.t :=
  {| Disk.ExtendedLocation := None;
     Disk.Location := "westeurope";
     Disk.ManagedBy := managedBy;
     Disk.Name := Some "disk1";
     Disk.Properties := None;
     Disk.Sku := Some (DiskSku.mk (Some "Premium_LRS"));
     Disk.Tags := None;
     Disk.Zones := None |}.

Definition nothing : World := {| remote := None; held := [] |}.

Definition detached : World :=
  {| remote := Some (remote_disk None); held := [] |}.

Definition attached : World :=
  {| remote := Some (remote_disk (Some "vm1")); held := [] |}.

End Fake.

(** * More about traces *)

Definition is_lock (e : Event) : bool :=
  match e with
  | LockByName _ _ | UnlockByName _ _ => true
  | _ => false
  end.

(** Whether a call of the shut-down helper asks it to detach the disk. *)
Definition detach_flag (e : Event) : option bool :=
  match e with
  | CallUpdateWithVmShutDown _ _ _ shouldDetach => Some shouldDetach
  | _ => None
  end.

(** The requests of a trace that change the remote disk. *)
Definition writes_of (t : list Event) : list Event := List.filter is_write t.

(** The lock and unlock calls of a trace. *)
Definition locks_of (t : list Event) : list Event := List.filter is_lock t.

(** The three shapes the middle of an Update's trace can take: nothing
    sent, one PATCH, or a PATCH through the shut-down helper under the
    lock of the virtual machine.  [closing] is what runs when Update
    returns. *)
Inductive update_shape (middle closing : list Event) : Prop :=
| shape_nothing : middle = [] → closing = [] → update_shape middle closing
| shape_patch id p :
    middle = [CallUpdateThenPoll id p] → closing = [] →
    update_shape middle closing
| shape_shutdown n r id vm p detach :
    middle = [LockByName n r; CallUpdateWithVmShutDown id vm p detach] →
    closing = [UnlockByName n r] →
    update_shape middle closing.

(** The keys that Read (lines 862-947) gives back as configured when the
    API returns the disk as Create has sent it. *)
Record reads_back (d : ResourceData) (c : Config) : Prop := {
  back_create_option : create_option c = Get d create_option;
  back_performance_plus_enabled :
    performance_plus_enabled c = Get d performance_plus_enabled;
  back_optimized_frequent_attach_enabled :
    optimized_frequent_attach_enabled c
    = Get d optimized_frequent_attach_enabled;
  back_os_type : os_type c = Get d os_type;
  back_disk_size_gb : disk_size_gb c = Get d disk_size_gb;
  back_max_shares : max_shares c = Get d max_shares;
  back_tier : tier c = Get d tier;
  back_network_access_policy :
    network_access_policy c = Get d network_access_policy;
  back_public_network_access_enabled :
    public_network_access_enabled c = Get d public_network_access_enabled;
  back_disk_encryption_set_id :
    disk_encryption_set_id c = Get d disk_encryption_set_id;
  back_hyper_v_generation : hyper_v_generation c = Get d hyper_v_generation;
  back_on_demand_bursting_enabled :
    on_demand_bursting_enabled c = Get d on_demand_bursting_enabled;
  back_storage_account_type :
    storage_account_type c = Get d storage_account_type;
  back_zone : zone c = Get d zone
}.

(** ** A provider whose API fails

    [Faulty.meta getStatus writeErr]: Get answers with the status
    [getStatus] and an error unless the status is 200, in which case it
    returns the remote disk; every write returns [writeErr].  Disks are
    resized without downtime, and have to be detached to grow to 4 TiB or
    beyond. *)
Module Faulty.

Definition get (status : Z) (id : ManagedDiskId) (w : Fake.World)
  : GetOperationResponse * option error * Fake.World :=
  if bool_decide (status = 200) then
    ({| HttpResponse := Some 200; Model := Fake.remote w |}, None, w)
  else
    ({| HttpResponse := Some status; Model := None |},
     Some (Errorf "unexpected status %d" []), w).

Definition meta (getStatus : Z) (writeErr : option error) : Deps Fake.World :=
  {| Account_SubscriptionId := "sub";
     Features_ManagedDisk_ExpandWithoutDowntime := true;
     DisksClient_Get := get getStatus;
     DisksClient_CreateOrUpdateThenPoll := λ _ _ w, (writeErr, w);
     DisksClient_UpdateThenPoll := λ _ _ w, (writeErr, w);
     DisksClient_DeleteThenPoll := λ _ w, (writeErr, w);
     retrieveDiskEncryptionSetEncryptionType :=
       λ _ w, (Some "EncryptionAtRestWithCustomerKey", None, w);
     determineIfDataDiskRequiresDetaching :=
       λ _ oldSize newSize, bool_decide (oldSize < 4096 ≤ newSize);
     determineIfDataDiskSupportsNoDowntimeResize := λ _ _, true;
     determineIfVirtualMachineSupportsNoDowntimeResize :=
       λ _ w, (inl true, w);
     resourceManagedDiskUpdateWithVmShutDown := λ _ _ _ _ w, (writeErr, w);
     expandManagedDiskEncryptionSettings :=
       λ v, Some (EncryptionSettingsCollection.mk true v);
     flattenManagedDiskEncryptionSettings :=
       λ v, match v with
            | Some c => EncryptionSettingsCollection.EncryptionSettings c
            | None => []
            end;
     expandManagedDiskEdgeZone :=
       λ v, if bool_decide (v = "") then None
            else Some {| edgezones.Name := v |};
     flattenManagedDiskEdgeZone :=
       λ v, match v with Some z => edgezones.Name z | None => "" end;
     VirtualMachineResourceName := "azurerm_virtual_machine";
     locks_ByName :=
       λ n _ w, {| Fake.remote := Fake.remote w;
                   Fake.held := n :: Fake.held w |};
     locks_UnlockByName :=
       λ n _ w, {| Fake.remote := Fake.remote w;
                   Fake.held := filter (λ m, m ≠ n) (Fake.held w) |};
     NormalizeLocation := λ v, v;
     NormalizeNilable := λ v, pointer_From v;
     ManagedDiskId_ID := DiskName;
     ParseManagedDiskID := Fake.parseId;
     ParseVirtualMachineID := Fake.parseVm;
     ImportAsExistsError :=
       λ r id, Errorf "a resource with the ID %q already exists" [id; r];
     tags_FlattenAndSet := λ d _, inl d;
     SetResourceIdentityData := λ _ _, None |}.

(** The properties of a remote disk as the API may return them: made from
    a gallery image, with the image reference filled in as well;
    [publicNetworkAccess] may be missing. *)
Definition properties (publicNetworkAccess : option string)
  : DiskProperties.t :=
  {| DiskProperties.BurstingEnabled := None;
     DiskProperties.CreationData :=
       {| CreationData.CreateOption := "FromImage";
          CreationData.GalleryImageReference :=
            Some (ImageDiskReference.mk (Some "gallery/v1"));
          CreationData.ImageReference :=
            Some (ImageDiskReference.mk (Some "image/1"));
          CreationData.LogicalSectorSize := None;
          CreationData.PerformancePlus := None;
          CreationData.SourceResourceId := None;
          CreationData.SourceUri := None;
          CreationData.StorageAccountId := None;
          CreationData.UploadSizeBytes := None |};
     DiskProperties.DiskAccessId := None;
     DiskProperties.DiskIOPSReadOnly := None;
     DiskProperties.DiskIOPSReadWrite := None;
     DiskProperties.DiskMBpsReadOnly := None;
     DiskProperties.DiskMBpsReadWrite := None;
     DiskProperties.DiskSizeGB := Some 1024;
     DiskProperties.Encryption := None;
     DiskProperties.EncryptionSettingsCollection := None;
     DiskProperties.HyperVGeneration := None;
     DiskProperties.MaxShares := None;
     DiskProperties.NetworkAccessPolicy := None;
     DiskProperties.OptimizedForFrequentAttach := None;
     DiskProperties.OsType := None;
     DiskProperties.PublicNetworkAccess := publicNetworkAccess;
     DiskProperties.SecurityProfile := None;
     DiskProperties.Tier := None |}.

(** A remote disk with these properties. *)
Definition returned (publicNetworkAccess : option string) : Disk.t :=
  {| Disk.ExtendedLocation := None;
     Disk.Location := "westeurope";
     Disk.ManagedBy := None;
     Disk.Name := Some "disk1";
     Disk.Properties := Some (properties publicNetworkAccess);
     Disk.Sku := Some (DiskSku.mk (Some "Premium_LRS"));
     Disk.Tags := None;
     Disk.Zones := Some ["1"; "2"] |}.

End Faulty.

(** ** A provider that expands disks without downtime

    [Resizing.meta vmSupports]: as [Fake.meta], with the feature
    [ExpandWithoutDowntime] switched on; every disk can be resized without
    downtime, and the virtual machine can when [vmSupports] says so. *)
Module Resizing.

Definition meta (vmSupports : bool) : Deps Fake.World :=
  {| Account_SubscriptionId := Account_SubscriptionId Fake.meta;
     Features_ManagedDisk_ExpandWithoutDowntime := true;
     DisksClient_Get := DisksClient_Get Fake.meta;
     DisksClient_CreateOrUpdateThenPoll :=
       DisksClient_CreateOrUpdateThenPoll Fake.meta;
     DisksClient_UpdateThenPoll := DisksClient_UpdateThenPoll Fake.meta;
     DisksClient_DeleteThenPoll := DisksClient_DeleteThenPoll Fake.meta;
     retrieveDiskEncryptionSetEncryptionType :=
       retrieveDiskEncryptionSetEncryptionType Fake.meta;
     determineIfDataDiskRequiresDetaching := λ _ _ _, false;
     determineIfDataDiskSupportsNoDowntimeResize := λ _ _, true;
     determineIfVirtualMachineSupportsNoDowntimeResize :=
       λ _ w, (inl vmSupports, w);
     resourceManagedDiskUpdateWithVmShutDown :=
       resourceManagedDiskUpdateWithVmShutDown Fake.meta;
     expandManagedDiskEncryptionSettings :=
       expandManagedDiskEncryptionSettings Fake.meta;
     flattenManagedDiskEncryptionSettings :=
       flattenManagedDiskEncryptionSettings Fake.meta;
     expandManagedDiskEdgeZone := expandManagedDiskEdgeZone Fake.meta;
     flattenManagedDiskEdgeZone := flattenManagedDiskEdgeZone Fake.meta;
     VirtualMachineResourceName := VirtualMachineResourceName Fake.meta;
     locks_ByName := locks_ByName Fake.meta;
     locks_UnlockByName := locks_UnlockByName Fake.meta;
     NormalizeLocation := NormalizeLocation Fake.meta;
     NormalizeNilable := NormalizeNilable Fake.meta;
     ManagedDiskId_ID := ManagedDiskId_ID Fake.meta;
     ParseManagedDiskID := ParseManagedDiskID Fake.meta;
     ParseVirtualMachineID := ParseVirtualMachineID Fake.meta;
     ImportAsExistsError := ImportAsExistsError Fake.meta;
     tags_FlattenAndSet := tags_FlattenAndSet Fake.meta;
     SetResourceIdentityData := SetResourceIdentityData Fake.meta |}.

(** A world whose disk is attached to something that is no virtual
    machine the provider can name. *)
Definition attached_elsewhere : Fake.World :=
  {| Fake.remote := Some (Fake.remote_disk (Some "")); Fake.held := [] |}.

End Resizing.

(** * Reasoning about callbacks *)

Section Monad.
Context {W : Type}.
Implicit Types s : St W.

Lemma bind_eq {A B} (m : M W A) (f : A → M W B) s :
  (m ≫= f) s =
  match m s with
  | (Ok a, s') => f a s'
  | (Err e, s') => (Err e, s')
  | (Panic p, s') => (Panic p, s')
  end.
Proof. reflexivity. Qed.

Lemma bind_Ok {A B} (m : M W A) (f : A → M W B) s a s' :
  m s = (Ok a, s') → (m ≫= f) s = f a s'.
Proof. intros H. rewrite bind_eq, H. reflexivity. Qed.

Lemma bind_Ok_inv {A B} (m : M W A) (f : A → M W B) s b s' :
  (m ≫= f) s = (Ok b, s') →
  ∃ a s1, m s = (Ok a, s1) ∧ f a s1 = (Ok b, s').
Proof.
  rewrite bind_eq. destruct (m s) as [[a|e|p] s1]; intros H;
    [eauto | discriminate | discriminate].
Qed.

Lemma run_steps_app {L} (pre post : list (L → M W L)) l s :
  run_steps (pre ++ post) l s =
  (l' ← run_steps pre l; run_steps post l') s.
Proof.
  revert l s. induction pre as [|f pre IH]; intros l s; simpl.
  - reflexivity.
  - rewrite !bind_eq. destruct (f l s) as [[l1|e|p] s1]; auto.
Qed.

(** ** What a computation adds to the log *)

Lemma run_deferred_trace (fs : list (Event * (W → W))) s :
  trace (run_deferred fs s) = trace s ++ fs.*1.
Proof.
  revert s. induction fs as [|[e f] fs IH]; intros s; simpl.
  - by rewrite app_nil_r.
  - unfold run_deferred in *. simpl. rewrite IH. simpl.
    by rewrite <- app_assoc.
Qed.

Lemma run_deferred_deferred (fs : list (Event * (W → W))) s :
  deferred (run_deferred fs s) = deferred s.
Proof.
  revert s. induction fs as [|[e f] fs IH]; intros s; simpl; [done|].
  unfold run_deferred in *. simpl. by rewrite IH.
Qed.

Lemma run_deferred_rd (fs : list (Event * (W → W))) s :
  rd (run_deferred fs s) = rd s.
Proof.
  revert s. induction fs as [|[e f] fs IH]; intros s; simpl; [done|].
  unfold run_deferred in *. simpl. by rewrite IH.
Qed.

Lemma emits_nothing (P D : Event → Prop) {A} (m : M W A) :
  (∀ s, (m s).2 = s) → emits P D m.
Proof.
  intros H s. exists [], []. rewrite H, app_nil_r. auto.
Qed.

Lemma emits_ret P D {A} (a : A) : emits P D (mret a : M W A).
Proof. apply emits_nothing. reflexivity. Qed.

Lemma emits_fail P D {A} e : emits P D (fail e : M W A).
Proof. apply emits_nothing. reflexivity. Qed.

Lemma emits_panic P D {A} p : emits P D (panic p : M W A).
Proof. apply emits_nothing. reflexivity. Qed.

Lemma emits_pure P D {A} (r : Result A) : emits P D (pure r : M W A).
Proof. apply emits_nothing. reflexivity. Qed.

Lemma emits_deref P D {A} what (p : option A) :
  emits P D (deref what p : M W A).
Proof. destruct p; [apply emits_ret | apply emits_panic]. Qed.

Lemma emits_get_d P D : emits P D (get_d : M W ResourceData).
Proof. apply emits_nothing. reflexivity. Qed.

Lemma emits_modify_d P D f : emits P D (modify_d f : M W unit).
Proof. intros s. exists [], []. simpl. rewrite app_nil_r. auto. Qed.

Lemma emits_call (P D : Event → Prop) {A} e (f : W → A * W) :
  P e → emits P D (call e f).
Proof.
  intros He s. exists [e], []. unfold call. destruct (f (world s)); simpl.
  auto.
Qed.

Lemma emits_defer (P D : Event → Prop) e (f : W → W) :
  D e → emits P D (defer e f).
Proof.
  intros He s. exists [], [(e, f)]. simpl. rewrite app_nil_r. auto.
Qed.

Lemma emits_bind P D {A B} (m : M W A) (f : A → M W B) :
  emits P D m → (∀ a, emits P D (f a)) → emits P D (m ≫= f).
Proof.
  intros Hm Hf s. rewrite bind_eq.
  destruct (Hm s) as (evs & dfs & Ht & HP & Hd & HPd).
  destruct (m s) as [[a|e|p] s1]; simpl in *; eauto 6.
  destruct (Hf a s1) as (evs' & dfs' & Ht' & HP' & Hd' & HPd').
  exists (evs ++ evs'), (dfs' ++ dfs).
  rewrite Ht', Ht, Hd', Hd, !app_assoc, fmap_app.
  auto using Forall_app_2.
Qed.

Lemma emits_run_steps P D {L} (steps : list (L → M W L)) :
  Forall (λ f, ∀ l, emits P D (f l)) steps →
  ∀ l, emits P D (run_steps steps l).
Proof.
  induction 1 as [|f steps Hf _ IH]; intros l; simpl.
  - apply emits_ret.
  - apply emits_bind; auto.
Qed.

(** When a function returns, what it deferred has run. *)
Lemma emits_func P D {A} (body : M W A) :
  emits P P body → emits P D (func body).
Proof.
  intros Hb s. unfold func.
  destruct (Hb (mkSt (world s) (trace s) (rd s) []))
    as (evs & dfs & Ht & HP & Hd & HPd).
  destruct (body _) as [r s']; simpl in *.
  exists (evs ++ dfs.*1), [].
  rewrite run_deferred_trace, run_deferred_deferred, Hd, Ht, app_nil_r.
  simpl. rewrite app_assoc. auto using Forall_app_2.
Qed.

Lemma emits_weaken (P D P' D' : Event → Prop) {A} (m : M W A) :
  (∀ e, P e → P' e) → (∀ e, D e → D' e) → emits P D m → emits P' D' m.
Proof.
  intros HPQ HDQ Hm s. destruct (Hm s) as (evs & dfs & Ht & HP & Hd & HPd).
  exists evs, dfs. eauto 6 using Forall_impl.
Qed.

(** On a fresh log, everything in the log satisfies [P]. *)
Lemma emits_run P D {A} (m : M W A) w d :
  emits P D m → Forall P (trace (run m w d).2).
Proof.
  intros Hm. destruct (Hm (mkSt w [] d [])) as (evs & dfs & Ht & HP & _).
  unfold run. rewrite Ht. exact HP.
Qed.

(** A computation that defers nothing leaves the deferred calls alone. *)
Lemma emits_deferred P {A} (m : M W A) s :
  emits P no_event m → deferred (m s).2 = deferred s.
Proof.
  intros Hm. destruct (Hm s) as (evs & dfs & _ & _ & Hd & HPd).
  rewrite Hd. destruct dfs as [|[e f] dfs]; [reflexivity|].
  apply Forall_cons in HPd as [[] _].
Qed.

Lemma emits_trace P {A} (m : M W A) s :
  emits P no_event m →
  ∃ evs, trace (m s).2 = trace s ++ evs ∧ Forall P evs.
Proof.
  intros Hm. destruct (Hm s) as (evs & dfs & Ht & HP & _). eauto.
Qed.

Lemma emits_bind_post P D {A B} (Q : A → Prop) (m : M W A) (f : A → M W B) :
  emits P D m → post m Q → (∀ a, Q a → emits P D (f a)) →
  emits P D (m ≫= f).
Proof.
  intros Hm HQ Hf s. rewrite bind_eq.
  destruct (Hm s) as (evs & dfs & Ht & HP & Hd & HPd).
  destruct (m s) as [[a|e|p] s1] eqn:Hms; simpl in *; eauto 6.
  destruct (Hf a (HQ _ _ _ Hms) s1) as (evs' & dfs' & Ht' & HP' & Hd' & HPd').
  exists (evs ++ evs'), (dfs' ++ dfs).
  rewrite Ht', Ht, Hd', Hd, !app_assoc, fmap_app.
  auto using Forall_app_2.
Qed.

(** ** Computations that behave alike *)

Lemma sim_ret {A} (a : A) : sim (mret a : M W A) (mret a).
Proof. intros s s' H. split; [reflexivity | exact H]. Qed.

Lemma sim_fail {A} e e' : sim (fail e : M W A) (fail e').
Proof. intros s s' H. split; [exact I | exact H]. Qed.

Lemma sim_panic {A} p p' : sim (panic p : M W A) (panic p').
Proof. intros s s' H. split; [exact I | exact H]. Qed.

Lemma sim_deref {A} what (p : option A) : sim (deref what p : M W A) (deref what p).
Proof. destruct p; [apply sim_ret | apply sim_panic]. Qed.

Lemma sim_call {A} e (f : W → A * W) : sim (call e f) (call e f).
Proof.
  intros s s' (Hw & Ht & Hd & Hi). unfold call. rewrite Hw, Ht.
  destruct (f (world s')). simpl. by repeat split.
Qed.

Lemma sim_defer e (f : W → W) : sim (defer e f) (defer e f).
Proof.
  intros s s' (Hw & Ht & Hd & Hi). unfold defer. simpl.
  rewrite Hd. by repeat split.
Qed.

Lemma sim_bind {A B} (m m' : M W A) (f f' : A → M W B) :
  sim m m' → (∀ a, sim (f a) (f' a)) → sim (m ≫= f) (m' ≫= f').
Proof.
  intros Hm Hf s s' H. rewrite !bind_eq.
  destruct (Hm s s' H) as [Hr Hs].
  destruct (m s) as [[a|e|p] s1], (m' s') as [[a'|e'|p'] s1'];
    simpl in *; try done.
  subst a'. by apply Hf.
Qed.

Lemma sim_run_steps {L} (steps : list (L → M W L)) :
  Forall (λ f, ∀ l, sim (f l) (f l)) steps →
  ∀ l, sim (run_steps steps l) (run_steps steps l).
Proof.
  induction 1 as [|f steps Hf _ IH]; intros l; simpl.
  - apply sim_ret.
  - apply sim_bind; auto.
Qed.

Lemma sim_calls_bind {A B} (m m' : M W A) (f f' : A → M W B) :
  sim m m' → (∀ a, sim_calls (f a) (f' a)) → sim_calls (m ≫= f) (m' ≫= f').
Proof.
  intros Hm Hf s s' H. rewrite !bind_eq.
  destruct (Hm s s' H) as [Hr Hs].
  destruct (m s) as [[a|e|p] s1], (m' s') as [[a'|e'|p'] s1'];
    simpl in *; try done.
  - subst a'. by apply Hf.
  - destruct Hs as (_ & ? & ? & _). done.
  - destruct Hs as (_ & ? & ? & _). done.
Qed.

(** ** What a computation does to the resource data *)

Lemma keeps_d_id {A} (m : M W A) : (∀ s, (m s).2 = s) → keeps_d m.
Proof. intros H s. by rewrite H. Qed.

Lemma keeps_d_ret {A} (a : A) : keeps_d (mret a : M W A).
Proof. by apply keeps_d_id. Qed.

Lemma keeps_d_fail {A} e : keeps_d (fail e : M W A).
Proof. by apply keeps_d_id. Qed.

Lemma keeps_d_panic {A} p : keeps_d (panic p : M W A).
Proof. by apply keeps_d_id. Qed.

Lemma keeps_d_deref {A} what (p : option A) : keeps_d (deref what p : M W A).
Proof. destruct p; by apply keeps_d_id. Qed.

Lemma keeps_d_call {A} e (f : W → A * W) : keeps_d (call e f).
Proof. intros s. unfold call. by destruct (f (world s)). Qed.

Lemma keeps_d_bind {A B} (m : M W A) (f : A → M W B) :
  keeps_d m → (∀ a, keeps_d (f a)) → keeps_d (m ≫= f).
Proof.
  intros Hm Hf s. rewrite bind_eq. specialize (Hm s).
  destruct (m s) as [[a|e|p] s1]; simpl in *; [|done..].
  by rewrite Hf.
Qed.

Lemma keeps_d_run_steps {L} (steps : list (L → M W L)) :
  Forall (λ f, ∀ l, keeps_d (f l)) steps → ∀ l, keeps_d (run_steps steps l).
Proof.
  induction 1 as [|f steps Hf _ IH]; intros l; simpl.
  - apply keeps_d_ret.
  - apply keeps_d_bind; auto.
Qed.

(** ** What a computation returns *)

Lemma post_ret {A} (a : A) (Q : A → Prop) : Q a → post (mret a : M W A) Q.
Proof. intros H s a' s' [= <- _]. exact H. Qed.

Lemma post_fail {A} e (Q : A → Prop) : post (fail e : M W A) Q.
Proof. intros s a s' [=]. Qed.

Lemma post_panic {A} p (Q : A → Prop) : post (panic p : M W A) Q.
Proof. intros s a s' [=]. Qed.

Lemma post_call {A} e (f : W → A * W) (Q : A → Prop) :
  (∀ w, Q (f w).1) → post (call e f) Q.
Proof.
  intros H s a s'. unfold call. specialize (H (world s)).
  destruct (f (world s)). intros [= <- _]. exact H.
Qed.

Lemma post_deref {A} what (p : option A) (Q : A → Prop) :
  (∀ v, p = Some v → Q v) → post (deref what p : M W A) Q.
Proof. destruct p as [v|]; intros H s v' s' [= <- _]. auto. Qed.

Lemma post_bind {A B} (m : M W A) (f : A → M W B) (Q : B → Prop) :
  post m (λ a, post (f a) Q) → post (m ≫= f) Q.
Proof.
  intros Hm s b s' (a & s1 & H1 & H2)%bind_Ok_inv.
  exact (Hm _ _ _ H1 _ _ _ H2).
Qed.

Lemma post_weaken {A} (m : M W A) (Q Q' : A → Prop) :
  (∀ a, Q a → Q' a) → post m Q → post m Q'.
Proof. intros HQ Hm s a s' H. eauto. Qed.


(** An invariant of the local variables that every rule keeps holds at
    the end. *)
Lemma post_run_steps {L} (I : L → Prop) (steps : list (L → M W L)) :
  Forall (λ f, ∀ l, I l → post (f l) I) steps →
  ∀ l, I l → post (run_steps steps l) I.
Proof.
  induction 1 as [|f steps Hf _ IH]; intros l Hl; simpl.
  - by apply post_ret.
  - apply post_bind. eapply post_weaken; [|by apply Hf]. auto.
Qed.

(** A property that the rule at position [n] sets up and the later rules
    keep holds at the end. *)
Lemma post_run_steps_from {L} (Q : L → Prop) (steps : list (L → M W L)) n f :
  steps !! n = Some f →
  (∀ l, post (f l) Q) →
  Forall (λ g, ∀ l, Q l → post (g l) Q) (drop (S n) steps) →
  ∀ l, post (run_steps steps l) Q.
Proof.
  intros Hn Hf Hpost l.
  rewrite <- (take_drop_middle steps n f Hn).
  intros s l' s'. rewrite run_steps_app.
  intros (l1 & s1 & _ & H2)%bind_Ok_inv. simpl in H2.
  apply bind_Ok_inv in H2 as (l2 & s2 & H2 & H3).
  eapply post_run_steps; [exact Hpost | | exact H3].
  eapply Hf, H2.
Qed.

(** ** Outcomes of a sequence of rules *)

Lemma never_panics_ret {A} (a : A) : never_panics (mret a : M W A).
Proof. intros s. reflexivity. Qed.

Lemma never_panics_fail {A} e : never_panics (fail e : M W A).
Proof. intros s. reflexivity. Qed.

Lemma never_panics_call {A} e (f : W → A * W) : never_panics (call e f).
Proof. intros s. unfold call. destruct (f (world s)). reflexivity. Qed.

Lemma never_panics_get_d : never_panics (get_d : M W ResourceData).
Proof. intros s. reflexivity. Qed.

Lemma never_panics_modify_d f : never_panics (modify_d f : M W unit).
Proof. intros s. reflexivity. Qed.

Lemma never_panics_deref {A} what (v : A) :
  never_panics (deref what (Some v) : M W A).
Proof. intros s. reflexivity. Qed.

Lemma never_panics_bind {A B} (m : M W A) (f : A → M W B) :
  never_panics m → (∀ a, never_panics (f a)) → never_panics (m ≫= f).
Proof.
  intros Hm Hf s. rewrite bind_eq. specialize (Hm s).
  destruct (m s) as [[a|e|p] s1]; simpl in *;
    [apply Hf | reflexivity | congruence].
Qed.

Lemma always_errs_fail {A} e : always_errs (fail e : M W A).
Proof. intros s. reflexivity. Qed.

Lemma always_errs_bind_l {A B} (m : M W A) (f : A → M W B) :
  always_errs m → always_errs (m ≫= f).
Proof.
  intros Hm s. rewrite bind_eq. specialize (Hm s).
  destruct (m s) as [[a|e|p] s1]; simpl in *; congruence.
Qed.

Lemma always_errs_bind {A B} (m : M W A) (f : A → M W B) :
  never_panics m → (∀ a, always_errs (f a)) → always_errs (m ≫= f).
Proof.
  intros Hm Hf s. rewrite bind_eq. specialize (Hm s).
  destruct (m s) as [[a|e|p] s1]; simpl in *;
    [apply Hf | reflexivity | congruence].
Qed.

(** A rule that fails makes the sequence fail, if no rule before it can
    panic. *)
Lemma run_steps_errs {L} (pre post : list (L → M W L)) f :
  Forall (λ g, ∀ l, never_panics (g l)) pre →
  (∀ l, always_errs (f l)) →
  ∀ l, always_errs (run_steps (pre ++ f :: post) l).
Proof.
  intros Hpre Hf. induction Hpre as [|g pre Hg _ IH]; intros l s; simpl.
  - rewrite bind_eq. specialize (Hf l s).
    destruct (f l s) as [[?|?|?] ?]; simpl in *; congruence.
  - rewrite bind_eq. specialize (Hg l s).
    destruct (g l s) as [[l1|?|?] s1]; simpl in *;
      [apply IH | reflexivity | congruence].
Qed.

Lemma run_steps_never_panics {L} (steps : list (L → M W L)) :
  Forall (λ g, ∀ l, never_panics (g l)) steps →
  ∀ l, never_panics (run_steps steps l).
Proof.
  induction 1 as [|g steps Hg _ IH]; intros l s; simpl; [reflexivity|].
  rewrite bind_eq. specialize (Hg l s).
  destruct (g l s) as [[l1|?|?] s1]; simpl in *;
    [apply IH | reflexivity | congruence].
Qed.

Lemma nth_rule_errs {L} (steps : list (L → M W L)) n f :
  steps !! n = Some f →
  Forall (λ g, ∀ l, never_panics (g l)) (take n steps) →
  (∀ l, always_errs (f l)) →
  ∀ l, always_errs (run_steps steps l).
Proof.
  intros Hn Hpre Hf l.
  rewrite <- (take_drop_middle steps n f Hn).
  apply run_steps_errs; assumption.
Qed.

End Monad.

Ltac emits_step :=
  match goal with
  | |- emits _ _ (mret _) => apply emits_ret
  | |- emits _ _ (fail _) => apply emits_fail
  | |- emits _ _ (panic _) => apply emits_panic
  | |- emits _ _ (pure _) => apply emits_pure
  | |- emits _ _ (deref _ _) => apply emits_deref
  | |- emits _ _ get_d => apply emits_get_d
  | |- emits _ _ (modify_d _) => apply emits_modify_d
  | |- emits _ _ (call _ _) => apply emits_call; reflexivity
  | |- emits _ _ (defer _ _) => apply emits_defer; reflexivity
  | |- emits _ _ (_ ≫= _) => apply emits_bind; [|intros]
  | |- emits _ _ (func _) => apply emits_func
  | |- emits _ _ (if ?c then _ else _) => destruct c
  | |- emits _ _ (match ?x with _ => _ end) => destruct x
  end.

Ltac solve_emits := repeat emits_step.

Ltac post_step :=
  cbv beta;
  match goal with
  | |- post (mret _) _ => apply post_ret
  | |- post (fail _) _ => apply post_fail
  | |- post (panic _) _ => apply post_panic
  | |- post (call _ _) _ => apply post_call; intros
  | |- post (deref _ _) _ => apply post_deref; intros
  | |- post (_ ≫= _) _ => apply post_bind
  | |- post (if ?c then _ else _) _ => destruct c eqn:?
  | |- post (match ?x with _ => _ end) _ => destruct x eqn:?
  end.

Ltac solve_post := repeat post_step.

Ltac sim_step :=
  match goal with
  | |- sim (mret _) (mret _) => apply sim_ret
  | |- sim (fail _) (fail _) => apply sim_fail
  | |- sim (panic _) (panic _) => apply sim_panic
  | |- sim (deref _ _) (deref _ _) => apply sim_deref
  | |- sim (call _ _) (call _ _) => apply sim_call
  | |- sim (defer _ _) (defer _ _) => apply sim_defer
  | |- sim (_ ≫= _) (_ ≫= _) => apply sim_bind; [|intros]
  | |- sim (if ?c then _ else _) (if ?c then _ else _) => destruct c
  | |- sim (match ?x with _ => _ end) (match ?x with _ => _ end) =>
      destruct x
  end.

Ltac solve_sim := repeat sim_step.

Ltac keeps_d_step :=
  match goal with
  | |- keeps_d (mret _) => apply keeps_d_ret
  | |- keeps_d (fail _) => apply keeps_d_fail
  | |- keeps_d (panic _) => apply keeps_d_panic
  | |- keeps_d (deref _ _) => apply keeps_d_deref
  | |- keeps_d (call _ _) => apply keeps_d_call
  | |- keeps_d (_ ≫= _) => apply keeps_d_bind; [|intros]
  | |- keeps_d (if ?c then _ else _) => destruct c
  | |- keeps_d (match ?x with _ => _ end) => destruct x
  end.

Ltac solve_keeps_d := repeat keeps_d_step.

Ltac never_panics_step :=
  match goal with
  | |- never_panics (mret _) => apply never_panics_ret
  | |- never_panics (fail _) => apply never_panics_fail
  | |- never_panics (call _ _) => apply never_panics_call
  | |- never_panics get_d => apply never_panics_get_d
  | |- never_panics (modify_d _) => apply never_panics_modify_d
  | |- never_panics (deref _ (Some _)) => apply never_panics_deref
  | |- never_panics (_ ≫= _) => apply never_panics_bind; [|intros]
  | |- never_panics (if ?c then _ else _) => destruct c
  | |- never_panics (match ?x with _ => _ end) => destruct x
  end.

Ltac solve_never_panics := repeat never_panics_step.

Section Update.
Context {W : Type} (meta : Deps W).
Implicit Types (s : St W) (d : ResourceData) (l : UpdateLocals).

(** ** The rules of Update one by one *)

Lemma update_rules_read d disk :
  Forall (λ f, ∀ l, emits reads_only no_event (f l)) (update_rules meta d disk).
Proof.
  repeat constructor; intros l.
  all: unfold update_max_shares, update_tier, update_tags,
    update_storage_account_type, update_disk_performance,
    update_optimized_frequent_attach_enabled, update_os_type,
    update_disk_size_gb, update_encryption_settings,
    update_disk_encryption_set_id, update_network_access_policy,
    update_disk_access_id, update_public_network_access_enabled,
    update_on_demand_bursting_check, update_on_demand_bursting_enabled,
    GetChange.
  all: solve_emits.
Qed.

Lemma update_max_shares_never_panics d l :
  never_panics (update_max_shares d l : M W _).
Proof. unfold update_max_shares. solve_never_panics. Qed.

Lemma update_tier_never_panics d l :
  never_panics (update_tier d l : M W _).
Proof. unfold update_tier. solve_never_panics. Qed.

Lemma update_tags_never_panics d l :
  never_panics (update_tags d l : M W _).
Proof. unfold update_tags. solve_never_panics. Qed.

Lemma update_storage_account_type_never_panics d l :
  never_panics (update_storage_account_type d l : M W _).
Proof. unfold update_storage_account_type. solve_never_panics. Qed.

Lemma update_disk_performance_never_panics d l :
  never_panics (update_disk_performance d l : M W _).
Proof. unfold update_disk_performance. solve_never_panics. Qed.

Lemma update_optimized_frequent_attach_enabled_never_panics d l :
  never_panics (update_optimized_frequent_attach_enabled d l : M W _).
Proof.
  unfold update_optimized_frequent_attach_enabled. solve_never_panics.
Qed.

Lemma update_os_type_never_panics d l :
  never_panics (update_os_type d l : M W _).
Proof. unfold update_os_type. solve_never_panics. Qed.

Lemma update_disk_size_gb_never_panics d disk l :
  never_panics (update_disk_size_gb meta d disk l).
Proof. unfold update_disk_size_gb, GetChange. solve_never_panics. Qed.

Lemma update_encryption_settings_never_panics d l :
  never_panics (update_encryption_settings meta d l).
Proof. unfold update_encryption_settings. solve_never_panics. Qed.

Lemma update_disk_encryption_set_id_never_panics d l :
  never_panics (update_disk_encryption_set_id meta d l).
Proof. unfold update_disk_encryption_set_id. solve_never_panics. Qed.

Lemma update_network_access_policy_never_panics d l :
  never_panics (update_network_access_policy d l : M W _).
Proof. unfold update_network_access_policy. solve_never_panics. Qed.

Create HintDb update_rules.

Hint Resolve update_max_shares_never_panics update_tier_never_panics
  update_tags_never_panics update_storage_account_type_never_panics
  update_disk_performance_never_panics
  update_optimized_frequent_attach_enabled_never_panics
  update_os_type_never_panics update_disk_size_gb_never_panics
  update_encryption_settings_never_panics
  update_disk_encryption_set_id_never_panics
  update_network_access_policy_never_panics : update_rules.

(** No rule up to the one on [disk_access_id] can panic. *)
Lemma update_rules_never_panic d disk n :
  (n ≤ 11)%nat →
  Forall (λ g, ∀ l, never_panics (g l)) (take n (update_rules meta d disk)).
Proof.
  intros Hn.
  replace n with (n `min` 11)%nat by lia. rewrite <- take_take.
  apply Forall_take. unfold update_rules. cbn [take].
  repeat first [apply Forall_nil_2 | apply Forall_cons_2];
    auto with update_rules.
Qed.

(** ** The phases of Update *)

Lemma update_prepare_reads d :
  emits reads_only no_event (update_prepare meta d).
Proof.
  unfold update_prepare, parseManagedDiskID, client_Get.
  repeat (emits_step
          || (apply emits_run_steps; apply update_rules_read)).
Qed.

Lemma resourceManagedDiskRead_reads :
  emits reads_only no_event (resourceManagedDiskRead meta).
Proof.
  unfold resourceManagedDiskRead, parseManagedDiskID, client_Get.
  solve_emits.
Qed.

Lemma reads_no_write e : reads_only e → no_write e.
Proof. unfold reads_only, no_write. destruct e; simpl; congruence. Qed.

(** What the end of a function does to the state. *)
Lemma update_run w d :
  run (resourceManagedDiskUpdate meta) w d =
  let '(r, s') :=
    ('(id, disk, l) ← update_prepare meta d;
     l ← update_attached disk l;
     update_apply meta d id disk l;;
     resourceManagedDiskRead meta) (mkSt w [] d []) in
  (r, run_deferred (deferred s')
        (mkSt (world s') (trace s') (rd s') [])).
Proof. reflexivity. Qed.

(** An Update that fails while it prepares the payload has only read. *)
Lemma update_fails_preparing w d :
  always_errs (update_prepare meta d) →
  fails_before_writing (run (resourceManagedDiskUpdate meta) w d).
Proof.
  intros Herr. unfold fails_before_writing. rewrite update_run, bind_eq.
  specialize (Herr (mkSt w [] d [])).
  pose proof (emits_deferred _ _ (mkSt w [] d []) (update_prepare_reads d))
    as Hd.
  destruct (emits_trace _ _ (mkSt w [] d []) (update_prepare_reads d))
    as (evs & Ht & HP).
  destruct (update_prepare meta d _) as [[?|e|?] s1]; simpl in *;
    try discriminate.
  split; [reflexivity|].
  rewrite run_deferred_trace. simpl. rewrite Ht, Hd. simpl.
  rewrite app_nil_r.
  eapply Forall_impl; [exact HP | apply reads_no_write].
Qed.

Lemma update_prepare_errs d :
  (∀ disk l, always_errs (run_steps (update_rules meta d disk) l)) →
  always_errs (update_prepare meta d).
Proof.
  intros Hrules. unfold update_prepare, parseManagedDiskID, client_Get.
  apply always_errs_bind; [solve_never_panics | intros id].
  apply always_errs_bind; [solve_never_panics | intros [disk err]].
  apply always_errs_bind; [solve_never_panics | intros _].
  apply always_errs_bind_l, Hrules.
Qed.

Lemma reads_carries p0 e : reads_only e → carries p0 e.
Proof. unfold reads_only, carries. destruct e; simpl; congruence. Qed.

(** Lines 808-811 keep the payload and the detach flag. *)
Lemma update_attached_post disk l :
  post (update_attached disk l : M W _)
    (λ l', diskUpdate l' = diskUpdate l ∧ shouldDetach l' = shouldDetach l).
Proof. unfold update_attached. solve_post; auto. Qed.

Lemma update_attached_silent disk l P D :
  emits P D (update_attached disk l : M W _).
Proof. unfold update_attached. solve_emits. Qed.

(** Lines 813-833 send the payload they are given, and nothing else. *)
Lemma update_apply_carries d id disk l :
  emits (carries (diskUpdate l)) (carries (diskUpdate l))
    (update_apply meta d id disk l).
Proof.
  unfold update_apply, locks_lock, locks_defer_unlock, client_UpdateThenPoll.
  repeat first
    [ apply emits_call; intros p [= <-]; reflexivity
    | apply emits_call; intros p [=]
    | apply emits_defer; intros p [=]
    | emits_step ].
Qed.

Lemma reads_no_payload e : reads_only e → update_payload e = None.
Proof. unfold reads_only. destruct e; simpl; congruence. Qed.

Lemma update_prepare_Ok_inv d w id disk l s1 :
  update_prepare meta d (mkSt w [] d []) = (Ok (id, disk, l), s1) →
  ParseManagedDiskID meta (rd_Id d) = inl id
  ∧ (DisksClient_Get meta id w).1 = (disk, None)
  ∧ run_steps (update_rules meta d disk) update_locals_init
      (mkSt (DisksClient_Get meta id w).2 [CallGet id] d []) = (Ok l, s1).
Proof.
  unfold update_prepare, parseManagedDiskID, client_Get, call.
  rewrite bind_eq. destruct (ParseManagedDiskID meta (rd_Id d)) as [id'|?];
    [|discriminate].
  cbn. rewrite bind_eq. cbn.
  destruct (DisksClient_Get meta id' w) as [[disk' err] w'] eqn:Hget.
  rewrite bind_eq.
  destruct err as [err|]; cbn.
  { destruct (WasNotFound _); discriminate. }
  rewrite bind_eq.
  destruct (run_steps _ _ _) as [[l'|?|?] s'] eqn:Hrules; try discriminate.
  intros [= -> -> -> ->]. rewrite Hget. auto.
Qed.

(** After the payload is complete, an Update sends that payload and
    nothing else. *)
Lemma update_rest_carries d id disk l :
  emits (carries (diskUpdate l)) (carries (diskUpdate l))
    (l ← update_attached disk l;
     update_apply meta d id disk l;;
     resourceManagedDiskRead meta).
Proof.
  eapply emits_bind_post;
    [apply update_attached_silent | apply update_attached_post |].
  intros l' [Hl' _]. apply emits_bind.
  - rewrite <- Hl'. apply update_apply_carries.
  - intros _.
    eapply emits_weaken;
      [apply reads_carries | exact (λ e H, False_ind _ H) |].
    apply resourceManagedDiskRead_reads.
Qed.

(** The payload an Update sends is the one its rules have built. *)
Lemma update_payloads w d e p :
  e ∈ trace (run (resourceManagedDiskUpdate meta) w d).2 →
  update_payload e = Some p →
  ∃ id disk l s1,
    update_prepare meta d (mkSt w [] d []) = (Ok (id, disk, l), s1)
    ∧ p = diskUpdate l.
Proof.
  rewrite update_run, bind_eq.
  pose proof (emits_deferred _ _ (mkSt w [] d []) (update_prepare_reads d))
    as Hd.
  destruct (emits_trace _ _ (mkSt w [] d []) (update_prepare_reads d))
    as (evs & Ht & HP).
  destruct (update_prepare meta d _) as [[[[id disk] l]|?|?] s1] eqn:Hprep;
    simpl in *.
  2,3: rewrite run_deferred_trace; simpl; rewrite Ht, Hd; simpl;
       rewrite app_nil_r; intros He Hp;
       assert (Hr : reads_only e) by
         (eapply (proj1 (Forall_forall _ _)), He; assumption);
       apply reads_no_payload in Hr; congruence.
  destruct (update_rest_carries d id disk l s1)
    as (evs' & dfs' & Ht' & HP' & Hd' & HPd').
  destruct ((update_attached disk l ≫= _) s1) as [r s2]; simpl in *.
  rewrite run_deferred_trace. simpl. rewrite Ht', Ht, Hd', Hd, app_nil_r.
  rewrite !elem_of_app. intros He Hp.
  exists id, disk, l, s1. split; [reflexivity|].
  assert (Hall : ∀ evs0, Forall reads_only evs0 → e ∈ evs0 → p = diskUpdate l).
  { intros evs0 H0 Hin. eapply Forall_forall in H0; [|exact Hin].
    apply reads_no_payload in H0. congruence. }
  assert (Hall' : ∀ evs0, Forall (carries (diskUpdate l)) evs0 → e ∈ evs0 →
                         p = diskUpdate l).
  { intros evs0 H0 Hin. eapply Forall_forall in H0; [|exact Hin]. auto. }
  destruct He as [[He|He]|He]; eauto.
Qed.

(** What the rules establish about the local variables holds of every
    payload sent. *)
Lemma update_payload_post (Q : UpdateLocals → Prop) w d :
  (∀ disk, post (run_steps (update_rules meta d disk) update_locals_init) Q) →
  ∀ e p,
    e ∈ trace (run (resourceManagedDiskUpdate meta) w d).2 →
    update_payload e = Some p →
    ∃ l, Q l ∧ p = diskUpdate l.
Proof.
  intros HQ e p He Hp.
  destruct (update_payloads w d e p He Hp) as (id & disk & l & s1 & Hprep & ->).
  apply update_prepare_Ok_inv in Hprep as (_ & _ & Hrules).
  exists l. split; [|reflexivity]. eapply HQ, Hrules.
Qed.

(** A rule that always fails makes Update fail before it writes. *)
Lemma update_rule_fails w d n f :
  (∀ disk, update_rules meta d disk !! n = Some (f disk)) →
  (∀ disk,
     Forall (λ g, ∀ l, never_panics (g l)) (take n (update_rules meta d disk))) →
  (∀ disk l, always_errs (f disk l)) →
  fails_before_writing (run (resourceManagedDiskUpdate meta) w d).
Proof.
  intros Hn Hpre Hf. apply update_fails_preparing, update_prepare_errs.
  intros disk l. eapply nth_rule_errs; eauto.
Qed.

Ltac unfold_update_rules :=
  unfold update_max_shares, update_tier, update_tags,
    update_storage_account_type, update_disk_performance,
    update_optimized_frequent_attach_enabled, update_os_type,
    update_disk_size_gb, update_encryption_settings,
    update_disk_encryption_set_id, update_network_access_policy,
    update_disk_access_id, update_public_network_access_enabled,
    update_on_demand_bursting_check, update_on_demand_bursting_enabled,
    GetChange.

(** Closes [Forall (λ g, ∀ l, Q l → post (g l) Q)] over a list of rules
    that leave the members [Q] speaks of alone. *)
Ltac split_ifs :=
  repeat match goal with
         | |- context [if ?c then _ else _] => destruct c eqn:?
         end.

Ltac each_rule := repeat first [apply Forall_nil_2 | apply Forall_cons_2].

Ltac rules_keep :=
  each_rule; intros ? ?; unfold_update_rules; solve_post;
  split_ifs; cbn in *; auto.

(** *** [tier] (lines 650-657) *)

Lemma update_tier_errs d l :
  HasChange d tier = true →
  Get d storage_account_type ≠ DiskStorageAccountTypesPremiumLRS →
  Get d storage_account_type ≠ DiskStorageAccountTypesPremiumZRS →
  always_errs (update_tier d l : M W _).
Proof.
  intros Hc H1 H2. unfold update_tier. rewrite Hc.
  rewrite !bool_decide_eq_true_2 by assumption. apply always_errs_fail.
Qed.

Lemma update_tier_sets d disk :
  HasChange d tier = true →
  post (run_steps (update_rules meta d disk) update_locals_init)
    (λ l, DiskUpdateProperties.Tier (Properties_of l) = Some (Get d tier)).
Proof.
  intros Hc. eapply (post_run_steps_from _ _ 1); [reflexivity | |].
  - intros l. unfold update_tier. rewrite Hc. solve_post. reflexivity.
  - unfold update_rules. cbn [drop]. rules_keep.
Qed.

(** *** [disk_iops_read_only], [disk_mbps_read_only] (lines 677-709) *)

Lemma update_disk_performance_errs d l :
  Get d storage_account_type = DiskStorageAccountTypesUltraSSDLRS
  ∨ Get d storage_account_type = DiskStorageAccountTypesPremiumVTwoLRS →
  HasChange d disk_iops_read_only = true
  ∨ HasChange d disk_mbps_read_only = true →
  Get d max_shares = 0 →
  always_errs (update_disk_performance d l : M W _).
Proof.
  intros Hsat Hc Hm. unfold update_disk_performance.
  rewrite (bool_decide_eq_true_2 _ Hm).
  assert (EqualFold (Get d storage_account_type)
            DiskStorageAccountTypesUltraSSDLRS
          || bool_decide (Get d storage_account_type
                          = DiskStorageAccountTypesPremiumVTwoLRS) = true)
    as ->.
  { destruct Hsat as [-> | ->]; reflexivity. }
  destruct (HasChange d disk_iops_read_only).
  - apply always_errs_bind_l, always_errs_fail.
  - destruct Hc as [Hc|Hc]; [discriminate|]. rewrite Hc.
    apply always_errs_bind; [solve_never_panics | intros].
    apply always_errs_fail.
Qed.

(** Without shared-disk support the read-only limits stay out of the
    payload. *)
Lemma update_read_only_unset d disk :
  Get d max_shares = 0 →
  post (run_steps (update_rules meta d disk) update_locals_init)
    (λ l, DiskUpdateProperties.DiskIOPSReadOnly (Properties_of l) = None
          ∧ DiskUpdateProperties.DiskMBpsReadOnly (Properties_of l) = None).
Proof.
  intros Hm. apply post_run_steps; [|split; reflexivity].
  unfold update_rules.
  each_rule; intros l Hl; unfold_update_rules;
    rewrite ?(bool_decide_eq_true_2 _ Hm); solve_post;
    split_ifs; cbn in *; auto.
Qed.

(** *** [disk_size_gb] (lines 720-742) *)

Lemma update_disk_size_gb_errs d disk l :
  HasChange d disk_size_gb = true →
  ¬ (disk_size_gb (rd_config d) > disk_size_gb (rd_state d)) →
  always_errs (update_disk_size_gb meta d disk l).
Proof.
  intros Hc Hle. unfold update_disk_size_gb, GetChange. rewrite Hc.
  rewrite (bool_decide_eq_false_2 _ Hle). apply always_errs_fail.
Qed.

Lemma update_disk_size_gb_sets d disk :
  HasChange d disk_size_gb = true →
  post (run_steps (update_rules meta d disk) update_locals_init)
    (λ l, DiskUpdateProperties.DiskSizeGB (Properties_of l)
          = Some (disk_size_gb (rd_config d))).
Proof.
  intros Hc. eapply (post_run_steps_from _ _ 7); [reflexivity | |].
  - intros l. unfold update_disk_size_gb, GetChange. rewrite Hc.
    solve_post; split_ifs; reflexivity.
  - unfold update_rules. cbn [drop]. rules_keep.
Qed.

(** *** [disk_encryption_set_id] (lines 748-763) *)

Lemma update_disk_encryption_set_id_errs d l :
  HasChange d disk_encryption_set_id = true →
  Get d disk_encryption_set_id = "" →
  always_errs (update_disk_encryption_set_id meta d l).
Proof.
  intros Hc He. unfold update_disk_encryption_set_id. rewrite Hc.
  rewrite bool_decide_eq_false_2 by (intros H; exact (H He)).
  apply always_errs_fail.
Qed.

Lemma update_disk_encryption_set_id_sets d disk :
  HasChange d disk_encryption_set_id = true →
  post (run_steps (update_rules meta d disk) update_locals_init)
    (λ l, ∃ w,
       DiskUpdateProperties.Encryption (Properties_of l)
       = Some (Encryption.mk (Some (Get d disk_encryption_set_id))
                 (retrieveDiskEncryptionSetEncryptionType meta
                    (Get d disk_encryption_set_id) w).1.1)).
Proof.
  intros Hc. eapply (post_run_steps_from _ _ 9); [reflexivity | |].
  - intros l. unfold update_disk_encryption_set_id. rewrite Hc.
    solve_post.
    match goal with
    | H : (retrieveDiskEncryptionSetEncryptionType _ _ ?w).1 = _ |- _ =>
        exists w; rewrite H
    end.
    reflexivity.
  - unfold update_rules. cbn [drop]. rules_keep.
Qed.

(** *** Only what has changed is sent *)

Lemma update_rules_only_changed d disk :
  post (run_steps (update_rules meta d disk) update_locals_init)
    (λ l, only_changed d (diskUpdate l)).
Proof.
  apply post_run_steps.
  - unfold update_rules, only_changed.
    each_rule; intros l Hl; unfold_update_rules; solve_post;
      split_ifs; cbn in *; intuition congruence.
  - unfold only_changed. cbn. intuition.
Qed.

(** *** When the virtual machine has to be shut down *)

Lemma update_rules_shutdown_only_if d disk :
  post (run_steps (update_rules meta d disk) update_locals_init)
    (λ l, shouldShutDown l = true → shutdown_change d).
Proof.
  apply post_run_steps; [|discriminate].
  unfold update_rules, shutdown_change.
  each_rule; intros l Hl; unfold_update_rules; solve_post;
    split_ifs; cbn in *; intuition congruence.
Qed.

Lemma update_rules_shutdown_tier d disk :
  HasChange d tier = true →
  post (run_steps (update_rules meta d disk) update_locals_init)
    (λ l, shouldShutDown l = true).
Proof.
  intros Hc. eapply (post_run_steps_from _ _ 1); [reflexivity | |].
  - intros l. unfold update_tier. rewrite Hc. solve_post. reflexivity.
  - unfold update_rules. cbn [drop]. rules_keep.
Qed.

Lemma update_rules_shutdown_storage_account_type d disk :
  HasChange d storage_account_type = true →
  post (run_steps (update_rules meta d disk) update_locals_init)
    (λ l, shouldShutDown l = true).
Proof.
  intros Hc. eapply (post_run_steps_from _ _ 3); [reflexivity | |].
  - intros l. unfold update_storage_account_type. rewrite Hc. solve_post.
    reflexivity.
  - unfold update_rules. cbn [drop]. rules_keep.
Qed.

Lemma update_rules_shutdown_disk_size_gb d disk :
  HasChange d disk_size_gb = true →
  Features_ManagedDisk_ExpandWithoutDowntime meta = false →
  post (run_steps (update_rules meta d disk) update_locals_init)
    (λ l, shouldShutDown l = true).
Proof.
  intros Hc Hf. eapply (post_run_steps_from _ _ 7); [reflexivity | |].
  - intros l. unfold update_disk_size_gb, GetChange. rewrite Hc, Hf.
    solve_post. reflexivity.
  - unfold update_rules. cbn [drop]. rules_keep.
Qed.

Lemma update_rules_shutdown_disk_encryption_set_id d disk :
  HasChange d disk_encryption_set_id = true →
  post (run_steps (update_rules meta d disk) update_locals_init)
    (λ l, shouldShutDown l = true).
Proof.
  intros Hc. eapply (post_run_steps_from _ _ 9); [reflexivity | |].
  - intros l. unfold update_disk_encryption_set_id. rewrite Hc. solve_post.
    reflexivity.
  - unfold update_rules. cbn [drop]. rules_keep.
Qed.

Lemma update_rules_shutdown_on_demand_bursting_enabled d disk :
  HasChange d on_demand_bursting_enabled = true →
  post (run_steps (update_rules meta d disk) update_locals_init)
    (λ l, shouldShutDown l = true).
Proof.
  intros Hc. eapply (post_run_steps_from _ _ 14); [reflexivity | |].
  - intros l. unfold update_on_demand_bursting_enabled. rewrite Hc.
    solve_post. reflexivity.
  - unfold update_rules. cbn [drop]. rules_keep.
Qed.


(** ** The two ways an Update is applied (lines 808-833) *)

Lemma bind_ret {A B} (a : A) (f : A → M W B) s : (mret a ≫= f) s = f a s.
Proof. reflexivity. Qed.

Lemma update_attached_stays disk l s model managedBy :
  Model disk = Some model →
  Disk.ManagedBy model = Some managedBy →
  update_attached disk l s = (Ok l, s).
Proof.
  intros Hm Hb. unfold update_attached.
  destruct (shouldShutDown l); [|reflexivity].
  rewrite Hm. unfold deref. rewrite bind_ret, Hb. reflexivity.
Qed.

Lemma update_attached_detached disk l s :
  shouldShutDown l = false
  ∨ (∃ model, Model disk = Some model ∧ Disk.ManagedBy model = None) →
  ∃ l', update_attached disk l s = (Ok l', s)
        ∧ shouldShutDown l' = false
        ∧ diskUpdate l' = diskUpdate l.
Proof.
  intros H. unfold update_attached.
  destruct (shouldShutDown l) eqn:Hs; [|eauto].
  destruct H as [|(model & Hm & Hb)]; [discriminate|].
  rewrite Hm. unfold deref. rewrite bind_ret, Hb. eauto.
Qed.

(** The disk is attached and the change needs the machine down: lock,
    hand over to the shut-down helper, read back, unlock. *)
Lemma update_shutdown_path w d id disk l s1 model managedBy vm :
  update_prepare meta d (mkSt w [] d []) = (Ok (id, disk, l), s1) →
  shouldShutDown l = true →
  Model disk = Some model →
  Disk.ManagedBy model = Some managedBy →
  ParseVirtualMachineID meta managedBy = inl vm →
  ∃ evs,
    trace (run (resourceManagedDiskUpdate meta) w d).2 =
      trace s1
      ++ [LockByName (VirtualMachineName vm) (VirtualMachineResourceName meta);
          CallUpdateWithVmShutDown id vm (diskUpdate l) (shouldDetach l)]
      ++ evs
      ++ [UnlockByName (VirtualMachineName vm)
            (VirtualMachineResourceName meta)]
    ∧ Forall reads_only evs.
Proof.
  intros Hprep Hs Hm Hb Hvm.
  pose proof (emits_deferred _ _ (mkSt w [] d []) (update_prepare_reads d))
    as Hd.
  rewrite update_run, bind_eq, Hprep in *. cbn in Hd.
  cbv beta iota.
  rewrite bind_eq, (update_attached_stays _ _ _ _ _ Hm Hb).
  rewrite bind_eq. unfold update_apply. rewrite Hs, Hm. unfold deref.
  rewrite bind_ret, Hb, bind_ret, Hvm.
  unfold locks_lock, locks_defer_unlock, call, defer.
  rewrite !bind_eq. cbn [world trace rd deferred].
  destruct (resourceManagedDiskUpdateWithVmShutDown meta id vm (diskUpdate l)
              (shouldDetach l) _) as [[err|] w'].
  - exists []. cbn. rewrite Hd. cbn. rewrite <- !app_assoc. auto.
  - cbn [mret M_ret].
    match goal with
    | |- context [resourceManagedDiskRead meta ?s] =>
        pose proof (emits_deferred _ _ s resourceManagedDiskRead_reads) as Hd';
        destruct (emits_trace _ _ s resourceManagedDiskRead_reads)
          as (evs & Ht' & HP');
        destruct (resourceManagedDiskRead meta s) as [r s']
    end.
    exists evs. cbn [fst snd] in *. rewrite run_deferred_trace.
    cbn [world trace rd deferred] in *. rewrite Hd', Ht', Hd. cbn.
    rewrite <- !app_assoc. auto.
Qed.

(** Nothing needs the machine down, or the disk is not attached: one
    PATCH, then read back. *)
Lemma update_direct_path w d id disk l s1 :
  update_prepare meta d (mkSt w [] d []) = (Ok (id, disk, l), s1) →
  shouldShutDown l = false
  ∨ (∃ model, Model disk = Some model ∧ Disk.ManagedBy model = None) →
  ∃ evs,
    trace (run (resourceManagedDiskUpdate meta) w d).2 =
      trace s1 ++ [CallUpdateThenPoll id (diskUpdate l)] ++ evs
    ∧ Forall reads_only evs.
Proof.
  intros Hprep Hcase.
  pose proof (emits_deferred _ _ (mkSt w [] d []) (update_prepare_reads d))
    as Hd.
  rewrite update_run, bind_eq, Hprep in *. cbn in Hd.
  cbv beta iota.
  destruct (update_attached_detached disk l s1 Hcase) as (l' & Ha & Hs & Hu).
  rewrite bind_eq, Ha.
  rewrite bind_eq. unfold update_apply. rewrite Hs, Hu.
  unfold client_UpdateThenPoll, call.
  rewrite !bind_eq. cbn [world trace rd deferred].
  destruct (DisksClient_UpdateThenPoll meta id (diskUpdate l) _)
    as [[err|] w'].
  - exists []. cbn. rewrite Hd. cbn. auto.
  - cbn [mret M_ret].
    match goal with
    | |- context [resourceManagedDiskRead meta ?s] =>
        pose proof (emits_deferred _ _ s resourceManagedDiskRead_reads) as Hd';
        destruct (emits_trace _ _ s resourceManagedDiskRead_reads)
          as (evs & Ht' & HP');
        destruct (resourceManagedDiskRead meta s) as [r s']
    end.
    exists evs. cbn [fst snd] in *. rewrite run_deferred_trace.
    cbn [world trace rd deferred] in *. rewrite Hd', Ht', Hd. cbn.
    rewrite app_nil_r, <- !app_assoc. auto.
Qed.

Lemma reads_not_direct e : reads_only e → not_direct e.
Proof. unfold reads_only. destruct e; simpl; (congruence || auto). Qed.

(** With the machine to be shut down, no PATCH goes out directly. *)
Lemma update_apply_not_direct d id disk l :
  shouldShutDown l = true →
  emits not_direct not_direct (update_apply meta d id disk l).
Proof.
  intros Hs. unfold update_apply, locks_lock, locks_defer_unlock.
  rewrite Hs.
  repeat first
    [ apply emits_call; exact I
    | apply emits_defer; exact I
    | emits_step ].
Qed.

Lemma update_attached_not_direct w d :
  HasChange d disk_encryption_set_id = true →
  ∀ id model managedBy,
    ParseManagedDiskID meta (rd_Id d) = inl id →
    Model (DisksClient_Get meta id w).1.1 = Some model →
    Disk.ManagedBy model = Some managedBy →
    Forall not_direct (trace (run (resourceManagedDiskUpdate meta) w d).2).
Proof.
  intros Hc id model managedBy Hid Hm Hb.
  rewrite update_run, bind_eq.
  pose proof (emits_deferred _ _ (mkSt w [] d []) (update_prepare_reads d))
    as Hd.
  destruct (emits_trace _ _ (mkSt w [] d []) (update_prepare_reads d))
    as (evs & Ht & HP).
  pose proof (Forall_impl _ _ _ HP reads_not_direct) as HP'.
  destruct (update_prepare meta d _) as [[[[id' disk] l]|?|?] s1] eqn:Hprep;
    simpl in *.
  2,3: rewrite run_deferred_trace; simpl; rewrite Ht, Hd; simpl;
       rewrite app_nil_r; exact HP'.
  apply update_prepare_Ok_inv in Hprep as (Hid' & Hget & Hrules).
  assert (id' = id) as -> by congruence.
  rewrite Hget in Hm. simpl in Hm.
  apply update_rules_shutdown_disk_encryption_set_id in Hrules; [|exact Hc].
  rewrite bind_eq, (update_attached_stays _ _ _ _ _ Hm Hb).
  assert (Hrest : emits not_direct not_direct
            (update_apply meta d id disk l;; resourceManagedDiskRead meta)).
  { apply emits_bind; [by apply update_apply_not_direct | intros _].
    eapply emits_weaken;
      [apply reads_not_direct | exact (λ e H, False_ind _ H) |].
    apply resourceManagedDiskRead_reads. }
  destruct (Hrest s1) as (evs' & dfs' & Ht' & HPe & Hd' & HPd).
  destruct ((update_apply meta d id disk l ≫= _) s1) as [r s2]; simpl in *.
  rewrite run_deferred_trace. simpl. rewrite Ht', Ht, Hd', Hd, app_nil_r.
  auto using Forall_app_2.
Qed.

(** *** [disk_access_id] (lines 769-778) *)

Lemma update_disk_access_id_panics d l s :
  HasChange d disk_access_id = true →
  DiskUpdateProperties.NetworkAccessPolicy (Properties_of l) = None →
  update_disk_access_id d l s
  = (Panic "diskUpdate.Properties.NetworkAccessPolicy", s).
Proof.
  intros Hc Hn. unfold update_disk_access_id. rewrite Hc, Hn. reflexivity.
Qed.

(** The rules before the one on [disk_access_id] leave the policy pointer
    nil when [network_access_policy] has not changed. *)
Lemma update_rules_policy_nil d disk :
  HasChange d network_access_policy = false →
  post (run_steps (take 11 (update_rules meta d disk)) update_locals_init)
    (λ l, DiskUpdateProperties.NetworkAccessPolicy (Properties_of l) = None).
Proof.
  intros Hc. apply post_run_steps; [|reflexivity].
  unfold update_rules. cbn [take].
  each_rule; intros l Hl; unfold_update_rules; rewrite ?Hc; solve_post;
    split_ifs; cbn in *; auto.
Qed.

Lemma update_rules_not_Ok d disk :
  HasChange d disk_access_id = true →
  HasChange d network_access_policy = false →
  post (run_steps (update_rules meta d disk) update_locals_init) (λ _, False).
Proof.
  intros Hc Hn s l s'.
  rewrite <- (take_drop 11 (update_rules meta d disk)), run_steps_app.
  intros (l1 & s1 & H1 & H2)%bind_Ok_inv.
  apply update_rules_policy_nil in H1; [|exact Hn].
  unfold update_rules in H2. cbn [drop run_steps] in H2.
  rewrite bind_eq, (update_disk_access_id_panics _ _ _ Hc H1) in H2.
  discriminate.
Qed.

Lemma update_not_Ok w d :
  (∀ disk,
     post (run_steps (update_rules meta d disk) update_locals_init)
       (λ _, False)) →
  is_Ok (run (resourceManagedDiskUpdate meta) w d).1 = false.
Proof.
  intros Hno. rewrite update_run, bind_eq.
  destruct (update_prepare meta d _) as [[[[id disk] l]|?|?] s1] eqn:Hprep;
    try reflexivity.
  apply update_prepare_Ok_inv in Hprep as (_ & _ & Hrules).
  destruct (Hno _ _ _ _ Hrules).
Qed.

End Update.

Section Create.
Context {W : Type} (meta : Deps W).
Implicit Types (s : St W) (d : ResourceData) (props : DiskProperties.t).

Ltac unfold_create_rules :=
  unfold create_disk_size_gb, create_max_shares, create_disk_performance,
    create_import, create_copy, create_from_image, create_upload,
    create_encryption_settings, create_disk_encryption_set_id,
    create_network_access, create_public_network_access, create_tier,
    create_trusted_launch, create_security_type,
    create_secure_vm_disk_encryption_set_id,
    create_on_demand_bursting_enabled, create_hyper_v_generation,
    GetOk, set_CreationData.

Ltac each_rule := repeat first [apply Forall_nil_2 | apply Forall_cons_2].

Ltac split_ifs :=
  repeat match goal with
         | |- context [if ?c then _ else _] => destruct c eqn:?
         end.

(** ** The rules of Create one by one *)

Lemma create_rules_read d :
  Forall (λ f, ∀ props, emits reads_only no_event (f props))
    (create_rules meta d).
Proof.
  unfold create_rules. each_rule; intros props; unfold_create_rules;
    solve_emits.
Qed.

Lemma create_rules_keep_d d :
  Forall (λ f, ∀ props, keeps_d (f props)) (create_rules meta d).
Proof.
  unfold create_rules. each_rule; intros props; unfold_create_rules;
    solve_keeps_d.
Qed.

(** No rule up to the one on [tier] can panic. *)
Lemma create_rules_never_panic d n :
  (n ≤ 11)%nat →
  Forall (λ f, ∀ props, never_panics (f props))
    (take n (create_rules meta d)).
Proof.
  intros Hn.
  replace n with (n `min` 11)%nat by lia. rewrite <- take_take.
  apply Forall_take. unfold create_rules. cbn [take].
  each_rule; intros props; unfold_create_rules;
    cbn [DiskProperties.NetworkAccessPolicy
         DiskProperties.set_NetworkAccessPolicy];
    solve_never_panics.
Qed.

(** ** The phases of Create *)

Lemma create_check_existing_reads d id :
  emits reads_only no_event (create_check_existing meta d id).
Proof. unfold create_check_existing, client_Get. solve_emits. Qed.

Lemma create_check_existing_never_panics d id :
  never_panics (create_check_existing meta d id).
Proof. unfold create_check_existing, client_Get. solve_never_panics. Qed.

Lemma create_check_existing_keeps_d d id :
  keeps_d (create_check_existing meta d id).
Proof. unfold create_check_existing, client_Get. solve_keeps_d. Qed.

Lemma create_prepare_reads d :
  emits reads_only no_event (create_prepare meta d).
Proof.
  unfold create_prepare.
  repeat first
    [ apply create_check_existing_reads
    | apply emits_run_steps, create_rules_read
    | emits_step ].
Qed.

Lemma create_prepare_keeps_d d : keeps_d (create_prepare meta d).
Proof.
  unfold create_prepare.
  repeat first
    [ apply create_check_existing_keeps_d
    | apply keeps_d_run_steps, create_rules_keep_d
    | keeps_d_step ].
Qed.

Lemma create_run w d :
  run (resourceManagedDiskCreate meta) w d =
  let '(r, s') :=
    ('(id, createDisk) ← create_prepare meta d;
     create_submit meta d id createDisk;;
     resourceManagedDiskRead meta) (mkSt w [] d []) in
  (r, run_deferred (deferred s')
        (mkSt (world s') (trace s') (rd s') [])).
Proof. reflexivity. Qed.

(** A Create that fails while it prepares the payload has only read. *)
Lemma create_fails_preparing w d :
  always_errs (create_prepare meta d) →
  fails_before_writing (run (resourceManagedDiskCreate meta) w d).
Proof.
  intros Herr. unfold fails_before_writing. rewrite create_run, bind_eq.
  specialize (Herr (mkSt w [] d [])).
  pose proof (emits_deferred _ _ (mkSt w [] d []) (create_prepare_reads d))
    as Hd.
  destruct (emits_trace _ _ (mkSt w [] d []) (create_prepare_reads d))
    as (evs & Ht & HP).
  destruct (create_prepare meta d _) as [[?|e|?] s1]; simpl in *;
    try discriminate.
  split; [reflexivity|].
  rewrite run_deferred_trace. simpl. rewrite Ht, Hd. simpl.
  rewrite app_nil_r.
  eapply Forall_impl; [exact HP | apply reads_no_write].
Qed.

Lemma create_prepare_errs d :
  (∀ props, always_errs (run_steps (create_rules meta d) props)) →
  always_errs (create_prepare meta d).
Proof.
  intros Hrules. unfold create_prepare.
  apply always_errs_bind; [apply create_check_existing_never_panics|].
  intros _. apply always_errs_bind_l, Hrules.
Qed.

(** A rule that always fails makes Create fail before it writes. *)
Lemma create_rule_fails w d n f :
  create_rules meta d !! n = Some f →
  Forall (λ g, ∀ props, never_panics (g props)) (take n (create_rules meta d)) →
  (∀ props, always_errs (f props)) →
  fails_before_writing (run (resourceManagedDiskCreate meta) w d).
Proof.
  intros Hn Hpre Hf. apply create_fails_preparing, create_prepare_errs.
  intros props. eapply nth_rule_errs; eauto.
Qed.

Lemma create_prepare_Ok_inv d s id createDisk s1 :
  create_prepare meta d s = (Ok (id, createDisk), s1) →
  ∃ props s0,
    run_steps (create_rules meta d) (create_props_init d) s0 = (Ok props, s1)
    ∧ createDisk = create_disk meta d props
    ∧ id = NewManagedDiskID (Account_SubscriptionId meta)
             (Get d resource_group_name) (Get d name).
Proof.
  unfold create_prepare.
  intros (? & s0 & _ & H)%bind_Ok_inv.
  apply bind_Ok_inv in H as (props & s2 & Hrules & [= <- <- <-]).
  eauto.
Qed.

Lemma reads_carries_disk p0 e : reads_only e → carries_disk p0 e.
Proof. unfold reads_only, carries_disk. destruct e; simpl; congruence. Qed.

Lemma reads_no_create_payload e : reads_only e → create_payload e = None.
Proof. unfold reads_only. destruct e; simpl; congruence. Qed.

(** Lines 583-596 send the payload they are given, and nothing else. *)
Lemma create_submit_carries d id createDisk :
  emits (carries_disk createDisk) no_event
    (create_submit meta d id createDisk).
Proof.
  unfold create_submit, client_CreateOrUpdateThenPoll, client_Get.
  repeat first
    [ apply emits_call; intros p [= <-]; reflexivity
    | apply emits_call; intros p [=]
    | emits_step ].
Qed.

(** The payload a Create sends is the one its rules have built. *)
Lemma create_payloads w d e p :
  e ∈ trace (run (resourceManagedDiskCreate meta) w d).2 →
  create_payload e = Some p →
  ∃ id s1, create_prepare meta d (mkSt w [] d []) = (Ok (id, p), s1).
Proof.
  rewrite create_run, bind_eq.
  pose proof (emits_deferred _ _ (mkSt w [] d []) (create_prepare_reads d))
    as Hd.
  destruct (emits_trace _ _ (mkSt w [] d []) (create_prepare_reads d))
    as (evs & Ht & HP).
  destruct (create_prepare meta d _) as [[[id createDisk]|?|?] s1] eqn:Hprep;
    simpl in *.
  2,3: rewrite run_deferred_trace; simpl; rewrite Ht, Hd; simpl;
       rewrite app_nil_r; intros He Hp;
       assert (Hr : reads_only e) by
         (eapply (proj1 (Forall_forall _ _)), He; assumption);
       apply reads_no_create_payload in Hr; congruence.
  assert (Hrest : emits (carries_disk createDisk) no_event
            (create_submit meta d id createDisk;;
             resourceManagedDiskRead meta)).
  { apply emits_bind; [apply create_submit_carries | intros _].
    eapply emits_weaken;
      [apply reads_carries_disk | | apply resourceManagedDiskRead_reads];
      auto. }
  pose proof (emits_deferred _ _ s1 Hrest) as Hd'.
  destruct (emits_trace _ _ s1 Hrest) as (evs' & Ht' & HP').
  destruct ((create_submit meta d id createDisk ≫= _) s1) as [r s2];
    simpl in *.
  rewrite run_deferred_trace. simpl. rewrite Ht', Ht, Hd', Hd. simpl.
  rewrite app_nil_r, elem_of_app. intros He Hp.
  exists id, s1. destruct He as [He|He].
  - eapply Forall_forall in HP; [|exact He].
    apply reads_no_create_payload in HP. congruence.
  - eapply Forall_forall in HP'; [|exact He].
    by rewrite (HP' p Hp).
Qed.

(** What the rules establish about [props] holds of every payload
    sent. *)
Lemma create_payload_post (Q : DiskProperties.t → Prop) w d :
  post (run_steps (create_rules meta d) (create_props_init d)) Q →
  ∀ e p,
    e ∈ trace (run (resourceManagedDiskCreate meta) w d).2 →
    create_payload e = Some p →
    ∃ props, Disk.Properties p = Some props ∧ Q props.
Proof.
  intros HQ e p He Hp.
  destruct (create_payloads w d e p He Hp) as (id & s1 & Hprep).
  apply create_prepare_Ok_inv in Hprep as (props & s0 & Hrules & -> & _).
  exists props. split; [|eapply HQ, Hrules].
  unfold create_disk, GetOk. by destruct (bool_decide _).
Qed.

Ltac rules_keep :=
  each_rule; intros ? ?; unfold_create_rules; solve_post;
  split_ifs; cbn in *; auto.

(** *** [tier] (lines 492-497) *)

Lemma create_tier_errs d props :
  Get d tier ≠ "" →
  Get d storage_account_type ≠ DiskStorageAccountTypesPremiumLRS →
  Get d storage_account_type ≠ DiskStorageAccountTypesPremiumZRS →
  always_errs (create_tier d props : M W _).
Proof.
  intros Ht H1 H2. unfold create_tier.
  rewrite !bool_decide_eq_true_2 by assumption. apply always_errs_fail.
Qed.

Lemma create_tier_sets d :
  Get d tier ≠ "" →
  post (run_steps (create_rules meta d) (create_props_init d))
    (λ props, DiskProperties.Tier props = Some (Get d tier)).
Proof.
  intros Ht. eapply (post_run_steps_from _ _ 11); [reflexivity | |].
  - intros props. unfold create_tier.
    rewrite (bool_decide_eq_true_2 _ Ht). solve_post. reflexivity.
  - unfold create_rules. cbn [drop]. rules_keep.
Qed.

(** *** [disk_iops_read_only], [disk_mbps_read_only] (lines 375-409) *)

Lemma create_disk_performance_errs d props :
  Get d storage_account_type = DiskStorageAccountTypesUltraSSDLRS
  ∨ Get d storage_account_type = DiskStorageAccountTypesPremiumVTwoLRS →
  Get d disk_iops_read_only ≠ 0 ∨ Get d disk_mbps_read_only ≠ 0 →
  Get d max_shares = 0 →
  always_errs (create_disk_performance d props : M W _).
Proof.
  intros Hsat Hv Hm. unfold create_disk_performance, GetOk, Get in *.
  rewrite (bool_decide_eq_true_2 _ Hm).
  assert (bool_decide (storage_account_type (rd_config d)
                       = DiskStorageAccountTypesUltraSSDLRS)
          || bool_decide (storage_account_type (rd_config d)
                          = DiskStorageAccountTypesPremiumVTwoLRS) = true)
    as ->.
  { destruct Hsat as [-> | ->]; reflexivity. }
  destruct (bool_decide (disk_iops_read_only (rd_config d) ≠ zero)) eqn:Hi.
  - apply always_errs_bind_l, always_errs_fail.
  - destruct Hv as [Hv|Hv].
    { apply bool_decide_eq_false in Hi. destruct (Hi Hv). }
    rewrite (bool_decide_eq_true_2 _ Hv).
    apply always_errs_bind; [solve_never_panics | intros].
    apply always_errs_bind_l, always_errs_fail.
Qed.

(** ** Submitting the disk (lines 583-596) *)

Lemma create_submit_spec d id createDisk s1 :
  let '(err, w2) :=
    DisksClient_CreateOrUpdateThenPoll meta id createDisk (world s1) in
  let '(read, err', w3) := DisksClient_Get meta id w2 in
  let x := create_submit meta d id createDisk s1 in
  let put := CallCreateOrUpdateThenPoll id createDisk in
  match err with
  | Some _ =>
      is_Err x.1 = true
      ∧ x.2 = mkSt w2 (trace s1 ++ [put]) (rd s1) (deferred s1)
  | None =>
      match err', Model read with
      | None, Some _ =>
          x = (Ok tt,
               mkSt w3 (trace s1 ++ [put; CallGet id])
                 (SetId (ManagedDiskId_ID meta id) (rd s1)) (deferred s1))
      | _, _ =>
          is_Err x.1 = true
          ∧ x.2 = mkSt w3 (trace s1 ++ [put; CallGet id]) (rd s1)
                    (deferred s1)
      end
  end.
Proof.
  unfold create_submit, client_CreateOrUpdateThenPoll, client_Get, call,
    modify_d, fail, mbind, M_bind, mret, M_ret.
  destruct (DisksClient_CreateOrUpdateThenPoll meta id createDisk (world s1))
    as [[err|] w2]; cbn.
  - destruct (DisksClient_Get meta id w2) as [[read err'] w3]. auto.
  - destruct (DisksClient_Get meta id w2) as [[read [err'|]] w3]; cbn;
      rewrite <- ?app_assoc; auto.
    destruct (Model read); cbn; rewrite <- ?app_assoc; auto.
Qed.

End Create.

Section Frame.
Context {W : Type} (meta : Deps W).

Ltac unfold_update_rules :=
  unfold update_max_shares, update_tier, update_tags,
    update_storage_account_type, update_disk_performance,
    update_optimized_frequent_attach_enabled, update_os_type,
    update_disk_size_gb, update_encryption_settings,
    update_disk_encryption_set_id, update_network_access_policy,
    update_disk_access_id, update_public_network_access_enabled,
    update_on_demand_bursting_check, update_on_demand_bursting_enabled,
    GetChange.

Ltac each_rule := repeat first [apply Forall_nil_2 | apply Forall_cons_2].

(** The rules of Update do not look at the resource data of the state:
    they have [d] as an argument. *)
Lemma update_rules_sim d disk :
  Forall (λ f, ∀ l, sim (f l) (f l)) (update_rules meta d disk).
Proof.
  unfold update_rules. each_rule; intros l; unfold_update_rules; solve_sim.
Qed.

(** The rules of Update read no key of [force_new_keys]. *)
Lemma update_rules_erase id isNew id' isNew' state config disk :
  update_rules meta
    {| rd_Id := id; rd_IsNewResource := isNew; rd_state := state;
       rd_config := config |} disk
  = update_rules meta
      {| rd_Id := id'; rd_IsNewResource := isNew';
         rd_state := erase_force_new state;
         rd_config := erase_force_new config |} disk.
Proof. reflexivity. Qed.

Lemma update_rules_same d d' disk :
  same_updatable d d' →
  update_rules meta d disk = update_rules meta d' disk.
Proof.
  destruct d as [id n st cfg], d' as [id' n' st' cfg'].
  intros (_ & Hst & Hcfg). simpl in *.
  rewrite (update_rules_erase id n id n st cfg),
          (update_rules_erase id' n' id n st' cfg').
  by rewrite Hst, Hcfg.
Qed.

Lemma update_prepare_sim d d' :
  same_updatable d d' →
  sim (update_prepare meta d) (update_prepare meta d').
Proof.
  intros Hsame. pose proof Hsame as (Hid & _).
  unfold update_prepare, parseManagedDiskID, client_Get. rewrite <- Hid.
  apply sim_bind; [solve_sim | intros id].
  apply sim_bind; [solve_sim | intros [disk err]].
  apply sim_bind; [solve_sim | intros _].
  rewrite <- (update_rules_same d d' disk Hsame).
  apply sim_bind; [|intros; apply sim_ret].
  apply sim_run_steps, update_rules_sim.
Qed.

Lemma update_attached_sim disk l :
  sim (update_attached disk l : M W _) (update_attached disk l).
Proof. unfold update_attached. solve_sim. Qed.

Lemma update_apply_sim d d' id disk l :
  sim (update_apply meta d id disk l) (update_apply meta d' id disk l).
Proof.
  unfold update_apply, locks_lock, locks_defer_unlock, client_UpdateThenPoll.
  solve_sim.
Qed.

(** Read makes one call, to get the disk whose ID the resource data
    holds. *)
Lemma resourceManagedDiskRead_trace s :
  trace (resourceManagedDiskRead meta s).2 =
  trace s ++ match ParseManagedDiskID meta (rd_Id (rd s)) with
             | inl id => [CallGet id]
             | inr _ => []
             end.
Proof.
  unfold resourceManagedDiskRead, func, parseManagedDiskID, client_Get.
  rewrite bind_eq. cbn [get_d fst snd rd world trace deferred].
  destruct (ParseManagedDiskID meta (rd_Id (rd s))) as [id|err];
    rewrite bind_eq; cbn [mret M_ret fail].
  2: { cbn. by rewrite !app_nil_r. }
  rewrite bind_eq. unfold call at 1. cbn [world trace rd deferred].
  destruct (DisksClient_Get meta id (world s)) as [[resp err] w'].
  match goal with
  | |- context [let '(r, s') := ?m ?s0 in _] =>
      assert (Hrest : emits no_event no_event m) by solve_emits;
      pose proof (emits_deferred _ _ s0 Hrest) as Hd;
      destruct (emits_trace _ _ s0 Hrest) as (evs & Ht & HP);
      destruct (m s0) as [r s2]
  end.
  cbn [fst snd] in *. rewrite run_deferred_trace.
  cbn [world trace rd deferred] in *. rewrite Hd, Ht. cbn.
  destruct evs as [|e evs]; [by rewrite !app_nil_r|].
  apply Forall_cons in HP as [[] _].
Qed.

Lemma resourceManagedDiskRead_sim_calls :
  sim_calls (resourceManagedDiskRead meta) (resourceManagedDiskRead meta).
Proof.
  intros s s' (Hw & Ht & Hd & Hi). split.
  - by rewrite !resourceManagedDiskRead_trace, Ht, Hi.
  - rewrite !(emits_deferred _ _ _ (resourceManagedDiskRead_reads meta)).
    exact Hd.
Qed.

(** Two Updates whose plans differ only in keys of [force_new_keys] make
    the same calls. *)
Lemma update_same_calls w d d' :
  same_updatable d d' →
  trace (run (resourceManagedDiskUpdate meta) w d).2
  = trace (run (resourceManagedDiskUpdate meta) w d').2.
Proof.
  intros Hsame. rewrite !update_run.
  assert (Hbody : sim_calls
    ('(id, disk, l) ← update_prepare meta d;
     l ← update_attached disk l;
     update_apply meta d id disk l;;
     resourceManagedDiskRead meta)
    ('(id, disk, l) ← update_prepare meta d';
     l ← update_attached disk l;
     update_apply meta d' id disk l;;
     resourceManagedDiskRead meta)).
  { apply sim_calls_bind; [by apply update_prepare_sim|].
    intros [[id disk] l].
    apply sim_calls_bind; [apply update_attached_sim | intros l'].
    apply sim_calls_bind; [apply update_apply_sim | intros _].
    apply resourceManagedDiskRead_sim_calls. }
  destruct (Hbody (mkSt w [] d []) (mkSt w [] d' [])) as [Ht Hd].
  { destruct Hsame as (Hid & _). by repeat split. }
  destruct ((update_prepare meta d ≫= _) _) as [r s1],
           ((update_prepare meta d' ≫= _) _) as [r' s1'].
  cbn in *. rewrite !run_deferred_trace. cbn. by rewrite Ht, Hd.
Qed.

End Frame.

(** * Rules, position by position *)

(** An invariant that moves with the position in the list of rules. *)
Lemma post_run_steps_indexed {W L} (Q : nat → L → Prop)
    (steps : list (L → M W L)) :
  (∀ n f, steps !! n = Some f → ∀ l, Q n l → post (f l) (Q (S n))) →
  ∀ l, Q 0%nat l → post (run_steps steps l) (Q (length steps)).
Proof.
  revert Q. induction steps as [|f steps IH]; intros Q H l Hl; simpl.
  - by apply post_ret.
  - apply post_bind.
    eapply post_weaken; [|exact (H 0%nat f eq_refl l Hl)].
    intros l' Hl'. apply (IH (λ n, Q (S n))); [|exact Hl'].
    intros n g Hn. exact (H (S n) g Hn).
Qed.

Ltac unfold_rules :=
  unfold update_max_shares, update_tier, update_tags,
    update_storage_account_type, update_disk_performance,
    update_optimized_frequent_attach_enabled, update_os_type,
    update_disk_size_gb, update_encryption_settings,
    update_disk_encryption_set_id, update_network_access_policy,
    update_disk_access_id, update_public_network_access_enabled,
    update_on_demand_bursting_check, update_on_demand_bursting_enabled,
    GetChange,
    create_disk_size_gb, create_max_shares, create_disk_performance,
    create_import, create_copy, create_from_image, create_upload,
    create_encryption_settings, create_disk_encryption_set_id,
    create_network_access, create_public_network_access, create_tier,
    create_trusted_launch, create_security_type,
    create_secure_vm_disk_encryption_set_id,
    create_on_demand_bursting_enabled, create_hyper_v_generation,
    GetOk, set_CreationData.

Ltac split_ifs :=
  repeat match goal with
         | |- context [if ?c then _ else _] => destruct c eqn:?
         end.

Ltac split_ors :=
  repeat match goal with
         | H : _ || _ = false |- _ => apply orb_false_elim in H as [? ?]
         end.

(** Splits a goal about the rule at position [n] of a list of rules that
    is written out into one goal for each rule. *)
Ltac each_position n Hn :=
  repeat (destruct n as [|n]; [injection Hn as <-|]);
  [..|discriminate Hn].

Ltac decide_all :=
  repeat match goal with
         | H : bool_decide _ = true |- _ => apply bool_decide_eq_true_1 in H
         | H : bool_decide _ = false |- _ => apply bool_decide_eq_false_1 in H
         | H : _ && _ = true |- _ => apply andb_prop in H as [? ?]
         end.

(** ** When the virtual machine is shut down (lines 616-806) *)

(** The rules before the one on [disk_size_gb] call nothing. *)
Lemma update_rules_quiet {W} (meta : Deps W) d disk :
  Forall (λ f, ∀ l (s : St W), (f l s).2 = s)
    (take 7 (update_rules meta d disk)).
Proof.
  unfold update_rules. cbn [take].
  repeat first [apply Forall_nil_2 | apply Forall_cons_2].
  all: intros l s; unfold_rules;
         unfold fail, mbind, M_bind, mret, M_ret; split_ifs; reflexivity.
Qed.

Lemma run_steps_quiet {W L} (steps : list (L → M W L)) :
  Forall (λ f, ∀ l (s : St W), (f l s).2 = s) steps →
  ∀ l s, (run_steps steps l s).2 = s.
Proof.
  induction 1 as [|f steps Hf _ IH]; intros l s; cbn; [reflexivity|].
  rewrite bind_eq. specialize (Hf l s).
  destruct (f l s) as [[l'|e|p] s1]; cbn in *; subst; auto.
Qed.

(** Lines 650-675 raise the flag for a change of tier or of SKU. *)
Lemma update_rules_flag_before {W} (meta : Deps W) d disk :
  post (run_steps (take 7 (update_rules meta d disk)) update_locals_init)
    (λ l, shouldShutDown l
          = HasChange d tier || HasChange d storage_account_type).
Proof.
  pose (Q := λ (n : nat) (l : UpdateLocals),
    shouldShutDown l
    = ((1 <? n)%nat && HasChange d tier)
      || ((3 <? n)%nat && HasChange d storage_account_type)).
  eapply post_weaken;
    [|apply (post_run_steps_indexed Q (take 7 (update_rules meta d disk)))].
  - unfold Q. cbn. auto.
  - unfold update_rules. cbn [take]. intros n f Hn l Hl.
    each_position n Hn.
    all: unfold Q in *; clear Q; cbn [Nat.ltb Nat.leb andb orb] in *.
    all: unfold_rules; solve_post; split_ifs; cbn in *.
    all: rewrite ?Hl, ?orb_false_r, ?orb_true_r; try reflexivity;
           try congruence.
  - reflexivity.
Qed.

(** Lines 720-742 raise it for a larger size, unless the disk can be
    resized without downtime. *)
Lemma update_disk_size_gb_flag {W} (meta : Deps W) d disk l (s : St W) l' s' :
  update_disk_size_gb meta d disk l s = (Ok l', s') →
  shouldShutDown l'
  = shouldShutDown l
    || (HasChange d disk_size_gb
        && negb (canBeResizedWithoutDowntime meta d disk (world s))).
Proof.
  unfold update_disk_size_gb, canBeResizedWithoutDowntime, GetChange.
  destruct (HasChange d disk_size_gb).
  2: { intros [= <- _]. by rewrite orb_false_r. }
  destruct (bool_decide _); [|discriminate].
  destruct (Features_ManagedDisk_ExpandWithoutDowntime meta).
  - unfold call. rewrite !bind_eq. cbn.
    destruct (determineIfVirtualMachineSupportsNoDowntimeResize meta _ _)
      as [[vmSupports|err] w']; cbn; [|discriminate].
    intros [= <- _].
    destruct (vmSupports && _); cbn; by rewrite ?orb_false_r, ?orb_true_r.
  - rewrite bind_eq. cbn. intros [= <- _]. cbn. by rewrite orb_true_r.
Qed.

(** Lines 744-806 raise it for a change of the disk encryption set or of
    bursting. *)
Lemma update_rules_flag_after {W} (meta : Deps W) d disk l :
  post (run_steps (drop 8 (update_rules meta d disk)) l)
    (λ l', shouldShutDown l'
           = shouldShutDown l
             || HasChange d disk_encryption_set_id
             || HasChange d on_demand_bursting_enabled).
Proof.
  pose (Q := λ (n : nat) (l' : UpdateLocals),
    shouldShutDown l'
    = shouldShutDown l
      || ((1 <? n)%nat && HasChange d disk_encryption_set_id)
      || ((6 <? n)%nat && HasChange d on_demand_bursting_enabled)).
  eapply post_weaken;
    [|apply (post_run_steps_indexed Q (drop 8 (update_rules meta d disk)))].
  - unfold Q. cbn. auto.
  - unfold update_rules. cbn [drop]. intros n f Hn l0 Hl.
    each_position n Hn.
    all: unfold Q in *; clear Q; cbn [Nat.ltb Nat.leb andb orb] in *.
    all: unfold_rules; unfold Properties_of; solve_post; split_ifs;
           cbn in *.
    all: rewrite ?Hl, ?orb_false_r, ?orb_true_r; try reflexivity;
           try congruence.
  - unfold Q. cbn. by rewrite !orb_false_r.
Qed.

(** The flag at the end of the rules, in terms of the plan and of what the
    helpers say. *)
Lemma update_rules_shutdown_flag {W} (meta : Deps W) d disk (s : St W) l s' :
  run_steps (update_rules meta d disk) update_locals_init s = (Ok l, s') →
  shouldShutDown l
  = HasChange d tier
    || HasChange d storage_account_type
    || HasChange d disk_encryption_set_id
    || HasChange d on_demand_bursting_enabled
    || (HasChange d disk_size_gb
        && negb (canBeResizedWithoutDowntime meta d disk (world s))).
Proof.
  rewrite <- (take_drop 7 (update_rules meta d disk)), run_steps_app.
  intros (l7 & s7 & H7 & Hrest)%bind_Ok_inv.
  pose proof (run_steps_quiet _ (update_rules_quiet meta d disk)
                update_locals_init s) as Hs.
  rewrite H7 in Hs. cbn in Hs. subst s7.
  apply update_rules_flag_before in H7.
  unfold update_rules in Hrest. cbn [drop run_steps] in Hrest.
  apply bind_Ok_inv in Hrest as (l8 & s8 & H8 & Hrest).
  apply update_disk_size_gb_flag in H8.
  pose proof (update_rules_flag_after meta d disk l8 s8 l s') as H9.
  unfold update_rules in H9. cbn [drop] in H9. specialize (H9 Hrest).
  rewrite H9, H8, H7.
  destruct (HasChange d tier), (HasChange d storage_account_type),
    (HasChange d disk_encryption_set_id),
    (HasChange d on_demand_bursting_enabled),
    (HasChange d disk_size_gb && _); reflexivity.
Qed.

(** The disk is attached to something whose ID does not parse as that of
    a virtual machine: Update returns before the lock. *)
Lemma update_unparsable_path {W} (meta : Deps W) w d id disk l s1
    model managedBy err :
  update_prepare meta d (mkSt w [] d []) = (Ok (id, disk, l), s1) →
  shouldShutDown l = true →
  Model disk = Some model →
  Disk.ManagedBy model = Some managedBy →
  ParseVirtualMachineID meta managedBy = inr err →
  let x := run (resourceManagedDiskUpdate meta) w d in
  x.1 = Err (Wrapf "parsing VMID %q for disk attachment: %+v" [managedBy] err)
  ∧ trace x.2 = trace s1.
Proof.
  intros Hprep Hs Hm Hb Hvm.
  pose proof (emits_deferred _ _ (mkSt w [] d []) (update_prepare_reads meta d))
    as Hd.
  cbv zeta. rewrite update_run, bind_eq, Hprep in *. cbn in Hd.
  cbv beta iota.
  rewrite bind_eq, (update_attached_stays _ _ _ _ _ Hm Hb).
  rewrite bind_eq. unfold update_apply. rewrite Hs, Hm. unfold deref.
  rewrite bind_ret, Hb, bind_ret, Hvm. cbn. rewrite Hd. cbn.
  by rewrite ?app_nil_r.
Qed.

(** * The specification, claim by claim *)

(** C1, as stated, fails for a disk attached to something whose ID does
    not parse as the ID of a virtual machine: a change asks for the
    machine to be shut down and [ManagedBy] is not nil, but Update returns
    the parse error of line 817 and takes no lock. *)
Lemma update_attached_without_machine_id :
  ¬ (∀ W (meta : Deps W) w d id disk l s1 model managedBy,
       update_prepare meta d (mkSt w [] d []) = (Ok (id, disk, l), s1) →
       shouldShutDown l = true →
       Model disk = Some model →
       Disk.ManagedBy model = Some managedBy →
       ∃ n r, LockByName n r
              ∈ trace (run (resourceManagedDiskUpdate meta) w d).2).
Proof.
  intros H.
  pose (d := Fake.updating Fake.premium (with_tier "P40" Fake.premium)).
  assert (∃ id disk l s1,
            update_prepare Fake.meta d (mkSt Resizing.attached_elsewhere [] d [])
            = (Ok (id, disk, l), s1)
            ∧ shouldShutDown l = true
            ∧ Model disk = Some (Fake.remote_disk (Some "")))
    as (id & disk & l & s1 & Hprep & Hs & Hm)
    by (eexists _, _, _, _; split; [vm_compute; reflexivity|];
        split; reflexivity).
  destruct (H _ Fake.meta _ d id disk l s1 _ "" Hprep Hs Hm eq_refl)
    as (n & r & Hlock).
  assert (trace (run (resourceManagedDiskUpdate Fake.meta)
                   Resizing.attached_elsewhere d).2
          = [CallGet (NewManagedDiskID "sub" "rg" "disk1")]) as Ht
    by (vm_compute; reflexivity).
  rewrite Ht in Hlock.
  apply elem_of_cons in Hlock as [Heq|Hnil]; [discriminate Heq|].
  by apply elem_of_nil in Hnil.
Qed.

(** C1, amended.  Once the payload of an Update is complete, the flag
    that asks for the virtual machine to be shut down is raised exactly
    when the tier, the SKU, the disk encryption set or bursting has
    changed, or the size has and the disk cannot be resized without
    downtime: the feature is off, or the helper for the machine or the one
    for the disk says no.  If the flag is raised and the disk is attached
    to a machine whose ID parses, Update takes the lock named after the
    machine, hands the payload to
    [resourceManagedDiskUpdateWithVmShutDown], and releases the lock when
    it returns, after reading the disk back; if the ID does not parse,
    Update returns an error and has taken no lock and sent nothing.  If
    the flag is not raised, or the disk is attached to nothing, Update
    sends the payload with [UpdateThenPoll] and takes no lock.  Before
    that point Update has only read. *)
Theorem update_shuts_down_or_patches {W} (meta : Deps W) w d id disk l s1 :
  update_prepare meta d (mkSt w [] d []) = (Ok (id, disk, l), s1) →
  let x := run (resourceManagedDiskUpdate meta) w d in
  let lockName := VirtualMachineResourceName meta in
  let noDowntime :=
    canBeResizedWithoutDowntime meta d disk (DisksClient_Get meta id w).2 in
  Forall reads_only (trace s1)
  ∧ shouldShutDown l
    = HasChange d tier
      || HasChange d storage_account_type
      || HasChange d disk_encryption_set_id
      || HasChange d on_demand_bursting_enabled
      || (HasChange d disk_size_gb && negb noDowntime)
  ∧ (shouldShutDown l = true →
     ∀ model managedBy,
       Model disk = Some model →
       Disk.ManagedBy model = Some managedBy →
       match ParseVirtualMachineID meta managedBy with
       | inl vm =>
           ∃ evs,
             trace x.2 =
               trace s1
               ++ [LockByName (VirtualMachineName vm) lockName;
                   CallUpdateWithVmShutDown id vm (diskUpdate l)
                     (shouldDetach l)]
               ++ evs
               ++ [UnlockByName (VirtualMachineName vm) lockName]
             ∧ Forall reads_only evs
       | inr err =>
           x.1 = Err (Wrapf "parsing VMID %q for disk attachment: %+v"
                        [managedBy] err)
           ∧ trace x.2 = trace s1
       end)
  ∧ (shouldShutDown l = false
     ∨ (∃ model, Model disk = Some model ∧ Disk.ManagedBy model = None) →
     ∃ evs,
       trace x.2 = trace s1 ++ [CallUpdateThenPoll id (diskUpdate l)] ++ evs
       ∧ Forall reads_only evs).
Proof.
  intros Hprep x lockName noDowntime. subst x lockName noDowntime.
  pose proof (update_prepare_Ok_inv meta _ _ _ _ _ _ Hprep)
    as (_ & _ & Hrules).
  split; [|split; [|split]].
  - destruct (emits_trace _ _ (mkSt w [] d []) (update_prepare_reads meta d))
      as (evs & Ht & HP).
    rewrite Hprep in Ht. simpl in Ht. by rewrite Ht.
  - exact (update_rules_shutdown_flag meta d disk _ _ _ Hrules).
  - intros Hs model managedBy Hm Hb.
    destruct (ParseVirtualMachineID meta managedBy) as [vm|err] eqn:Hvm.
    + eapply update_shutdown_path; eassumption.
    + eapply update_unparsable_path; eassumption.
  - intros Hcase. eapply update_direct_path; eassumption.
Qed.

Lemma update_shuts_down_or_patches_witness :
  let d := Fake.updating Fake.premium (with_disk_size_gb 2048 Fake.premium) in
  let vm := {| vm_SubscriptionId := "sub"; vm_ResourceGroupName := "rg";
               VirtualMachineName := "vm1" |} in
  (∃ id disk l s1,
     update_prepare (Resizing.meta false) d (mkSt Fake.attached [] d [])
     = (Ok (id, disk, l), s1)
     ∧ shouldShutDown l = true
     ∧ ∃ evs,
         trace (run (resourceManagedDiskUpdate (Resizing.meta false))
                  Fake.attached d).2 =
           trace s1
           ++ [LockByName "vm1" "azurerm_virtual_machine";
               CallUpdateWithVmShutDown id vm (diskUpdate l) (shouldDetach l)]
           ++ evs
           ++ [UnlockByName "vm1" "azurerm_virtual_machine"]
         ∧ Forall reads_only evs)
  ∧ (∃ id disk l s1,
       update_prepare (Resizing.meta true) d (mkSt Fake.attached [] d [])
       = (Ok (id, disk, l), s1)
       ∧ shouldShutDown l = false
       ∧ ∃ evs,
           trace (run (resourceManagedDiskUpdate (Resizing.meta true))
                    Fake.attached d).2 =
             trace s1 ++ [CallUpdateThenPoll id (diskUpdate l)] ++ evs
           ∧ Forall reads_only evs).
Proof.
  intros d vm. split.
  - eexists _, _, _, _. split; [vm_compute; reflexivity|].
    match goal with
    | |- context [CallUpdateWithVmShutDown ?id _ (diskUpdate ?l) _] =>
        pose proof (update_shuts_down_or_patches (Resizing.meta false)
                      Fake.attached d id _ l _ eq_refl)
          as (_ & Hflag & Hpath & _)
    end.
    split; [exact Hflag|].
    exact (Hpath eq_refl (Fake.remote_disk (Some "vm1")) "vm1"
             eq_refl eq_refl).
  - eexists _, _, _, _. split; [vm_compute; reflexivity|].
    match goal with
    | |- context [CallUpdateThenPoll ?id (diskUpdate ?l)] =>
        pose proof (update_shuts_down_or_patches (Resizing.meta true)
                      Fake.attached d id _ l _ eq_refl)
          as (_ & Hflag & _ & Hpath)
    end.
    split; [exact Hflag|].
    exact (Hpath (or_introl eq_refl)).
Defined.

(** C2.  An Update in which [disk_access_id] has changed and
    [network_access_policy] has not never completes: the rules before the
    one on [disk_access_id], whenever they all pass, leave
    [diskUpdate.Properties.NetworkAccessPolicy] nil, and the rule then
    dereferences it and panics.  So the pointer is not non-nil at the
    point it is dereferenced, and Update is not total.  Create assigns
    the pointer on line 471, before its own [switch]. *)
Theorem update_disk_access_id_nil_policy {W} (meta : Deps W) w d :
  HasChange d disk_access_id = true →
  HasChange d network_access_policy = false →
  is_Ok (run (resourceManagedDiskUpdate meta) w d).1 = false
  ∧ ∀ disk,
      post (run_steps (take 11 (update_rules meta d disk)) update_locals_init)
        (λ l, ∀ s : St W,
           update_disk_access_id d l s
           = (Panic "diskUpdate.Properties.NetworkAccessPolicy", s)).
Proof.
  intros Hc Hn. split.
  - apply update_not_Ok. intros disk. by apply update_rules_not_Ok.
  - intros disk s l s' Hrules s0.
    apply update_disk_access_id_panics; [exact Hc|].
    exact (update_rules_policy_nil meta d disk Hn _ _ _ Hrules).
Qed.

Lemma update_disk_access_id_nil_policy_witness :
  let d := Fake.updating
             (with_network_access_policy "AllowPrivate" Fake.premium)
             (with_disk_access_id "/subscriptions/sub/diskAccesses/a"
                (with_network_access_policy "AllowPrivate" Fake.premium)) in
  is_Ok (run (resourceManagedDiskUpdate Fake.meta) Fake.detached d).1 = false
  ∧ (run (resourceManagedDiskUpdate Fake.meta) Fake.detached d).1
    = Panic "diskUpdate.Properties.NetworkAccessPolicy".
Proof.
  intros d. split.
  - apply (update_disk_access_id_nil_policy Fake.meta Fake.detached d);
      reflexivity.
  - vm_compute. reflexivity.
Defined.

(** C4.  On Create with a non-empty [tier], and on Update with a changed
    [tier]: if [storage_account_type] is neither Premium_LRS nor
    Premium_ZRS the callback returns an error and has sent no write to
    the API; if it is one of the two, every payload the callback sends
    carries the tier. *)
Theorem tier_requires_premium {W} (meta : Deps W) w d :
  let premium :=
    Get d storage_account_type = DiskStorageAccountTypesPremiumLRS
    ∨ Get d storage_account_type = DiskStorageAccountTypesPremiumZRS in
  (Get d tier ≠ "" → ¬ premium →
   fails_before_writing (run (resourceManagedDiskCreate meta) w d))
  ∧ (Get d tier ≠ "" → premium →
     ∀ e p,
       e ∈ trace (run (resourceManagedDiskCreate meta) w d).2 →
       create_payload e = Some p →
       ∃ props, Disk.Properties p = Some props
                ∧ DiskProperties.Tier props = Some (Get d tier))
  ∧ (HasChange d tier = true → ¬ premium →
     fails_before_writing (run (resourceManagedDiskUpdate meta) w d))
  ∧ (HasChange d tier = true → premium →
     ∀ e p,
       e ∈ trace (run (resourceManagedDiskUpdate meta) w d).2 →
       update_payload e = Some p →
       DiskUpdateProperties.Tier (DiskUpdate.Properties p)
       = Some (Get d tier)).
Proof.
  intros premium. subst premium. split; [|split; [|split]].
  - intros Ht Hp.
    eapply (create_rule_fails meta w d 11); [reflexivity | |].
    + apply create_rules_never_panic. lia.
    + intros props. apply create_tier_errs; [exact Ht | tauto..].
  - intros Ht _ e p He Hp.
    exact (create_payload_post meta _ w d (create_tier_sets meta d Ht)
             e p He Hp).
  - intros Hc Hp.
    eapply (update_rule_fails meta w d 1 (λ _, update_tier d));
      [reflexivity | |].
    + intros disk. apply update_rules_never_panic. lia.
    + intros disk l. apply update_tier_errs; [exact Hc | tauto..].
  - intros Hc _ e p He Hp.
    destruct (update_payload_post meta _ w d
                (λ disk, update_tier_sets meta d disk Hc) e p He Hp)
      as (l & Hl & ->).
    exact Hl.
Qed.

Ltac compute_it :=
  solve [ reflexivity
        | vm_compute; reflexivity
        | vm_compute; discriminate
        | vm_compute; intuition discriminate
        | vm_compute; intros; lia
        | vm_compute; intuition lia ].

Lemma tier_requires_premium_witness :
  let standard :=
    with_tier "P40" (with_storage_account_type "Standard_LRS" Fake.premium) in
  let p40 := with_tier "P40" Fake.premium in
  fails_before_writing
    (run (resourceManagedDiskCreate Fake.meta) Fake.nothing
       (Fake.creating standard))
  ∧ (∃ e p props,
       trace (run (resourceManagedDiskCreate Fake.meta) Fake.nothing
                (Fake.creating p40)).2 !! 1%nat = Some e
       ∧ create_payload e = Some p
       ∧ Disk.Properties p = Some props
       ∧ DiskProperties.Tier props = Some "P40")
  ∧ fails_before_writing
      (run (resourceManagedDiskUpdate Fake.meta) Fake.detached
         (Fake.updating (with_storage_account_type "Standard_LRS" Fake.premium)
            standard))
  ∧ (∃ e p,
       trace (run (resourceManagedDiskUpdate Fake.meta) Fake.detached
                (Fake.updating Fake.premium p40)).2 !! 1%nat = Some e
       ∧ update_payload e = Some p
       ∧ DiskUpdateProperties.Tier (DiskUpdate.Properties p) = Some "P40").
Proof.
  intros standard p40. split; [|split; [|split]].
  - apply (tier_requires_premium Fake.meta Fake.nothing
             (Fake.creating standard)); compute_it.
  - eexists _, _. 
    assert (Hat : trace (run (resourceManagedDiskCreate Fake.meta) Fake.nothing
                     (Fake.creating p40)).2 !! 1%nat = Some _)
      by (vm_compute; reflexivity).
    destruct (proj1 (proj2 (tier_requires_premium Fake.meta Fake.nothing
                              (Fake.creating p40)))
                ltac:(compute_it) ltac:(left; compute_it)
                _ _ (list_elem_of_lookup_2 _ _ _ Hat) eq_refl)
      as (props & Hprops & Htier).
    exists props. auto.
  - apply (tier_requires_premium Fake.meta Fake.detached
             (Fake.updating
                (with_storage_account_type "Standard_LRS" Fake.premium)
                standard)); compute_it.
  - eexists _, _.
    assert (Hat : trace (run (resourceManagedDiskUpdate Fake.meta)
                     Fake.detached
                     (Fake.updating Fake.premium p40)).2 !! 1%nat = Some _)
      by (vm_compute; reflexivity).
    split; [exact Hat|]. split; [reflexivity|].
    exact (proj2 (proj2 (proj2 (tier_requires_premium Fake.meta Fake.detached
                                  (Fake.updating Fake.premium p40))))
             ltac:(compute_it) ltac:(left; compute_it)
             _ _ (list_elem_of_lookup_2 _ _ _ Hat) eq_refl).
Defined.

(** C5.  On Update: if [disk_size_gb] has changed and the new size is not
    greater than the old one, Update returns an error and has sent no
    write to the API; if it has changed and the new size is greater, every
    payload Update sends carries the new size; if it has not changed, no
    payload carries a size. *)
Theorem update_rejects_shrinking {W} (meta : Deps W) w d :
  let '(oldSize, newSize) := GetChange d disk_size_gb in
  let x := run (resourceManagedDiskUpdate meta) w d in
  (HasChange d disk_size_gb = true → ¬ newSize > oldSize →
   fails_before_writing x)
  ∧ (HasChange d disk_size_gb = true → newSize > oldSize →
     ∀ e p, e ∈ trace x.2 → update_payload e = Some p →
       DiskUpdateProperties.DiskSizeGB (DiskUpdate.Properties p)
       = Some newSize)
  ∧ (HasChange d disk_size_gb = false →
     ∀ e p, e ∈ trace x.2 → update_payload e = Some p →
       DiskUpdateProperties.DiskSizeGB (DiskUpdate.Properties p) = None).
Proof.
  unfold GetChange. cbv zeta. split; [|split].
  - intros Hc Hle.
    eapply (update_rule_fails meta w d 7 (update_disk_size_gb meta d));
      [reflexivity | |].
    + intros disk. apply update_rules_never_panic. lia.
    + intros disk l. by apply update_disk_size_gb_errs.
  - intros Hc _ e p He Hp.
    destruct (update_payload_post meta _ w d
                (λ disk, update_disk_size_gb_sets meta d disk Hc) e p He Hp)
      as (l & Hl & ->).
    exact Hl.
  - intros Hc e p He Hp.
    destruct (update_payload_post meta _ w d
                (update_rules_only_changed meta d) e p He Hp)
      as (l & Hl & ->).
    unfold only_changed in Hl. tauto.
Qed.

Lemma update_rejects_shrinking_witness :
  let smaller := with_disk_size_gb 512 Fake.premium in
  let larger := with_disk_size_gb 2048 Fake.premium in
  fails_before_writing
    (run (resourceManagedDiskUpdate Fake.meta) Fake.detached
       (Fake.updating Fake.premium smaller))
  ∧ (∃ e p,
       trace (run (resourceManagedDiskUpdate Fake.meta) Fake.detached
                (Fake.updating Fake.premium larger)).2 !! 1%nat = Some e
       ∧ update_payload e = Some p
       ∧ DiskUpdateProperties.DiskSizeGB (DiskUpdate.Properties p)
         = Some 2048)
  ∧ (∃ e p,
       trace (run (resourceManagedDiskUpdate Fake.meta) Fake.detached
                (Fake.updating Fake.premium
                   (with_os_type "Linux" Fake.premium))).2 !! 1%nat = Some e
       ∧ update_payload e = Some p
       ∧ DiskUpdateProperties.DiskSizeGB (DiskUpdate.Properties p) = None).
Proof.
  intros smaller larger. split; [|split].
  - apply (update_rejects_shrinking Fake.meta Fake.detached
             (Fake.updating Fake.premium smaller)); compute_it.
  - eexists _, _.
    assert (Hat : trace (run (resourceManagedDiskUpdate Fake.meta)
                     Fake.detached
                     (Fake.updating Fake.premium larger)).2 !! 1%nat = Some _)
      by (vm_compute; reflexivity).
    split; [exact Hat|]. split; [reflexivity|].
    exact (proj1 (proj2 (update_rejects_shrinking Fake.meta Fake.detached
                           (Fake.updating Fake.premium larger)))
             ltac:(compute_it) ltac:(compute_it)
             _ _ (list_elem_of_lookup_2 _ _ _ Hat) eq_refl).
  - eexists _, _.
    assert (Hat : trace (run (resourceManagedDiskUpdate Fake.meta)
                     Fake.detached
                     (Fake.updating Fake.premium
                        (with_os_type "Linux" Fake.premium))).2 !! 1%nat
                  = Some _)
      by (vm_compute; reflexivity).
    split; [exact Hat|]. split; [reflexivity|].
    exact (proj2 (proj2 (update_rejects_shrinking Fake.meta Fake.detached
                           (Fake.updating Fake.premium
                              (with_os_type "Linux" Fake.premium))))
             ltac:(compute_it)
             _ _ (list_elem_of_lookup_2 _ _ _ Hat) eq_refl).
Defined.

(** C8.  On Update with a changed [disk_encryption_set_id]: if the new
    value is empty, Update returns an error and has sent no write to the
    API; if it is not, every payload Update sends carries the ID of the
    disk encryption set together with the encryption type that
    [retrieveDiskEncryptionSetEncryptionType] returned for it; and when
    the disk is attached to a virtual machine, no payload goes out with
    [UpdateThenPoll]: it goes through the shut-down helper. *)
Theorem update_disk_encryption_set {W} (meta : Deps W) w d :
  HasChange d disk_encryption_set_id = true →
  let x := run (resourceManagedDiskUpdate meta) w d in
  let diskEncryptionSetId := Get d disk_encryption_set_id in
  (diskEncryptionSetId = "" → fails_before_writing x)
  ∧ (diskEncryptionSetId ≠ "" →
     ∀ e p, e ∈ trace x.2 → update_payload e = Some p →
       ∃ w0,
         DiskUpdateProperties.Encryption (DiskUpdate.Properties p)
         = Some (Encryption.mk (Some diskEncryptionSetId)
                   (retrieveDiskEncryptionSetEncryptionType meta
                      diskEncryptionSetId w0).1.1))
  ∧ (∀ id model managedBy,
       ParseManagedDiskID meta (rd_Id d) = inl id →
       Model (DisksClient_Get meta id w).1.1 = Some model →
       Disk.ManagedBy model = Some managedBy →
       Forall not_direct (trace x.2)).
Proof.
  intros Hc. cbv zeta. split; [|split].
  - intros He.
    eapply (update_rule_fails meta w d 9
              (λ _, update_disk_encryption_set_id meta d));
      [reflexivity | |].
    + intros disk. apply update_rules_never_panic. lia.
    + intros disk l. by apply update_disk_encryption_set_id_errs.
  - intros _ e p He Hp.
    destruct (update_payload_post meta _ w d
                (λ disk, update_disk_encryption_set_id_sets meta d disk Hc)
                e p He Hp)
      as (l & Hl & ->).
    exact Hl.
  - intros id model managedBy Hid Hm Hb.
    eapply update_attached_not_direct; eassumption.
Qed.

Lemma update_disk_encryption_set_witness :
  let des := "/subscriptions/sub/diskEncryptionSets/des1" in
  let keyed := with_disk_encryption_set_id des Fake.premium in
  fails_before_writing
    (run (resourceManagedDiskUpdate Fake.meta) Fake.detached
       (Fake.updating keyed Fake.premium))
  ∧ (∃ e p,
       trace (run (resourceManagedDiskUpdate Fake.meta) Fake.attached
                (Fake.updating Fake.premium keyed)).2 !! 3%nat = Some e
       ∧ update_payload e = Some p
       ∧ DiskUpdateProperties.Encryption (DiskUpdate.Properties p)
         = Some (Encryption.mk (Some des)
                   (Some "EncryptionAtRestWithCustomerKey")))
  ∧ Forall not_direct
      (trace (run (resourceManagedDiskUpdate Fake.meta) Fake.attached
                (Fake.updating Fake.premium keyed)).2).
Proof.
  intros des keyed. split; [|split].
  - apply (update_disk_encryption_set Fake.meta Fake.detached
             (Fake.updating keyed Fake.premium)); compute_it.
  - eexists _, _.
    assert (Hat : trace (run (resourceManagedDiskUpdate Fake.meta)
                     Fake.attached
                     (Fake.updating Fake.premium keyed)).2 !! 3%nat = Some _)
      by (vm_compute; reflexivity).
    split; [exact Hat|]. split; [reflexivity|].
    destruct (proj1 (proj2 (update_disk_encryption_set Fake.meta
                              Fake.attached
                              (Fake.updating Fake.premium keyed)
                              ltac:(compute_it)))
                ltac:(compute_it)
                _ _ (list_elem_of_lookup_2 _ _ _ Hat) eq_refl)
      as (w0 & Henc).
    exact Henc.
  - apply (proj2 (proj2 (update_disk_encryption_set Fake.meta Fake.attached
                           (Fake.updating Fake.premium keyed)
                           ltac:(compute_it)))
             (NewManagedDiskID "sub" "rg" "disk1")
             (Fake.remote_disk (Some "vm1")) "vm1");
      compute_it.
Defined.

(** C3, as stated, fails on Update: an Update of an UltraSSD_LRS disk
    whose configuration supplies [disk_iops_read_only] while [max_shares]
    is 0 succeeds when the value has not changed. *)
Lemma update_read_only_supplied_unchanged :
  ¬ (∀ W (meta : Deps W) w d,
       Get d storage_account_type = DiskStorageAccountTypesUltraSSDLRS →
       Get d disk_iops_read_only ≠ 0 →
       Get d max_shares = 0 →
       is_Err (run (resourceManagedDiskUpdate meta) w d).1 = true).
Proof.
  intros H.
  specialize (H _ Fake.meta Fake.detached
    (Fake.updating
       (with_disk_iops_read_only 100 Fake.ultra)
       (with_optimized_frequent_attach_enabled true
          (with_disk_iops_read_only 100 Fake.ultra)))
    eq_refl ltac:(compute_it) eq_refl).
  vm_compute in H. discriminate H.
Qed.

(** C3, amended.  For a disk whose [storage_account_type] is UltraSSD_LRS
    or PremiumV2_LRS and whose [max_shares] is 0: a Create that supplies
    [disk_iops_read_only] or [disk_mbps_read_only] returns an error and
    has sent no write to the API; an Update in which one of the two has
    changed returns an error and has sent no write to the API; and no
    payload an Update sends carries either of them. *)
Theorem read_only_limits_require_max_shares {W} (meta : Deps W) w d :
  Get d storage_account_type = DiskStorageAccountTypesUltraSSDLRS
  ∨ Get d storage_account_type = DiskStorageAccountTypesPremiumVTwoLRS →
  Get d max_shares = 0 →
  (Get d disk_iops_read_only ≠ 0 ∨ Get d disk_mbps_read_only ≠ 0 →
   fails_before_writing (run (resourceManagedDiskCreate meta) w d))
  ∧ (HasChange d disk_iops_read_only = true
     ∨ HasChange d disk_mbps_read_only = true →
     fails_before_writing (run (resourceManagedDiskUpdate meta) w d))
  ∧ (∀ e p,
       e ∈ trace (run (resourceManagedDiskUpdate meta) w d).2 →
       update_payload e = Some p →
       DiskUpdateProperties.DiskIOPSReadOnly (DiskUpdate.Properties p) = None
       ∧ DiskUpdateProperties.DiskMBpsReadOnly (DiskUpdate.Properties p)
         = None).
Proof.
  intros Hsat Hm. split; [|split].
  - intros Hv.
    eapply (create_rule_fails meta w d 2); [reflexivity | |].
    + apply create_rules_never_panic. lia.
    + intros props. by apply create_disk_performance_errs.
  - intros Hc.
    eapply (update_rule_fails meta w d 4 (λ _, update_disk_performance d));
      [reflexivity | |].
    + intros disk. apply update_rules_never_panic. lia.
    + intros disk l. by apply update_disk_performance_errs.
  - intros e p He Hp.
    destruct (update_payload_post meta _ w d
                (λ disk, update_read_only_unset meta d disk Hm) e p He Hp)
      as (l & Hl & ->).
    exact Hl.
Qed.

Lemma read_only_limits_require_max_shares_witness :
  let limited := with_disk_iops_read_only 100 Fake.ultra in
  fails_before_writing
    (run (resourceManagedDiskCreate Fake.meta) Fake.nothing
       (Fake.creating limited))
  ∧ fails_before_writing
      (run (resourceManagedDiskUpdate Fake.meta) Fake.detached
         (Fake.updating Fake.ultra limited))
  ∧ (∃ e p,
       trace (run (resourceManagedDiskUpdate Fake.meta) Fake.detached
                (Fake.updating limited
                   (with_optimized_frequent_attach_enabled true limited))).2
         !! 1%nat = Some e
       ∧ update_payload e = Some p
       ∧ DiskUpdateProperties.DiskIOPSReadOnly (DiskUpdate.Properties p)
         = None
       ∧ DiskUpdateProperties.DiskMBpsReadOnly (DiskUpdate.Properties p)
         = None).
Proof.
  intros limited. split; [|split].
  - apply (read_only_limits_require_max_shares Fake.meta Fake.nothing
             (Fake.creating limited)); [left| |left]; compute_it.
  - apply (read_only_limits_require_max_shares Fake.meta Fake.detached
             (Fake.updating Fake.ultra limited)); [left| |left]; compute_it.
  - eexists _, _.
    assert (Hat : trace (run (resourceManagedDiskUpdate Fake.meta)
                     Fake.detached
                     (Fake.updating limited
                        (with_optimized_frequent_attach_enabled true
                           limited))).2 !! 1%nat = Some _)
      by (vm_compute; reflexivity).
    split; [exact Hat|]. split; [reflexivity|].
    exact (proj2 (proj2 (read_only_limits_require_max_shares Fake.meta
                           Fake.detached
                           (Fake.updating limited
                              (with_optimized_frequent_attach_enabled true
                                 limited))
                           ltac:(left; compute_it) ltac:(compute_it)))
             _ _ (list_elem_of_lookup_2 _ _ _ Hat) eq_refl).
Defined.

(** C9, as stated, fails for the SKU: an Update in which only
    [max_shares] has changed sends a payload whose [Sku] is set, although
    [storage_account_type] has not changed. *)
Lemma update_sku_sent_unchanged :
  ¬ (∀ W (meta : Deps W) w d e p,
       e ∈ trace (run (resourceManagedDiskUpdate meta) w d).2 →
       update_payload e = Some p →
       HasChange d storage_account_type = false →
       DiskUpdate.Sku p = None).
Proof.
  intros H.
  set (d := Fake.updating (with_max_shares 2 Fake.premium)
              (with_max_shares 3 Fake.premium)).
  assert (Hat : trace (run (resourceManagedDiskUpdate Fake.meta)
                   Fake.detached d).2 !! 1%nat = Some _)
    by (vm_compute; reflexivity).
  specialize (H _ Fake.meta Fake.detached d _ _
                (list_elem_of_lookup_2 _ _ _ Hat) eq_refl eq_refl).
  discriminate H.
Qed.

(** C9, amended.  Every payload an Update sends leaves a member nil when
    the key it is built from has not changed: tags, max_shares, tier,
    os_type, optimized_frequent_attach_enabled, encryption_settings,
    network_access_policy, public_network_access_enabled,
    on_demand_bursting_enabled, the four IOPS and MBps limits, and also
    disk_size_gb, disk_encryption_set_id and disk_access_id.  The SKU is
    left nil when neither [storage_account_type] nor [max_shares] has
    changed. *)
Theorem update_sends_only_changes {W} (meta : Deps W) w d e p :
  e ∈ trace (run (resourceManagedDiskUpdate meta) w d).2 →
  update_payload e = Some p →
  only_changed d p.
Proof.
  intros He Hp.
  destruct (update_payload_post meta _ w d
              (update_rules_only_changed meta d) e p He Hp)
    as (l & Hl & ->).
  exact Hl.
Qed.

Lemma update_sends_only_changes_witness :
  let d := Fake.updating Fake.premium (with_os_type "Linux" Fake.premium) in
  ∃ e p,
    trace (run (resourceManagedDiskUpdate Fake.meta) Fake.detached d).2
      !! 1%nat = Some e
    ∧ update_payload e = Some p
    ∧ DiskUpdateProperties.OsType (DiskUpdate.Properties p) = Some "Linux"
    ∧ only_changed d p.
Proof.
  intros d. eexists _, _.
  assert (Hat : trace (run (resourceManagedDiskUpdate Fake.meta)
                   Fake.detached d).2 !! 1%nat = Some _)
    by (vm_compute; reflexivity).
  split; [exact Hat|]. split; [reflexivity|]. split; [reflexivity|].
  exact (update_sends_only_changes Fake.meta Fake.detached d _ _
           (list_elem_of_lookup_2 _ _ _ Hat) eq_refl).
Defined.

(** The schema of every key of [force_new_keys] has [ForceNew] set, given
    that the two schemas taken from [commonschema] have. *)
Lemma force_new_keys_schema (lib : ImportedSchema → Schema) key :
  ForceNew (lib commonschema_EdgeZoneOptionalForceNew) = true →
  ForceNew (lib commonschema_ZoneSingleOptionalForceNew) = true →
  key ∈ force_new_keys →
  ∃ e, In (key, e) resourceManagedDisk_Schema
       ∧ schema_of lib resourceManagedDisk_Schema key
         = Some (entry_schema lib e)
       ∧ ForceNew (entry_schema lib e) = true.
Proof.
  intros Hedge Hzone Hkey. unfold force_new_keys in Hkey.
  repeat (apply elem_of_cons in Hkey as [->|Hkey]);
    [..|by apply elem_of_nil in Hkey].
  all: eexists; (split; [|split; [reflexivity|]]).
  all: first
    [ solve [ unfold resourceManagedDisk_Schema;
              repeat first [left; reflexivity | right] ]
    | reflexivity | exact Hedge | exact Hzone ].
Qed.

(** C6.  Every key of [force_new_keys] is marked [ForceNew] in the schema
    (edge_zone and zone through the [commonschema] functions named for
    it), so a change to it makes the plan a replacement; and two Updates
    whose resource data differ only in those keys make the same calls
    with the same payloads: Update writes none of them. *)
Theorem force_new_keys_replace {W} (lib : ImportedSchema → Schema)
    (meta : Deps W) w d d' :
  ForceNew (lib commonschema_EdgeZoneOptionalForceNew) = true →
  ForceNew (lib commonschema_ZoneSingleOptionalForceNew) = true →
  (∀ key, key ∈ force_new_keys →
     (∃ sch, schema_of lib resourceManagedDisk_Schema key = Some sch
             ∧ ForceNew sch = true)
     ∧ (HasChangeKey d key = true →
        RequiresNew lib (resourceManagedDisk W) d = true))
  ∧ (same_updatable d d' →
     trace (run (resourceManagedDiskUpdate meta) w d).2
     = trace (run (resourceManagedDiskUpdate meta) w d').2).
Proof.
  intros Hedge Hzone. split.
  - intros key Hkey.
    destruct (force_new_keys_schema lib key Hedge Hzone Hkey)
      as (e & Hin & Hsch & Hforce).
    split; [eauto|].
    intros Hc. unfold RequiresNew. apply orb_true_iff. left.
    apply existsb_exists. exists (key, e). split; [exact Hin|].
    by rewrite Hforce, Hc.
  - apply update_same_calls.
Qed.

Lemma force_new_keys_replace_witness :
  let lib := λ f, match f with
                  | commonschema_EdgeZoneOptionalForceNew
                  | commonschema_ZoneSingleOptionalForceNew =>
                      schema TypeString ▹ optional ▹ forceNew
                  | commonschema_Tags => schema TypeMap ▹ optional
                  | encryptionSettingsSchema => schema TypeList ▹ optional
                  | _ => schema TypeString ▹ required ▹ forceNew
                  end in
  let d := Fake.updating Fake.premium (with_zone "2" Fake.premium) in
  let d' := Fake.updating
              (with_hyper_v_generation "V1" Fake.premium)
              (with_source_uri "https://example.org/a.vhd" Fake.premium) in
  RequiresNew lib (resourceManagedDisk Fake.World) d = true
  ∧ trace (run (resourceManagedDiskUpdate Fake.meta) Fake.detached d).2
    = trace (run (resourceManagedDiskUpdate Fake.meta) Fake.detached d').2.
Proof.
  intros lib d d'.
  destruct (force_new_keys_replace lib Fake.meta Fake.detached d d'
              eq_refl eq_refl) as [Hkeys Hsame].
  split.
  - apply (Hkeys "zone"); [|reflexivity].
    unfold force_new_keys. apply list_elem_of_In. simpl. tauto.
  - apply Hsame. repeat split.
Defined.

(** C7.  Once the payload of a Create is complete, Create sends it with
    [CreateOrUpdateThenPoll] exactly once: before that it has only read,
    and after it it only reads.  If the poll fails, Create returns an
    error and leaves the resource data, and so the resource ID,
    untouched.  Otherwise it reads the disk back with Get; if that fails
    or returns no model, Create returns an error and leaves the resource
    data untouched.  Otherwise Create sets the resource ID and then runs
    Read: its outcome is that of Read on the resource data with the
    ID set. *)
Theorem create_submits_once {W} (meta : Deps W) w d id createDisk s1 :
  create_prepare meta d (mkSt w [] d []) = (Ok (id, createDisk), s1) →
  let x := run (resourceManagedDiskCreate meta) w d in
  let put := CallCreateOrUpdateThenPoll id createDisk in
  let '(err, w2) :=
    DisksClient_CreateOrUpdateThenPoll meta id createDisk (world s1) in
  let '(read, err', w3) := DisksClient_Get meta id w2 in
  Forall reads_only (trace s1)
  ∧ (∃ evs, trace x.2 = trace s1 ++ [put] ++ evs ∧ Forall reads_only evs)
  ∧ match err with
    | Some _ =>
        is_Err x.1 = true ∧ rd x.2 = d ∧ trace x.2 = trace s1 ++ [put]
    | None =>
        match err', Model read with
        | None, Some _ =>
            let s2 :=
              mkSt w3 (trace s1 ++ [put; CallGet id])
                (SetId (ManagedDiskId_ID meta id) d) [] in
            x.1 = (resourceManagedDiskRead meta s2).1
            ∧ rd x.2 = rd (resourceManagedDiskRead meta s2).2
            ∧ trace x.2 = trace (resourceManagedDiskRead meta s2).2
        | _, _ =>
            is_Err x.1 = true ∧ rd x.2 = d
            ∧ trace x.2 = trace s1 ++ [put; CallGet id]
        end
    end.
Proof.
  intros Hprep.
  pose proof (create_submit_spec meta d id createDisk s1) as Hsub.
  pose proof (emits_deferred _ _ (mkSt w [] d []) (create_prepare_reads meta d))
    as Hd.
  pose proof (create_prepare_keeps_d meta d (mkSt w [] d [])) as Hrd.
  destruct (emits_trace _ _ (mkSt w [] d []) (create_prepare_reads meta d))
    as (evs & Ht & HP).
  rewrite Hprep in Hd, Hrd, Ht. cbn in Hd, Hrd, Ht.
  rewrite create_run, bind_eq, Hprep. cbv beta iota. rewrite bind_eq.
  destruct (DisksClient_CreateOrUpdateThenPoll meta id createDisk (world s1))
    as [err w2].
  destruct (DisksClient_Get meta id w2) as [[read err'] w3].
  cbv zeta in Hsub. rewrite Hd, Hrd in Hsub.
  split; [by rewrite Ht|].
  destruct err as [err|]; [|destruct err' as [err'|], (Model read) as [m|]].
  1,2,3,5: destruct Hsub as [Herr Hs];
    destruct (create_submit meta d id createDisk s1) as [[?|?|?] s2];
    try discriminate Herr; cbn in Hs; subst s2; cbn;
    (split; [|by repeat split]).
  1: exists []; split; [reflexivity | constructor].
  1,2,3: exists [CallGet id]; (split; [reflexivity|]);
    apply Forall_cons_2; [reflexivity | constructor].
  rewrite Hsub. cbv zeta.
  match goal with
  | |- context [resourceManagedDiskRead meta ?s] =>
      pose proof (emits_deferred _ _ s (resourceManagedDiskRead_reads meta))
        as Hd';
      destruct (emits_trace _ _ s (resourceManagedDiskRead_reads meta))
        as (evs' & Ht' & HP');
      destruct (resourceManagedDiskRead meta s) as [r s3]
  end.
  cbn [fst snd] in *. rewrite run_deferred_trace, run_deferred_rd.
  cbn [world trace rd deferred] in *. rewrite Hd'. cbn.
  rewrite app_nil_r. split; [|by repeat split].
  exists (CallGet id :: evs'). rewrite Ht'. split.
  - by rewrite <- !app_assoc.
  - by constructor.
Qed.

Lemma create_submits_once_witness :
  let d := Fake.creating Fake.premium in
  let x := run (resourceManagedDiskCreate Fake.meta) Fake.nothing d in
  ∃ id createDisk s1,
    create_prepare Fake.meta d (mkSt Fake.nothing [] d [])
    = (Ok (id, createDisk), s1)
    ∧ (∃ evs,
         trace x.2
         = trace s1 ++ [CallCreateOrUpdateThenPoll id createDisk] ++ evs
         ∧ Forall reads_only evs)
    ∧ x.1 = Ok tt
    ∧ rd_Id (rd x.2) = "disk1".
Proof.
  intros d x. eexists _, _, _. split; [vm_compute; reflexivity|].
  match goal with
  | |- context [CallCreateOrUpdateThenPoll ?id ?disk] =>
      pose proof (create_submits_once Fake.meta Fake.nothing d id disk _
                    eq_refl) as H
  end.
  cbn [Fake.meta DisksClient_CreateOrUpdateThenPoll DisksClient_Get
       Fake.put Fake.get Fake.remote] in H.
  destruct H as (_ & Honce & Hres & Hrd & _).
  split; [exact Honce|]. split.
  - etransitivity; [exact Hres|]. vm_compute. reflexivity.
  - etransitivity; [exact (f_equal rd_Id Hrd)|]. vm_compute. reflexivity.
Defined.

(** C10.  The resource definition sets the four CRUD callbacks, an
    importer that validates the identity of a managed-disk ID, an identity
    schema generated from the managed-disk ID type, and registers the
    migration from schema version 0 to 1, with the schema version at 1. *)
Theorem resourceManagedDisk_lifecycle (W : Type) :
  let r := resourceManagedDisk W in
  Create r = Some resourceManagedDiskCreate
  ∧ Read r = Some resourceManagedDiskRead
  ∧ Update r = Some resourceManagedDiskUpdate
  ∧ Delete r = Some resourceManagedDiskDelete
  ∧ Importer r = Some (ImporterValidatingIdentity ManagedDiskId_type)
  ∧ Identity r
    = Some {| SchemaFunc := GenerateIdentitySchema ManagedDiskId_type |}
  ∧ StateUpgraders r !! 0 = Some ManagedDiskV0ToV1
  ∧ dom (StateUpgraders r) = {[ 0 ]}
  ∧ SchemaVersion r = 1.
Proof.
  cbv zeta. cbn [resourceManagedDisk Create Read Update Delete Importer
                 Identity StateUpgraders SchemaVersion].
  repeat split.
Qed.

(** * Further properties of the callbacks *)

(** X1.  When the API reports that the disk is missing (an error with a
    404 response), Read empties the resource ID, changes nothing else in
    the resource data and returns no error: the disk drops out of the
    state.  On any other error of Get, Read returns an error and leaves the
    resource data as it was. *)
Theorem read_get_fails {W} (meta : Deps W) w d id resp err w' :
  ParseManagedDiskID meta (rd_Id d) = inl id →
  DisksClient_Get meta id w = (resp, Some err, w') →
  let x := run (resourceManagedDiskRead meta) w d in
  trace x.2 = [CallGet id]
  ∧ world x.2 = w'
  ∧ if WasNotFound (HttpResponse resp)
    then x.1 = Ok tt ∧ rd x.2 = SetId "" d
    else is_Err x.1 = true ∧ rd x.2 = d.
Proof.
  intros Hid Hget.
  unfold run, resourceManagedDiskRead, func, parseManagedDiskID, client_Get,
    call, get_d, modify_d, fail, mbind, M_bind, mret, M_ret.
  cbn. rewrite Hid. cbn. rewrite Hget. cbn.
  destruct (WasNotFound (HttpResponse resp)); cbn; auto.
Qed.

Lemma read_get_fails_witness :
  let d := Fake.updating Fake.premium Fake.premium in
  let gone := run (resourceManagedDiskRead Fake.meta) Fake.nothing d in
  let down := run (resourceManagedDiskRead (Faulty.meta 500 None))
                Fake.detached d in
  (gone.1 = Ok tt ∧ rd gone.2 = SetId "" d)
  ∧ (is_Err down.1 = true ∧ rd down.2 = d).
Proof.
  intros d gone down. split.
  - exact (proj2 (proj2 (read_get_fails Fake.meta Fake.nothing d
                           (NewManagedDiskID "sub" "rg" "disk1")
                           _ _ _ eq_refl eq_refl))).
  - exact (proj2 (proj2 (read_get_fails (Faulty.meta 500 None) Fake.detached d
                           (NewManagedDiskID "sub" "rg" "disk1")
                           _ _ _ eq_refl eq_refl))).
Defined.

(** X2.  Read makes one call, Get on the disk that the resource ID names,
    whatever comes of it; when the resource ID does not parse it makes no
    call, returns the parse error and leaves the resource data as it
    was. *)
Theorem read_calls_get_once {W} (meta : Deps W) w d :
  let x := run (resourceManagedDiskRead meta) w d in
  match ParseManagedDiskID meta (rd_Id d) with
  | inl id => trace x.2 = [CallGet id]
  | inr err => x = (Err err, mkSt w [] d [])
  end.
Proof.
  cbv zeta. destruct (ParseManagedDiskID meta (rd_Id d)) as [id|err] eqn:Hid.
  - unfold run. rewrite resourceManagedDiskRead_trace. cbn. by rewrite Hid.
  - unfold run, resourceManagedDiskRead, func, parseManagedDiskID,
      get_d, fail, mbind, M_bind.
    cbn. rewrite Hid. reflexivity.
Qed.

Lemma flattenDisk_cases {W} (meta : Deps W) model c :
  match flattenDisk meta model c with
  | Ok _ => ∀ sku, Disk.Sku model = Some sku → DiskSku.Name sku ≠ None
  | Err _ => False
  | Panic _ => ∃ sku, Disk.Sku model = Some sku ∧ DiskSku.Name sku = None
  end.
Proof.
  unfold flattenDisk.
  destruct (Disk.Sku model) as [[[n|]]|]; cbn; eauto.
  all: by intros sku [= <-].
Qed.

Lemma flattenDiskProperties_cases {W} (meta : Deps W) props c :
  match flattenDiskProperties meta props c with
  | Ok _ =>
      DiskProperties.PublicNetworkAccess props ≠ None
      ∧ ∀ profile, DiskProperties.SecurityProfile props = Some profile →
          DiskSecurityProfile.SecurityType profile ≠ None
  | Err _ => False
  | Panic _ =>
      DiskProperties.PublicNetworkAccess props = None
      ∨ ∃ profile, DiskProperties.SecurityProfile props = Some profile
          ∧ DiskSecurityProfile.SecurityType profile = None
  end.
Proof.
  unfold flattenDiskProperties.
  destruct (match CreationData.GalleryImageReference _ with
            | Some _ => _ | None => _ end) as [g i].
  destruct (DiskProperties.PublicNetworkAccess props) as [p|]; cbn; auto.
  destruct (DiskProperties.SecurityProfile props) as [[sec [t|]]|]; cbn;
    eauto.
  all: try destruct (bool_decide (t = DiskSecurityTypesTrustedLaunch)); cbn.
  all: split; [discriminate | intros ? ?; by simplify_eq].

Qed.

(** X3.  When Get succeeds, Read ends in a nil-pointer dereference exactly
    when the returned disk has a SKU without a name, properties without
    [publicNetworkAccess], or a security profile without a security
    type. *)
Theorem read_panics_iff {W} (meta : Deps W) w d id resp w' model :
  ParseManagedDiskID meta (rd_Id d) = inl id →
  DisksClient_Get meta id w = (resp, None, w') →
  Model resp = Some model →
  is_Panic (run (resourceManagedDiskRead meta) w d).1 = true
  ↔ (∃ sku, Disk.Sku model = Some sku ∧ DiskSku.Name sku = None)
    ∨ (∃ props, Disk.Properties model = Some props
         ∧ (DiskProperties.PublicNetworkAccess props = None
            ∨ ∃ profile, DiskProperties.SecurityProfile props = Some profile
                ∧ DiskSecurityProfile.SecurityType profile = None)).
Proof.
  intros Hid Hget Hmodel.
  unfold run, resourceManagedDiskRead, func, parseManagedDiskID, client_Get,
    call, get_d, modify_d, fail, pure, mbind, M_bind, mret, M_ret.
  cbn -[flattenDisk flattenDiskProperties].
  rewrite Hid. cbn -[flattenDisk flattenDiskProperties].
  rewrite Hget. cbn -[flattenDisk flattenDiskProperties].
  rewrite Hmodel. cbn -[flattenDisk flattenDiskProperties].
  pose proof (flattenDisk_cases meta model
                (setNames id (rd_config d))) as Hdisk.
  destruct (flattenDisk meta model _) as [c| |p]; [|done|].
  2: { cbn. split; [intros _; by left | reflexivity]. }
  destruct (Disk.Properties model) as [props|] eqn:Hprops.
  - pose proof (flattenDiskProperties_cases meta props c) as Hp.
    destruct (flattenDiskProperties meta props c) as [c'| |p]; [|done|].
    + destruct Hp as [Hp1 Hp2]. split.
      * destruct (tags_FlattenAndSet _ _ _); cbn; [|discriminate].
        destruct (SetResourceIdentityData _ _ _); cbn; discriminate.
      * intros [(sku & H1 & H2) | (props' & [= <-] & [H2 | (sp & H2 & H3)])].
        -- by destruct (Hdisk sku H1).
        -- done.
        -- by destruct (Hp2 sp H2).
    + cbn. split; [intros _; right; eauto | reflexivity].
  - split.
    + destruct (tags_FlattenAndSet _ _ _); cbn; [|discriminate].
      destruct (SetResourceIdentityData _ _ _); cbn; discriminate.
    + intros [(sku & H1 & H2) | (props' & [=] & _)].
      by destruct (Hdisk sku H1).
Qed.

Lemma read_panics_iff_witness :
  is_Panic (run (resourceManagedDiskRead (Faulty.meta 200 None))
              {| Fake.remote := Some (Faulty.returned None); Fake.held := [] |}
              (Fake.updating Fake.premium Fake.premium)).1 = true.
Proof.
  apply (read_panics_iff (Faulty.meta 200 None)
           {| Fake.remote := Some (Faulty.returned None); Fake.held := [] |}
           (Fake.updating Fake.premium Fake.premium)
           (NewManagedDiskID "sub" "rg" "disk1") _ _ (Faulty.returned None)
           eq_refl eq_refl eq_refl).
  right. eexists. split; [reflexivity|]. by left.
Defined.

(** X4.  Read takes the image a disk was made from out of the gallery
    image reference when that has an ID, and leaves
    [image_reference_id] empty then, although the API returns the image
    reference as well; only without a gallery ID does it read the image
    reference. *)
Theorem read_prefers_gallery_image {W} (meta : Deps W) props c c' :
  flattenDiskProperties meta props c = Ok c' →
  let data := DiskProperties.CreationData props in
  match CreationData.GalleryImageReference data ≫= ImageDiskReference.Id with
  | Some gallery =>
      gallery_image_reference_id c' = gallery ∧ image_reference_id c' = ""
  | None =>
      gallery_image_reference_id c' = ""
      ∧ image_reference_id c'
        = pointer_From
            (CreationData.ImageReference data ≫= ImageDiskReference.Id)
  end.
Proof.
  unfold flattenDiskProperties. cbv zeta.
  destruct (CreationData.GalleryImageReference _) as [[[g|]]|];
    [|destruct (CreationData.ImageReference _) as [[[i|]]|]..].
  all: destruct (DiskProperties.PublicNetworkAccess props) as [p|]; cbn;
         [|discriminate].
  all: destruct (DiskProperties.SecurityProfile props) as [[sec [t|]]|]; cbn;
         try discriminate.
  all: try destruct (bool_decide (t = DiskSecurityTypesTrustedLaunch)); cbn.
  all: intros [= <-]; cbn; auto.
Qed.

Lemma read_prefers_gallery_image_witness :
  ∃ c', flattenDiskProperties Fake.meta
          (Faulty.properties (Some "Enabled")) Fake.blank = Ok c'
        ∧ gallery_image_reference_id c' = "gallery/v1"
        ∧ image_reference_id c' = "".
Proof.
  eexists. split; [reflexivity|].
  exact (read_prefers_gallery_image Fake.meta
           (Faulty.properties (Some "Enabled")) Fake.blank _ eq_refl).
Defined.

(** ** The trace of an Update, however it ends *)

Lemma writes_of_app t1 t2 : writes_of (t1 ++ t2) = writes_of t1 ++ writes_of t2.
Proof. apply List.filter_app. Qed.

Lemma locks_of_app t1 t2 : locks_of (t1 ++ t2) = locks_of t1 ++ locks_of t2.
Proof. apply List.filter_app. Qed.

Lemma writes_of_reads t : Forall reads_only t → writes_of t = [].
Proof.
  induction 1 as [|e t He _ IH]; [reflexivity|].
  unfold writes_of in *. cbn. rewrite IH.
  by destruct e.
Qed.

Lemma locks_of_reads t : Forall reads_only t → locks_of t = [].
Proof.
  induction 1 as [|e t He _ IH]; [reflexivity|].
  unfold locks_of in *. cbn. rewrite IH.
  by destruct e.
Qed.

Lemma update_attached_state {W} disk l (s : St W) :
  (update_attached disk l s).2 = s.
Proof.
  unfold update_attached. destruct (shouldShutDown l); [|reflexivity].
  destruct (Model disk) as [model|]; [|reflexivity].
  unfold deref. rewrite bind_eq. cbn.
  by destruct (bool_decide (Disk.ManagedBy model = None)).
Qed.

(** Lines 813-833 on their own. *)
Lemma update_apply_shape {W} (meta : Deps W) d id disk l (s : St W) :
  deferred s = [] →
  let x := update_apply meta d id disk l s in
  ∃ middle,
    trace x.2 = trace s ++ middle
    ∧ update_shape middle (deferred x.2).*1
    ∧ (is_Ok x.1 = true → middle ≠ [])
    ∧ (middle = [] → is_Ok x.1 = false ∧ x.2 = s).
Proof.
  intros Hd.
  unfold update_apply, deref, panic, fail, locks_lock, locks_defer_unlock,
    client_UpdateThenPoll, call, defer, mbind, M_bind, mret, M_ret.
  destruct (shouldShutDown l).
  - destruct (Model disk) as [model|]; cbn.
    2: { exists []. rewrite app_nil_r, Hd.
         repeat split; (by constructor) || done. }
    destruct (Disk.ManagedBy model) as [managedBy|]; cbn.
    2: { exists []. rewrite app_nil_r, Hd.
         repeat split; (by constructor) || done. }
    destruct (ParseVirtualMachineID meta managedBy) as [vm|err]; cbn.
    2: { exists []. rewrite app_nil_r, Hd.
         repeat split; (by constructor) || done. }
    destruct (resourceManagedDiskUpdateWithVmShutDown _ _ _ _ _ _)
      as [[err|] w']; cbn.
    all: eexists [_; _]; rewrite Hd, <- app_assoc; cbn.
    all: repeat split; try done.
    all: by eapply shape_shutdown.
  - cbn.
    destruct (DisksClient_UpdateThenPoll _ _ _ _) as [[err|] w']; cbn.
    all: eexists [_]; rewrite Hd; cbn.
    all: repeat split; try done.
    all: by eapply shape_patch.
Qed.

(** The calls of an Update: reads, then nothing, one PATCH, or the
    shut-down helper under the lock of the virtual machine, then reads,
    then the unlock. *)
Lemma update_trace_shape {W} (meta : Deps W) w d :
  let x := run (resourceManagedDiskUpdate meta) w d in
  ∃ before middle after closing,
    trace x.2 = before ++ middle ++ after ++ closing
    ∧ Forall reads_only before
    ∧ Forall reads_only after
    ∧ update_shape middle closing
    ∧ (is_Ok x.1 = true → middle ≠ [])
    ∧ (middle = [] → is_Ok x.1 = false).
Proof.
  cbv zeta. rewrite update_run, bind_eq.
  pose proof (emits_deferred _ _ (mkSt w [] d []) (update_prepare_reads meta d))
    as Hd.
  destruct (emits_trace _ _ (mkSt w [] d []) (update_prepare_reads meta d))
    as (before & Ht & Hbefore).
  destruct (update_prepare meta d _) as [[[[id disk] l]|e|p] s1];
    cbn in Hd, Ht.
  2,3: exists before, [], [], []; cbn; rewrite Hd, Ht, !app_nil_r;
         repeat split; (by constructor) || done.
  cbv beta iota. rewrite bind_eq.
  pose proof (update_attached_state disk l s1) as Ha.
  destruct (update_attached disk l s1) as [[l'|e|p] s2]; cbn in Ha; subst s2.
  2,3: exists before, [], [], []; cbn; rewrite Hd, Ht, !app_nil_r;
         repeat split; (by constructor) || done.
  rewrite bind_eq.
  destruct (update_apply_shape meta d id disk l' s1 Hd)
    as (middle & Hm & Hshape & Hok & Hnil).
  destruct (update_apply meta d id disk l' s1) as [[[]|e|p] s3];
    cbn in Hm, Hshape, Hok, Hnil.
  2,3: exists before, middle, [], (deferred s3).*1; cbn;
         rewrite run_deferred_trace; cbn; rewrite Hm, Ht;
         rewrite <- !app_assoc;
         repeat split; auto; (by constructor) || (try done).
  pose proof (emits_deferred _ _ s3 (resourceManagedDiskRead_reads meta))
    as Hd'.
  destruct (emits_trace _ _ s3 (resourceManagedDiskRead_reads meta))
    as (after & Ht' & Hafter).
  destruct (resourceManagedDiskRead meta s3) as [r s4]; cbn in Hd', Ht'.
  exists before, middle, after, (deferred s3).*1. cbn.
  rewrite run_deferred_trace. cbn. rewrite Hd', Ht', Hm, Ht.
  rewrite <- !app_assoc. repeat split; auto.
  intros ?. by destruct (Hok eq_refl).
Qed.

(** X5.  Whatever the plan and however the API answers, an Update asks
    the API to change the disk at most once, and it returns without error
    only after having asked once. *)
Theorem update_writes_at_most_once {W} (meta : Deps W) w d :
  let x := run (resourceManagedDiskUpdate meta) w d in
  (length (writes_of (trace x.2)) ≤ 1)%nat
  ∧ (is_Ok x.1 = true → length (writes_of (trace x.2)) = 1%nat).
Proof.
  destruct (update_trace_shape meta w d)
    as (before & middle & after & closing & Ht & Hb & Ha & Hshape & Hok & _).
  cbv zeta. rewrite Ht, !writes_of_app.
  rewrite (writes_of_reads _ Hb), (writes_of_reads _ Ha).
  destruct Hshape as [-> ->|id p -> ->|n r id vm p detach -> ->]; cbn.
  - split; [lia|]. intros H. by destruct (Hok H).
  - split; [lia|done].
  - split; [lia|done].
Qed.

(** X6.  Whatever the plan and however the API answers, an Update takes
    at most one lock, and a lock it has taken is released by the last
    call it makes: also when the shut-down helper or the read that
    follows fails. *)
Theorem update_releases_lock {W} (meta : Deps W) w d :
  let t := trace (run (resourceManagedDiskUpdate meta) w d).2 in
  locks_of t = []
  ∨ ∃ n r, locks_of t = [LockByName n r; UnlockByName n r]
           ∧ last t = Some (UnlockByName n r).
Proof.
  destruct (update_trace_shape meta w d)
    as (before & middle & after & closing & Ht & Hb & Ha & Hshape & _).
  cbv zeta. rewrite Ht, !locks_of_app.
  rewrite (locks_of_reads _ Hb), (locks_of_reads _ Ha).
  destruct Hshape as [-> ->|id p -> ->|n r id vm p detach -> ->].
  - by left.
  - by left.
  - right. exists n, r. split; [reflexivity|].
    rewrite !app_assoc. apply last_snoc.
Qed.

(** ** The ways an Update fails *)

(** X7.  An Update whose first Get fails returns an error, one that says
    the disk was not found when the response is a 404, and has done
    nothing else: no further call, no change to the resource data. *)
Theorem update_needs_the_disk {W} (meta : Deps W) w d id resp err w' :
  ParseManagedDiskID meta (rd_Id d) = inl id →
  DisksClient_Get meta id w = (resp, Some err, w') →
  run (resourceManagedDiskUpdate meta) w d
  = (Err (if WasNotFound (HttpResponse resp)
          then Errorf "managed disk %q (Resource Group %q) was not found"
                 [Get d name; Get d resource_group_name]
          else Wrapf
                 "making Read request on Azure Managed Disk %q (Resource Group %q): %+v"
                 [Get d name; Get d resource_group_name] err),
     mkSt w' [CallGet id] d []).
Proof.
  intros Hid Hget.
  unfold run, resourceManagedDiskUpdate, update_prepare, func,
    parseManagedDiskID, client_Get, call, get_d, fail, mbind, M_bind,
    mret, M_ret.
  cbn. rewrite Hid. cbn. rewrite Hget. cbn.
  by destruct (WasNotFound (HttpResponse resp)).
Qed.

Lemma update_needs_the_disk_witness :
  let d := Fake.updating Fake.premium (with_os_type "Linux" Fake.premium) in
  run (resourceManagedDiskUpdate Fake.meta) Fake.nothing d
  = (Err (Errorf "managed disk %q (Resource Group %q) was not found"
            ["disk1"; "rg"]),
     mkSt Fake.nothing [CallGet (NewManagedDiskID "sub" "rg" "disk1")] d []).
Proof.
  intros d.
  exact (update_needs_the_disk Fake.meta Fake.nothing d
           (NewManagedDiskID "sub" "rg" "disk1") _ _ _ eq_refl eq_refl).
Defined.

Lemma update_prepare_deferred {W} (meta : Deps W) w d r s1 :
  update_prepare meta d (mkSt w [] d []) = (r, s1) → deferred s1 = [].
Proof.
  intros H.
  pose proof (emits_deferred _ _ (mkSt w [] d []) (update_prepare_reads meta d))
    as Hd.
  by rewrite H in Hd.
Qed.

(** X8.  When the PATCH that an Update sends directly fails, the Update
    returns an error that wraps the one of the API, and stops: the disk is
    not read back. *)
Theorem update_patch_fails {W} (meta : Deps W) w d id disk l s1 err :
  update_prepare meta d (mkSt w [] d []) = (Ok (id, disk, l), s1) →
  shouldShutDown l = false
  ∨ (∃ model, Model disk = Some model ∧ Disk.ManagedBy model = None) →
  (DisksClient_UpdateThenPoll meta id (diskUpdate l) (world s1)).1 = Some err →
  let x := run (resourceManagedDiskUpdate meta) w d in
  x.1 = Err (Wrapf "expanding managed disk %q (Resource Group %q): %+v"
               [Get d name; Get d resource_group_name] err)
  ∧ trace x.2 = trace s1 ++ [CallUpdateThenPoll id (diskUpdate l)].
Proof.
  intros Hprep Hcase Herr.
  pose proof (update_prepare_deferred meta _ _ _ _ Hprep) as Hd.
  cbv zeta. rewrite update_run, bind_eq, Hprep.
  cbv beta iota.
  destruct (update_attached_detached disk l s1 Hcase) as (l' & Ha & Hs & Hu).
  rewrite bind_eq, Ha.
  rewrite bind_eq. unfold update_apply. rewrite Hs, Hu.
  unfold client_UpdateThenPoll, call.
  rewrite !bind_eq. cbn [world trace rd deferred].
  destruct (DisksClient_UpdateThenPoll meta id (diskUpdate l) _)
    as [err' w'].
  cbn in Herr. subst err'. cbn. rewrite Hd. cbn. auto.
Qed.

Lemma update_patch_fails_witness :
  let d := Fake.updating Fake.premium (with_os_type "Linux" Fake.premium) in
  let x := run (resourceManagedDiskUpdate
                  (Faulty.meta 200 (Some (Errorf "conflict" []))))
             Fake.detached d in
  is_Err x.1 = true
  ∧ trace x.2 !! 2%nat = None.
Proof.
  intros d x.
  destruct (update_patch_fails
              (Faulty.meta 200 (Some (Errorf "conflict" [])))
              Fake.detached d _ _ _ _ (Errorf "conflict" [])
              ltac:(vm_compute; reflexivity) (or_introl eq_refl) eq_refl)
    as [Hr Ht].
  subst x. by rewrite Hr, Ht.
Defined.

(** X9.  When an Update goes through the shut-down helper and the helper
    fails, the Update returns the error of the helper as it is, does not
    read the disk back, and releases the lock it took; when the ID of the
    virtual machine the disk is attached to does not parse, the Update
    fails before it takes the lock or changes anything. *)
Theorem update_shutdown_fails {W} (meta : Deps W) w d id disk l s1
    model managedBy :
  update_prepare meta d (mkSt w [] d []) = (Ok (id, disk, l), s1) →
  shouldShutDown l = true →
  Model disk = Some model →
  Disk.ManagedBy model = Some managedBy →
  let x := run (resourceManagedDiskUpdate meta) w d in
  let r := VirtualMachineResourceName meta in
  match ParseVirtualMachineID meta managedBy with
  | inr err =>
      x.1 = Err (Wrapf "parsing VMID %q for disk attachment: %+v"
                   [managedBy] err)
      ∧ x.2 = mkSt (world s1) (trace s1) (rd s1) []
  | inl vm =>
      let n := VirtualMachineName vm in
      ∀ err,
        (resourceManagedDiskUpdateWithVmShutDown meta id vm (diskUpdate l)
           (shouldDetach l) (locks_ByName meta n r (world s1))).1 = Some err →
        x.1 = Err err
        ∧ trace x.2 =
            trace s1
            ++ [LockByName n r;
                CallUpdateWithVmShutDown id vm (diskUpdate l) (shouldDetach l);
                UnlockByName n r]
  end.
Proof.
  intros Hprep Hs Hm Hb.
  pose proof (update_prepare_deferred meta _ _ _ _ Hprep) as Hd.
  cbv zeta. rewrite update_run, bind_eq, Hprep.
  cbv beta iota.
  rewrite bind_eq, (update_attached_stays _ _ _ _ _ Hm Hb).
  rewrite bind_eq. unfold update_apply. rewrite Hs, Hm. unfold deref.
  rewrite bind_ret, Hb, bind_ret.
  destruct (ParseVirtualMachineID meta managedBy) as [vm|err].
  - intros err Herr.
    unfold locks_lock, locks_defer_unlock, call, defer.
    rewrite !bind_eq. cbn [world trace rd deferred].
    destruct (resourceManagedDiskUpdateWithVmShutDown meta id vm (diskUpdate l)
                (shouldDetach l) _) as [err' w'].
    cbn in Herr. subst err'. cbn. rewrite Hd. cbn.
    rewrite <- !app_assoc. auto.
  - cbn. rewrite Hd. auto.
Qed.

Lemma update_shutdown_fails_witness :
  let d := Fake.updating Fake.premium (with_tier "P40" Fake.premium) in
  let x := run (resourceManagedDiskUpdate
                  (Faulty.meta 200 (Some (Errorf "conflict" []))))
             Fake.attached d in
  x.1 = Err (Errorf "conflict" [])
  ∧ last (trace x.2) = Some (UnlockByName "vm1" "azurerm_virtual_machine").
Proof.
  intros d x.
  destruct (update_shutdown_fails
              (Faulty.meta 200 (Some (Errorf "conflict" [])))
              Fake.attached d _ _ _ _ (Fake.remote_disk (Some "vm1")) "vm1"
              ltac:(vm_compute; reflexivity) eq_refl eq_refl eq_refl
              (Errorf "conflict" []) eq_refl)
    as [Hr Ht].
  subst x. by rewrite Hr, Ht.
Defined.

(** ** What the rules put in the payload *)

(** The members of the payload that a changed key sets, once its rule
    has run. *)
Lemma update_rules_send_changes {W} (meta : Deps W) d disk :
  post (run_steps (update_rules meta d disk) update_locals_init)
    (λ l,
       let p := diskUpdate l in
       let props := DiskUpdate.Properties p in
       (HasChange d max_shares = true →
        DiskUpdateProperties.MaxShares props = Some (Get d max_shares))
       ∧ (HasChange d max_shares = true
          ∨ HasChange d storage_account_type = true →
          DiskUpdate.Sku p
          = Some (DiskSku.mk (Some (skuNameOf (Get d storage_account_type)))))
       ∧ (HasChange d tags = true →
          DiskUpdate.Tags p = tags_Expand (Get d tags))
       ∧ (HasChange d disk_iops_read_write = true →
          DiskUpdateProperties.DiskIOPSReadWrite props
          = Some (Get d disk_iops_read_write))
       ∧ (HasChange d disk_mbps_read_write = true →
          DiskUpdateProperties.DiskMBpsReadWrite props
          = Some (Get d disk_mbps_read_write))
       ∧ (HasChange d disk_iops_read_only = true →
          DiskUpdateProperties.DiskIOPSReadOnly props
          = Some (Get d disk_iops_read_only))
       ∧ (HasChange d disk_mbps_read_only = true →
          DiskUpdateProperties.DiskMBpsReadOnly props
          = Some (Get d disk_mbps_read_only))
       ∧ (HasChange d optimized_frequent_attach_enabled = true →
          DiskUpdateProperties.OptimizedForFrequentAttach props
          = Some (Get d optimized_frequent_attach_enabled))
       ∧ (HasChange d os_type = true →
          DiskUpdateProperties.OsType props = Some (Get d os_type))
       ∧ (HasChange d disk_size_gb = true →
          DiskUpdateProperties.DiskSizeGB props = Some (Get d disk_size_gb))
       ∧ (HasChange d encryption_settings = true →
          DiskUpdateProperties.EncryptionSettingsCollection props
          = expandManagedDiskEncryptionSettings meta
              (Get d encryption_settings))
       ∧ (HasChange d network_access_policy = true →
          DiskUpdateProperties.NetworkAccessPolicy props
          = Some (Get d network_access_policy))
       ∧ (HasChange d public_network_access_enabled = true →
          DiskUpdateProperties.PublicNetworkAccess props
          = Some (if Get d public_network_access_enabled
                  then PublicNetworkAccessEnabled
                  else PublicNetworkAccessDisabled))
       ∧ (HasChange d on_demand_bursting_enabled = true →
          DiskUpdateProperties.BurstingEnabled props
          = Some (Get d on_demand_bursting_enabled))).
Proof.
  pose (Q := λ (n : nat) (l : UpdateLocals),
    let p := diskUpdate l in
    let props := DiskUpdate.Properties p in
    ((0 <? n)%nat = true → HasChange d max_shares = true →
     DiskUpdateProperties.MaxShares props = Some (Get d max_shares))
    ∧ ((0 <? n)%nat = true → HasChange d max_shares = true →
       DiskUpdate.Sku p
       = Some (DiskSku.mk (Some (skuNameOf (Get d storage_account_type)))))
    ∧ ((3 <? n)%nat = true → HasChange d storage_account_type = true →
       DiskUpdate.Sku p
       = Some (DiskSku.mk (Some (skuNameOf (Get d storage_account_type)))))
    ∧ ((2 <? n)%nat = true → HasChange d tags = true →
       DiskUpdate.Tags p = tags_Expand (Get d tags))
    ∧ ((4 <? n)%nat = true → HasChange d disk_iops_read_write = true →
       DiskUpdateProperties.DiskIOPSReadWrite props
       = Some (Get d disk_iops_read_write))
    ∧ ((4 <? n)%nat = true → HasChange d disk_mbps_read_write = true →
       DiskUpdateProperties.DiskMBpsReadWrite props
       = Some (Get d disk_mbps_read_write))
    ∧ ((4 <? n)%nat = true → HasChange d disk_iops_read_only = true →
       DiskUpdateProperties.DiskIOPSReadOnly props
       = Some (Get d disk_iops_read_only))
    ∧ ((4 <? n)%nat = true → HasChange d disk_mbps_read_only = true →
       DiskUpdateProperties.DiskMBpsReadOnly props
       = Some (Get d disk_mbps_read_only))
    ∧ ((5 <? n)%nat = true →
       HasChange d optimized_frequent_attach_enabled = true →
       DiskUpdateProperties.OptimizedForFrequentAttach props
       = Some (Get d optimized_frequent_attach_enabled))
    ∧ ((6 <? n)%nat = true → HasChange d os_type = true →
       DiskUpdateProperties.OsType props = Some (Get d os_type))
    ∧ ((7 <? n)%nat = true → HasChange d disk_size_gb = true →
       DiskUpdateProperties.DiskSizeGB props = Some (Get d disk_size_gb))
    ∧ ((8 <? n)%nat = true → HasChange d encryption_settings = true →
       DiskUpdateProperties.EncryptionSettingsCollection props
       = expandManagedDiskEncryptionSettings meta (Get d encryption_settings))
    ∧ ((10 <? n)%nat = true → HasChange d network_access_policy = true →
       DiskUpdateProperties.NetworkAccessPolicy props
       = Some (Get d network_access_policy))
    ∧ ((12 <? n)%nat = true →
       HasChange d public_network_access_enabled = true →
       DiskUpdateProperties.PublicNetworkAccess props
       = Some (if Get d public_network_access_enabled
               then PublicNetworkAccessEnabled
               else PublicNetworkAccessDisabled))
    ∧ ((14 <? n)%nat = true → HasChange d on_demand_bursting_enabled = true →
       DiskUpdateProperties.BurstingEnabled props
       = Some (Get d on_demand_bursting_enabled))).
  eapply post_weaken;
    [|apply (post_run_steps_indexed Q (update_rules meta d disk))].
  - unfold Q. cbn -[skuNameOf]. intros l H. intuition.
  - unfold update_rules. intros n f Hn l Hl.
    each_position n Hn.
    all: unfold Q in *; clear Q; cbn [Nat.ltb Nat.leb] in *.
    all: unfold_rules; solve_post; split_ifs; cbn -[skuNameOf] in *.
    all: split_ors; intuition congruence.
  - unfold Q. cbn. intuition discriminate.
Qed.

(** X10.  Every payload an Update sends holds the new value of each
    updatable key that has changed: the converse of sending only what
    has changed.  The SKU is sent, with the name in the API's spelling,
    when [storage_account_type] or [max_shares] has changed. *)
Theorem update_sends_changes {W} (meta : Deps W) w d e p :
  e ∈ trace (run (resourceManagedDiskUpdate meta) w d).2 →
  update_payload e = Some p →
  let props := DiskUpdate.Properties p in
  (HasChange d max_shares = true →
   DiskUpdateProperties.MaxShares props = Some (Get d max_shares))
  ∧ (HasChange d max_shares = true
     ∨ HasChange d storage_account_type = true →
     DiskUpdate.Sku p
     = Some (DiskSku.mk (Some (skuNameOf (Get d storage_account_type)))))
  ∧ (HasChange d tags = true →
     DiskUpdate.Tags p = tags_Expand (Get d tags))
  ∧ (HasChange d disk_iops_read_write = true →
     DiskUpdateProperties.DiskIOPSReadWrite props
     = Some (Get d disk_iops_read_write))
  ∧ (HasChange d disk_mbps_read_write = true →
     DiskUpdateProperties.DiskMBpsReadWrite props
     = Some (Get d disk_mbps_read_write))
  ∧ (HasChange d disk_iops_read_only = true →
     DiskUpdateProperties.DiskIOPSReadOnly props
     = Some (Get d disk_iops_read_only))
  ∧ (HasChange d disk_mbps_read_only = true →
     DiskUpdateProperties.DiskMBpsReadOnly props
     = Some (Get d disk_mbps_read_only))
  ∧ (HasChange d optimized_frequent_attach_enabled = true →
     DiskUpdateProperties.OptimizedForFrequentAttach props
     = Some (Get d optimized_frequent_attach_enabled))
  ∧ (HasChange d os_type = true →
     DiskUpdateProperties.OsType props = Some (Get d os_type))
  ∧ (HasChange d disk_size_gb = true →
     DiskUpdateProperties.DiskSizeGB props = Some (Get d disk_size_gb))
  ∧ (HasChange d encryption_settings = true →
     DiskUpdateProperties.EncryptionSettingsCollection props
     = expandManagedDiskEncryptionSettings meta (Get d encryption_settings))
  ∧ (HasChange d network_access_policy = true →
     DiskUpdateProperties.NetworkAccessPolicy props
     = Some (Get d network_access_policy))
  ∧ (HasChange d public_network_access_enabled = true →
     DiskUpdateProperties.PublicNetworkAccess props
     = Some (if Get d public_network_access_enabled
             then PublicNetworkAccessEnabled
             else PublicNetworkAccessDisabled))
  ∧ (HasChange d on_demand_bursting_enabled = true →
     DiskUpdateProperties.BurstingEnabled props
     = Some (Get d on_demand_bursting_enabled)).
Proof.
  intros He Hp.
  destruct (update_payload_post meta _ w d
              (update_rules_send_changes meta d) e p He Hp) as (l & Hl & ->).
  exact Hl.
Qed.

Lemma update_sends_changes_witness :
  let d := Fake.updating Fake.premium (with_os_type "Linux" Fake.premium) in
  ∃ e p,
    trace (run (resourceManagedDiskUpdate Fake.meta) Fake.detached d).2
      !! 1%nat = Some e
    ∧ update_payload e = Some p
    ∧ DiskUpdateProperties.OsType (DiskUpdate.Properties p) = Some "Linux".
Proof.
  intros d. eexists _, _.
  assert (Hat : trace (run (resourceManagedDiskUpdate Fake.meta)
                   Fake.detached d).2 !! 1%nat = Some _)
    by (vm_compute; reflexivity).
  split; [exact Hat|]. split; [reflexivity|].
  pose proof (update_sends_changes Fake.meta Fake.detached d _ _
                (list_elem_of_lookup_2 _ _ _ Hat) eq_refl) as H.
  exact (proj1 (proj2 (proj2 (proj2 (proj2 (proj2 (proj2 (proj2 (proj2 H))))))))
           eq_refl).
Defined.

(** Where [DiskAccessId] of the payload comes from: only line 773 sets it
    to a value, under a policy that line 766 has put there. *)
Lemma update_rules_disk_access d {W} (meta : Deps W) disk :
  post (run_steps (update_rules meta d disk) update_locals_init)
    (λ l,
       let props := DiskUpdate.Properties (diskUpdate l) in
       ∀ v, DiskUpdateProperties.DiskAccessId props = Some v →
         v = Get d disk_access_id
         ∧ HasChange d disk_access_id = true
         ∧ HasChange d network_access_policy = true
         ∧ Get d network_access_policy = NetworkAccessPolicyAllowPrivate
         ∧ DiskUpdateProperties.NetworkAccessPolicy props
           = Some NetworkAccessPolicyAllowPrivate).
Proof.
  pose (Q := λ (n : nat) (l : UpdateLocals),
    let props := DiskUpdate.Properties (diskUpdate l) in
    ((n <=? 10)%nat = true →
     DiskUpdateProperties.NetworkAccessPolicy props = None)
    ∧ (∀ policy,
         DiskUpdateProperties.NetworkAccessPolicy props = Some policy →
         policy = Get d network_access_policy
         ∧ HasChange d network_access_policy = true)
    ∧ ((n <=? 11)%nat = true →
       DiskUpdateProperties.DiskAccessId props = None)
    ∧ (∀ v, DiskUpdateProperties.DiskAccessId props = Some v →
         v = Get d disk_access_id
         ∧ HasChange d disk_access_id = true
         ∧ DiskUpdateProperties.NetworkAccessPolicy props
           = Some NetworkAccessPolicyAllowPrivate)).
  eapply post_weaken;
    [|apply (post_run_steps_indexed Q (update_rules meta d disk))].
  - unfold Q. cbn. intros l (_ & Hp & _ & Ha) v Hv.
    destruct (Ha v Hv) as (-> & Hc & Hpol).
    destruct (Hp _ Hpol) as [Heq Hc'].
    repeat split; auto.
  - unfold update_rules. intros n f Hn l Hl.
    each_position n Hn.
    all: unfold Q in *; clear Q; cbn [Nat.leb] in *.
    all: unfold_rules; unfold Properties_of; solve_post; split_ifs;
           cbn -[skuNameOf] in *.
    all: decide_all; subst; try solve [intuition congruence].
    all: destruct Hl as (Hl1 & Hl2 & Hl3 & Hl4).
    all: repeat split; try done; try (intros ? [= <-]); auto.
  - unfold Q. cbn. repeat split; done.
Qed.

(** X11.  A payload of an Update names a disk access only together with
    the network access policy AllowPrivate, and only when both
    [disk_access_id] and [network_access_policy] have changed in the plan:
    the policy of the payload is the one the rule on
    [network_access_policy] has put there. *)
Theorem update_disk_access_needs_private {W} (meta : Deps W) w d e p v :
  e ∈ trace (run (resourceManagedDiskUpdate meta) w d).2 →
  update_payload e = Some p →
  DiskUpdateProperties.DiskAccessId (DiskUpdate.Properties p) = Some v →
  v = Get d disk_access_id
  ∧ HasChange d disk_access_id = true
  ∧ HasChange d network_access_policy = true
  ∧ Get d network_access_policy = NetworkAccessPolicyAllowPrivate
  ∧ DiskUpdateProperties.NetworkAccessPolicy (DiskUpdate.Properties p)
    = Some NetworkAccessPolicyAllowPrivate.
Proof.
  intros He Hp Hv.
  destruct (update_payload_post meta _ w d
              (update_rules_disk_access d meta) e p He Hp) as (l & Hl & ->).
  exact (Hl v Hv).
Qed.

Lemma update_disk_access_needs_private_witness :
  let d := Fake.updating Fake.premium
             (Fake.premium ▹ with_network_access_policy "AllowPrivate"
                           ▹ with_disk_access_id "access1") in
  ∃ e p,
    trace (run (resourceManagedDiskUpdate Fake.meta) Fake.detached d).2
      !! 1%nat = Some e
    ∧ update_payload e = Some p
    ∧ DiskUpdateProperties.DiskAccessId (DiskUpdate.Properties p)
      = Some "access1"
    ∧ DiskUpdateProperties.NetworkAccessPolicy (DiskUpdate.Properties p)
      = Some "AllowPrivate".
Proof.
  intros d. eexists _, _.
  assert (Hat : trace (run (resourceManagedDiskUpdate Fake.meta)
                   Fake.detached d).2 !! 1%nat = Some _)
    by (vm_compute; reflexivity).
  split; [exact Hat|]. split; [reflexivity|]. split; [reflexivity|].
  exact (proj2 (proj2 (proj2 (proj2
           (update_disk_access_needs_private Fake.meta Fake.detached d _ _
              "access1" (list_elem_of_lookup_2 _ _ _ Hat) eq_refl eq_refl))))).
Defined.

(** ** The name of the SKU (lines 639-644 and 666-671) *)

Lemma EqualFold_sym s t : EqualFold s t = EqualFold t s.
Proof.
  revert t. induction s as [|a s IH]; intros [|b t]; cbn; try reflexivity.
  by rewrite IH, Ascii.eqb_sym.
Qed.

Lemma EqualFold_trans s t u :
  EqualFold s t = true → EqualFold t u = true → EqualFold s u = true.
Proof.
  revert t u. induction s as [|a s IH]; intros [|b t] [|c u]; cbn;
    try done.
  intros [H1 H2]%andb_prop [H3 H4]%andb_prop.
  apply Ascii.eqb_eq in H1, H3. rewrite H1, H3, Ascii.eqb_refl. cbn.
  by eapply IH.
Qed.

(** A string that folds to [v] folds to what [v] folds to. *)
Lemma EqualFold_congr s v v' :
  EqualFold s v = true → EqualFold s v' = EqualFold v v'.
Proof.
  intros H. destruct (EqualFold v v') eqn:Hv.
  - by eapply EqualFold_trans.
  - destruct (EqualFold s v') eqn:Hs; [|reflexivity].
    rewrite EqualFold_sym in H.
    by rewrite (EqualFold_trans _ _ _ H Hs) in Hv.
Qed.

(** X12.  The loop that picks the SKU name of an Update's payload maps a
    storage account type, in whatever case it is written, to the spelling
    of the API; for a string that is no storage account type it leaves the
    name empty. *)
Theorem skuNameOf_canonical (storageAccountType : string) :
  (∀ v, v ∈ PossibleValuesForDiskStorageAccountTypes →
        EqualFold storageAccountType v = true →
        skuNameOf storageAccountType = v)
  ∧ ((∀ v, v ∈ PossibleValuesForDiskStorageAccountTypes →
           EqualFold storageAccountType v = false) →
     skuNameOf storageAccountType = "").
Proof.
  split.
  - intros v Hin Heq.
    unfold skuNameOf, PossibleValuesForDiskStorageAccountTypes in *.
    cbn [fold_left]. rewrite !(EqualFold_congr _ _ _ Heq).
    repeat (apply elem_of_cons in Hin as [->|Hin]);
      [..|by apply elem_of_nil in Hin].
    all: reflexivity.
  - intros Hno.
    unfold skuNameOf, PossibleValuesForDiskStorageAccountTypes in *.
    cbn [fold_left]. rewrite !Hno by (repeat constructor). reflexivity.
Qed.

Lemma skuNameOf_canonical_witness : skuNameOf "premium_lrs" = "Premium_LRS".
Proof.
  apply (proj1 (skuNameOf_canonical "premium_lrs")); [|reflexivity].
  unfold PossibleValuesForDiskStorageAccountTypes. by left.
Defined.

(** ** Rules that stop a callback *)

Lemma always_errs_post {W A} (m : M W A) :
  always_errs m → post m (λ _, False).
Proof.
  intros H s a s' Heq. specialize (H s). rewrite Heq in H. discriminate.
Qed.

(** When one rule never passes, the rules never pass. *)
Lemma post_rule_stops {W L} (steps : list (L → M W L)) n f l :
  steps !! n = Some f →
  (∀ l, post (f l) (λ _, False)) →
  post (run_steps steps l) (λ _, False).
Proof.
  intros Hn Hf. eapply post_run_steps_from; [exact Hn | exact Hf |].
  apply Forall_forall. intros g _ l' [].
Qed.

Lemma never_panics_bind_post {W A B} (Q : A → Prop) (m : M W A)
    (f : A → M W B) :
  never_panics m → post m Q → (∀ a, Q a → never_panics (f a)) →
  never_panics (m ≫= f).
Proof.
  intros Hm HQ Hf s. rewrite bind_eq. specialize (Hm s).
  destruct (m s) as [[a|e|p] s1] eqn:Hms; simpl in *;
    [|reflexivity|congruence].
  eapply Hf, HQ, Hms.
Qed.

Lemma never_panics_run_steps_indexed {W L} (Q : nat → L → Prop)
    (steps : list (L → M W L)) :
  (∀ n f, steps !! n = Some f → ∀ l, Q n l →
          never_panics (f l) ∧ post (f l) (Q (S n))) →
  ∀ l, Q 0%nat l → never_panics (run_steps steps l).
Proof.
  revert Q. induction steps as [|f steps IH]; intros Q H l Hl; simpl.
  - apply never_panics_ret.
  - destruct (H 0%nat f eq_refl l Hl) as [Hf Hpost].
    eapply never_panics_bind_post; [exact Hf | exact Hpost |].
    intros l' Hl'. apply (IH (λ n, Q (S n))); [|exact Hl'].
    intros n g Hn. exact (H (S n) g Hn).
Qed.

(** An Update whose rules do not pass has only read. *)
Lemma update_not_prepared {W} (meta : Deps W) w d :
  (∀ disk,
     post (run_steps (update_rules meta d disk) update_locals_init)
       (λ _, False)) →
  let x := run (resourceManagedDiskUpdate meta) w d in
  is_Ok x.1 = false ∧ Forall no_write (trace x.2).
Proof.
  intros Hno. cbv zeta. rewrite update_run, bind_eq.
  pose proof (emits_deferred _ _ (mkSt w [] d []) (update_prepare_reads meta d))
    as Hd.
  destruct (emits_trace _ _ (mkSt w [] d []) (update_prepare_reads meta d))
    as (evs & Ht & HP).
  destruct (update_prepare meta d _) as [[[[id disk] l]|?|?] s1] eqn:Hprep.
  { apply update_prepare_Ok_inv in Hprep as (_ & _ & Hrules).
    destruct (Hno _ _ _ _ Hrules). }
  all: cbn in *; rewrite Hd, Ht; cbn; rewrite ?app_nil_r.
  all: split; [reflexivity|].
  all: eapply Forall_impl; [exact HP | apply reads_no_write].
Qed.

(** X13.  An Update of a disk with [on_demand_bursting_enabled] set, be
    it changed in the plan or not, sends nothing and does not succeed when
    the storage account type is neither Premium_LRS nor Premium_ZRS, or
    when the size is set and at most 512 GB. *)
Theorem update_bursting_needs_large_premium {W} (meta : Deps W) w d :
  Get d on_demand_bursting_enabled = true →
  (Get d storage_account_type ≠ DiskStorageAccountTypesPremiumLRS
   ∧ Get d storage_account_type ≠ DiskStorageAccountTypesPremiumZRS)
  ∨ (Get d disk_size_gb ≠ 0 ∧ Get d disk_size_gb ≤ 512) →
  let x := run (resourceManagedDiskUpdate meta) w d in
  is_Ok x.1 = false ∧ Forall no_write (trace x.2).
Proof.
  intros Hon Hcase. apply update_not_prepared. intros disk.
  apply (post_rule_stops _ 13 (update_on_demand_bursting_check d));
    [reflexivity|].
  intros l. unfold update_on_demand_bursting_check. rewrite Hon.
  destruct Hcase as [[H1 H2]|[H1 H2]].
  - rewrite !bool_decide_eq_false_2 by assumption. apply post_fail.
  - destruct (_ || _); [|apply post_fail].
    rewrite !bool_decide_eq_true_2 by assumption. apply post_fail.
Qed.

Lemma update_bursting_needs_large_premium_witness :
  let small := Fake.premium ▹ with_disk_size_gb 256
                            ▹ with_on_demand_bursting_enabled true in
  let d := Fake.updating small (with_os_type "Linux" small) in
  let x := run (resourceManagedDiskUpdate Fake.meta) Fake.detached d in
  is_Ok x.1 = false ∧ Forall no_write (trace x.2).
Proof.
  intros small d.
  apply (update_bursting_needs_large_premium Fake.meta Fake.detached d
           eq_refl).
  right. split; [discriminate | by vm_compute].
Defined.

(** X14.  An Update that changes one of the four IOPS and MBps limits of
    a disk that is neither an UltraSSD_LRS nor a PremiumV2_LRS disk
    returns an error before it has sent anything. *)
Theorem update_limits_need_ultra_or_premium_v2 {W} (meta : Deps W) w d :
  EqualFold (Get d storage_account_type) DiskStorageAccountTypesUltraSSDLRS
  = false →
  Get d storage_account_type ≠ DiskStorageAccountTypesPremiumVTwoLRS →
  HasChange d disk_iops_read_write = true
  ∨ HasChange d disk_mbps_read_write = true
  ∨ HasChange d disk_iops_read_only = true
  ∨ HasChange d disk_mbps_read_only = true →
  fails_before_writing (run (resourceManagedDiskUpdate meta) w d).
Proof.
  intros Hultra Hv2 Hc.
  eapply (update_rule_fails meta w d 4 (λ _, update_disk_performance d));
    [reflexivity | |].
  - intros disk. apply update_rules_never_panic. lia.
  - intros disk l. unfold update_disk_performance.
    rewrite Hultra, (bool_decide_eq_false_2 _ Hv2). cbn.
    assert (HasChange d disk_iops_read_write
            || HasChange d disk_mbps_read_write
            || HasChange d disk_iops_read_only
            || HasChange d disk_mbps_read_only = true) as ->.
    { destruct Hc as [-> | [-> | [-> | ->]]];
        rewrite ?orb_true_r; reflexivity. }
    apply always_errs_fail.
Qed.

Lemma update_limits_need_ultra_or_premium_v2_witness :
  let d := Fake.updating Fake.premium
             (with_disk_iops_read_write 5000 Fake.premium) in
  fails_before_writing
    (run (resourceManagedDiskUpdate Fake.meta) Fake.detached d).
Proof.
  intros d.
  apply (update_limits_need_ultra_or_premium_v2 Fake.meta Fake.detached d
           eq_refl).
  - discriminate.
  - by left.
Defined.

(** ** Where an Update can panic *)

Lemma bind_Panic_inv {W A B} (m : M W A) (f : A → M W B) (s : St W) :
  is_Panic ((m ≫= f) s).1 = true →
  is_Panic (m s).1 = true
  ∨ ∃ a s', m s = (Ok a, s') ∧ is_Panic (f a s').1 = true.
Proof.
  rewrite bind_eq. destruct (m s) as [[a|e|p] s'] eqn:Hm; cbn; eauto.
Qed.

(** The rules of an Update dereference one pointer, the policy of the
    payload on line 771; it is set when [network_access_policy] has
    changed. *)
Lemma update_rules_never_panic_when {W} (meta : Deps W) d disk :
  HasChange d disk_access_id = false
  ∨ HasChange d network_access_policy = true →
  never_panics (run_steps (update_rules meta d disk) update_locals_init).
Proof.
  intros Hcase.
  pose (Q := λ (n : nat) (l : UpdateLocals),
    (10 <? n)%nat = true → HasChange d network_access_policy = true →
    DiskUpdateProperties.NetworkAccessPolicy
      (DiskUpdate.Properties (diskUpdate l)) ≠ None).
  apply (never_panics_run_steps_indexed Q); [|discriminate].
  unfold update_rules. intros n f Hn l Hl.
  each_position n Hn.
  all: unfold Q in *; clear Q; cbn [Nat.ltb Nat.leb] in *.
  all: split.
  all: try solve [unfold_rules; solve_never_panics].
  all: try solve [unfold_rules; unfold Properties_of; solve_post; split_ifs;
                  cbn -[skuNameOf] in *; intuition congruence].
  unfold update_disk_access_id, Properties_of.
  destruct (HasChange d disk_access_id) eqn:Hc; [|apply never_panics_ret].
  destruct Hcase as [|Hnap]; [discriminate|].
  specialize (Hl eq_refl Hnap).
  destruct (DiskUpdateProperties.NetworkAccessPolicy _) as [policy|];
    [|done].
  solve_never_panics.
Qed.

Lemma update_prepare_never_panics {W} (meta : Deps W) d :
  HasChange d disk_access_id = false
  ∨ HasChange d network_access_policy = true →
  never_panics (update_prepare meta d).
Proof.
  intros Hcase. unfold update_prepare, parseManagedDiskID, client_Get.
  repeat first
    [ apply update_rules_never_panic_when; exact Hcase
    | never_panics_step ].
Qed.

(** Lines 813-833 dereference [disk.Model] and its [ManagedBy] only when
    the machine is to be shut down. *)
Lemma update_apply_never_panics {W} (meta : Deps W) d id disk l :
  (shouldShutDown l = true →
   ∃ model managedBy,
     Model disk = Some model ∧ Disk.ManagedBy model = Some managedBy) →
  never_panics (update_apply meta d id disk l).
Proof.
  intros H s.
  unfold update_apply, deref, panic, fail, locks_lock, locks_defer_unlock,
    client_UpdateThenPoll, call, defer, mbind, M_bind, mret, M_ret.
  destruct (shouldShutDown l).
  - destruct (H eq_refl) as (model & managedBy & -> & ->). cbn.
    destruct (ParseVirtualMachineID meta managedBy) as [vm|err]; cbn;
      [|done].
    by destruct (resourceManagedDiskUpdateWithVmShutDown _ _ _ _ _ _)
      as [[err|] w'].
  - cbn. by destruct (DisksClient_UpdateThenPoll _ _ _ _) as [[err|] w'].
Qed.

(** What lines 808-811 leave of [shouldShutDown]. *)
Lemma update_attached_attached {W} disk l (s : St W) l' s' :
  update_attached disk l s = (Ok l', s') →
  shouldShutDown l' = true →
  ∃ model managedBy,
    Model disk = Some model ∧ Disk.ManagedBy model = Some managedBy.
Proof.
  unfold update_attached. destruct (shouldShutDown l) eqn:Hs.
  - destruct (Model disk) as [model|]; [|discriminate].
    unfold deref. rewrite bind_ret.
    destruct (Disk.ManagedBy model) as [managedBy|] eqn:Hb.
    + intros _ _. eauto.
    + cbn. intros [= <- _]. discriminate.
  - intros [= <- _]. congruence.
Qed.

Lemma update_attached_panics {W} disk l (s : St W) :
  is_Panic (update_attached disk l s).1 = true →
  shouldShutDown l = true ∧ Model disk = None.
Proof.
  unfold update_attached. destruct (shouldShutDown l); [|discriminate].
  destruct (Model disk) as [model|]; [|done].
  unfold deref. rewrite bind_ret.
  by destruct (bool_decide (Disk.ManagedBy model = None)).
Qed.

(** X15.  An Update ends in a nil-pointer dereference only in one of
    three ways: [disk_access_id] has changed and [network_access_policy]
    has not (line 771); a change needs the virtual machine shut down and
    Get has returned no model (line 809); or the rules have passed, the
    payload has been sent without error, and the Read that Update then
    runs, on the state this leaves, panics.  (The pointer that line 732
    dereferences comes from a helper that is not part of the file; it is
    taken not to be nil when the helper returns no error.) *)
Theorem update_panics_only_if {W} (meta : Deps W) w d :
  is_Panic (run (resourceManagedDiskUpdate meta) w d).1 = true →
  (HasChange d disk_access_id = true
   ∧ HasChange d network_access_policy = false)
  ∨ (shutdown_change d
     ∧ ∃ id, ParseManagedDiskID meta (rd_Id d) = inl id
             ∧ Model (DisksClient_Get meta id w).1.1 = None)
  ∨ (∃ id disk l s1 l' s2,
       update_prepare meta d (mkSt w [] d []) = (Ok (id, disk, l), s1)
       ∧ update_attached disk l s1 = (Ok l', s1)
       ∧ update_apply meta d id disk l' s1 = (Ok tt, s2)
       ∧ is_Panic (resourceManagedDiskRead meta s2).1 = true).
Proof.
  intros Hp. rewrite update_run in Hp.
  match type of Hp with
  | context [let '(_, _) := ?x in _] =>
      assert (Hq : is_Panic x.1 = true) by (destruct x; exact Hp)
  end.
  clear Hp.
  apply bind_Panic_inv in Hq as [Hq|([[id disk] l] & s1 & Hprep & Hq)].
  { left.
    destruct (HasChange d disk_access_id) eqn:Hc;
      destruct (HasChange d network_access_policy) eqn:Hn; auto.
    all: rewrite update_prepare_never_panics in Hq by auto; discriminate. }
  right.
  apply bind_Panic_inv in Hq as [Hq|(l' & s2 & Hatt & Hq)].
  { left. apply update_attached_panics in Hq as [Hs Hm].
    apply update_prepare_Ok_inv in Hprep as (Hid & Hget & Hrules).
    split.
    - exact (update_rules_shutdown_only_if meta d disk _ _ _ Hrules Hs).
    - exists id. split; [exact Hid|]. by rewrite Hget. }
  right.
  pose proof (update_attached_state disk l s1) as Hstate.
  rewrite Hatt in Hstate. cbn in Hstate. subst s2.
  apply bind_Panic_inv in Hq as [Hq|([] & s3 & Happly & Hq)].
  - rewrite update_apply_never_panics in Hq; [discriminate|].
    exact (update_attached_attached _ _ _ _ _ Hatt).
  - exists id, disk, l, s1, l', s3. auto.
Qed.

Lemma update_panics_only_if_witness :
  let d := Fake.updating Fake.premium (with_os_type "Linux" Fake.premium) in
  let w := {| Fake.remote := Some (Faulty.returned None); Fake.held := [] |} in
  ∃ id disk l s1 l' s2,
    update_prepare (Faulty.meta 200 None) d (mkSt w [] d [])
    = (Ok (id, disk, l), s1)
    ∧ update_attached disk l s1 = (Ok l', s1)
    ∧ update_apply (Faulty.meta 200 None) d id disk l' s1 = (Ok tt, s2)
    ∧ is_Panic (resourceManagedDiskRead (Faulty.meta 200 None) s2).1 = true.
Proof.
  intros d w.
  destruct (update_panics_only_if (Faulty.meta 200 None) w d eq_refl)
    as [[Hc _]|[[_ (id & Hid & Hm)]|H]].
  - discriminate Hc.
  - injection Hid as <-. discriminate Hm.
  - exact H.
Defined.

(** ** Create: before the payload is sent *)

(** X16.  A Create of a new resource first asks for the disk, and refuses
    to go on unless the answer is a 404: it returns an error that wraps
    the one of Get, or the import-as-exists error when Get has found a
    disk, and has made no other call. *)
Theorem create_refuses_existing {W} (meta : Deps W) w d resp err w' :
  let id := NewManagedDiskID (Account_SubscriptionId meta)
              (Get d resource_group_name) (Get d name) in
  rd_IsNewResource d = true →
  DisksClient_Get meta id w = (resp, err, w') →
  WasNotFound (HttpResponse resp) = false →
  run (resourceManagedDiskCreate meta) w d
  = (Err match err with
         | Some err =>
             Wrapf
               "checking for presence of existing Managed Disk %q (Resource Group %q): %s"
               [Get d name; Get d resource_group_name] err
         | None =>
             ImportAsExistsError meta "azurerm_managed_disk"
               (ManagedDiskId_ID meta id)
         end,
     mkSt w' [CallGet id] d []).
Proof.
  intros id Hnew Hget H404.
  unfold run, resourceManagedDiskCreate, create_prepare,
    create_check_existing, func, client_Get, call, get_d, fail, mbind,
    M_bind, mret, M_ret.
  cbn. rewrite Hnew. cbn. fold id. rewrite Hget. cbn. rewrite H404.
  by destruct err.
Qed.

Lemma create_refuses_existing_witness :
  let d := Fake.creating Fake.premium in
  is_Err (run (resourceManagedDiskCreate Fake.meta) Fake.detached d).1 = true
  ∧ trace (run (resourceManagedDiskCreate Fake.meta) Fake.detached d).2
    = [CallGet (NewManagedDiskID "sub" "rg" "disk1")].
Proof.
  intros d.
  rewrite (create_refuses_existing Fake.meta Fake.detached d _ _ _
             eq_refl eq_refl eq_refl).
  split; reflexivity.
Defined.

(** The one pointer the rules of a Create dereference apart from the
    policy, the security profile on line 543, has been set by line 534. *)
Lemma create_rules_never_panic_at_all {W} (meta : Deps W) d :
  never_panics (run_steps (create_rules meta d) (create_props_init d)).
Proof.
  pose (Q := λ (n : nat) (props : DiskProperties.t),
    (13 <? n)%nat = true → Get d security_type ≠ "" →
    DiskProperties.SecurityProfile props ≠ None).
  apply (never_panics_run_steps_indexed Q); [|discriminate].
  unfold create_rules. intros n f Hn props Hprops.
  each_position n Hn.
  all: unfold Q in *; clear Q; cbn [Nat.ltb Nat.leb] in *.
  all: split.
  all: try solve [unfold_rules;
                  cbn [DiskProperties.NetworkAccessPolicy
                       DiskProperties.set_NetworkAccessPolicy];
                  solve_never_panics].
  all: try solve [unfold_rules; solve_post; split_ifs; cbn in *;
                  decide_all; intuition congruence].
  unfold create_secure_vm_disk_encryption_set_id.
  destruct (bool_decide (Get d secure_vm_disk_encryption_set_id ≠ ""));
    [|apply never_panics_ret].
  destruct (bool_decide
              (DiskSecurityTypesConfidentialVMDiskEncryptedWithCustomerKey
               ≠ Get d security_type)) eqn:Hcvm; [apply never_panics_fail|].
  apply bool_decide_eq_false_1 in Hcvm.
  destruct (DiskProperties.SecurityProfile props) as [profile|] eqn:Hsec.
  - solve_never_panics.
  - destruct (Hprops eq_refl); [|reflexivity].
    intros Hempty. apply Hcvm. rewrite Hempty. discriminate.
Qed.

Lemma create_prepare_never_panics {W} (meta : Deps W) d :
  never_panics (create_prepare meta d).
Proof.
  unfold create_prepare.
  apply never_panics_bind; [apply create_check_existing_never_panics|].
  intros _.
  apply never_panics_bind; [apply create_rules_never_panic_at_all|].
  intros props. apply never_panics_ret.
Qed.

Lemma create_submit_never_panics {W} (meta : Deps W) d id createDisk :
  never_panics (create_submit meta d id createDisk).
Proof.
  unfold create_submit, client_CreateOrUpdateThenPoll, client_Get.
  solve_never_panics.
Qed.

(** A Create whose rules do not pass returns an error and has only
    read. *)
Lemma create_not_prepared {W} (meta : Deps W) w d :
  post (run_steps (create_rules meta d) (create_props_init d)) (λ _, False) →
  fails_before_writing (run (resourceManagedDiskCreate meta) w d).
Proof.
  intros Hno. apply create_fails_preparing. intros s.
  pose proof (create_prepare_never_panics meta d s) as Hp.
  destruct (create_prepare meta d s) as [[[id createDisk]|e|p] s1] eqn:Hprep;
    [|reflexivity|discriminate].
  apply create_prepare_Ok_inv in Hprep as (props & s0 & Hrules & _).
  destruct (Hno _ _ _ Hrules).
Qed.

(** X17.  A Create dereferences no nil pointer of its own: it ends in a
    panic exactly when its rules have passed, the disk has been sent and
    read back without error, and the Read that Create then runs, on the
    state this leaves, panics. *)
Theorem create_panics_only_in_read {W} (meta : Deps W) w d :
  is_Panic (run (resourceManagedDiskCreate meta) w d).1 = true
  ↔ ∃ id createDisk s1 s2,
      create_prepare meta d (mkSt w [] d []) = (Ok (id, createDisk), s1)
      ∧ create_submit meta d id createDisk s1 = (Ok tt, s2)
      ∧ is_Panic (resourceManagedDiskRead meta s2).1 = true.
Proof.
  split.
  - intros Hp. rewrite create_run in Hp.
    match type of Hp with
    | context [let '(_, _) := ?x in _] =>
        assert (Hq : is_Panic x.1 = true) by (destruct x; exact Hp)
    end.
    clear Hp.
    apply bind_Panic_inv in Hq as [Hq|([id createDisk] & s1 & Hprep & Hq)].
    { by rewrite create_prepare_never_panics in Hq. }
    apply bind_Panic_inv in Hq as [Hq|([] & s2 & Hsubmit & Hq)].
    { by rewrite create_submit_never_panics in Hq. }
    exists id, createDisk, s1, s2. auto.
  - intros (id & createDisk & s1 & s2 & Hprep & Hsubmit & Hread).
    rewrite create_run, bind_eq, Hprep. cbv beta iota.
    rewrite bind_eq, Hsubmit.
    by destruct (resourceManagedDiskRead meta s2) as [r s3].
Qed.

Lemma create_panics_only_in_read_witness :
  let d := {| rd_Id := ""; rd_IsNewResource := false;
              rd_state := Fake.blank; rd_config := Fake.premium |} in
  let w := {| Fake.remote := Some (Faulty.returned None); Fake.held := [] |} in
  ∃ id createDisk s1 s2,
    create_prepare (Faulty.meta 200 None) d (mkSt w [] d [])
    = (Ok (id, createDisk), s1)
    ∧ create_submit (Faulty.meta 200 None) d id createDisk s1 = (Ok tt, s2)
    ∧ rd_Id (rd s2) = "disk1"
    ∧ is_Panic (resourceManagedDiskRead (Faulty.meta 200 None) s2).1 = true.
Proof.
  intros d w.
  destruct (proj1 (create_panics_only_in_read (Faulty.meta 200 None) w d)
              eq_refl)
    as (id & createDisk & s1 & s2 & Hprep & Hsubmit & Hread).
  exists id, createDisk, s1, s2. repeat split; try assumption.
  vm_compute in Hprep. injection Hprep as <- <- <-.
  vm_compute in Hsubmit. by injection Hsubmit as <-.
Defined.

(** ** Create: what the payload holds *)

(** The properties of the payload in terms of the configuration, once
    the rules have passed. *)
Lemma create_rules_payload {W} (meta : Deps W) d :
  post (run_steps (create_rules meta d) (create_props_init d))
    (λ props,
       let data := DiskProperties.CreationData props in
       let createOption := Get d create_option in
       (CreationData.CreateOption data = createOption
        ∧ CreationData.PerformancePlus data
          = Some (Get d performance_plus_enabled)
        ∧ DiskProperties.OptimizedForFrequentAttach props
          = Some (Get d optimized_frequent_attach_enabled)
        ∧ DiskProperties.OsType props = Some (Get d os_type))
       ∧ (DiskProperties.DiskSizeGB props
          = (if bool_decide (Get d disk_size_gb ≠ 0)
             then Some (Get d disk_size_gb) else None)
          ∧ DiskProperties.MaxShares props
            = (if bool_decide (Get d max_shares ≠ 0)
               then Some (Get d max_shares) else None))
       ∧ (CreationData.SourceUri data
          = (if bool_decide (createOption = DiskCreateOptionImport)
                || bool_decide (createOption = DiskCreateOptionImportSecure)
             then Some (Get d source_uri) else None)
          ∧ CreationData.StorageAccountId data
            = (if bool_decide (createOption = DiskCreateOptionImport)
                  || bool_decide (createOption = DiskCreateOptionImportSecure)
               then Some (Get d storage_account_id) else None))
       ∧ CreationData.SourceResourceId data
         = (if bool_decide (createOption = DiskCreateOptionCopy)
               || bool_decide (createOption = DiskCreateOptionRestore)
            then Some (Get d source_resource_id) else None)
       ∧ (CreationData.ImageReference data
          = (if bool_decide (createOption = DiskCreateOptionFromImage)
                && bool_decide (Get d image_reference_id ≠ "")
             then Some (ImageDiskReference.mk (Some (Get d image_reference_id)))
             else None)
          ∧ CreationData.GalleryImageReference data
            = (if bool_decide (createOption = DiskCreateOptionFromImage)
                  && negb (bool_decide (Get d image_reference_id ≠ ""))
               then Some (ImageDiskReference.mk
                            (Some (Get d gallery_image_reference_id)))
               else None))
       ∧ CreationData.UploadSizeBytes data
         = (if bool_decide (createOption = DiskCreateOptionUpload)
            then Some (Get d upload_size_bytes) else None)
       ∧ (∃ t, DiskProperties.Encryption props
               = Some (Encryption.mk
                         (if bool_decide (Get d disk_encryption_set_id ≠ "")
                          then Some (Get d disk_encryption_set_id) else None)
                         t)
               ∧ (Get d disk_encryption_set_id = "" →
                  t = Some EncryptionTypeEncryptionAtRestWithPlatformKey))
       ∧ (DiskProperties.NetworkAccessPolicy props
          = Some (Get d network_access_policy)
          ∧ ∀ v, DiskProperties.DiskAccessId props = Some v →
                 v = Get d disk_access_id
                 ∧ Get d network_access_policy
                   = NetworkAccessPolicyAllowPrivate)
       ∧ DiskProperties.PublicNetworkAccess props
         = Some (if Get d public_network_access_enabled
                 then PublicNetworkAccessEnabled
                 else PublicNetworkAccessDisabled)
       ∧ DiskProperties.Tier props
         = (if bool_decide (Get d tier ≠ "") then Some (Get d tier) else None)
       ∧ DiskProperties.SecurityProfile props
         = (if Get d trusted_launch_enabled
            then Some (DiskSecurityProfile.mk None
                         (Some DiskSecurityTypesTrustedLaunch))
            else if bool_decide (Get d security_type ≠ "")
            then Some (DiskSecurityProfile.mk
                         (if bool_decide
                               (Get d secure_vm_disk_encryption_set_id ≠ "")
                          then Some (Get d secure_vm_disk_encryption_set_id)
                          else None)
                         (Some (Get d security_type)))
            else None)
       ∧ DiskProperties.BurstingEnabled props
         = (if Get d on_demand_bursting_enabled then Some true else None)
       ∧ DiskProperties.HyperVGeneration props
         = (if bool_decide (Get d hyper_v_generation ≠ "")
            then Some (Get d hyper_v_generation) else None)).
Proof.
  pose (Q := λ (n : nat) (props : DiskProperties.t),
    let data := DiskProperties.CreationData props in
    let createOption := Get d create_option in
    (CreationData.CreateOption data = createOption
     ∧ CreationData.PerformancePlus data
       = Some (Get d performance_plus_enabled)
     ∧ DiskProperties.OptimizedForFrequentAttach props
       = Some (Get d optimized_frequent_attach_enabled)
     ∧ DiskProperties.OsType props = Some (Get d os_type))
    ∧ (DiskProperties.DiskSizeGB props
       = (if (0 <? n)%nat && bool_decide (Get d disk_size_gb ≠ 0)
          then Some (Get d disk_size_gb) else None)
       ∧ DiskProperties.MaxShares props
         = (if (1 <? n)%nat && bool_decide (Get d max_shares ≠ 0)
            then Some (Get d max_shares) else None))
    ∧ (CreationData.SourceUri data
       = (if (3 <? n)%nat
             && (bool_decide (createOption = DiskCreateOptionImport)
                 || bool_decide (createOption = DiskCreateOptionImportSecure))
          then Some (Get d source_uri) else None)
       ∧ CreationData.StorageAccountId data
         = (if (3 <? n)%nat
               && (bool_decide (createOption = DiskCreateOptionImport)
                   || bool_decide (createOption = DiskCreateOptionImportSecure))
            then Some (Get d storage_account_id) else None))
    ∧ CreationData.SourceResourceId data
      = (if (4 <? n)%nat
            && (bool_decide (createOption = DiskCreateOptionCopy)
                || bool_decide (createOption = DiskCreateOptionRestore))
         then Some (Get d source_resource_id) else None)
    ∧ (CreationData.ImageReference data
       = (if (5 <? n)%nat
             && (bool_decide (createOption = DiskCreateOptionFromImage)
                 && bool_decide (Get d image_reference_id ≠ ""))
          then Some (ImageDiskReference.mk (Some (Get d image_reference_id)))
          else None)
       ∧ CreationData.GalleryImageReference data
         = (if (5 <? n)%nat
               && (bool_decide (createOption = DiskCreateOptionFromImage)
                   && negb (bool_decide (Get d image_reference_id ≠ "")))
            then Some (ImageDiskReference.mk
                         (Some (Get d gallery_image_reference_id)))
            else None))
    ∧ CreationData.UploadSizeBytes data
      = (if (6 <? n)%nat && bool_decide (createOption = DiskCreateOptionUpload)
         then Some (Get d upload_size_bytes) else None)
    ∧ (∃ t, DiskProperties.Encryption props
            = Some (Encryption.mk
                      (if (8 <? n)%nat
                          && bool_decide (Get d disk_encryption_set_id ≠ "")
                       then Some (Get d disk_encryption_set_id) else None)
                      t)
            ∧ (Get d disk_encryption_set_id = "" →
               t = Some EncryptionTypeEncryptionAtRestWithPlatformKey))
    ∧ (DiskProperties.NetworkAccessPolicy props
       = (if (9 <? n)%nat then Some (Get d network_access_policy) else None)
       ∧ ∀ v, DiskProperties.DiskAccessId props = Some v →
              v = Get d disk_access_id
              ∧ Get d network_access_policy = NetworkAccessPolicyAllowPrivate)
    ∧ DiskProperties.PublicNetworkAccess props
      = (if (10 <? n)%nat
         then Some (if Get d public_network_access_enabled
                    then PublicNetworkAccessEnabled
                    else PublicNetworkAccessDisabled)
         else None)
    ∧ DiskProperties.Tier props
      = (if (11 <? n)%nat && bool_decide (Get d tier ≠ "")
         then Some (Get d tier) else None)
    ∧ (DiskProperties.SecurityProfile props
       = (if (12 <? n)%nat && Get d trusted_launch_enabled
          then Some (DiskSecurityProfile.mk None
                       (Some DiskSecurityTypesTrustedLaunch))
          else if (13 <? n)%nat && bool_decide (Get d security_type ≠ "")
          then Some (DiskSecurityProfile.mk
                       (if (14 <? n)%nat
                           && bool_decide
                                (Get d secure_vm_disk_encryption_set_id ≠ "")
                        then Some (Get d secure_vm_disk_encryption_set_id)
                        else None)
                       (Some (Get d security_type)))
          else None)
       ∧ ((13 <? n)%nat = true → Get d security_type ≠ "" →
          Get d trusted_launch_enabled = false))
    ∧ DiskProperties.BurstingEnabled props
      = (if (15 <? n)%nat && Get d on_demand_bursting_enabled
         then Some true else None)
    ∧ DiskProperties.HyperVGeneration props
      = (if (16 <? n)%nat && bool_decide (Get d hyper_v_generation ≠ "")
         then Some (Get d hyper_v_generation) else None)).
  eapply post_weaken;
    [|apply (post_run_steps_indexed Q (create_rules meta d))].
  - unfold Q. cbn. intros props H.
    repeat match goal with
           | H : _ ∧ _ |- _ => destruct H as [? ?]
           end.
    repeat apply conj; assumption.
  - unfold create_rules. intros n f Hn props Hprops.
    each_position n Hn.
    all: unfold Q in *; clear Q; cbn [Nat.ltb Nat.leb andb] in *.
    all: unfold_rules; unfold Zero_string, Zero_Z, Zero_list, zero in *.
    all: solve_post.
    all: repeat match goal with
                | H : _ ∧ _ |- _ => destruct H as [? ?]
                end.
    all: repeat apply conj; cbn in *; try assumption.
    all: try solve [split_ifs; cbn in *; split_ors; decide_all;
                    first [assumption | reflexivity | congruence | done
                          | eauto]].
    1: { eexists. split; [reflexivity|]. intros. decide_all. congruence. }
    1: { intros ? [= <-]. split; [reflexivity|]. decide_all. congruence. }
    apply bool_decide_eq_false_1, dec_stable in Heqb0.
    assert (Hst : Get d security_type ≠ "")
      by (rewrite <- Heqb0; discriminate).
    rewrite (H13 eq_refl Hst) in *.
    rewrite (bool_decide_eq_true_2 _ Hst) in *.
    rewrite H10 in H. injection H as <-. reflexivity.
  - unfold Q. cbn. repeat apply conj; try reflexivity; try done.
    eexists. split; [reflexivity|]. done.
Qed.


(** X18.  A Create whose [create_option] needs a source that the
    configuration does not name returns an error before it has sent
    anything: Import and ImportSecure need [source_uri] and
    [storage_account_id], Copy and Restore need [source_resource_id],
    FromImage needs one of the two image references, Upload needs
    [upload_size_bytes]. *)
Theorem create_option_needs_source {W} (meta : Deps W) w d :
  let createOption := Get d create_option in
  let fails :=
    fails_before_writing (run (resourceManagedDiskCreate meta) w d) in
  (createOption = DiskCreateOptionImport
   ∨ createOption = DiskCreateOptionImportSecure →
   Get d source_uri = "" ∨ Get d storage_account_id = "" → fails)
  ∧ (createOption = DiskCreateOptionCopy
     ∨ createOption = DiskCreateOptionRestore →
     Get d source_resource_id = "" → fails)
  ∧ (createOption = DiskCreateOptionFromImage →
     Get d image_reference_id = "" →
     Get d gallery_image_reference_id = "" → fails)
  ∧ (createOption = DiskCreateOptionUpload →
     Get d upload_size_bytes = 0 → fails).
Proof.
  cbv zeta. repeat apply conj.
  - intros Hco Hsrc.
    eapply (create_rule_fails meta w d 3); [reflexivity | |].
    { apply create_rules_never_panic. lia. }
    intros props. unfold create_import.
    assert (bool_decide (Get d create_option = DiskCreateOptionImport)
            || bool_decide (Get d create_option = DiskCreateOptionImportSecure)
            = true) as ->
      by (destruct Hco as [-> | ->]; reflexivity).
    destruct (bool_decide (Get d source_uri = "")) eqn:Huri;
      [apply always_errs_fail|].
    destruct Hsrc as [Hsrc|Hsrc];
      [by apply bool_decide_eq_false_1 in Huri|].
    rewrite (bool_decide_eq_true_2 _ Hsrc). apply always_errs_fail.
  - intros Hco Hsrc.
    eapply (create_rule_fails meta w d 4); [reflexivity | |].
    { apply create_rules_never_panic. lia. }
    intros props. unfold create_copy.
    assert (bool_decide (Get d create_option = DiskCreateOptionCopy)
            || bool_decide (Get d create_option = DiskCreateOptionRestore)
            = true) as ->
      by (destruct Hco as [-> | ->]; reflexivity).
    rewrite (bool_decide_eq_true_2 _ Hsrc). apply always_errs_fail.
  - intros Hco Himage Hgallery.
    eapply (create_rule_fails meta w d 5); [reflexivity | |].
    { apply create_rules_never_panic. lia. }
    intros props. unfold create_from_image.
    rewrite (bool_decide_eq_true_2 _ Hco).
    rewrite !bool_decide_eq_false_2 by (intros H; by apply H).
    apply always_errs_fail.
  - intros Hco Hsize.
    eapply (create_rule_fails meta w d 6); [reflexivity | |].
    { apply create_rules_never_panic. lia. }
    intros props. unfold create_upload.
    rewrite (bool_decide_eq_true_2 _ Hco).
    rewrite bool_decide_eq_false_2 by (intros H; by apply H).
    apply always_errs_fail.
Qed.

Lemma create_option_needs_source_witness :
  fails_before_writing
    (run (resourceManagedDiskCreate Fake.meta) Fake.nothing
       (Fake.creating (with_create_option "Upload" Fake.premium))).
Proof.
  exact (proj2 (proj2 (proj2
           (create_option_needs_source Fake.meta Fake.nothing
              (Fake.creating (with_create_option "Upload" Fake.premium)))))
           eq_refl eq_refl).
Defined.

(** The payload a Create sends is the disk built from the properties its
    rules have passed. *)
Lemma create_payload_disk {W} (meta : Deps W) w d e p :
  e ∈ trace (run (resourceManagedDiskCreate meta) w d).2 →
  create_payload e = Some p →
  ∃ props s0 s1,
    run_steps (create_rules meta d) (create_props_init d) s0 = (Ok props, s1)
    ∧ p = create_disk meta d props
    ∧ Disk.Properties p = Some props.
Proof.
  intros He Hp.
  destruct (create_payloads meta w d e p He Hp) as (id & s1 & Hprep).
  apply create_prepare_Ok_inv in Hprep as (props & s0 & Hrules & -> & _).
  exists props, s0, s1. repeat split; [exact Hrules|].
  unfold create_disk, GetOk. by destruct (bool_decide _).
Qed.

(** X19.  The payload of a Create names the source that its
    [create_option] asks for and no other: a source URI and storage
    account for Import and ImportSecure, a source resource for Copy and
    Restore, an upload size for Upload, and for FromImage one image
    reference, the platform image when [image_reference_id] is set, the
    gallery image otherwise.  A source key set for another create option
    is not sent. *)
Theorem create_sends_source_of_option {W} (meta : Deps W) w d e p :
  e ∈ trace (run (resourceManagedDiskCreate meta) w d).2 →
  create_payload e = Some p →
  ∃ props, Disk.Properties p = Some props ∧
    let data := DiskProperties.CreationData props in
    let createOption := Get d create_option in
    CreationData.CreateOption data = createOption
    ∧ CreationData.SourceUri data
      = (if bool_decide (createOption = DiskCreateOptionImport)
            || bool_decide (createOption = DiskCreateOptionImportSecure)
         then Some (Get d source_uri) else None)
    ∧ CreationData.StorageAccountId data
      = (if bool_decide (createOption = DiskCreateOptionImport)
            || bool_decide (createOption = DiskCreateOptionImportSecure)
         then Some (Get d storage_account_id) else None)
    ∧ CreationData.SourceResourceId data
      = (if bool_decide (createOption = DiskCreateOptionCopy)
            || bool_decide (createOption = DiskCreateOptionRestore)
         then Some (Get d source_resource_id) else None)
    ∧ CreationData.ImageReference data
      = (if bool_decide (createOption = DiskCreateOptionFromImage)
            && bool_decide (Get d image_reference_id ≠ "")
         then Some (ImageDiskReference.mk (Some (Get d image_reference_id)))
         else None)
    ∧ CreationData.GalleryImageReference data
      = (if bool_decide (createOption = DiskCreateOptionFromImage)
            && negb (bool_decide (Get d image_reference_id ≠ ""))
         then Some (ImageDiskReference.mk
                      (Some (Get d gallery_image_reference_id)))
         else None)
    ∧ CreationData.UploadSizeBytes data
      = (if bool_decide (createOption = DiskCreateOptionUpload)
         then Some (Get d upload_size_bytes) else None).
Proof.
  intros He Hp.
  destruct (create_payload_post meta _ w d (create_rules_payload meta d)
              e p He Hp) as (props & Hprops & H).
  exists props. split; [exact Hprops|]. cbv zeta in *.
  destruct H as ((? & _) & _ & (? & ?) & ? & (? & ?) & ? & _).
  repeat apply conj; assumption.
Qed.

Lemma create_sends_source_of_option_witness :
  let d := Fake.creating
             (Fake.premium ▹ with_create_option "FromImage"
                           ▹ with_image_reference_id "image/1"
                           ▹ with_gallery_image_reference_id "gallery/v1"
                           ▹ with_source_uri "https://host/disk.vhd") in
  ∃ e p props,
    trace (run (resourceManagedDiskCreate Fake.meta) Fake.nothing d).2
      !! 1%nat = Some e
    ∧ create_payload e = Some p
    ∧ Disk.Properties p = Some props
    ∧ CreationData.ImageReference (DiskProperties.CreationData props)
      = Some (ImageDiskReference.mk (Some "image/1"))
    ∧ CreationData.GalleryImageReference (DiskProperties.CreationData props)
      = None
    ∧ CreationData.SourceUri (DiskProperties.CreationData props) = None.
Proof.
  intros d. eexists _, _.
  assert (Hat : trace (run (resourceManagedDiskCreate Fake.meta)
                   Fake.nothing d).2 !! 1%nat = Some _)
    by (vm_compute; reflexivity).
  destruct (create_sends_source_of_option Fake.meta Fake.nothing d _ _
              (list_elem_of_lookup_2 _ _ _ Hat) eq_refl)
    as (props & Hprops & _ & Huri & _ & _ & Himage & Hgallery & _).
  exists props. repeat apply conj;
    [exact Hat | reflexivity | exact Hprops | exact Himage | exact Hgallery
    | exact Huri].
Defined.

(** X20.  A Create returns an error before it has sent anything when the
    security settings do not fit together: trusted launch or a security
    type with a [create_option] other than FromImage, Import and
    ImportSecure; a security type together with trusted launch; the
    security type ConfidentialVM_DiskEncryptedWithCustomerKey without
    [secure_vm_disk_encryption_set_id], or the latter with any other
    security type. *)
Theorem create_security_settings_fit {W} (meta : Deps W) w d :
  let fails :=
    fails_before_writing (run (resourceManagedDiskCreate meta) w d) in
  let customerKey :=
    DiskSecurityTypesConfidentialVMDiskEncryptedWithCustomerKey in
  (Get d trusted_launch_enabled = true →
   createOptionTakesSecurityProfile (Get d create_option) = false → fails)
  ∧ (Get d security_type ≠ "" →
     Get d trusted_launch_enabled = true → fails)
  ∧ (Get d security_type ≠ "" →
     createOptionTakesSecurityProfile (Get d create_option) = false → fails)
  ∧ (Get d security_type = customerKey →
     Get d secure_vm_disk_encryption_set_id = "" → fails)
  ∧ (Get d secure_vm_disk_encryption_set_id ≠ "" →
     Get d security_type ≠ customerKey → fails).
Proof.
  cbv zeta. repeat apply conj.
  - intros Htl Hco. apply create_not_prepared.
    apply (post_rule_stops _ 12 (create_trusted_launch d)); [reflexivity|].
    intros props. unfold create_trusted_launch. rewrite Htl, Hco.
    apply post_fail.
  - intros Hst Htl. apply create_not_prepared.
    apply (post_rule_stops _ 13 (create_security_type d)); [reflexivity|].
    intros props. unfold create_security_type.
    rewrite (bool_decide_eq_true_2 _ Hst), Htl. apply post_fail.
  - intros Hst Hco. apply create_not_prepared.
    apply (post_rule_stops _ 13 (create_security_type d)); [reflexivity|].
    intros props. unfold create_security_type.
    rewrite (bool_decide_eq_true_2 _ Hst), Hco.
    destruct (Get d trusted_launch_enabled); apply post_fail.
  - intros Hst Hid. apply create_not_prepared.
    apply (post_rule_stops _ 13 (create_security_type d)); [reflexivity|].
    intros props. unfold create_security_type.
    rewrite Hst, Hid. cbn.
    destruct (Get d trusted_launch_enabled); [apply post_fail|].
    destruct (negb _); apply post_fail.
  - intros Hid Hst. apply create_not_prepared.
    apply (post_rule_stops _ 14 (create_secure_vm_disk_encryption_set_id d));
      [reflexivity|].
    intros props. unfold create_secure_vm_disk_encryption_set_id.
    rewrite (bool_decide_eq_true_2 _ Hid).
    rewrite bool_decide_eq_true_2 by (intros H; by apply Hst).
    apply post_fail.
Qed.

Lemma create_security_settings_fit_witness :
  fails_before_writing
    (run (resourceManagedDiskCreate Fake.meta) Fake.nothing
       (Fake.creating (with_trusted_launch_enabled true Fake.premium))).
Proof.
  exact (proj1
           (create_security_settings_fit Fake.meta Fake.nothing
              (Fake.creating (with_trusted_launch_enabled true Fake.premium)))
           eq_refl eq_refl).
Defined.

(** X21.  The security profile of the payload of a Create: the type
    TrustedLaunch when trusted launch is on; the configured security
    type, with the disk encryption set of the virtual machine when one is
    configured, otherwise; none when neither is configured. *)
Theorem create_sends_security_profile {W} (meta : Deps W) w d e p :
  e ∈ trace (run (resourceManagedDiskCreate meta) w d).2 →
  create_payload e = Some p →
  ∃ props, Disk.Properties p = Some props ∧
    DiskProperties.SecurityProfile props
    = (if Get d trusted_launch_enabled
       then Some (DiskSecurityProfile.mk None
                    (Some DiskSecurityTypesTrustedLaunch))
       else if bool_decide (Get d security_type ≠ "")
       then Some (DiskSecurityProfile.mk
                    (if bool_decide
                          (Get d secure_vm_disk_encryption_set_id ≠ "")
                     then Some (Get d secure_vm_disk_encryption_set_id)
                     else None)
                    (Some (Get d security_type)))
       else None).
Proof.
  intros He Hp.
  destruct (create_payload_post meta _ w d (create_rules_payload meta d)
              e p He Hp) as (props & Hprops & H).
  exists props. split; [exact Hprops|]. cbv zeta in *.
  destruct H as (_ & _ & _ & _ & _ & _ & _ & _ & _ & _ & H & _).
  exact H.
Qed.

Lemma create_sends_security_profile_witness :
  let d := Fake.creating
             (Fake.premium ▹ with_create_option "FromImage"
                           ▹ with_image_reference_id "image/1"
                           ▹ with_trusted_launch_enabled true) in
  ∃ e p props,
    trace (run (resourceManagedDiskCreate Fake.meta) Fake.nothing d).2
      !! 1%nat = Some e
    ∧ create_payload e = Some p
    ∧ Disk.Properties p = Some props
    ∧ DiskProperties.SecurityProfile props
      = Some (DiskSecurityProfile.mk None (Some "TrustedLaunch")).
Proof.
  intros d. eexists _, _.
  assert (Hat : trace (run (resourceManagedDiskCreate Fake.meta)
                   Fake.nothing d).2 !! 1%nat = Some _)
    by (vm_compute; reflexivity).
  destruct (create_sends_security_profile Fake.meta Fake.nothing d _ _
              (list_elem_of_lookup_2 _ _ _ Hat) eq_refl)
    as (props & Hprops & Hprofile).
  exists props. repeat apply conj;
    [exact Hat | reflexivity | exact Hprops | exact Hprofile].
Defined.

(** X22.  A Create returns an error before it has sent anything when
    on-demand bursting is asked for a disk that is not Premium_LRS or
    Premium_ZRS or whose size is set and at most 512 GB, and when an IOPS
    or MBps limit or the logical sector size is set for a disk that is
    neither UltraSSD_LRS nor PremiumV2_LRS. *)
Theorem create_bursting_and_limits_need_sku {W} (meta : Deps W) w d :
  let fails :=
    fails_before_writing (run (resourceManagedDiskCreate meta) w d) in
  let sku := Get d storage_account_type in
  (Get d on_demand_bursting_enabled = true →
   (sku ≠ DiskStorageAccountTypesPremiumLRS
    ∧ sku ≠ DiskStorageAccountTypesPremiumZRS)
   ∨ (Get d disk_size_gb ≠ 0 ∧ Get d disk_size_gb ≤ 512) → fails)
  ∧ (sku ≠ DiskStorageAccountTypesUltraSSDLRS →
     sku ≠ DiskStorageAccountTypesPremiumVTwoLRS →
     HasChange d disk_iops_read_write = true
     ∨ HasChange d disk_mbps_read_write = true
     ∨ HasChange d disk_iops_read_only = true
     ∨ HasChange d disk_mbps_read_only = true
     ∨ HasChange d logical_sector_size = true → fails).
Proof.
  cbv zeta. split.
  - intros Hon Hcase. apply create_not_prepared.
    apply (post_rule_stops _ 15 (create_on_demand_bursting_enabled d));
      [reflexivity|].
    intros props. unfold create_on_demand_bursting_enabled. rewrite Hon.
    destruct Hcase as [[H1 H2]|[H1 H2]].
    + rewrite !bool_decide_eq_false_2 by assumption. apply post_fail.
    + destruct (_ || _); [|apply post_fail].
      rewrite !bool_decide_eq_true_2 by assumption. apply post_fail.
  - intros Hultra Hv2 Hc.
    eapply (create_rule_fails meta w d 2); [reflexivity | |].
    { apply create_rules_never_panic. lia. }
    intros props. unfold create_disk_performance.
    rewrite !bool_decide_eq_false_2 by assumption. cbn [orb].
    assert (HasChange d disk_iops_read_write
            || HasChange d disk_mbps_read_write
            || HasChange d disk_iops_read_only
            || HasChange d disk_mbps_read_only
            || HasChange d logical_sector_size = true) as ->.
    { destruct Hc as [-> | [-> | [-> | [-> | ->]]]];
        rewrite ?orb_true_r; reflexivity. }
    apply always_errs_fail.
Qed.

Lemma create_bursting_and_limits_need_sku_witness :
  fails_before_writing
    (run (resourceManagedDiskCreate Fake.meta) Fake.nothing
       (Fake.creating (with_disk_iops_read_write 5000 Fake.premium))).
Proof.
  apply (proj2
           (create_bursting_and_limits_need_sku Fake.meta Fake.nothing
              (Fake.creating (with_disk_iops_read_write 5000 Fake.premium)))).
  - discriminate.
  - discriminate.
  - by left.
Defined.

(** X23.  A Create always sends the configured network access policy,
    and names a disk access only under the policy AllowPrivate; asked for
    a disk access under another policy it returns an error before it has
    sent anything. *)
Theorem create_disk_access_needs_private {W} (meta : Deps W) w d :
  (HasChange d disk_access_id = true →
   Get d disk_access_id ≠ "" →
   Get d network_access_policy ≠ NetworkAccessPolicyAllowPrivate →
   fails_before_writing (run (resourceManagedDiskCreate meta) w d))
  ∧ ∀ e p,
      e ∈ trace (run (resourceManagedDiskCreate meta) w d).2 →
      create_payload e = Some p →
      ∃ props, Disk.Properties p = Some props
        ∧ DiskProperties.NetworkAccessPolicy props
          = Some (Get d network_access_policy)
        ∧ ∀ v, DiskProperties.DiskAccessId props = Some v →
               v = Get d disk_access_id
               ∧ Get d network_access_policy
                 = NetworkAccessPolicyAllowPrivate.
Proof.
  split.
  - intros Hc Hid Hpolicy.
    eapply (create_rule_fails meta w d 9); [reflexivity | |].
    { apply create_rules_never_panic. lia. }
    intros props s. unfold create_network_access. rewrite Hc.
    cbn [DiskProperties.NetworkAccessPolicy
         DiskProperties.set_NetworkAccessPolicy].
    unfold deref. rewrite bind_ret.
    rewrite (bool_decide_eq_false_2 _ Hpolicy).
    rewrite (bool_decide_eq_true_2 _ Hid), (bool_decide_eq_true_2 _ Hpolicy).
    reflexivity.
  - intros e p He Hp.
    destruct (create_payload_post meta _ w d (create_rules_payload meta d)
                e p He Hp) as (props & Hprops & H).
    exists props. split; [exact Hprops|]. cbv zeta in *.
    destruct H as (_ & _ & _ & _ & _ & _ & _ & H & _).
    exact H.
Qed.

Lemma create_disk_access_needs_private_witness :
  fails_before_writing
    (run (resourceManagedDiskCreate Fake.meta) Fake.nothing
       (Fake.creating (with_disk_access_id "access1" Fake.premium))).
Proof.
  apply (proj1
           (create_disk_access_needs_private Fake.meta Fake.nothing
              (Fake.creating (with_disk_access_id "access1" Fake.premium)))).
  - reflexivity.
  - discriminate.
  - discriminate.
Defined.

(** ** Create and Read together *)

(** X24.  Read undoes Create: on a disk that the API returns as a Create
    has sent it, the two passes of Read over the model do not panic, and
    give back the configured value of each of the keys of [reads_back],
    whatever the resource data held before.  So a Create is followed by an
    empty plan for these keys, when the API stores what it is sent. *)
Theorem create_read_round_trip {W} (meta : Deps W) w d e p c :
  e ∈ trace (run (resourceManagedDiskCreate meta) w d).2 →
  create_payload e = Some p →
  ∃ props c1 c2,
    Disk.Properties p = Some props
    ∧ flattenDisk meta p c = Ok c1
    ∧ flattenDiskProperties meta props c1 = Ok c2
    ∧ reads_back d c2.
Proof.
  intros He Hp.
  destruct (create_payload_disk meta w d e p He Hp)
    as (props & s0 & s1 & Hrules & -> & Hprops).
  pose proof (create_rules_payload meta d _ _ _ Hrules) as H.
  cbv zeta in H.
  destruct H as ((Hco & Hpp & Hofa & Hos) & (Hsize & Hshares) & _ & _ & _ & _
                 & (t & Henc & _) & (Hnap & _) & Hpna & Htier & Hsec
                 & Hburst & Hhv).
  exists props.
  assert (∃ c1, flattenDisk meta (create_disk meta d props) c = Ok c1
                ∧ storage_account_type c1 = Get d storage_account_type
                ∧ zone c1 = Get d zone) as (c1 & Hc1 & Hsat & Hzone).
  { unfold flattenDisk, create_disk, GetOk, Get.
    destruct (bool_decide (zone (rd_config d) ≠ zero)) eqn:Hz; cbn.
    - eexists. split; [reflexivity|]. split; reflexivity.
    - eexists. split; [reflexivity|]. split; [reflexivity|]. cbn.
      apply bool_decide_eq_false_1, dec_stable in Hz. by rewrite Hz. }
  exists c1.
  unfold flattenDiskProperties.
  destruct (match CreationData.GalleryImageReference _ with
            | Some _ => _ | None => _ end) as [g i].
  rewrite Hpna, Hsec, Henc, Hco, Hpp, Hofa, Hos, Hsize, Hshares, Hnap,
    Htier, Hburst, Hhv.
  unfold Get in *.
  destruct (CreationData.LogicalSectorSize (DiskProperties.CreationData props)).
  all: destruct (trusted_launch_enabled (rd_config d));
    [|destruct (bool_decide (security_type (rd_config d) ≠ ""));
      [destruct (bool_decide (security_type (rd_config d)
                              = DiskSecurityTypesTrustedLaunch)) eqn:Htl|]];
    cbn.
  all: try rewrite Htl; cbn.
  all: eexists; split; [exact Hprops|]; split; [exact Hc1|];
         split; [reflexivity|].
  all: constructor; unfold Get; cbn; rewrite ?Hsat, ?Hzone;
         try reflexivity.
  all: try solve
         [ match goal with
           | |- context [bool_decide ?P] =>
               destruct (bool_decide P) eqn:Hb
           end; cbn;
           [ reflexivity
           | apply bool_decide_eq_false_1, dec_stable in Hb;
             by rewrite Hb ] ].
  all: try solve
         [ by destruct (public_network_access_enabled (rd_config d)) ].
  all: try solve
         [ by destruct (on_demand_bursting_enabled (rd_config d)) ].
Qed.

Lemma create_read_round_trip_witness :
  let d := Fake.creating (with_tier "P40" Fake.premium) in
  ∃ e p props c1 c2,
    trace (run (resourceManagedDiskCreate Fake.meta) Fake.nothing d).2
      !! 1%nat = Some e
    ∧ create_payload e = Some p
    ∧ Disk.Properties p = Some props
    ∧ flattenDisk Fake.meta p Fake.blank = Ok c1
    ∧ flattenDiskProperties Fake.meta props c1 = Ok c2
    ∧ reads_back d c2.
Proof.
  intros d. eexists _, _.
  assert (Hat : trace (run (resourceManagedDiskCreate Fake.meta)
                   Fake.nothing d).2 !! 1%nat = Some _)
    by (vm_compute; reflexivity).
  destruct (create_read_round_trip Fake.meta Fake.nothing d _ _ Fake.blank
              (list_elem_of_lookup_2 _ _ _ Hat) eq_refl)
    as (props & c1 & c2 & Hprops & Hc1 & Hc2 & Hback).
  exists props, c1, c2. repeat apply conj;
    [exact Hat | reflexivity | exact Hprops | exact Hc1 | exact Hc2
    | exact Hback].
Defined.


(** ** The schema and the Update *)




(** ** Delete *)

(** X26.  A Delete of a resource whose ID parses makes one call, the
    deletion of the disk that the ID names: it neither reads the disk
    first nor takes the lock of a virtual machine.  It leaves the
    resource data as they were, and returns an error exactly when the
    API does. *)
Theorem delete_calls_once {W} (meta : Deps W) w d id :
  ParseManagedDiskID meta (rd_Id d) = inl id →
  let x := run (resourceManagedDiskDelete meta) w d in
  let answer := DisksClient_DeleteThenPoll meta id w in
  trace x.2 = [CallDeleteThenPoll id]
  ∧ rd x.2 = d
  ∧ world x.2 = answer.2
  ∧ (is_Ok x.1 = true ↔ answer.1 = None)
  ∧ (is_Err x.1 = true ↔ answer.1 ≠ None).
Proof.
  intros Hid.
  unfold run, resourceManagedDiskDelete, func, parseManagedDiskID,
    client_DeleteThenPoll, call, get_d, fail, mbind, M_bind, mret, M_ret.
  cbn. rewrite Hid. cbn.
  destruct (DisksClient_DeleteThenPoll meta id w) as [[err|] w']; cbn.
  all: repeat split; try done.
Qed.

Lemma delete_calls_once_witness :
  let d := Fake.updating Fake.premium Fake.premium in
  let x := run (resourceManagedDiskDelete Fake.meta) Fake.detached d in
  trace x.2 = [CallDeleteThenPoll (NewManagedDiskID "sub" "rg" "disk1")]
  ∧ world x.2 = Fake.nothing.
Proof.
  intros d x.
  destruct (delete_calls_once Fake.meta Fake.detached d
              (NewManagedDiskID "sub" "rg" "disk1") eq_refl)
    as (Ht & _ & Hw & _).
  split; [exact Ht | exact Hw].
Defined.

(** ** Detaching the disk *)

(** Only line 724 sets [shouldDetach]. *)
Lemma update_rules_detach {W} (meta : Deps W) d disk :
  post (run_steps (update_rules meta d disk) update_locals_init)
    (λ l, shouldDetach l = true →
          Features_ManagedDisk_ExpandWithoutDowntime meta = true
          ∧ disk_size_gb (rd_state d) < disk_size_gb (rd_config d)
          ∧ determineIfDataDiskRequiresDetaching meta (Model disk)
              (disk_size_gb (rd_state d)) (disk_size_gb (rd_config d))
            = true).
Proof.
  apply post_run_steps; [|discriminate].
  unfold update_rules.
  repeat first [apply Forall_nil_2 | apply Forall_cons_2].
  all: intros l Hl; unfold_rules; solve_post; split_ifs; cbn in *;
         decide_all; auto.
  all: intros Hdetach; repeat split; (assumption || lia).
Qed.

Lemma update_apply_detach {W} (meta : Deps W) d id disk l :
  emits (λ e, ∀ b, detach_flag e = Some b → b = shouldDetach l)
        (λ e, ∀ b, detach_flag e = Some b → b = shouldDetach l)
    (update_apply meta d id disk l).
Proof.
  unfold update_apply, locks_lock, locks_defer_unlock, client_UpdateThenPoll.
  repeat first
    [ apply emits_call; intros b [= <-]; reflexivity
    | apply emits_call; intros b [=]
    | apply emits_defer; intros b [=]
    | emits_step ].
Qed.

Lemma reads_no_detach e : reads_only e → detach_flag e = None.
Proof. unfold reads_only. destruct e; simpl; congruence. Qed.

(** X27.  An Update asks the shut-down helper to detach the disk only
    when the provider is set to expand disks without downtime, the plan
    makes the disk larger, and
    [determineIfDataDiskRequiresDetaching] has said so for the old and the
    new size. *)
Theorem update_detaches_only_to_grow {W} (meta : Deps W) w d e :
  e ∈ trace (run (resourceManagedDiskUpdate meta) w d).2 →
  detach_flag e = Some true →
  Features_ManagedDisk_ExpandWithoutDowntime meta = true
  ∧ disk_size_gb (rd_state d) < disk_size_gb (rd_config d)
  ∧ ∃ model,
      determineIfDataDiskRequiresDetaching meta model
        (disk_size_gb (rd_state d)) (disk_size_gb (rd_config d)) = true.
Proof.
  rewrite update_run, bind_eq.
  pose proof (emits_deferred _ _ (mkSt w [] d []) (update_prepare_reads meta d))
    as Hd.
  destruct (emits_trace _ _ (mkSt w [] d []) (update_prepare_reads meta d))
    as (evs & Ht & HP).
  destruct (update_prepare meta d _) as [[[[id disk] l]|?|?] s1] eqn:Hprep;
    simpl in *.
  2,3: rewrite run_deferred_trace; simpl; rewrite Ht, Hd; simpl;
       rewrite app_nil_r; intros He Hp;
       assert (Hr : reads_only e) by
         (eapply (proj1 (Forall_forall _ _)), He; assumption);
       apply reads_no_detach in Hr; congruence.
  assert (emits (λ e, ∀ b, detach_flag e = Some b → b = shouldDetach l)
                (λ e, ∀ b, detach_flag e = Some b → b = shouldDetach l)
            (l ← update_attached disk l;
             update_apply meta d id disk l;;
             resourceManagedDiskRead meta)) as Hrest.
  { eapply emits_bind_post;
      [apply update_attached_silent | apply update_attached_post |].
    intros l' [_ Hl']. apply emits_bind.
    - rewrite <- Hl'. apply update_apply_detach.
    - intros _.
      apply (emits_weaken reads_only no_event);
        [ | exact (λ e H, False_ind _ H)
          | apply resourceManagedDiskRead_reads ].
      intros e' He' b Hb. apply reads_no_detach in He'. congruence. }
  destruct (Hrest s1) as (evs' & dfs' & Ht' & HP' & Hd' & HPd').
  destruct ((update_attached disk l ≫= _) s1) as [r s2]; simpl in *.
  rewrite run_deferred_trace. simpl. rewrite Ht', Ht, Hd', Hd, app_nil_r.
  rewrite !elem_of_app. intros He Hp.
  assert (shouldDetach l = true) as Hdetach.
  { destruct He as [[He|He]|He].
    - eapply Forall_forall in HP; [|exact He].
      apply reads_no_detach in HP. congruence.
    - eapply Forall_forall in HP'; [|exact He]. symmetry. by apply HP'.
    - eapply Forall_forall in HPd'; [|exact He]. symmetry. by apply HPd'. }
  apply update_prepare_Ok_inv in Hprep as (_ & _ & Hrules).
  destruct (update_rules_detach meta d disk _ _ _ Hrules Hdetach)
    as (Hf & Hgrow & Hdet).
  eauto.
Qed.

Lemma update_detaches_only_to_grow_witness :
  let d := Fake.updating Fake.premium
             (Fake.premium ▹ with_tier "P60" ▹ with_disk_size_gb 8192) in
  ∃ e,
    trace (run (resourceManagedDiskUpdate (Faulty.meta 200 None))
             Fake.attached d).2 !! 3%nat = Some e
    ∧ detach_flag e = Some true
    ∧ disk_size_gb (rd_state d) < disk_size_gb (rd_config d).
Proof.
  intros d. eexists.
  assert (Hat : trace (run (resourceManagedDiskUpdate (Faulty.meta 200 None))
                   Fake.attached d).2 !! 3%nat = Some _)
    by (vm_compute; reflexivity).
  split; [exact Hat|]. split; [reflexivity|].
  exact (proj1 (proj2
           (update_detaches_only_to_grow (Faulty.meta 200 None)
              Fake.attached d _ (list_elem_of_lookup_2 _ _ _ Hat) eq_refl))).
Defined.
